(** * Grbl g-code parser ([gcode.c], motion-only build): a shallow embedding

    The development follows [gc_execute_line] of [src/grbl/gcode.c] step by
    step: STEP 1 (block initialisation), STEP 2 (word import), STEP 3
    (error checking and target computation) and STEP 4 (execution).

    Target conventions (grbl.h includes the AVR headers): [float] and
    [double] are both IEEE-754 binary32, [int] is 16 bits wide, [uint8_t],
    [uint16_t] and [int32_t] wrap as usual. *)

From Stdlib Require Import ZArith List Bool Ascii String Lia.
From Stdlib Require Import Floats.SpecFloat.
Import ListNotations.
Open Scope Z_scope.

(** ** binary32 arithmetic *)

Module F32.

Definition prec : Z := 24.
Definition emax : Z := 128.

Definition float := spec_float.

Definition zero : float := S754_zero false.
Definition of_Z (z : Z) : float := binary_normalize prec emax z 0 false.

Definition add : float -> float -> float := SFadd prec emax.
Definition sub : float -> float -> float := SFsub prec emax.
Definition mul : float -> float -> float := SFmul prec emax.
Definition div : float -> float -> float := SFdiv prec emax.
Definition sqrt : float -> float := SFsqrt prec emax.
Definition neg : float -> float := SFopp.
Definition fabs : float -> float := SFabs.

(** The comparisons of C: all of them are false on a NaN. *)
Definition lt (a b : float) : bool := SFltb a b.
Definition gt (a b : float) : bool := SFltb b a.
Definition eq (a b : float) : bool := SFeqb a b.

(** A decimal literal [n/d] of the source ([0.005] is [dec 5 1000]): the
    correctly rounded quotient of two exactly representable integers. *)
Definition dec (n d : Z) : float := div (of_Z n) (of_Z d).

(** [trunc] followed by the conversion to an integer type: the integer
    part, rounded toward zero.  Infinities and NaN have no integer value
    in C; they are given 0 here. *)
Definition trunc (x : float) : Z :=
  match x with
  | S754_finite s m e =>
      let mag := Z.shiftl (Zpos m) e in
      if s then - mag else mag
  | _ => 0
  end.

(** [round] followed by the conversion to an integer type: the nearest
    integer, halfway cases away from zero. *)
Definition round (x : float) : Z :=
  match x with
  | S754_finite s m e =>
      let mag :=
        match e with
        | Zneg p =>
            let d := Z.pow_pos 2 p in
            let q := Zpos m / d in
            if d <=? 2 * (Zpos m mod d) then q + 1 else q
        | _ => Z.shiftl (Zpos m) e
        end in
      if s then - mag else mag
  | _ => 0
  end.

(** Equality of representations, as [memcmp] on two floats sees it. *)
Definition same (a b : float) : bool :=
  match a, b with
  | S754_zero s1, S754_zero s2 => Bool.eqb s1 s2
  | S754_infinity s1, S754_infinity s2 => Bool.eqb s1 s2
  | S754_nan, S754_nan => true
  | S754_finite s1 m1 e1, S754_finite s2 m2 e2 =>
      Bool.eqb s1 s2 && Pos.eqb m1 m2 && Z.eqb e1 e2
  | _, _ => false
  end.

End F32.

Definition float : Type := F32.float.

(** Integer conversions of the target.  A floating value outside the range
    of the integer type has no defined conversion in C; the embedding wraps
    it like the integer conversions, and the properties below are about
    values in range. *)
Definition to_uint8 (z : Z) : Z := z mod 256.
Definition to_uint16 (z : Z) : Z := z mod 65536.
Definition to_int32 (z : Z) : Z := (z + 2147483648) mod 4294967296 - 2147483648.

(** ** Constants of the headers

    [N_AXIS] is the one of [config.h] (line 373): this build has the two
    axes X and Y.  It has no [Z_AXIS]: the cases of the source under
    [#ifdef Z_AXIS] (the K and Z words) are not compiled.

    Modelled from the spec: [nuts_bolts.h], [gcode.h], [settings.h] and
    [planner.h] are not under src/.  The numeric values of the motion,
    non-modal, feed-rate and distance modes are the ones the arithmetic of
    the source on [int_value] produces ([gc_block.modal.motion = int_value],
    [94 - int_value], ...); the modal-group and word indices are bit
    positions of the "present-command" and "present-word" bitsets. *)

Definition N_AXIS : Z := 2.
Definition X_AXIS : Z := 0.
Definition Y_AXIS : Z := 1.

Definition N_COORDINATE_SYSTEM : Z := 6.

Definition MAX_LINE_NUMBER : Z := 10000000.

Definition AXIS_COMMAND_NONE : Z := 0.
Definition AXIS_COMMAND_NON_MODAL : Z := 1.
Definition AXIS_COMMAND_MOTION_MODE : Z := 2.

Definition MODAL_GROUP_G0 : Z := 0.
Definition MODAL_GROUP_G1 : Z := 1.
Definition MODAL_GROUP_G2 : Z := 2.
Definition MODAL_GROUP_G3 : Z := 3.
Definition MODAL_GROUP_G4 : Z := 4.
Definition MODAL_GROUP_G5 : Z := 5.
Definition MODAL_GROUP_G6 : Z := 6.
Definition MODAL_GROUP_G7 : Z := 7.
Definition MODAL_GROUP_G8 : Z := 8.
Definition MODAL_GROUP_G12 : Z := 9.
Definition MODAL_GROUP_G13 : Z := 10.
Definition MODAL_GROUP_M4 : Z := 11.

Definition NON_MODAL_NO_ACTION : Z := 0.
Definition NON_MODAL_DWELL : Z := 4.
Definition NON_MODAL_SET_COORDINATE_DATA : Z := 10.
Definition NON_MODAL_ABSOLUTE_OVERRIDE : Z := 53.

Definition MOTION_MODE_SEEK : Z := 0.
Definition MOTION_MODE_LINEAR : Z := 1.
Definition MOTION_MODE_CW_ARC : Z := 2.
Definition MOTION_MODE_CCW_ARC : Z := 3.
Definition MOTION_MODE_NONE : Z := 80.

Definition FEED_RATE_MODE_UNITS_PER_MIN : Z := 0.
Definition FEED_RATE_MODE_INVERSE_TIME : Z := 1.

Definition DISTANCE_MODE_ABSOLUTE : Z := 0.

Definition PROGRAM_FLOW_RUNNING : Z := 0.
Definition PROGRAM_FLOW_PAUSED : Z := 3.

Definition WORD_F : Z := 0.
Definition WORD_I : Z := 1.
Definition WORD_J : Z := 2.
Definition WORD_K : Z := 3.
Definition WORD_L : Z := 4.
Definition WORD_N : Z := 5.
Definition WORD_P : Z := 6.
Definition WORD_R : Z := 7.
Definition WORD_S : Z := 8.
Definition WORD_X : Z := 10.
Definition WORD_Y : Z := 11.
Definition WORD_Z : Z := 12.

Definition GC_PARSER_NONE : Z := 0.
Definition GC_PARSER_JOG_MOTION : Z := 1.
Definition GC_PARSER_ARC_IS_CLOCKWISE : Z := 4.

Definition GC_UPDATE_POS_TARGET : Z := 0.

Definition PL_COND_FLAG_RAPID_MOTION : Z := 1.
Definition PL_COND_FLAG_INVERSE_TIME : Z := 8.

Definition MESSAGE_PROGRAM_END : Z := 8.

(** From [system.h] and [config.h]. *)
Definition STATE_CHECK_MODE : Z := 2.
Definition EXEC_FEED_HOLD : Z := 8.
Definition DEFAULT_FEED_OVERRIDE : Z := 100.
Definition DEFAULT_RAPID_OVERRIDE : Z := 100.

(** Modelled from the spec: the bit macros of [nuts_bolts.h] (not under
    src/), on the 16-bit bitsets "tracking which words and commands were
    present": [bit_istrue] holds when some bit of the mask is set,
    [bit_isfalse] when none is. *)
Definition bit (n : Z) : Z := Z.shiftl 1 n.
Definition bit_true (x mask : Z) : Z := Z.lor x mask.
Definition bit_false (x mask : Z) : Z := Z.land x (Z.lnot mask).
Definition bit_istrue (x mask : Z) : bool := negb (Z.land x mask =? 0).
Definition bit_isfalse (x mask : Z) : bool := Z.land x mask =? 0.

(** Status codes returned by [gc_execute_line] (names of [report.h]). *)
Inductive status : Type :=
| STATUS_OK
| STATUS_EXPECTED_COMMAND_LETTER
| STATUS_BAD_NUMBER_FORMAT
| STATUS_NEGATIVE_VALUE
| STATUS_SETTING_READ_FAIL
| STATUS_TRAVEL_EXCEEDED
| STATUS_INVALID_JOG_COMMAND
| STATUS_GCODE_UNSUPPORTED_COMMAND
| STATUS_GCODE_MODAL_GROUP_VIOLATION
| STATUS_GCODE_UNDEFINED_FEED_RATE
| STATUS_GCODE_COMMAND_VALUE_NOT_INTEGER
| STATUS_GCODE_AXIS_COMMAND_CONFLICT
| STATUS_GCODE_WORD_REPEATED
| STATUS_GCODE_NO_AXIS_WORDS
| STATUS_GCODE_INVALID_LINE_NUMBER
| STATUS_GCODE_VALUE_WORD_MISSING
| STATUS_GCODE_UNSUPPORTED_COORD_SYS
| STATUS_GCODE_G53_INVALID_MOTION_MODE
| STATUS_GCODE_AXIS_WORDS_EXIST
| STATUS_GCODE_NO_AXIS_WORDS_IN_PLANE
| STATUS_GCODE_INVALID_TARGET
| STATUS_GCODE_ARC_RADIUS_ERROR
| STATUS_GCODE_UNUSED_WORDS.

Definition status_eq_dec (a b : status) : {a = b} + {a <> b}.
Proof. decide equality. Defined.

(** ** Data model ([gcode.h], as the source uses it) *)

(** A [float x[N_AXIS]] array.  Reads go through [vec_get]; an index
    outside the array is undefined in C and reads [F32.zero] here. *)
Definition vec : Type := list float.

Definition vec_zero : vec := [F32.zero; F32.zero].
Definition vec_get (v : vec) (idx : Z) : float := nth (Z.to_nat idx) v F32.zero.

Fixpoint list_set {A} (l : list A) (n : nat) (x : A) : list A :=
  match l, n with
  | [], _ => []
  | _ :: t, O => x :: t
  | h :: t, S k => h :: list_set t k x
  end.

Definition vec_set (v : vec) (idx : Z) (x : float) : vec :=
  list_set v (Z.to_nat idx) x.

Fixpoint vec_same (a b : vec) : bool :=
  match a, b with
  | [], [] => true
  | x :: a', y :: b' => F32.same x y && vec_same a' b'
  | _, _ => false
  end.

(** Modelled from the spec: [hypot_f] and [isequal_position_vector] of
    [nuts_bolts] (not under src/): the Euclidean distance the spec's arc
    check uses, and the "start==end" comparison of two position vectors,
    byte for byte. *)
Definition hypot_f (x y : float) : float :=
  F32.sqrt (F32.add (F32.mul x x) (F32.mul y y)).

Definition isequal_position_vector (a b : vec) : bool := vec_same a b.

Record gc_modal_t : Type := {
  modal_motion : Z;        (* [motion]: {G0,G1,G2,G3,G38.x,G80} *)
  modal_feed_rate : Z;     (* [feed_rate]: {G93,G94} *)
  modal_units : Z;         (* [units]: {G20,G21} *)
  modal_distance : Z;      (* [distance]: {G90,G91} *)
  modal_coord_select : Z;  (* [coord_select]: {G54..G59} *)
  modal_program_flow : Z   (* [program_flow]: {M0,M1,M2,M30} *)
}.

Record gc_values_t : Type := {
  val_f : float;
  val_ijk : vec;
  val_l : Z;      (* uint8_t *)
  val_n : Z;      (* int32_t *)
  val_p : float;
  val_r : float;
  val_xyz : vec
}.

Record parser_block_t : Type := {
  non_modal_command : Z;
  modal : gc_modal_t;
  values : gc_values_t
}.

Record parser_state_t : Type := {
  gs_modal : gc_modal_t;
  gs_feed_rate : float;
  gs_line_number : Z;
  gs_position : vec;
  gs_coord_system : vec;
  gs_coord_offset : vec
}.

Record plan_line_data_t : Type := {
  pl_feed_rate : float;
  pl_condition : Z
}.

(** [memset(..., 0, ...)] of each struct. *)
Definition modal_zero : gc_modal_t :=
  {| modal_motion := 0; modal_feed_rate := 0; modal_units := 0;
     modal_distance := 0; modal_coord_select := 0; modal_program_flow := 0 |}.

Definition values_zero : gc_values_t :=
  {| val_f := F32.zero; val_ijk := vec_zero; val_l := 0; val_n := 0;
     val_p := F32.zero; val_r := F32.zero; val_xyz := vec_zero |}.

Definition gc_state_zero : parser_state_t :=
  {| gs_modal := modal_zero; gs_feed_rate := F32.zero; gs_line_number := 0;
     gs_position := vec_zero; gs_coord_system := vec_zero;
     gs_coord_offset := vec_zero |}.

Definition plan_data_zero : plan_line_data_t :=
  {| pl_feed_rate := F32.zero; pl_condition := 0 |}.

(** The automatic variables of [gc_execute_line] that live across its
    steps, with the parser block. *)
Record locals : Type := {
  gc_block : parser_block_t;
  axis_command : Z;
  coord_select : Z;
  axis_words : Z;
  ijk_words : Z;
  command_words : Z;
  value_words : Z;
  gc_parser_flags : Z;
  block_coord_system : vec
}.

(** [axis_0], [axis_1] and [axis_linear] are declared without an
    initialiser (line 77) and no statement of the function assigns them:
    what a read of them yields is whatever the stack holds.  The embedding
    takes these three values as an argument of the function. *)
Record axis_indices : Type := {
  axis_0 : Z;
  axis_1 : Z;
  axis_linear : Z
}.

(** Field updates. *)
Definition set_motion (v : Z) (m : gc_modal_t) : gc_modal_t :=
  {| modal_motion := v; modal_feed_rate := modal_feed_rate m;
     modal_units := modal_units m; modal_distance := modal_distance m;
     modal_coord_select := modal_coord_select m;
     modal_program_flow := modal_program_flow m |}.
Definition set_feed_rate_mode (v : Z) (m : gc_modal_t) : gc_modal_t :=
  {| modal_motion := modal_motion m; modal_feed_rate := v;
     modal_units := modal_units m; modal_distance := modal_distance m;
     modal_coord_select := modal_coord_select m;
     modal_program_flow := modal_program_flow m |}.
Definition set_units (v : Z) (m : gc_modal_t) : gc_modal_t :=
  {| modal_motion := modal_motion m; modal_feed_rate := modal_feed_rate m;
     modal_units := v; modal_distance := modal_distance m;
     modal_coord_select := modal_coord_select m;
     modal_program_flow := modal_program_flow m |}.
Definition set_distance (v : Z) (m : gc_modal_t) : gc_modal_t :=
  {| modal_motion := modal_motion m; modal_feed_rate := modal_feed_rate m;
     modal_units := modal_units m; modal_distance := v;
     modal_coord_select := modal_coord_select m;
     modal_program_flow := modal_program_flow m |}.
Definition set_coord_select (v : Z) (m : gc_modal_t) : gc_modal_t :=
  {| modal_motion := modal_motion m; modal_feed_rate := modal_feed_rate m;
     modal_units := modal_units m; modal_distance := modal_distance m;
     modal_coord_select := v; modal_program_flow := modal_program_flow m |}.
Definition set_program_flow (v : Z) (m : gc_modal_t) : gc_modal_t :=
  {| modal_motion := modal_motion m; modal_feed_rate := modal_feed_rate m;
     modal_units := modal_units m; modal_distance := modal_distance m;
     modal_coord_select := modal_coord_select m; modal_program_flow := v |}.

Definition set_f (v : float) (b : gc_values_t) : gc_values_t :=
  {| val_f := v; val_ijk := val_ijk b; val_l := val_l b; val_n := val_n b;
     val_p := val_p b; val_r := val_r b; val_xyz := val_xyz b |}.
Definition set_ijk (v : vec) (b : gc_values_t) : gc_values_t :=
  {| val_f := val_f b; val_ijk := v; val_l := val_l b; val_n := val_n b;
     val_p := val_p b; val_r := val_r b; val_xyz := val_xyz b |}.
Definition set_l (v : Z) (b : gc_values_t) : gc_values_t :=
  {| val_f := val_f b; val_ijk := val_ijk b; val_l := v; val_n := val_n b;
     val_p := val_p b; val_r := val_r b; val_xyz := val_xyz b |}.
Definition set_n (v : Z) (b : gc_values_t) : gc_values_t :=
  {| val_f := val_f b; val_ijk := val_ijk b; val_l := val_l b; val_n := v;
     val_p := val_p b; val_r := val_r b; val_xyz := val_xyz b |}.
Definition set_p (v : float) (b : gc_values_t) : gc_values_t :=
  {| val_f := val_f b; val_ijk := val_ijk b; val_l := val_l b; val_n := val_n b;
     val_p := v; val_r := val_r b; val_xyz := val_xyz b |}.
Definition set_r (v : float) (b : gc_values_t) : gc_values_t :=
  {| val_f := val_f b; val_ijk := val_ijk b; val_l := val_l b; val_n := val_n b;
     val_p := val_p b; val_r := v; val_xyz := val_xyz b |}.
Definition set_xyz (v : vec) (b : gc_values_t) : gc_values_t :=
  {| val_f := val_f b; val_ijk := val_ijk b; val_l := val_l b; val_n := val_n b;
     val_p := val_p b; val_r := val_r b; val_xyz := v |}.

Definition set_non_modal_command (v : Z) (b : parser_block_t) : parser_block_t :=
  {| non_modal_command := v; modal := modal b; values := values b |}.
Definition upd_modal (g : gc_modal_t -> gc_modal_t) (b : parser_block_t)
  : parser_block_t :=
  {| non_modal_command := non_modal_command b; modal := g (modal b);
     values := values b |}.
Definition upd_values (g : gc_values_t -> gc_values_t) (b : parser_block_t)
  : parser_block_t :=
  {| non_modal_command := non_modal_command b; modal := modal b;
     values := g (values b) |}.

Definition upd_block (g : parser_block_t -> parser_block_t) (L : locals) : locals :=
  {| gc_block := g (gc_block L); axis_command := axis_command L;
     coord_select := coord_select L; axis_words := axis_words L;
     ijk_words := ijk_words L; command_words := command_words L;
     value_words := value_words L; gc_parser_flags := gc_parser_flags L;
     block_coord_system := block_coord_system L |}.
Definition set_axis_command (v : Z) (L : locals) : locals :=
  {| gc_block := gc_block L; axis_command := v;
     coord_select := coord_select L; axis_words := axis_words L;
     ijk_words := ijk_words L; command_words := command_words L;
     value_words := value_words L; gc_parser_flags := gc_parser_flags L;
     block_coord_system := block_coord_system L |}.
Definition set_coord_select_local (v : Z) (L : locals) : locals :=
  {| gc_block := gc_block L; axis_command := axis_command L;
     coord_select := v; axis_words := axis_words L;
     ijk_words := ijk_words L; command_words := command_words L;
     value_words := value_words L; gc_parser_flags := gc_parser_flags L;
     block_coord_system := block_coord_system L |}.
Definition set_axis_words (v : Z) (L : locals) : locals :=
  {| gc_block := gc_block L; axis_command := axis_command L;
     coord_select := coord_select L; axis_words := v;
     ijk_words := ijk_words L; command_words := command_words L;
     value_words := value_words L; gc_parser_flags := gc_parser_flags L;
     block_coord_system := block_coord_system L |}.
Definition set_ijk_words (v : Z) (L : locals) : locals :=
  {| gc_block := gc_block L; axis_command := axis_command L;
     coord_select := coord_select L; axis_words := axis_words L;
     ijk_words := v; command_words := command_words L;
     value_words := value_words L; gc_parser_flags := gc_parser_flags L;
     block_coord_system := block_coord_system L |}.
Definition set_command_words (v : Z) (L : locals) : locals :=
  {| gc_block := gc_block L; axis_command := axis_command L;
     coord_select := coord_select L; axis_words := axis_words L;
     ijk_words := ijk_words L; command_words := v;
     value_words := value_words L; gc_parser_flags := gc_parser_flags L;
     block_coord_system := block_coord_system L |}.
Definition set_value_words (v : Z) (L : locals) : locals :=
  {| gc_block := gc_block L; axis_command := axis_command L;
     coord_select := coord_select L; axis_words := axis_words L;
     ijk_words := ijk_words L; command_words := command_words L;
     value_words := v; gc_parser_flags := gc_parser_flags L;
     block_coord_system := block_coord_system L |}.
Definition set_gc_parser_flags (v : Z) (L : locals) : locals :=
  {| gc_block := gc_block L; axis_command := axis_command L;
     coord_select := coord_select L; axis_words := axis_words L;
     ijk_words := ijk_words L; command_words := command_words L;
     value_words := value_words L; gc_parser_flags := v;
     block_coord_system := block_coord_system L |}.
Definition set_block_coord_system (v : vec) (L : locals) : locals :=
  {| gc_block := gc_block L; axis_command := axis_command L;
     coord_select := coord_select L; axis_words := axis_words L;
     ijk_words := ijk_words L; command_words := command_words L;
     value_words := value_words L; gc_parser_flags := gc_parser_flags L;
     block_coord_system := v |}.

Definition set_gs_modal (v : gc_modal_t) (s : parser_state_t) : parser_state_t :=
  {| gs_modal := v; gs_feed_rate := gs_feed_rate s;
     gs_line_number := gs_line_number s; gs_position := gs_position s;
     gs_coord_system := gs_coord_system s; gs_coord_offset := gs_coord_offset s |}.
Definition set_gs_feed_rate (v : float) (s : parser_state_t) : parser_state_t :=
  {| gs_modal := gs_modal s; gs_feed_rate := v;
     gs_line_number := gs_line_number s; gs_position := gs_position s;
     gs_coord_system := gs_coord_system s; gs_coord_offset := gs_coord_offset s |}.
Definition set_gs_line_number (v : Z) (s : parser_state_t) : parser_state_t :=
  {| gs_modal := gs_modal s; gs_feed_rate := gs_feed_rate s;
     gs_line_number := v; gs_position := gs_position s;
     gs_coord_system := gs_coord_system s; gs_coord_offset := gs_coord_offset s |}.
Definition set_gs_position (v : vec) (s : parser_state_t) : parser_state_t :=
  {| gs_modal := gs_modal s; gs_feed_rate := gs_feed_rate s;
     gs_line_number := gs_line_number s; gs_position := v;
     gs_coord_system := gs_coord_system s; gs_coord_offset := gs_coord_offset s |}.
Definition set_gs_coord_system (v : vec) (s : parser_state_t) : parser_state_t :=
  {| gs_modal := gs_modal s; gs_feed_rate := gs_feed_rate s;
     gs_line_number := gs_line_number s; gs_position := gs_position s;
     gs_coord_system := v; gs_coord_offset := gs_coord_offset s |}.
Definition upd_gs_modal (g : gc_modal_t -> gc_modal_t) (s : parser_state_t)
  : parser_state_t := set_gs_modal (g (gs_modal s)) s.

(** ** The functions [gc_execute_line] calls

    [read_float] ([nuts_bolts.c]), the settings store, the jog executor,
    motion control, the protocol and the system flags live outside
    [gcode.c].  They are an interface of the embedding: [world] is whatever
    state they own (EEPROM, planner queue, [sys], the serial output), and
    every call threads it.  By the ownership rule of the data model only the
    parser writes [gc_state], so none of them takes or returns it.

    [read_float line char_counter] yields the value read at [char_counter]
    and the new [char_counter], or nothing when no number starts there.
    [settings_read_coord_data idx buf] yields its return value and the
    contents of the buffer after the call. *)
Class Externals : Type := {
  world : Type;
  read_float : list ascii -> Z -> option (float * Z);
  settings_read_coord_data : Z -> vec -> world -> bool * vec * world;
  settings_write_coord_data : Z -> vec -> world -> world;
  jog_execute : plan_line_data_t -> parser_block_t -> world -> status * world;
  mc_line : vec -> plan_line_data_t -> world -> world;
  mc_arc : vec -> plan_line_data_t -> vec -> vec -> float ->
           Z -> Z -> Z -> bool -> world -> world;
  mc_dwell : float -> world -> world;
  protocol_buffer_synchronize : world -> world;
  protocol_execute_realtime : world -> world;
  system_set_exec_state_flag : Z -> world -> world;
  system_flag_wco_change : world -> world;
  report_feedback_message : Z -> world -> world;
  sys_state : world -> Z;
  sys_set_overrides : Z -> Z -> world -> world
}.

(** ** Failing with a status: [FAIL(status)] is [return(status)] *)

Definition result (A : Type) : Type := (status + A)%type.
Definition FAIL {A : Type} (s : status) : result A := inl s.
Definition ok {A : Type} (a : A) : result A := inr a.
Definition bind {A B : Type} (m : result A) (k : A -> result B) : result B :=
  match m with
  | inl s => inl s
  | inr a => k a
  end.

Notation "x <- m ;; k" := (bind m (fun x => k))
  (at level 61, m at next level, right associativity).
Notation "' pat <- m ;; k" := (bind m (fun x => match x with pat => k end))
  (at level 61, pat pattern, m at next level, right associativity).

Definition one_of (x : Z) (cases : list Z) : bool := existsb (Z.eqb x) cases.

(** ** STEP 1: initialise the parser block, copy the current modes *)

Definition line_at (line : list ascii) (char_counter : Z) : ascii :=
  nth (Z.to_nat char_counter) line zero.

Definition is_jog (line : list ascii) : bool :=
  Ascii.eqb (line_at line 0) "$"%char.

Definition gc_block_init (gc_state : parser_state_t) (line : list ascii) : locals :=
  let L := {| gc_block := {| non_modal_command := 0;
                             modal := gs_modal gc_state;
                             values := values_zero |};
              axis_command := AXIS_COMMAND_NONE;
              coord_select := 0;
              axis_words := 0;
              ijk_words := 0;
              command_words := 0;
              value_words := 0;
              gc_parser_flags := GC_PARSER_NONE;
              block_coord_system := vec_zero |} in
  if is_jog line then
    upd_block (upd_modal (set_feed_rate_mode FEED_RATE_MODE_UNITS_PER_MIN))
      (upd_block (upd_modal (set_motion MOTION_MODE_LINEAR))
         (set_gc_parser_flags (Z.lor (gc_parser_flags L) GC_PARSER_JOG_MOTION) L))
  else L.

Definition char_counter_init (line : list ascii) : Z :=
  if is_jog line then 3 else 0.

(** ** STEP 2: import the words of the block *)

(** 'G' words.  Each group of [case] labels yields [word_bit], the
    mantissa left for the integer check, and the updated locals. *)

(** [case 10: case 28: case 30: case 92:] down to the [break] of
    [case 4: case 53:]. *)
Definition G_non_modal (int_value mantissa : Z) (L : locals)
  : result (Z * Z * locals) :=
  L1 <- (if one_of int_value [10; 28; 30; 92] && (mantissa =? 0) then
           if negb (axis_command L =? 0)
           then FAIL STATUS_GCODE_AXIS_COMMAND_CONFLICT
           else ok (set_axis_command AXIS_COMMAND_NON_MODAL L)
         else ok L) ;;
  let L2 := upd_block (set_non_modal_command int_value) L1 in
  if one_of int_value [28; 30; 92] then
    if negb ((mantissa =? 0) || (mantissa =? 10))
    then FAIL STATUS_GCODE_UNSUPPORTED_COMMAND
    else ok (MODAL_GROUP_G0, 0,
             upd_block (set_non_modal_command (to_uint8 (int_value + mantissa))) L2)
  else ok (MODAL_GROUP_G0, mantissa, L2).

(** [case 0: case 1: case 2: case 3: case 38:] down to the [break] of
    [case 80:]. *)
Definition G_motion (int_value mantissa : Z) (L : locals)
  : result (Z * Z * locals) :=
  L1 <- (if one_of int_value [0; 1; 2; 3; 38] then
           if negb (axis_command L =? 0)
           then FAIL STATUS_GCODE_AXIS_COMMAND_CONFLICT
           else ok (set_axis_command AXIS_COMMAND_MOTION_MODE L)
         else ok L) ;;
  let L2 := upd_block (upd_modal (set_motion int_value)) L1 in
  if int_value =? 38 then
    if negb ((mantissa =? 20) || (mantissa =? 30) || (mantissa =? 40)
             || (mantissa =? 50))
    then FAIL STATUS_GCODE_UNSUPPORTED_COMMAND
    else ok (MODAL_GROUP_G1, 0,
             upd_block (upd_modal
               (set_motion (to_uint8 (int_value + (mantissa / 10 + 100))))) L2)
  else ok (MODAL_GROUP_G1, mantissa, L2).

Definition G_switch (int_value mantissa : Z) (L : locals)
  : result (Z * Z * locals) :=
  if one_of int_value [10; 28; 30; 92; 4; 53] then
    G_non_modal int_value mantissa L
  else if one_of int_value [0; 1; 2; 3; 38; 80] then
    G_motion int_value mantissa L
  else if one_of int_value [90; 91] then
    if mantissa =? 0 then
      ok (MODAL_GROUP_G3, mantissa,
          upd_block (upd_modal (set_distance (to_uint8 (int_value - 90)))) L)
    else if negb (mantissa =? 10) || (int_value =? 90)
    then FAIL STATUS_GCODE_UNSUPPORTED_COMMAND
    else ok (MODAL_GROUP_G4, 0, L)
  else if one_of int_value [93; 94] then
    ok (MODAL_GROUP_G5, mantissa,
        upd_block (upd_modal (set_feed_rate_mode (to_uint8 (94 - int_value)))) L)
  else if one_of int_value [20; 21] then
    ok (MODAL_GROUP_G6, mantissa,
        upd_block (upd_modal (set_units (to_uint8 (21 - int_value)))) L)
  else if int_value =? 40 then
    ok (MODAL_GROUP_G7, mantissa, L)
  else if one_of int_value [54; 55; 56; 57; 58; 59] then
    ok (MODAL_GROUP_G12, mantissa,
        upd_block (upd_modal (set_coord_select (to_uint8 (int_value - 54)))) L)
  else if int_value =? 61 then
    if negb (mantissa =? 0)
    then FAIL STATUS_GCODE_UNSUPPORTED_COMMAND
    else ok (MODAL_GROUP_G13, mantissa, L)
  else FAIL STATUS_GCODE_UNSUPPORTED_COMMAND.

(** The modal-group check that closes [case 'G':] and [case 'M':]. *)
Definition modal_group_check (word_bit : Z) (L : locals) : result locals :=
  if bit_istrue (command_words L) (bit word_bit)
  then FAIL STATUS_GCODE_MODAL_GROUP_VIOLATION
  else ok (set_command_words (Z.lor (command_words L) (bit word_bit)) L).

Definition parse_G (int_value mantissa : Z) (L : locals) : result locals :=
  '(word_bit, mantissa', L1) <- G_switch int_value mantissa L ;;
  if 0 <? mantissa' then FAIL STATUS_GCODE_COMMAND_VALUE_NOT_INTEGER
  else modal_group_check word_bit L1.

Definition parse_M (int_value mantissa : Z) (L : locals) : result locals :=
  if 0 <? mantissa then FAIL STATUS_GCODE_COMMAND_VALUE_NOT_INTEGER
  else if one_of int_value [0; 1; 2; 30] then
    let L1 :=
      if int_value =? 0 then
        upd_block (upd_modal (set_program_flow PROGRAM_FLOW_PAUSED)) L
      else if int_value =? 1 then L
      else upd_block (upd_modal (set_program_flow int_value)) L in
    modal_group_check MODAL_GROUP_M4 L1
  else FAIL STATUS_GCODE_UNSUPPORTED_COMMAND.

(** The inner [switch(letter)] of the [default:] branch: [word_bit] and
    the stored value. *)
Definition value_switch (letter : ascii) (value : float) (int_value : Z)
  (L : locals) : result (Z * locals) :=
  let store_ijk idx L :=
    set_ijk_words (Z.lor (ijk_words L) (Z.shiftl 1 idx))
      (upd_block (upd_values (fun v => set_ijk (vec_set (val_ijk v) idx value) v)) L) in
  let store_xyz idx L :=
    set_axis_words (Z.lor (axis_words L) (Z.shiftl 1 idx))
      (upd_block (upd_values (fun v => set_xyz (vec_set (val_xyz v) idx value) v)) L) in
  if Ascii.eqb letter "F" then ok (WORD_F, upd_block (upd_values (set_f value)) L)
  else if Ascii.eqb letter "I" then ok (WORD_I, store_ijk X_AXIS L)
  else if Ascii.eqb letter "J" then ok (WORD_J, store_ijk Y_AXIS L)
  else if Ascii.eqb letter "L" then ok (WORD_L, upd_block (upd_values (set_l int_value)) L)
  else if Ascii.eqb letter "N" then
    ok (WORD_N, upd_block (upd_values (set_n (to_int32 (F32.trunc value)))) L)
  else if Ascii.eqb letter "P" then ok (WORD_P, upd_block (upd_values (set_p value)) L)
  else if Ascii.eqb letter "R" then ok (WORD_R, upd_block (upd_values (set_r value)) L)
  else if Ascii.eqb letter "X" then ok (WORD_X, store_xyz X_AXIS L)
  else if Ascii.eqb letter "Y" then ok (WORD_Y, store_xyz Y_AXIS L)
  else FAIL STATUS_GCODE_UNSUPPORTED_COMMAND.

Definition negative_checked : Z :=
  Z.lor (Z.lor (Z.lor (bit WORD_F) (bit WORD_N)) (bit WORD_P)) (bit WORD_S).

Definition parse_value (letter : ascii) (value : float) (int_value : Z)
  (L : locals) : result locals :=
  '(word_bit, L1) <- value_switch letter value int_value L ;;
  if bit_istrue (value_words L1) (bit word_bit)
  then FAIL STATUS_GCODE_WORD_REPEATED
  else if negb (Z.land (bit word_bit) negative_checked =? 0)
          && F32.lt value F32.zero
  then FAIL STATUS_NEGATIVE_VALUE
  else ok (set_value_words (Z.lor (value_words L1) (bit word_bit)) L1).

(** [int_value] and [mantissa] of a word value. *)
Definition int_value_of (value : float) : Z := to_uint8 (F32.trunc value).
Definition mantissa_of (value : float) : Z :=
  to_uint16 (F32.round (F32.mul (F32.of_Z 100)
                          (F32.sub value (F32.of_Z (int_value_of value))))).

(** One word, after its letter and value have been read. *)
Definition gc_parse_word (letter : ascii) (value : float) (L : locals)
  : result locals :=
  let int_value := int_value_of value in
  let mantissa := mantissa_of value in
  if Ascii.eqb letter "G" then parse_G int_value mantissa L
  else if Ascii.eqb letter "M" then parse_M int_value mantissa L
  else parse_value letter value int_value L.

Definition is_letter (c : ascii) : bool :=
  (65 <=? Z.of_N (N_of_ascii c)) && (Z.of_N (N_of_ascii c) <=? 90).

Section Parser.

Context {E : Externals}.

(** The [while (line[char_counter] != 0)] loop.  [fuel] bounds the number
    of iterations; the loop of the source has no such bound, and [None]
    stands for a run that has not left the loop after [fuel] words. *)
Fixpoint gc_parse_words (fuel : nat) (line : list ascii) (char_counter : Z)
  (L : locals) : option (result locals) :=
  match fuel with
  | O => None
  | S fuel' =>
      let letter := line_at line char_counter in
      if Ascii.eqb letter zero then Some (ok L)
      else if negb (is_letter letter)
      then Some (FAIL STATUS_EXPECTED_COMMAND_LETTER)
      else
        match read_float line (to_uint8 (char_counter + 1)) with
        | None => Some (FAIL STATUS_BAD_NUMBER_FORMAT)
        | Some (value, char_counter') =>
            match gc_parse_word letter value L with
            | inl s => Some (FAIL s)
            | inr L' => gc_parse_words fuel' line (to_uint8 char_counter') L'
            end
        end
  end.

(** ** STEP 3: error-check the block, pre-compute targets *)

Definition is_jog_block (L : locals) : bool :=
  negb (Z.land (gc_parser_flags L) GC_PARSER_JOG_MOTION =? 0).

Definition block_motion (L : locals) : Z := modal_motion (modal (gc_block L)).

(** Implicit axis command: axis words without an explicit axis command. *)
Definition implicit_axis_command (L : locals) : locals :=
  if negb (axis_words L =? 0) then
    if axis_command L =? 0 then set_axis_command AXIS_COMMAND_MOTION_MODE L
    else L
  else L.

(** Check for a valid line number N value. *)
Definition check_line_number (L : locals) : result locals :=
  if bit_istrue (value_words L) (bit WORD_N) then
    if MAX_LINE_NUMBER <? val_n (values (gc_block L))
    then FAIL STATUS_GCODE_INVALID_LINE_NUMBER
    else ok L
  else ok L.

(** [2. Set feed rate mode] and [3. Set feed rate]. *)
Definition check_feed_rate (gc_state : parser_state_t) (L : locals)
  : result locals :=
  if is_jog_block L then
    if bit_isfalse (value_words L) (bit WORD_F)
    then FAIL STATUS_GCODE_UNDEFINED_FEED_RATE
    else ok L
  else if modal_feed_rate (modal (gc_block L)) =? FEED_RATE_MODE_INVERSE_TIME then
    if (axis_command L =? AXIS_COMMAND_MOTION_MODE)
       && (negb (block_motion L =? MOTION_MODE_NONE)
           && negb (block_motion L =? MOTION_MODE_SEEK))
       && bit_isfalse (value_words L) (bit WORD_F)
    then FAIL STATUS_GCODE_UNDEFINED_FEED_RATE
    else ok L
  else
    if (modal_feed_rate (gs_modal gc_state) =? FEED_RATE_MODE_UNITS_PER_MIN)
       && bit_isfalse (value_words L) (bit WORD_F)
    then ok (upd_block (upd_values (set_f (gs_feed_rate gc_state))) L)
    else ok L.

(** [10. Dwell]. *)
Definition check_dwell (L : locals) : result locals :=
  if non_modal_command (gc_block L) =? NON_MODAL_DWELL then
    if bit_isfalse (value_words L) (bit WORD_P)
    then FAIL STATUS_GCODE_VALUE_WORD_MISSING
    else ok (set_value_words (bit_false (value_words L) (bit WORD_P)) L)
  else ok L.

(** [15. Coordinate system selection]. *)
Definition check_coord_select (gc_state : parser_state_t) (L : locals)
  (w : world) : result locals * world :=
  let L1 := set_block_coord_system (gs_coord_system gc_state) L in
  if bit_istrue (command_words L1) (bit MODAL_GROUP_G12) then
    if N_COORDINATE_SYSTEM <? modal_coord_select (modal (gc_block L1))
    then (FAIL STATUS_GCODE_UNSUPPORTED_COORD_SYS, w)
    else if negb (modal_coord_select (gs_modal gc_state)
                  =? modal_coord_select (modal (gc_block L1))) then
      let '(read_ok, buf, w1) :=
        settings_read_coord_data (modal_coord_select (modal (gc_block L1)))
          (block_coord_system L1) w in
      if read_ok then (ok (set_block_coord_system buf L1), w1)
      else (FAIL STATUS_SETTING_READ_FAIL, w1)
    else (ok L1, w)
  else (ok L1, w).

(** The [for (idx=0; idx<N_AXIS; idx++)] loops. *)
Definition axes : list Z := [0; 1].

(** G10: the coordinate data to store, computed into the IJK values. *)
Definition g10_axis (gc_state : parser_state_t) (L : locals) (v : gc_values_t)
  (idx : Z) : gc_values_t :=
  if bit_istrue (axis_words L) (bit idx) then
    if val_l v =? 20 then
      set_ijk (vec_set (val_ijk v) idx
                 (F32.sub (F32.sub (vec_get (gs_position gc_state) idx)
                                   (vec_get (gs_coord_offset gc_state) idx))
                          (vec_get (val_xyz v) idx))) v
    else set_ijk (vec_set (val_ijk v) idx (vec_get (val_xyz v) idx)) v
  else v.

Definition g10_l_check (L : locals) : result unit :=
  if negb (val_l (values (gc_block L)) =? 20) then
    if val_l (values (gc_block L)) =? 2 then
      if bit_istrue (value_words L) (bit WORD_R)
      then FAIL STATUS_GCODE_UNSUPPORTED_COMMAND
      else ok tt
    else FAIL STATUS_GCODE_UNSUPPORTED_COMMAND
  else ok tt.

Definition check_g10 (gc_state : parser_state_t) (L : locals) (w : world)
  : result locals * world :=
  if axis_words L =? 0 then (FAIL STATUS_GCODE_NO_AXIS_WORDS, w)
  else if bit_isfalse (value_words L) (Z.lor (Z.shiftl 1 WORD_P) (Z.shiftl 1 WORD_L))
  then (FAIL STATUS_GCODE_VALUE_WORD_MISSING, w)
  else
    let coord_select1 := to_uint8 (F32.trunc (val_p (values (gc_block L)))) in
    if N_COORDINATE_SYSTEM <? coord_select1
    then (FAIL STATUS_GCODE_UNSUPPORTED_COORD_SYS, w)
    else
    match g10_l_check L with
    | inl s => (FAIL s, w)
    | inr _ =>
      let L1 := set_value_words
                  (bit_false (value_words L) (Z.lor (bit WORD_L) (bit WORD_P))) L in
      let coord_select2 :=
        if 0 <? coord_select1 then to_uint8 (coord_select1 - 1)
        else modal_coord_select (modal (gc_block L1)) in
      let L2 := set_coord_select_local coord_select2 L1 in
      let '(read_ok, buf, w1) :=
        settings_read_coord_data coord_select2 (val_ijk (values (gc_block L2))) w in
      if negb read_ok then (FAIL STATUS_SETTING_READ_FAIL, w1)
      else
        let L3 := upd_block (upd_values (set_ijk buf)) L2 in
        (ok (upd_block (upd_values
               (fun v => fold_left (g10_axis gc_state L3) axes v)) L3), w1)
    end.

(** The other commands: the target position of the axis words. *)
Definition target_axis (gc_state : parser_state_t) (L : locals)
  (v : gc_values_t) (idx : Z) : gc_values_t :=
  if bit_isfalse (axis_words L) (bit idx) then
    set_xyz (vec_set (val_xyz v) idx (vec_get (gs_position gc_state) idx)) v
  else if negb (non_modal_command (gc_block L) =? NON_MODAL_ABSOLUTE_OVERRIDE) then
    if modal_distance (modal (gc_block L)) =? DISTANCE_MODE_ABSOLUTE then
      set_xyz (vec_set (val_xyz v) idx
                 (F32.add (vec_get (val_xyz v) idx)
                    (F32.add (vec_get (block_coord_system L) idx)
                             (vec_get (gs_coord_offset gc_state) idx)))) v
    else
      set_xyz (vec_set (val_xyz v) idx
                 (F32.add (vec_get (val_xyz v) idx)
                          (vec_get (gs_position gc_state) idx))) v
  else v.

Definition check_target (gc_state : parser_state_t) (L : locals)
  : result locals :=
  let L1 :=
    if negb (axis_words L =? 0) then
      upd_block (upd_values
        (fun v => fold_left (target_axis gc_state L) axes v)) L
    else L in
  if non_modal_command (gc_block L1) =? NON_MODAL_ABSOLUTE_OVERRIDE then
    if negb ((block_motion L1 =? MOTION_MODE_SEEK)
             || (block_motion L1 =? MOTION_MODE_LINEAR))
    then FAIL STATUS_GCODE_G53_INVALID_MOTION_MODE
    else ok L1
  else ok L1.

(** [19. Remaining non-modal actions]. *)
Definition check_non_modal (gc_state : parser_state_t) (L : locals)
  (w : world) : result locals * world :=
  if non_modal_command (gc_block L) =? NON_MODAL_SET_COORDINATE_DATA
  then check_g10 gc_state L w
  else (check_target gc_state L, w).

(** [20. Motion modes]: the arcs.  [x] and [y] are the change in position
    along [axis_0] and [axis_1]. *)

(** Radius mode: [4.0 * r*r - x*x - y*y], the first value of
    [h_x2_div_d]. *)
Definition arc_discriminant (r x y : float) : float :=
  F32.sub (F32.sub (F32.mul (F32.mul (F32.of_Z 4) r) r) (F32.mul x x))
          (F32.mul y y).

(** Radius mode: [h_x2_div_d] once finished, with its sign settled by
    the direction of the arc and by the sign of R. *)
Definition arc_h_x2_div_d (motion : Z) (r x y : float) : float :=
  let h1 := F32.div (F32.neg (F32.sqrt (arc_discriminant r x y))) (hypot_f x y) in
  let h2 := if motion =? MOTION_MODE_CCW_ARC then F32.neg h1 else h1 in
  if F32.lt r (F32.of_Z 0) then F32.neg h2 else h2.

(** Radius mode: the offsets of the centre along [axis_0] and [axis_1]. *)
Definition arc_center_0 (x y h : float) : float :=
  F32.mul (F32.dec 1 2) (F32.sub x (F32.mul y h)).
Definition arc_center_1 (x y h : float) : float :=
  F32.mul (F32.dec 1 2) (F32.add y (F32.mul x h)).

Definition arc_radius_mode (ax : axis_indices) (gc_state : parser_state_t)
  (x y : float) (L : locals) : result locals :=
  let L1 := set_value_words (bit_false (value_words L) (bit WORD_R)) L in
  let v := values (gc_block L1) in
  if isequal_position_vector (gs_position gc_state) (val_xyz v)
  then FAIL STATUS_GCODE_INVALID_TARGET
  else if F32.lt (arc_discriminant (val_r v) x y) (F32.of_Z 0)
  then FAIL STATUS_GCODE_ARC_RADIUS_ERROR
  else
    let h := arc_h_x2_div_d (block_motion L1) (val_r v) x y in
    let r1 := if F32.lt (val_r v) (F32.of_Z 0) then F32.neg (val_r v)
              else val_r v in
    let ijk1 := vec_set (val_ijk v) (axis_0 ax) (arc_center_0 x y h) in
    let ijk2 := vec_set ijk1 (axis_1 ax) (arc_center_1 x y h) in
    ok (upd_block (upd_values (fun v => set_ijk ijk2 (set_r r1 v))) L1).

(** Offset mode: the radius from the centre to the target, and the
    radius from the centre to the current position. *)
Definition arc_target_r (ax : axis_indices) (x y : float) (v : gc_values_t)
  : float :=
  hypot_f (F32.sub x (vec_get (val_ijk v) (axis_0 ax)))
          (F32.sub y (vec_get (val_ijk v) (axis_1 ax))).
Definition arc_start_r (ax : axis_indices) (v : gc_values_t) : float :=
  hypot_f (vec_get (val_ijk v) (axis_0 ax)) (vec_get (val_ijk v) (axis_1 ax)).
Definition arc_delta_r (ax : axis_indices) (x y : float) (v : gc_values_t)
  : float :=
  F32.fabs (F32.sub (arc_target_r ax x y v) (arc_start_r ax v)).

Definition arc_offset_mode (ax : axis_indices) (x y : float) (L : locals)
  : result locals :=
  let L1 := set_value_words
              (bit_false (value_words L)
                 (Z.lor (Z.lor (bit WORD_I) (bit WORD_J)) (bit WORD_K))) L in
  let v := values (gc_block L1) in
  let delta_r := arc_delta_r ax x y v in
  let L2 := upd_block (upd_values (set_r (arc_start_r ax v))) L1 in
  if F32.gt delta_r (F32.dec 5 1000) then
    if F32.gt delta_r (F32.dec 1 2) then FAIL STATUS_GCODE_INVALID_TARGET
    else if F32.gt delta_r (F32.mul (F32.dec 1 1000) (arc_start_r ax v))
    then FAIL STATUS_GCODE_INVALID_TARGET
    else ok L2
  else ok L2.

(** [x] and [y] of a block: the change in position along each selected
    axis. *)
Definition arc_x (ax : axis_indices) (gc_state : parser_state_t) (L : locals)
  : float :=
  F32.sub (vec_get (val_xyz (values (gc_block L))) (axis_0 ax))
          (vec_get (gs_position gc_state) (axis_0 ax)).
Definition arc_y (ax : axis_indices) (gc_state : parser_state_t) (L : locals)
  : float :=
  F32.sub (vec_get (val_xyz (values (gc_block L))) (axis_1 ax))
          (vec_get (gs_position gc_state) (axis_1 ax)).

Definition check_arc (ax : axis_indices) (gc_state : parser_state_t)
  (L : locals) : result locals :=
  if axis_words L =? 0 then FAIL STATUS_GCODE_NO_AXIS_WORDS
  else if Z.land (axis_words L) (Z.lor (bit (axis_0 ax)) (bit (axis_1 ax))) =? 0
  then FAIL STATUS_GCODE_NO_AXIS_WORDS_IN_PLANE
  else
    if negb (Z.land (value_words L) (bit WORD_R) =? 0)
    then arc_radius_mode ax gc_state (arc_x ax gc_state L) (arc_y ax gc_state L) L
    else arc_offset_mode ax (arc_x ax gc_state L) (arc_y ax gc_state L) L.

(** [20. Motion modes]. *)
Definition check_motion_mode (ax : axis_indices) (gc_state : parser_state_t)
  (L : locals) : result locals :=
  if block_motion L =? MOTION_MODE_NONE then
    if negb (axis_words L =? 0) then FAIL STATUS_GCODE_AXIS_WORDS_EXIST
    else ok L
  else if axis_command L =? AXIS_COMMAND_MOTION_MODE then
    if block_motion L =? MOTION_MODE_SEEK then
      ok (if axis_words L =? 0 then set_axis_command AXIS_COMMAND_NONE L else L)
    else
      if F32.eq (val_f (values (gc_block L))) (F32.of_Z 0)
      then FAIL STATUS_GCODE_UNDEFINED_FEED_RATE
      else if block_motion L =? MOTION_MODE_LINEAR then
        ok (if axis_words L =? 0 then set_axis_command AXIS_COMMAND_NONE L else L)
      else if block_motion L =? MOTION_MODE_CW_ARC then
        check_arc ax gc_state
          (set_gc_parser_flags
             (Z.lor (gc_parser_flags L) GC_PARSER_ARC_IS_CLOCKWISE) L)
      else if block_motion L =? MOTION_MODE_CCW_ARC then
        check_arc ax gc_state L
      else ok L
  else ok L.

(** The closing unused-words check. *)
Definition check_unused_words (L : locals) : result locals :=
  let vw1 :=
    if is_jog_block L
    then bit_false (value_words L) (Z.lor (bit WORD_N) (bit WORD_F))
    else bit_false (value_words L)
           (Z.lor (Z.lor (bit WORD_N) (bit WORD_F)) (bit WORD_S)) in
  let vw2 :=
    if negb (axis_command L =? 0)
    then bit_false vw1 (Z.lor (Z.lor (bit WORD_X) (bit WORD_Y)) (bit WORD_Z))
    else vw1 in
  if negb (vw2 =? 0) then FAIL STATUS_GCODE_UNUSED_WORDS
  else ok (set_value_words vw2 L).

(** STEP 3 up to and including the non-modal actions, that is,
    everything before [20. Motion modes]. *)
Definition gc_check_before_motion (gc_state : parser_state_t) (L : locals)
  (w : world) : result locals * world :=
  match
    (L1 <- check_line_number (implicit_axis_command L) ;;
     L2 <- check_feed_rate gc_state L1 ;;
     check_dwell L2)
  with
  | inl s => (FAIL s, w)
  | inr L3 =>
      match check_coord_select gc_state L3 w with
      | (inl s, w1) => (FAIL s, w1)
      | (inr L4, w1) => check_non_modal gc_state L4 w1
      end
  end.

(** The whole of STEP 3. *)
Definition gc_check (ax : axis_indices) (gc_state : parser_state_t)
  (L : locals) (w : world) : result locals * world :=
  match gc_check_before_motion gc_state L w with
  | (inl s, w1) => (FAIL s, w1)
  | (inr L5, w1) =>
      (L6 <- check_motion_mode ax gc_state L5 ;; check_unused_words L6, w1)
  end.

(** ** STEP 4: execute *)

(** The jog branch: [gc_state] is not updated, except the position. *)
Definition gc_execute_jog (L : locals) (gc_state : parser_state_t) (w : world)
  : status * parser_state_t * world :=
  if negb (Z.land (command_words L)
             (Z.lnot (Z.lor (Z.lor (bit MODAL_GROUP_G3) (bit MODAL_GROUP_G6))
                            (bit MODAL_GROUP_G0))) =? 0)
  then (STATUS_INVALID_JOG_COMMAND, gc_state, w)
  else if negb ((non_modal_command (gc_block L) =? NON_MODAL_ABSOLUTE_OVERRIDE)
                || (non_modal_command (gc_block L) =? NON_MODAL_NO_ACTION))
  then (STATUS_INVALID_JOG_COMMAND, gc_state, w)
  else
    let '(st, w1) := jog_execute plan_data_zero (gc_block L) w in
    if status_eq_dec st STATUS_OK
    then (st, set_gs_position (val_xyz (values (gc_block L))) gc_state, w1)
    else (st, gc_state, w1).

(** [15. Coordinate system selection]. *)
Definition exec_coord_select (L : locals) (gs : parser_state_t) (w : world)
  : parser_state_t * world :=
  if negb (modal_coord_select (gs_modal gs)
           =? modal_coord_select (modal (gc_block L))) then
    (set_gs_coord_system (block_coord_system L)
       (upd_gs_modal (set_coord_select (modal_coord_select (modal (gc_block L)))) gs),
     system_flag_wco_change w)
  else (gs, w).

(** [19. Go to predefined position, Set G10, or Set axis offsets]. *)
Definition exec_non_modal (L : locals) (gs : parser_state_t) (w : world)
  : parser_state_t * world :=
  if non_modal_command (gc_block L) =? NON_MODAL_SET_COORDINATE_DATA then
    let w1 := settings_write_coord_data (coord_select L)
                (val_ijk (values (gc_block L))) w in
    if modal_coord_select (gs_modal gs) =? coord_select L
    then (set_gs_coord_system (val_ijk (values (gc_block L))) gs,
          system_flag_wco_change w1)
    else (gs, w1)
  else (gs, w).

(** [20. Motion modes].  [gs0] is [gc_state] as it is when the motion is
    issued: [mc_arc] reads [gc_state.position] before it is advanced. *)
Definition exec_motion (ax : axis_indices) (L : locals)
  (pl_data : plan_line_data_t) (gs0 : parser_state_t) (w : world)
  : parser_state_t * world :=
  let gs := upd_gs_modal (set_motion (block_motion L)) gs0 in
  let v := values (gc_block L) in
  if negb (modal_motion (gs_modal gs) =? MOTION_MODE_NONE)
     && (axis_command L =? AXIS_COMMAND_MOTION_MODE) then
    let w1 :=
      if modal_motion (gs_modal gs) =? MOTION_MODE_LINEAR then
        mc_line (val_xyz v) pl_data w
      else if modal_motion (gs_modal gs) =? MOTION_MODE_SEEK then
        mc_line (val_xyz v)
          {| pl_feed_rate := pl_feed_rate pl_data;
             pl_condition := Z.lor (pl_condition pl_data) PL_COND_FLAG_RAPID_MOTION |} w
      else if (modal_motion (gs_modal gs) =? MOTION_MODE_CW_ARC)
              || (modal_motion (gs_modal gs) =? MOTION_MODE_CCW_ARC) then
        mc_arc (val_xyz v) pl_data (gs_position gs) (val_ijk v) (val_r v)
          (axis_0 ax) (axis_1 ax) (axis_linear ax)
          (bit_istrue (gc_parser_flags L) GC_PARSER_ARC_IS_CLOCKWISE) w
      else w in
    (* gc_update_pos == GC_UPDATE_POS_TARGET *)
    (set_gs_position (val_xyz v) gs, w1)
  else (gs, w).

(** [21. Program flow]. *)
Definition exec_program_flow (L : locals) (gs0 : parser_state_t) (w : world)
  : status * parser_state_t * world :=
  let gs := upd_gs_modal (set_program_flow (modal_program_flow (modal (gc_block L)))) gs0 in
  if negb (modal_program_flow (gs_modal gs) =? 0) then
    let w1 := protocol_buffer_synchronize w in
    if modal_program_flow (gs_modal gs) =? PROGRAM_FLOW_PAUSED then
      let w2 :=
        if negb (sys_state w1 =? STATE_CHECK_MODE)
        then protocol_execute_realtime (system_set_exec_state_flag EXEC_FEED_HOLD w1)
        else w1 in
      (STATUS_OK, upd_gs_modal (set_program_flow PROGRAM_FLOW_RUNNING) gs, w2)
    else
      let gs1 :=
        upd_gs_modal (set_coord_select 0)
          (upd_gs_modal (set_feed_rate_mode FEED_RATE_MODE_UNITS_PER_MIN)
             (upd_gs_modal (set_distance DISTANCE_MODE_ABSOLUTE)
                (upd_gs_modal (set_motion MOTION_MODE_LINEAR) gs))) in
      let w2 := sys_set_overrides DEFAULT_FEED_OVERRIDE DEFAULT_RAPID_OVERRIDE w1 in
      if negb (sys_state w2 =? STATE_CHECK_MODE) then
        let '(read_ok, buf, w3) :=
          settings_read_coord_data (modal_coord_select (gs_modal gs1))
            (gs_coord_system gs1) w2 in
        let gs2 := set_gs_coord_system buf gs1 in
        if negb read_ok then (STATUS_SETTING_READ_FAIL, gs2, w3)
        else
          (STATUS_OK, upd_gs_modal (set_program_flow PROGRAM_FLOW_RUNNING) gs2,
           report_feedback_message MESSAGE_PROGRAM_END (system_flag_wco_change w3))
      else
        (STATUS_OK, upd_gs_modal (set_program_flow PROGRAM_FLOW_RUNNING) gs1,
         report_feedback_message MESSAGE_PROGRAM_END w2)
  else (STATUS_OK, gs, w).

Definition gc_execute (ax : axis_indices) (L : locals)
  (gc_state : parser_state_t) (w : world) : status * parser_state_t * world :=
  if is_jog_block L then gc_execute_jog L gc_state w
  else
    let b := gc_block L in
    (* [0.] line number *)
    let gs1 := set_gs_line_number (val_n (values b)) gc_state in
    (* [2. Set feed rate mode] *)
    let gs2 := upd_gs_modal (set_feed_rate_mode (modal_feed_rate (modal b))) gs1 in
    let cond :=
      if negb (modal_feed_rate (gs_modal gs2) =? 0)
      then Z.lor 0 PL_COND_FLAG_INVERSE_TIME else 0 in
    (* [3. Set feed rate] *)
    let gs3 := set_gs_feed_rate (val_f (values b)) gs2 in
    let pl_data := {| pl_feed_rate := gs_feed_rate gs3; pl_condition := cond |} in
    (* [10. Dwell] *)
    let w1 :=
      if non_modal_command b =? NON_MODAL_DWELL
      then mc_dwell (val_p (values b)) w else w in
    (* [12. Set length units] *)
    let gs4 := upd_gs_modal (set_units (modal_units (modal b))) gs3 in
    let '(gs5, w2) := exec_coord_select L gs4 w1 in
    (* [17. Set distance mode] *)
    let gs6 := upd_gs_modal (set_distance (modal_distance (modal b))) gs5 in
    let '(gs7, w3) := exec_non_modal L gs6 w2 in
    let '(gs8, w4) := exec_motion ax L pl_data gs7 w3 in
    exec_program_flow L gs8 w4.

(** ** [gc_execute_line] *)

(** STEP 1 and STEP 2. *)
Definition gc_parse_line (fuel : nat) (gc_state : parser_state_t)
  (line : list ascii) : option (result locals) :=
  gc_parse_words fuel line (char_counter_init line) (gc_block_init gc_state line).

(** STEP 3 and STEP 4. *)
Definition gc_check_and_execute (ax : axis_indices) (L : locals)
  (gc_state : parser_state_t) (w : world) : status * parser_state_t * world :=
  match gc_check ax gc_state L w with
  | (inl s, w1) => (s, gc_state, w1)
  | (inr L7, w1) => gc_execute ax L7 gc_state w1
  end.

(** The status returned, [gc_state] and the world after the call. *)
Definition gc_execute_line (fuel : nat) (ax : axis_indices)
  (line : list ascii) (gc_state : parser_state_t) (w : world)
  : option (status * parser_state_t * world) :=
  match gc_parse_line fuel gc_state line with
  | None => None
  | Some (inl s) => Some (s, gc_state, w)
  | Some (inr L) => Some (gc_check_and_execute ax L gc_state w)
  end.

End Parser.

(** The statuses STEP 3 can fail with after the line-number check. *)
Definition later_check_statuses : list status :=
  [STATUS_GCODE_UNDEFINED_FEED_RATE; STATUS_GCODE_VALUE_WORD_MISSING;
   STATUS_GCODE_UNSUPPORTED_COORD_SYS; STATUS_SETTING_READ_FAIL;
   STATUS_GCODE_NO_AXIS_WORDS; STATUS_GCODE_UNSUPPORTED_COMMAND;
   STATUS_GCODE_G53_INVALID_MOTION_MODE; STATUS_GCODE_AXIS_WORDS_EXIST;
   STATUS_GCODE_NO_AXIS_WORDS_IN_PLANE; STATUS_GCODE_INVALID_TARGET;
   STATUS_GCODE_ARC_RADIUS_ERROR; STATUS_GCODE_UNUSED_WORDS].

(** What STEP 3 leaves as it is. *)
Definition same_frame (L L' : locals) : Prop :=
  is_jog_block L' = is_jog_block L
  /\ modal (gc_block L') = modal (gc_block L)
  /\ non_modal_command (gc_block L') = non_modal_command (gc_block L)
  /\ command_words L' = command_words L
  /\ axis_words L' = axis_words L.

(** A G2/G3 block at the motion-mode checks that gets as far as the arc
    computations: a motion block with a feed rate and axis words in the
    plane of [axis_0] and [axis_1]. *)
Definition arc_block (ax : axis_indices) (L : locals) : bool :=
  ((block_motion L =? MOTION_MODE_CW_ARC) || (block_motion L =? MOTION_MODE_CCW_ARC))
  && (axis_command L =? AXIS_COMMAND_MOTION_MODE)
  && negb (F32.eq (val_f (values (gc_block L))) (F32.of_Z 0))
  && negb (axis_words L =? 0)
  && negb (Z.land (axis_words L) (Z.lor (bit (axis_0 ax)) (bit (axis_1 ax))) =? 0).

(** The block as the arc computations get it: G2 has set the clockwise
    flag. *)
Definition arc_locals (L : locals) : locals :=
  if block_motion L =? MOTION_MODE_CW_ARC
  then set_gc_parser_flags (Z.lor (gc_parser_flags L) GC_PARSER_ARC_IS_CLOCKWISE) L
  else L.

(** ** Words of a block

    The vocabulary used to speak of "a block that contains" a word. *)

Section Words.

Context {E : Externals}.

(** The word that starts at [char_counter], as one turn of the loop
    reads it: its letter, its value and the [char_counter] after it. *)
Definition word_at (line : list ascii) (char_counter : Z)
  : option (ascii * float * Z) :=
  let letter := line_at line char_counter in
  if Ascii.eqb letter zero then None
  else if negb (is_letter letter) then None
  else
    match read_float line (to_uint8 (char_counter + 1)) with
    | None => None
    | Some (value, char_counter') => Some (letter, value, to_uint8 char_counter')
    end.

(** [k] turns of the loop without a failure: the words imported, then
    [char_counter] and the locals. *)
Fixpoint import_words (k : nat) (line : list ascii) (char_counter : Z)
  (L : locals) : option (list (ascii * float) * Z * locals) :=
  match k with
  | O => Some ([], char_counter, L)
  | S k' =>
      match word_at line char_counter with
      | None => None
      | Some (letter, value, char_counter1) =>
          match gc_parse_word letter value L with
          | inl _ => None
          | inr L1 =>
              match import_words k' line char_counter1 L1 with
              | None => None
              | Some (ws, char_counter2, L2) =>
                  Some ((letter, value) :: ws, char_counter2, L2)
              end
          end
      end
  end.

(** The first [k] words of a block, from STEP 1 on. *)
Definition block_words (k : nat) (gc_state : parser_state_t)
  (line : list ascii) : option (list (ascii * float) * Z * locals) :=
  import_words k line (char_counter_init line) (gc_block_init gc_state line).

End Words.

(** [Gg.m] as a word value (G38.2 is [is_code 38 20]). *)
Definition is_code (int_value mantissa : Z) (value : float) : bool :=
  (int_value_of value =? int_value) && (mantissa_of value =? mantissa).

(** G10, G28, G30, G92 in their integer form. *)
Definition axis_non_modal_word (w : ascii * float) : bool :=
  Ascii.eqb (fst w) "G"
  && (one_of (int_value_of (snd w)) [10; 28; 30; 92] && (mantissa_of (snd w) =? 0)).

(** G0, G1, G2, G3 and G38.2 to G38.5. *)
Definition axis_motion_word (w : ascii * float) : bool :=
  Ascii.eqb (fst w) "G"
  && ((one_of (int_value_of (snd w)) [0; 1; 2; 3] && (mantissa_of (snd w) =? 0))
      || ((int_value_of (snd w) =? 38)
          && one_of (mantissa_of (snd w)) [20; 30; 40; 50])).

(** The locals of a block that has no word yet. *)
Definition blank : locals := gc_block_init gc_state_zero [].

(** The modal group of a command word, read off the parser: the bit it
    sets in [command_words] when it is the only word of a block.  A word
    the parser does not accept on its own has none. *)
Definition command_group (w : ascii * float) : option Z :=
  if Ascii.eqb (fst w) "G" || Ascii.eqb (fst w) "M" then
    match gc_parse_word (fst w) (snd w) blank with
    | inr L => Some (Z.log2 (command_words L))
    | inl _ => None
    end
  else None.

(** Whether a command word sets [axis_command], read off the parser in the
    same way. *)
Definition sets_axis_command (w : ascii * float) : bool :=
  match gc_parse_word (fst w) (snd w) blank with
  | inr L => negb (axis_command L =? 0)
  | inl _ => false
  end.

(** The bit of a value word in [value_words]. *)
Definition word_bit_of (letter : ascii) : option Z :=
  match value_switch letter F32.zero 0 blank with
  | inr (word_bit, _) => Some word_bit
  | inl _ => None
  end.

(** What the loop needs of [read_float] to come to an end: a number that
    is read takes at least one character and stops inside the line. *)
Definition read_float_advances (E : Externals) : Prop :=
  forall line cc v cc',
    0 <= cc ->
    read_float line cc = Some (v, cc') ->
    cc < cc' <= Z.of_nat (List.length line).

(** The value words the parser knows, with their bits. *)
Definition value_letters : list (ascii * Z) :=
  [("F"%char, WORD_F); ("I"%char, WORD_I); ("J"%char, WORD_J);
   ("L"%char, WORD_L); ("N"%char, WORD_N);
   ("P"%char, WORD_P); ("R"%char, WORD_R); ("X"%char, WORD_X);
   ("Y"%char, WORD_Y)].

(** The value words F, N and P. *)
Definition negative_rejected (letter : ascii) : bool :=
  Ascii.eqb letter "F" || Ascii.eqb letter "N" || Ascii.eqb letter "P".

(** ** A simulated machine

    One implementation of the interface, to run the parser on concrete
    lines: a decimal reader for [read_float], an EEPROM of coordinate
    systems in which a slot may be unreadable, and a log of the calls made
    to motion control, the protocol and the system. *)

Module Sim.

Inductive event : Type :=
| EvLine (target : vec) (pl_data : plan_line_data_t)
| EvArc (target : vec) (pl_data : plan_line_data_t) (position offset : vec)
    (radius : float) (a0 a1 alinear : Z) (is_clockwise : bool)
| EvDwell (seconds : float)
| EvJog (pl_data : plan_line_data_t) (block : parser_block_t)
| EvWriteCoord (idx : Z) (data : vec)
| EvSync
| EvRealtime
| EvExecFlag (mask : Z)
| EvWcoChange
| EvOverrides (feed rapid : Z)
| EvFeedback (code : Z).

Record sim_world : Type := {
  eeprom : list (option vec);   (* [None]: the slot does not read back *)
  state : Z;                    (* sys.state *)
  log : list event              (* most recent call first *)
}.

Definition emit (e : event) (w : sim_world) : sim_world :=
  {| eeprom := eeprom w; state := state w; log := e :: log w |}.

Definition is_digit (c : ascii) : bool :=
  (48 <=? Z.of_N (N_of_ascii c)) && (Z.of_N (N_of_ascii c) <=? 57).

Definition digit_of (c : ascii) : Z := Z.of_N (N_of_ascii c) - 48.

Definition MAX_INT_DIGITS : Z := 8.

(** Digits and at most one decimal point: the integer read, the decimal
    exponent, the number of digits and the number of characters used. *)
Fixpoint scan_number (s : list ascii) (intval exp ndigit : Z)
  (isdecimal : bool) (used : Z) : Z * Z * Z * Z :=
  match s with
  | c :: t =>
      if is_digit c then
        if ndigit + 1 <=? MAX_INT_DIGITS then
          scan_number t (intval * 10 + digit_of c)
            (if isdecimal then exp - 1 else exp) (ndigit + 1) isdecimal (used + 1)
        else
          scan_number t intval (if isdecimal then exp else exp + 1)
            (ndigit + 1) isdecimal (used + 1)
      else if Ascii.eqb c "." && negb isdecimal then
        scan_number t intval exp ndigit true (used + 1)
      else (intval, exp, ndigit, used)
  | [] => (intval, exp, ndigit, used)
  end.

Fixpoint apply_exp (fuel : nat) (fval : float) (exp : Z) : float :=
  match fuel with
  | O => fval
  | S k =>
      if exp <=? -2 then apply_exp k (F32.mul fval (F32.dec 1 100)) (exp + 2)
      else if exp <? 0 then F32.mul fval (F32.dec 1 10)
      else if 0 <? exp then apply_exp k (F32.mul fval (F32.of_Z 10)) (exp - 1)
      else fval
  end.

Definition sim_read_float (line : list ascii) (char_counter : Z)
  : option (float * Z) :=
  let s := skipn (Z.to_nat char_counter) line in
  let '(isnegative, s1, k) :=
    match s with
    | c :: t => if Ascii.eqb c "-" then (true, t, 1)
                else if Ascii.eqb c "+" then (false, t, 1)
                else (false, s, 0)
    | [] => (false, s, 0)
    end in
  let '(intval, exp, ndigit, used) := scan_number s1 0 0 0 false 0 in
  if ndigit =? 0 then None
  else
    let fval0 := F32.of_Z intval in
    let fval := if F32.eq fval0 F32.zero then fval0
                else apply_exp (S (Z.to_nat (Z.abs exp))) fval0 exp in
    Some (if isnegative then F32.neg fval else fval, char_counter + k + used).

Definition sim_read_coord (idx : Z) (buf : vec) (w : sim_world)
  : bool * vec * sim_world :=
  match nth (Z.to_nat idx) (eeprom w) None with
  | Some data => (true, data, w)
  | None => (false, vec_zero, w)
  end.

Definition sim_write_coord (idx : Z) (data : vec) (w : sim_world) : sim_world :=
  emit (EvWriteCoord idx data)
    {| eeprom := list_set (eeprom w) (Z.to_nat idx) (Some data);
       state := state w; log := log w |}.

#[export] Instance machine : Externals := {|
  world := sim_world;
  read_float := sim_read_float;
  settings_read_coord_data := sim_read_coord;
  settings_write_coord_data := sim_write_coord;
  jog_execute := fun pl b w => (STATUS_OK, emit (EvJog pl b) w);
  mc_line := fun t pl w => emit (EvLine t pl) w;
  mc_arc := fun t pl pos off rad a0 a1 al cw w =>
              emit (EvArc t pl pos off rad a0 a1 al cw) w;
  mc_dwell := fun s w => emit (EvDwell s) w;
  protocol_buffer_synchronize := emit EvSync;
  protocol_execute_realtime := emit EvRealtime;
  system_set_exec_state_flag := fun m w => emit (EvExecFlag m) w;
  system_flag_wco_change := emit EvWcoChange;
  report_feedback_message := fun c w => emit (EvFeedback c) w;
  sys_state := state;
  sys_set_overrides := fun fo ro w => emit (EvOverrides fo ro) w
|}.

(** A freshly booted machine: six readable coordinate systems, all zero,
    idle. *)
Definition boot : sim_world :=
  {| eeprom := repeat (Some vec_zero) 6; state := 0; log := [] |}.

(** The same with an unreadable first coordinate system (G54). *)
Definition boot_bad_g54 : sim_world :=
  {| eeprom := None :: repeat (Some vec_zero) 5; state := 0; log := [] |}.

(** The three axis indices as G17 would set them on a machine with a
    third axis. *)
Definition g17 : axis_indices :=
  {| axis_0 := X_AXIS; axis_1 := Y_AXIS; axis_linear := 2 |}.

Definition chars (s : string) : list ascii := list_ascii_of_string s.

(** Run a line and keep the status and the parser state. *)
Definition run (ax : axis_indices) (s : string) (gs : parser_state_t)
  (w : sim_world) : option (status * parser_state_t) :=
  match gc_execute_line 100 ax (chars s) gs w with
  | Some (st, gs', _) => Some (st, gs')
  | None => None
  end.

End Sim.

(** ** [gc_init] and [gc_sync_position]

    The other two functions of [gcode.c].  They call two more functions
    that live outside it: [report_status_message] ([report.c]) and
    [system_convert_array_steps_to_mpos] ([system.c]), which fills a
    position array from [sys_position], a part of [world]. *)
Class Reports (E : Externals) : Type := {
  report_status_message : status -> world -> world;
  system_convert_array_steps_to_mpos : vec -> world -> vec
}.

Section Init.

Context {E : Externals} {R : Reports E}.

(** [memset] of [gc_state], then the load of the default G54 coordinate
    system. *)
Definition gc_init (w : world) : parser_state_t * world :=
  let gc_state := gc_state_zero in
  let '(read_ok, buf, w1) :=
    settings_read_coord_data (modal_coord_select (gs_modal gc_state))
      (gs_coord_system gc_state) w in
  let gc_state1 := set_gs_coord_system buf gc_state in
  if negb read_ok
  then (gc_state1, report_status_message STATUS_SETTING_READ_FAIL w1)
  else (gc_state1, w1).

Definition gc_sync_position (gc_state : parser_state_t) (w : world)
  : parser_state_t :=
  set_gs_position
    (system_convert_array_steps_to_mpos (gs_position gc_state) w) gc_state.

(** The parser states that calls of the three functions can produce,
    whatever the lines and whatever the rest of the firmware does to its
    own state in between. *)
Inductive reachable : parser_state_t -> Prop :=
| reach_init (w : world) : reachable (fst (gc_init w))
| reach_sync (gs : parser_state_t) (w : world) :
    reachable gs -> reachable (gc_sync_position gs w)
| reach_line (fuel : nat) (ax : axis_indices) (line : list ascii)
    (gs gs' : parser_state_t) (w w' : world) (s : status) :
    reachable gs ->
    gc_execute_line fuel ax line gs w = Some (s, gs', w') ->
    reachable gs'.

End Init.

(** The G words of the 'G' switch, as (int_value, mantissa), and the M
    words of the 'M' switch. *)
Definition supported_G : list (Z * Z) :=
  [(0, 0); (1, 0); (2, 0); (3, 0); (4, 0); (10, 0); (20, 0); (21, 0);
   (28, 0); (28, 10); (30, 0); (30, 10);
   (38, 20); (38, 30); (38, 40); (38, 50);
   (40, 0); (53, 0); (54, 0); (55, 0); (56, 0); (57, 0); (58, 0); (59, 0);
   (61, 0); (80, 0); (90, 0); (91, 0); (91, 10); (92, 0); (92, 10);
   (93, 0); (94, 0)].

Definition supported_M : list Z := [0; 1; 2; 30].

(** The values a modal field takes: the motion modes (G38.2 to G38.5 are
    140 to 143), the two feed rate modes, units and distance modes, the six
    coordinate systems and the program flows. *)
Definition modal_in_range (m : gc_modal_t) : bool :=
  one_of (modal_motion m) [0; 1; 2; 3; 80; 140; 141; 142; 143]
  && one_of (modal_feed_rate m) [0; 1]
  && one_of (modal_units m) [0; 1]
  && one_of (modal_distance m) [0; 1]
  && one_of (modal_coord_select m) [0; 1; 2; 3; 4; 5]
  && one_of (modal_program_flow m) [0; 2; 3; 30].

(** The simulated machine reports nothing and stands at machine zero. *)
#[global] Instance sim_reports : Reports Sim.machine := {|
  report_status_message := fun _ w => w;
  system_convert_array_steps_to_mpos := fun _ _ => vec_zero
|}.

(** The letters of the alphabet that the word loop has no [case] for:
    K and Z are among them, their cases being under [#ifdef Z_AXIS]. *)
Definition unsupported_letters : list ascii :=
  list_ascii_of_string "ABCDEHKOQSTUVWZ".

(** The value words with more than one meaning, which a command has to
    take: I, J, L, P and R. *)
Definition command_value_letters : list ascii :=
  list_ascii_of_string "IJLPR".

(** The axis command of a block as STEP 2 leaves it: none, the non-modal
    command of the block (one of G10, G28, G30, G92, which then has its bit
    in [command_words]), or the motion mode. *)
Definition axis_command_ok (L : locals) : Prop :=
  (axis_command L = AXIS_COMMAND_NONE
   \/ axis_command L = AXIS_COMMAND_MOTION_MODE
   \/ (axis_command L = AXIS_COMMAND_NON_MODAL
       /\ one_of (non_modal_command (gc_block L)) [10; 28; 30; 92] = true))
  /\ (one_of (non_modal_command (gc_block L)) [10; 28; 30; 92] = true ->
      bit_istrue (command_words L) (bit MODAL_GROUP_G0) = true
      /\ axis_command L = AXIS_COMMAND_NON_MODAL)
  /\ List.length (val_xyz (values (gc_block L))) = Z.to_nat N_AXIS
  /\ (bit_istrue (command_words L) (bit MODAL_GROUP_G0) = false ->
      non_modal_command (gc_block L) = NON_MODAL_NO_ACTION).

(** The coordinate system a block works in: the one of gc_state, or, when
    the block selects another one with G54 to G59, what the settings store
    yields for it. *)
Definition block_coordinates {E : Externals} (gc_state : parser_state_t)
  (L : locals) (w : world) : vec :=
  if bit_istrue (command_words L) (bit MODAL_GROUP_G12)
     && negb (modal_coord_select (gs_modal gc_state)
              =? modal_coord_select (modal (gc_block L)))
  then snd (fst (settings_read_coord_data
                   (modal_coord_select (modal (gc_block L)))
                   (gs_coord_system gc_state) w))
  else gs_coord_system gc_state.

(** The target of an axis, as [19. Remaining non-modal actions] computes
    it from the word value [x] of the axis. *)
Definition axis_target (gc_state : parser_state_t) (L : locals)
  (coordinates : vec) (idx : Z) : float :=
  let x := vec_get (val_xyz (values (gc_block L))) idx in
  if bit_istrue (axis_words L) (bit idx) then
    if non_modal_command (gc_block L) =? NON_MODAL_ABSOLUTE_OVERRIDE then x
    else if modal_distance (modal (gc_block L)) =? DISTANCE_MODE_ABSOLUTE then
      F32.add x (F32.add (vec_get coordinates idx)
                         (vec_get (gs_coord_offset gc_state) idx))
    else F32.add x (vec_get (gs_position gc_state) idx)
  else vec_get (gs_position gc_state) idx.

(** The planner data as STEP 4 fills it in, from the block and, which is
    the same once the block is committed, from gc_state. *)
Definition state_plan_data (gc_state : parser_state_t) : plan_line_data_t :=
  {| pl_feed_rate := gs_feed_rate gc_state;
     pl_condition :=
       if negb (modal_feed_rate (gs_modal gc_state) =? 0)
       then Z.lor 0 PL_COND_FLAG_INVERSE_TIME else 0 |}.


Definition block_plan_data (L : locals) : plan_line_data_t :=
  {| pl_feed_rate := val_f (values (gc_block L));
     pl_condition :=
       if negb (modal_feed_rate (modal (gc_block L)) =? 0)
       then Z.lor 0 PL_COND_FLAG_INVERSE_TIME else 0 |}.

(** G10: the coordinate system the P word of the block names (P0 is the
    one in force), and the data to store for an axis, given the data [buf]
    read from the settings store. *)
Definition g10_slot (L : locals) : Z :=
  if 0 <? to_uint8 (F32.trunc (val_p (values (gc_block L))))
  then to_uint8 (to_uint8 (F32.trunc (val_p (values (gc_block L)))) - 1)
  else modal_coord_select (modal (gc_block L)).

Definition g10_data (gc_state : parser_state_t) (L : locals) (buf : vec)
  (idx : Z) : float :=
  if bit_istrue (axis_words L) (bit idx) then
    if val_l (values (gc_block L)) =? 20 then
      F32.sub (F32.sub (vec_get (gs_position gc_state) idx)
                       (vec_get (gs_coord_offset gc_state) idx))
              (vec_get (val_xyz (values (gc_block L))) idx)
    else vec_get (val_xyz (values (gc_block L))) idx
  else vec_get buf idx.

(** What check mode needs of the rest of the firmware: none of the calls
    that STEP 3 and STEP 4 make before the end of a program changes
    [sys.state]. *)
Definition keeps_sys_state (E : Externals) : Prop :=
  (forall idx buf w,
      sys_state (snd (settings_read_coord_data idx buf w)) = sys_state w)
  /\ (forall idx data w,
         sys_state (settings_write_coord_data idx data w) = sys_state w)
  /\ (forall t pl w, sys_state (mc_line t pl w) = sys_state w)
  /\ (forall t pl p o r a0 a1 al cw w,
         sys_state (mc_arc t pl p o r a0 a1 al cw w) = sys_state w)
  /\ (forall s w, sys_state (mc_dwell s w) = sys_state w)
  /\ (forall w, sys_state (protocol_buffer_synchronize w) = sys_state w)
  /\ (forall w, sys_state (system_flag_wco_change w) = sys_state w)
  /\ (forall f r w, sys_state (sys_set_overrides f r w) = sys_state w).

(** ** Radius-mode arcs, as the spec words them

    "Solve for a center at perpendicular offset h = sqrt(r^2 - (d/2)^2)
    from the chord midpoint; reject 4r^2 - d^2 < 0; negative R selects the
    > 180 degree arc."  With (x, y) the chord from the current position to
    the target and d its length, the centre is mid-chord plus h/d times the
    chord turned by a quarter turn, to one side or to the other.  The
    definitions below are written from these words, in binary32, and not
    from the source: [chord_discriminant] is 4r^2 - d^2, [chord_factor] is
    2h/d = sqrt(4r^2 - d^2)/d, and the centre, as an offset from the
    current position, is (x/2, y/2) plus or minus [chord_factor]/2 times
    (-y, x). *)
Definition chord_discriminant (r x y : float) : float :=
  F32.sub (F32.sub (F32.mul (F32.mul (F32.of_Z 4) r) r) (F32.mul x x))
          (F32.mul y y).

Definition chord_factor (r x y : float) : float :=
  F32.div (F32.sqrt (chord_discriminant r x y))
          (F32.sqrt (F32.add (F32.mul x x) (F32.mul y y))).

(** The two sides of the chord, seen in the direction of travel. *)
Inductive chord_side : Type := Left_of_chord | Right_of_chord.

Definition opposite_side (s : chord_side) : chord_side :=
  match s with
  | Left_of_chord => Right_of_chord
  | Right_of_chord => Left_of_chord
  end.

(** Mid-chord plus k/2 times (-y, x), the chord turned to the left, or
    plus k/2 times (y, -x), the chord turned to the right. *)
Definition centre_at (s : chord_side) (x y k : float) : float * float :=
  match s with
  | Left_of_chord =>
      (F32.mul (F32.dec 1 2) (F32.sub x (F32.mul y k)),
       F32.mul (F32.dec 1 2) (F32.add y (F32.mul x k)))
  | Right_of_chord =>
      (F32.mul (F32.dec 1 2) (F32.add x (F32.mul y k)),
       F32.mul (F32.dec 1 2) (F32.sub y (F32.mul x k)))
  end.

(** An arc of at most half a turn has its centre on the right of the
    chord when it is clockwise (G2) and on the left when it is
    counter-clockwise (G3); a negative R asks for the arc of more than half
    a turn, whose centre is on the other side. *)
Definition radius_side (motion : Z) (r : float) : chord_side :=
  let short_arc_side :=
    if motion =? MOTION_MODE_CCW_ARC then Left_of_chord else Right_of_chord in
  if F32.lt r (F32.of_Z 0) then opposite_side short_arc_side
  else short_arc_side.

Definition radius_centre (motion : Z) (r x y : float) : float * float :=
  centre_at (radius_side motion r) x y (chord_factor r x y).

(** Signs of binary32 values: [positive_sign] excludes the negative
    values and -0, [not_negative] excludes the negative values only; a NaN
    passes both. *)
Definition positive_sign (x : float) : bool :=
  match x with
  | S754_zero s | S754_infinity s | S754_finite s _ _ => negb s
  | S754_nan => true
  end.

Definition not_negative (x : float) : bool :=
  match x with
  | S754_infinity s | S754_finite s _ _ => negb s
  | _ => true
  end.

(** * Properties *)

(** ** The word loop *)

Section Loop.

Context {E : Externals}.

Lemma gc_parse_words_word (fuel : nat) (line : list ascii) (cc : Z)
  (L : locals) (letter : ascii) (v : float) (cc1 : Z) :
  word_at line cc = Some (letter, v, cc1) ->
  gc_parse_words (S fuel) line cc L =
    match gc_parse_word letter v L with
    | inl s => Some (FAIL s)
    | inr L1 => gc_parse_words fuel line cc1 L1
    end.
Proof.
  unfold word_at. cbn [gc_parse_words].
  destruct (Ascii.eqb (line_at line cc) zero); [discriminate|].
  destruct (negb (is_letter (line_at line cc))); [discriminate|].
  destruct (read_float line (to_uint8 (cc + 1))) as [[v0 c0]|]; [|discriminate].
  intros H. inversion H. subst. reflexivity.
Qed.

Lemma import_words_length (k : nat) : forall line cc L ws cc' L',
  import_words k line cc L = Some (ws, cc', L') -> List.length ws = k.
Proof.
  induction k as [|k IH]; cbn [import_words]; intros line cc L ws cc' L' H.
  - inversion H. reflexivity.
  - destruct (word_at line cc) as [[[letter v] cc1]|]; [|discriminate].
    destruct (gc_parse_word letter v L) as [s|L1]; [discriminate|].
    destruct (import_words k line cc1 L1) as [[[ws1 cc2] L2]|] eqn:Hk;
      [|discriminate].
    inversion H. subst. cbn. f_equal. eapply IH. eassumption.
Qed.

(** The loop, after [k] words imported without failure, is where
    [import_words] says. *)
Lemma gc_parse_words_import (k : nat) : forall line cc L ws cc' L' fuel,
  import_words k line cc L = Some (ws, cc', L') ->
  gc_parse_words (k + fuel) line cc L = gc_parse_words fuel line cc' L'.
Proof.
  induction k as [|k IH]; cbn [import_words]; intros line cc L ws cc' L' fuel H.
  - inversion H. reflexivity.
  - destruct (word_at line cc) as [[[letter v] cc1]|] eqn:Hw; [|discriminate].
    destruct (gc_parse_word letter v L) as [s|L1] eqn:Hp; [discriminate|].
    destruct (import_words k line cc1 L1) as [[[ws1 cc2] L2]|] eqn:Hk;
      [|discriminate].
    inversion H. subst.
    change (S k + fuel)%nat with (S (k + fuel)).
    rewrite (gc_parse_words_word _ _ _ _ _ _ _ Hw), Hp.
    eapply IH. eassumption.
Qed.

(** A word that fails ends the call with its status, and nothing has
    been written. *)
Lemma gc_execute_line_fails_at (k fuel : nat) (ax : axis_indices)
  (line : list ascii) (gs : parser_state_t) (w : world)
  (ws : list (ascii * float)) (cc : Z) (L : locals)
  (letter : ascii) (v : float) (cc1 : Z) (s : status) :
  block_words k gs line = Some (ws, cc, L) ->
  word_at line cc = Some (letter, v, cc1) ->
  gc_parse_word letter v L = inl s ->
  (k < fuel)%nat ->
  gc_execute_line fuel ax line gs w = Some (s, gs, w).
Proof.
  intros Hb Hw Hp Hk. unfold gc_execute_line, gc_parse_line.
  replace fuel with (k + S (fuel - k - 1))%nat by lia.
  rewrite (gc_parse_words_import _ _ _ _ _ _ _ _ Hb).
  rewrite (gc_parse_words_word _ _ _ _ _ _ _ Hw), Hp. reflexivity.
Qed.

End Loop.

(** ** Bitsets *)

Lemma bit_pow2 (n : Z) : 0 <= n -> bit n = 2 ^ n.
Proof. intros Hn. unfold bit. rewrite Z.shiftl_1_l. reflexivity. Qed.

Lemma testbit_bit (g h : Z) : 0 <= g -> Z.testbit (bit g) h = (g =? h).
Proof. intros Hg. rewrite bit_pow2 by assumption. apply Z.pow2_bits_eqb. assumption. Qed.

Lemma bit_istrue_testbit (x n : Z) : 0 <= n -> bit_istrue x (bit n) = Z.testbit x n.
Proof.
  intros Hn. unfold bit_istrue.
  destruct (Z.testbit x n) eqn:Ht.
  - apply negb_true_iff, Z.eqb_neq. intros H0.
    assert (Hb : Z.testbit (Z.land x (bit n)) n = true).
    { rewrite Z.land_spec, Ht, testbit_bit, Z.eqb_refl by assumption. reflexivity. }
    rewrite H0, Z.bits_0 in Hb. discriminate.
  - apply negb_false_iff, Z.eqb_eq. apply Z.bits_inj'. intros k Hk.
    rewrite Z.land_spec, Z.bits_0, testbit_bit by assumption.
    destruct (Z.eqb_spec n k) as [->|_]; [rewrite Ht|]; auto using andb_false_r.
Qed.

Lemma bit_isfalse_istrue (x m : Z) : bit_isfalse x m = negb (bit_istrue x m).
Proof. unfold bit_isfalse, bit_istrue. rewrite negb_involutive. reflexivity. Qed.

Lemma bit_istrue_lor (x g h : Z) : 0 <= g -> 0 <= h ->
  bit_istrue (Z.lor x (bit g)) (bit h) = bit_istrue x (bit h) || (g =? h).
Proof.
  intros Hg Hh. rewrite !bit_istrue_testbit, Z.lor_spec, testbit_bit by assumption.
  reflexivity.
Qed.

(** ** One word *)

Arguments one_of : simpl never.
Arguments bit : simpl never.
Arguments bit_istrue : simpl never.
Arguments bit_isfalse : simpl never.
Arguments bit_false : simpl never.

Ltac split_ifs :=
  repeat match goal with
         | |- context [if ?b then _ else _] =>
             let H := fresh "Hb" in destruct b eqn:H
         end.

Ltac zbool :=
  repeat match goal with
         | H : negb _ = true |- _ => apply negb_true_iff in H
         | H : negb _ = false |- _ => apply negb_false_iff in H
         | H : (_ =? _) = true |- _ => apply Z.eqb_eq in H
         | H : (_ =? _) = false |- _ => apply Z.eqb_neq in H
         end.

Ltac axis_consts :=
  unfold AXIS_COMMAND_NONE, AXIS_COMMAND_NON_MODAL, AXIS_COMMAND_MOTION_MODE in *.

(** The 'G' switch in a block that already has words [L], against the
    same word at the head of a block: the same group and mantissa, unless
    the axis-command guard fires first. *)
Lemma G_switch_blank (iv m : Z) (L : locals) :
  match G_switch iv m blank with
  | inl e => G_switch iv m L = inl e
             \/ G_switch iv m L = inl STATUS_GCODE_AXIS_COMMAND_CONFLICT
  | inr (wb, m', Lb) =>
      (axis_command Lb <> 0 /\ axis_command L <> 0 /\
       G_switch iv m L = inl STATUS_GCODE_AXIS_COMMAND_CONFLICT)
      \/ (exists L', G_switch iv m L = inr (wb, m', L') /\
            command_words L' = command_words L /\
            value_words L' = value_words L /\
            gc_parser_flags L' = gc_parser_flags L /\
            (axis_command Lb <> 0 -> axis_command L = 0 /\ axis_command L' <> 0) /\
            (axis_command Lb = 0 -> axis_command L' = axis_command L))
  end.
Proof.
  unfold G_switch, G_non_modal, G_motion, bind, ok, FAIL.
  change (axis_command blank) with 0. cbn [Z.eqb negb].
  split_ifs; cbn; zbool; axis_consts;
    first [ solve [left; repeat split; (discriminate || assumption || reflexivity)]
          | solve [right; reflexivity]
          | solve [right; eexists; repeat split; cbn;
                   first [ reflexivity | assumption | discriminate
                         | intros; congruence | intros; split; congruence ]] ].
Qed.

Ltac word_cases :=
  unfold gc_parse_word, parse_G, parse_M, parse_value, G_switch, G_non_modal,
    G_motion, value_switch, modal_group_check, bind, ok, FAIL;
  split_ifs.

Lemma bit_istrue_lor_l (x g h : Z) : 0 <= g -> 0 <= h ->
  bit_istrue x (bit h) = true -> bit_istrue (Z.lor x (bit g)) (bit h) = true.
Proof. intros Hg Hh H. rewrite bit_istrue_lor, H by assumption. reflexivity. Qed.

Lemma gc_parse_word_frame (letter : ascii) (v : float) (L L' : locals) :
  gc_parse_word letter v L = inr L' ->
  gc_parser_flags L' = gc_parser_flags L
  /\ (axis_command L <> 0 -> axis_command L' <> 0)
  /\ (Ascii.eqb letter "G" = false -> axis_command L' = axis_command L)
  /\ (forall g, 0 <= g -> bit_istrue (command_words L) (bit g) = true ->
                 bit_istrue (command_words L') (bit g) = true)
  /\ (forall g, 0 <= g -> bit_istrue (value_words L) (bit g) = true ->
                 bit_istrue (value_words L') (bit g) = true).
Proof.
  word_cases; intros H; try discriminate H; injection H as <-; cbn; zbool;
    (split; [reflexivity|]); (split; [axis_consts; congruence|]);
    (split; [first [reflexivity | discriminate]|]);
    split; intros g Hg Hbit; try assumption;
    apply bit_istrue_lor_l; (assumption || discriminate).
Qed.

Lemma G_switch_word_bit (iv m : Z) (L : locals) (wb m' : Z) (L' : locals) :
  G_switch iv m L = inr (wb, m', L') -> 0 <= wb.
Proof.
  unfold G_switch, G_non_modal, G_motion, bind, ok, FAIL.
  split_ifs; intros H; try discriminate H; injection H as <- _ _; discriminate.
Qed.

Lemma bit_istrue_0 (m : Z) : bit_istrue 0 m = false.
Proof. reflexivity. Qed.

Lemma log2_bit (g : Z) : 0 <= g -> Z.log2 (bit g) = g.
Proof.
  intros Hg. rewrite bit_pow2 by assumption.
  apply Z.log2_pow2. assumption.
Qed.

(** A command word whose group is [g], met in a block that already has
    words [L]. *)
Lemma command_word_context (w : ascii * float) (g : Z) (L : locals) :
  command_group w = Some g ->
  0 <= g /\
  match gc_parse_word (fst w) (snd w) L with
  | inl e =>
      (e = STATUS_GCODE_AXIS_COMMAND_CONFLICT
       /\ sets_axis_command w = true /\ axis_command L <> 0)
      \/ (e = STATUS_GCODE_MODAL_GROUP_VIOLATION
          /\ bit_istrue (command_words L) (bit g) = true
          /\ (sets_axis_command w = true -> axis_command L = 0))
  | inr L' =>
      command_words L' = Z.lor (command_words L) (bit g)
      /\ bit_istrue (command_words L) (bit g) = false
      /\ (sets_axis_command w = true -> axis_command L = 0 /\ axis_command L' <> 0)
  end.
Proof.
  destruct w as [letter v]. unfold command_group, sets_axis_command, gc_parse_word.
  cbn [fst snd].
  destruct (Ascii.eqb letter "G") eqn:HG.
  - cbn [orb]. unfold parse_G, bind.
    pose proof (G_switch_blank (int_value_of v) (mantissa_of v) L) as Hctx.
    destruct (G_switch (int_value_of v) (mantissa_of v) blank)
      as [e|[[wb m'] Lb]] eqn:Hblank; [discriminate|].
    pose proof (G_switch_word_bit _ _ _ _ _ _ Hblank) as Hwb.
    destruct (0 <? m') eqn:Hm; [discriminate|].
    unfold modal_group_check.
    replace (command_words Lb) with 0.
    2:{ pose proof (G_switch_blank (int_value_of v) (mantissa_of v) blank) as Hb.
        rewrite Hblank in Hb. destruct Hb as [(_ & Hx & _)|(L0 & Heq & Hcw & _)].
        - exfalso. apply Hx. reflexivity.
        - injection Heq as <-. rewrite Hcw. reflexivity. }
    rewrite bit_istrue_0. unfold ok, FAIL. cbn.
    intros Hg. injection Hg as <-. rewrite ?Z.lor_0_l, log2_bit by assumption.
    split; [assumption|].
    destruct Hctx as [(Hab & HaL & ->)|(L' & -> & Hcw & _ & _ & Hset & Hkeep)].
    + left. repeat split; [|assumption].
      apply negb_true_iff, Z.eqb_neq. assumption.
    + rewrite Hm. rewrite Hcw.
      destruct (bit_istrue (command_words L) (bit wb)) eqn:Hbit.
      * right. repeat split. intros Hs. apply negb_true_iff, Z.eqb_neq in Hs.
        apply Hset. assumption.
      * cbn. split; [reflexivity|]. split; [reflexivity|]. intros Hs.
        apply negb_true_iff, Z.eqb_neq in Hs. apply Hset. assumption.
  - destruct (Ascii.eqb letter "M") eqn:HM; [|discriminate].
    cbn [orb]. unfold parse_M, modal_group_check, bind, ok, FAIL.
    split_ifs; intros Hg; try discriminate Hg; injection Hg as <-;
      (split; [discriminate|]);
      first [ solve [right; repeat split; (assumption || discriminate)]
            | solve [split; [reflexivity|]; split; [assumption|]; discriminate] ].
Qed.

Lemma word_bit_of_cases (letter : ascii) (wb : Z) :
  word_bit_of letter = Some wb -> In (letter, wb) value_letters.
Proof.
  unfold word_bit_of, value_switch, ok, FAIL.
  split_ifs; intros H; try discriminate H; injection H as <-;
    repeat match goal with
           | H : (_ =? _)%char = true |- _ => apply Ascii.eqb_eq in H; subst
           end;
    cbn; auto 20.
Qed.

Ltac value_letter H :=
  apply word_bit_of_cases in H; cbn [In value_letters] in H;
  repeat (destruct H as [H|H]; [injection H as <- <-|]); [..|contradiction].

(** A value word whose bit is [wb], met in a block that already has words
    [L]. *)
Lemma value_word_context (letter : ascii) (v : float) (wb : Z) (L : locals) :
  word_bit_of letter = Some wb ->
  0 <= wb /\
  match gc_parse_word letter v L with
  | inl e =>
      (e = STATUS_GCODE_WORD_REPEATED
       /\ bit_istrue (value_words L) (bit wb) = true)
      \/ (e = STATUS_NEGATIVE_VALUE
          /\ bit_istrue (value_words L) (bit wb) = false
          /\ negative_rejected letter = true /\ F32.lt v F32.zero = true)
  | inr L' =>
      value_words L' = Z.lor (value_words L) (bit wb)
      /\ command_words L' = command_words L
      /\ axis_command L' = axis_command L
      /\ bit_istrue (value_words L) (bit wb) = false
      /\ (negative_rejected letter = true -> F32.lt v F32.zero = false)
  end.
Proof.
  intros H. value_letter H; (split; [discriminate|]);
    unfold gc_parse_word, parse_value, value_switch, bind, ok, FAIL;
    cbn [Ascii.eqb Bool.eqb]; cbn [value_words upd_block set_axis_words set_ijk_words];
    match goal with
    | |- context [negb (Z.land (bit ?w) negative_checked =? 0)] =>
        let b := eval vm_compute in (negb (Z.land (bit w) negative_checked =? 0)) in
        change (negb (Z.land (bit w) negative_checked =? 0)) with b
    end; cbn [andb];
    split_ifs; cbn;
    first [ solve [left; split; first [reflexivity | assumption]]
          | solve [right; repeat split; first [assumption | reflexivity]]
          | solve [repeat split; first [assumption | reflexivity | discriminate
                                        | intros _; assumption ]] ].
Qed.

Ltac ascii_eqs :=
  repeat match goal with
         | H : (_ =? _)%char = true |- _ => apply Ascii.eqb_eq in H; subst
         end.

(** What a word does to [value_words]. *)
Lemma gc_parse_word_value_words (l : ascii) (v : float) (L L1 : locals) :
  gc_parse_word l v L = inr L1 ->
  value_words L1 = match word_bit_of l with
                   | Some wb => Z.lor (value_words L) (bit wb)
                   | None => value_words L
                   end.
Proof.
  destruct (word_bit_of l) as [wb|] eqn:Hwb.
  - pose proof (value_word_context l v wb L Hwb) as [_ H].
    intros Hp. rewrite Hp in H. apply H.
  - revert Hwb. unfold word_bit_of, value_switch at 1, ok, FAIL.
    split_ifs; intros Hwb; try discriminate Hwb; clear Hwb;
      word_cases; intros H; try discriminate H; injection H as <-; try reflexivity;
      ascii_eqs; discriminate.
Qed.

Lemma word_bit_of_eqb (a b : ascii) (x y : Z) :
  word_bit_of a = Some x -> word_bit_of b = Some y -> (y =? x) = Ascii.eqb a b.
Proof.
  intros Ha Hb. value_letter Ha; value_letter Hb; reflexivity.
Qed.

Lemma word_bit_of_nonneg (a : ascii) (x : Z) : word_bit_of a = Some x -> 0 <= x.
Proof. intros Ha. value_letter Ha; discriminate. Qed.

Lemma gc_parse_word_value_bit (l : ascii) (v : float) (L L1 : locals)
  (letter : ascii) (wb : Z) :
  gc_parse_word l v L = inr L1 ->
  word_bit_of letter = Some wb ->
  bit_istrue (value_words L1) (bit wb)
  = bit_istrue (value_words L) (bit wb) || Ascii.eqb letter l.
Proof.
  intros Hp Hwb. rewrite (gc_parse_word_value_words _ _ _ _ Hp).
  pose proof (word_bit_of_nonneg _ _ Hwb) as Hnn.
  destruct (word_bit_of l) as [wb'|] eqn:Hl.
  - rewrite bit_istrue_lor by eauto using word_bit_of_nonneg.
    rewrite (word_bit_of_eqb _ _ _ _ Hwb Hl). reflexivity.
  - destruct (Ascii.eqb_spec letter l) as [->|_].
    + congruence.
    + rewrite orb_false_r. reflexivity.
Qed.

Lemma sets_axis_command_group (w : ascii * float) :
  sets_axis_command w = true -> exists g, command_group w = Some g.
Proof.
  destruct w as [l v]. unfold sets_axis_command, command_group. cbn [fst snd].
  destruct (gc_parse_word l v blank) as [e|Lb] eqn:Hp; [discriminate|].
  destruct (Ascii.eqb l "G") eqn:HG; [intros _; eexists; reflexivity|].
  destruct (Ascii.eqb l "M") eqn:HM; [intros _; eexists; reflexivity|].
  destruct (gc_parse_word_frame _ _ _ _ Hp) as (_ & _ & Hax & _).
  rewrite (Hax HG). discriminate.
Qed.

Section Block.

Context {E : Externals}.

Lemma import_words_inv (k : nat) : forall line cc L ws cc' L',
  import_words k line cc L = Some (ws, cc', L') ->
  gc_parser_flags L' = gc_parser_flags L
  /\ (axis_command L <> 0 -> axis_command L' <> 0)
  /\ (forall g, 0 <= g -> bit_istrue (command_words L) (bit g) = true ->
                 bit_istrue (command_words L') (bit g) = true)
  /\ (forall w g, In w ws -> command_group w = Some g ->
                   bit_istrue (command_words L') (bit g) = true)
  /\ (forall w, In w ws -> sets_axis_command w = true -> axis_command L' <> 0)
  /\ (forall letter wb, word_bit_of letter = Some wb ->
        bit_istrue (value_words L') (bit wb)
        = bit_istrue (value_words L) (bit wb)
          || existsb (Ascii.eqb letter) (map fst ws)).
Proof.
  induction k as [|k IH]; cbn [import_words]; intros line cc L ws cc' L' H.
  - injection H as <- <- <-. cbn.
    repeat split; try tauto. intros. rewrite orb_false_r. reflexivity.
  - destruct (word_at line cc) as [[[l v] cc1]|] eqn:Hw; [|discriminate].
    destruct (gc_parse_word l v L) as [s|L1] eqn:Hp; [discriminate|].
    destruct (import_words k line cc1 L1) as [[[ws1 cc2] L2]|] eqn:Hk;
      [|discriminate].
    injection H as <- <- <-.
    destruct (IH _ _ _ _ _ _ Hk) as (Hf & Hax & Hcw & Hgrp & Hset & Hvw).
    destruct (gc_parse_word_frame _ _ _ _ Hp) as (Hf1 & Hax1 & _ & Hcw1 & _).
    split; [congruence|]. split; [auto|]. split; [auto|].
    split; [|split].
    + intros w g [<-|Hin] Hg; [|eauto].
      destruct (command_word_context _ _ L Hg) as [Hg0 Hctx].
      cbn [fst snd] in Hctx. rewrite Hp in Hctx. destruct Hctx as (Hc & _ & _).
      apply Hcw; [assumption|]. rewrite Hc.
      rewrite bit_istrue_lor, Z.eqb_refl by assumption. apply orb_true_r.
    + intros w [<-|Hin] Hs; [|eauto].
      destruct (sets_axis_command_group _ Hs) as [g Hg].
      destruct (command_word_context _ _ L Hg) as [_ Hctx].
      cbn [fst snd] in Hctx. rewrite Hp in Hctx. destruct Hctx as (_ & _ & Hc).
      apply Hax. apply Hc. assumption.
    + intros letter wb Hwb. rewrite (Hvw _ _ Hwb).
      rewrite (gc_parse_word_value_bit _ _ _ _ _ _ Hp Hwb).
      cbn [map fst existsb]. rewrite orb_assoc. reflexivity.
Qed.

End Block.

Ltac one_of_cases H :=
  unfold one_of in H; cbn [existsb] in H;
  repeat (apply orb_true_iff in H; destruct H as [H|H]);
  try discriminate H; apply Z.eqb_eq in H.

Lemma axis_non_modal_word_sets (w : ascii * float) :
  axis_non_modal_word w = true -> sets_axis_command w = true.
Proof.
  destruct w as [l v]. unfold axis_non_modal_word, sets_axis_command, gc_parse_word.
  cbn [fst snd]. intros H.
  apply andb_true_iff in H. destruct H as [Hl H].
  apply andb_true_iff in H. destruct H as [Hiv Hm].
  apply Z.eqb_eq in Hm. rewrite Hl, Hm.
  one_of_cases Hiv; rewrite Hiv; reflexivity.
Qed.

Lemma axis_motion_word_sets (w : ascii * float) :
  axis_motion_word w = true -> sets_axis_command w = true.
Proof.
  destruct w as [l v]. unfold axis_motion_word, sets_axis_command, gc_parse_word.
  cbn [fst snd]. intros H.
  apply andb_true_iff in H. destruct H as [Hl H]. rewrite Hl.
  apply orb_true_iff in H. destruct H as [H|H];
    apply andb_true_iff in H; destruct H as [Hiv Hm].
  - apply Z.eqb_eq in Hm. rewrite Hm. one_of_cases Hiv; rewrite Hiv; reflexivity.
  - apply Z.eqb_eq in Hiv. rewrite Hiv. one_of_cases Hm; rewrite Hm; reflexivity.
Qed.

(** A command word that sets the axis command, met after another one. *)
Lemma second_axis_command_conflicts (w : ascii * float) (L : locals) :
  sets_axis_command w = true -> axis_command L <> 0 ->
  gc_parse_word (fst w) (snd w) L = inl STATUS_GCODE_AXIS_COMMAND_CONFLICT.
Proof.
  intros Hs Hax. destruct (sets_axis_command_group _ Hs) as [g Hg].
  destruct (command_word_context _ _ L Hg) as [_ Hctx].
  destruct (gc_parse_word (fst w) (snd w) L) as [e|L'].
  - destruct Hctx as [(-> & _)|(_ & _ & H0)]; [reflexivity|].
    exfalso. apply Hax, H0, Hs.
  - destruct Hctx as (_ & _ & H0). exfalso. apply Hax, H0, Hs.
Qed.

(** The dotted variants G28.1, G30.1 and G92.1 leave the axis command as
    it is. *)
Lemma dotted_non_modal_keeps_axis_command (v : float) (L : locals) :
  one_of (int_value_of v) [28; 30; 92] = true ->
  mantissa_of v = 10 ->
  bit_istrue (command_words L) (bit MODAL_GROUP_G0) = false ->
  exists L', gc_parse_word "G" v L = inr L' /\ axis_command L' = axis_command L.
Proof.
  intros Hiv Hm Hbit. unfold gc_parse_word. cbn [Ascii.eqb Bool.eqb].
  rewrite Hm. one_of_cases Hiv; rewrite Hiv;
    unfold parse_G, G_switch, G_non_modal, modal_group_check, bind, ok, FAIL, one_of;
    cbn; rewrite Hbit; eexists; split; reflexivity.
Qed.

(** C6. Axis-command conflict: a block in which one of G10, G28, G30, G92
    (integer form) and one of G0, G1, G2, G3, G38.2-G38.5 both appear, in
    either order, is rejected with STATUS_GCODE_AXIS_COMMAND_CONFLICT when
    the loop gets to the second of them, and gc_state is untouched; the
    dotted G28.1, G30.1 and G92.1 do not set the axis command. *)
Theorem C6_axis_command_conflict
  (E : Externals) (k fuel : nat) (ax : axis_indices) (line : list ascii)
  (gs : parser_state_t) (w : world) (ws : list (ascii * float)) (cc : Z)
  (L : locals) (w1 w2 : ascii * float) (cc' : Z) (v0 : float) (L0 : locals) :
  block_words k gs line = Some (ws, cc, L) ->
  In w1 ws ->
  word_at line cc = Some (fst w2, snd w2, cc') ->
  (axis_non_modal_word w1 = true /\ axis_motion_word w2 = true)
  \/ (axis_motion_word w1 = true /\ axis_non_modal_word w2 = true) ->
  (k < fuel)%nat ->
  gc_execute_line fuel ax line gs w
  = Some (STATUS_GCODE_AXIS_COMMAND_CONFLICT, gs, w)
  /\ (one_of (int_value_of v0) [28; 30; 92] = true ->
      mantissa_of v0 = 10 ->
      bit_istrue (command_words L0) (bit MODAL_GROUP_G0) = false ->
      exists L', gc_parse_word "G" v0 L0 = inr L'
                 /\ axis_command L' = axis_command L0).
Proof.
  intros Hb Hin Hw Hor Hk. split.
  - assert (Hs : sets_axis_command w1 = true /\ sets_axis_command w2 = true).
    { destruct Hor as [[H1 H2]|[H1 H2]];
        auto using axis_non_modal_word_sets, axis_motion_word_sets. }
    destruct Hs as [Hs1 Hs2].
    destruct (import_words_inv _ _ _ _ _ _ _ Hb) as (_ & _ & _ & _ & Hset & _).
    eapply gc_execute_line_fails_at; eauto.
    apply second_axis_command_conflicts; eauto.
  - apply dotted_non_modal_keeps_axis_command.
Qed.

(** C6, on G10L2P1X0G1, on G1X0G92 and on G28.1. *)
Lemma C6_witness :
  gc_execute_line (E := Sim.machine) 10 Sim.g17 (Sim.chars "G10L2P1X0G1")
    gc_state_zero Sim.boot
  = Some (STATUS_GCODE_AXIS_COMMAND_CONFLICT, gc_state_zero, Sim.boot)
  /\ gc_execute_line (E := Sim.machine) 10 Sim.g17 (Sim.chars "G1X0G92")
       gc_state_zero Sim.boot
     = Some (STATUS_GCODE_AXIS_COMMAND_CONFLICT, gc_state_zero, Sim.boot)
  /\ exists L', gc_parse_word "G" (F32.dec 281 10) blank = inr L'
                /\ axis_command L' = axis_command blank.
Proof.
  split; [|split].
  - refine (proj1 (C6_axis_command_conflict Sim.machine 4 10 Sim.g17
             (Sim.chars "G10L2P1X0G1") gc_state_zero Sim.boot _ _ _
             ("G"%char, F32.of_Z 10) ("G"%char, F32.of_Z 1) _ F32.zero blank
             _ _ _ _ _)).
    + lazy. reflexivity.
    + cbn. auto.
    + lazy. reflexivity.
    + left. split; reflexivity.
    + lia.
  - refine (proj1 (C6_axis_command_conflict Sim.machine 2 10 Sim.g17
             (Sim.chars "G1X0G92") gc_state_zero Sim.boot _ _ _
             ("G"%char, F32.of_Z 1) ("G"%char, F32.of_Z 92) _ F32.zero blank
             _ _ _ _ _)).
    + lazy. reflexivity.
    + cbn. auto.
    + lazy. reflexivity.
    + right. split; reflexivity.
    + lia.
  - refine (proj2 (C6_axis_command_conflict Sim.machine 2 10 Sim.g17
             (Sim.chars "G1X0G92") gc_state_zero Sim.boot _ _ _
             ("G"%char, F32.of_Z 1) ("G"%char, F32.of_Z 92) _
             (F32.dec 281 10) blank _ _ _ _ _) _ _ _).
    + lazy. reflexivity.
    + cbn. auto.
    + lazy. reflexivity.
    + right. split; reflexivity.
    + lia.
    + vm_compute. reflexivity.
    + vm_compute. reflexivity.
    + vm_compute. reflexivity.
Defined.

(** C3 (as the code has it). Two command words of one modal group in a
    block: when the loop gets to the second, the block is rejected and
    gc_state is untouched.  The status is
    STATUS_GCODE_AXIS_COMMAND_CONFLICT when the second word sets the axis
    command and an axis command is already set (which is the case whenever
    the first word sets it too, as with G0 and G1), and
    STATUS_GCODE_MODAL_GROUP_VIOLATION otherwise; the order of the two
    words plays no part. *)
Theorem C3_same_group_rejected
  (E : Externals) (k fuel : nat) (ax : axis_indices) (line : list ascii)
  (gs : parser_state_t) (w : world) (ws : list (ascii * float)) (cc : Z)
  (L : locals) (w1 w2 : ascii * float) (cc' : Z) (g : Z) :
  block_words k gs line = Some (ws, cc, L) ->
  In w1 ws ->
  word_at line cc = Some (fst w2, snd w2, cc') ->
  command_group w1 = Some g ->
  command_group w2 = Some g ->
  (k < fuel)%nat ->
  gc_execute_line fuel ax line gs w
  = Some (if sets_axis_command w2 && negb (axis_command L =? 0)
          then STATUS_GCODE_AXIS_COMMAND_CONFLICT
          else STATUS_GCODE_MODAL_GROUP_VIOLATION, gs, w)
  /\ (sets_axis_command w1 = true -> axis_command L <> 0).
Proof.
  intros Hb Hin Hw Hg1 Hg2 Hk.
  destruct (import_words_inv _ _ _ _ _ _ _ Hb) as (_ & _ & _ & Hgrp & Hset & _).
  split; [|eauto].
  eapply gc_execute_line_fails_at; eauto.
  pose proof (Hgrp _ _ Hin Hg1) as Hbit.
  destruct (command_word_context _ _ L Hg2) as [_ Hctx].
  destruct (gc_parse_word (fst w2) (snd w2) L) as [e|L'].
  - destruct Hctx as [(-> & -> & Hax)|(-> & _ & H0)].
    + apply Z.eqb_neq in Hax. rewrite Hax. reflexivity.
    + destruct (sets_axis_command w2); [|reflexivity].
      rewrite (H0 eq_refl). reflexivity.
  - destruct Hctx as (_ & Hfalse & _). congruence.
Qed.

Ltac with_block k gs line tac :=
  let r := eval vm_compute in (block_words (E := Sim.machine) k gs line) in
  lazymatch r with
  | Some (?ws, ?cc, ?L) => tac ws cc L
  end.

(** C3 as amended, on G54X1G55, G80G0 and G3G2. *)
Lemma C3_witness :
  gc_execute_line (E := Sim.machine) 10 Sim.g17 (Sim.chars "G54X1G55")
    gc_state_zero Sim.boot
  = Some (STATUS_GCODE_MODAL_GROUP_VIOLATION, gc_state_zero, Sim.boot)
  /\ gc_execute_line (E := Sim.machine) 10 Sim.g17 (Sim.chars "G80G0")
       gc_state_zero Sim.boot
     = Some (STATUS_GCODE_MODAL_GROUP_VIOLATION, gc_state_zero, Sim.boot)
  /\ gc_execute_line (E := Sim.machine) 10 Sim.g17 (Sim.chars "G3G2")
       gc_state_zero Sim.boot
     = Some (STATUS_GCODE_AXIS_COMMAND_CONFLICT, gc_state_zero, Sim.boot).
Proof.
  split; [|split].
  - with_block 2%nat gc_state_zero (Sim.chars "G54X1G55") ltac:(fun ws cc L =>
      refine (proj1 (C3_same_group_rejected Sim.machine 2 10 Sim.g17
                (Sim.chars "G54X1G55") gc_state_zero Sim.boot ws cc L
                ("G"%char, F32.of_Z 54) ("G"%char, F32.of_Z 55) _
                MODAL_GROUP_G12 _ _ _ _ _ _))).
    + vm_compute. reflexivity.
    + cbn. auto.
    + lazy. reflexivity.
    + reflexivity.
    + reflexivity.
    + lia.
  - with_block 1%nat gc_state_zero (Sim.chars "G80G0") ltac:(fun ws cc L =>
      refine (proj1 (C3_same_group_rejected Sim.machine 1 10 Sim.g17
                (Sim.chars "G80G0") gc_state_zero Sim.boot ws cc L
                ("G"%char, F32.of_Z 80) ("G"%char, F32.of_Z 0) _
                MODAL_GROUP_G1 _ _ _ _ _ _))).
    + vm_compute. reflexivity.
    + cbn. auto.
    + lazy. reflexivity.
    + reflexivity.
    + reflexivity.
    + lia.
  - with_block 1%nat gc_state_zero (Sim.chars "G3G2") ltac:(fun ws cc L =>
      refine (proj1 (C3_same_group_rejected Sim.machine 1 10 Sim.g17
                (Sim.chars "G3G2") gc_state_zero Sim.boot ws cc L
                ("G"%char, F32.of_Z 3) ("G"%char, F32.of_Z 2) _
                MODAL_GROUP_G1 _ _ _ _ _ _))).
    + vm_compute. reflexivity.
    + cbn. auto.
    + lazy. reflexivity.
    + reflexivity.
    + reflexivity.
    + lia.
Defined.

(** C3, counterexample. G0 and G1 are two distinct commands of the motion
    group; the block G0G1 (and G1G0) is rejected with
    STATUS_GCODE_AXIS_COMMAND_CONFLICT, not with
    STATUS_GCODE_MODAL_GROUP_VIOLATION. *)
Lemma C3_counterexample :
  command_group ("G"%char, F32.of_Z 0) = Some MODAL_GROUP_G1
  /\ command_group ("G"%char, F32.of_Z 1) = Some MODAL_GROUP_G1
  /\ Sim.run Sim.g17 "G0G1" gc_state_zero Sim.boot
     = Some (STATUS_GCODE_AXIS_COMMAND_CONFLICT, gc_state_zero)
  /\ Sim.run Sim.g17 "G1G0" gc_state_zero Sim.boot
     = Some (STATUS_GCODE_AXIS_COMMAND_CONFLICT, gc_state_zero)
  /\ Sim.run Sim.g17 "G0G1" gc_state_zero Sim.boot
     <> Some (STATUS_GCODE_MODAL_GROUP_VIOLATION, gc_state_zero).
Proof.
  repeat split; try (vm_compute; reflexivity).
  vm_compute. discriminate.
Qed.

Lemma gc_block_init_value_words (gs : parser_state_t) (line : list ascii) :
  value_words (gc_block_init gs line) = 0.
Proof. unfold gc_block_init. destruct (is_jog line); reflexivity. Qed.

Lemma negative_rejected_word_bit (letter : ascii) :
  negative_rejected letter = true -> exists wb, word_bit_of letter = Some wb.
Proof.
  unfold negative_rejected. intros H.
  repeat (apply orb_true_iff in H; destruct H as [H|H]);
    apply Ascii.eqb_eq in H; subst; eexists; reflexivity.
Qed.

Section ValueWords.

Context {E : Externals}.

(** A value word has its bit in [value_words] exactly when the block has
    the word already. *)
Lemma block_words_value_bit (k : nat) (gs : parser_state_t) (line : list ascii)
  (ws : list (ascii * float)) (cc : Z) (L : locals) (letter : ascii) (wb : Z) :
  block_words k gs line = Some (ws, cc, L) ->
  word_bit_of letter = Some wb ->
  bit_istrue (value_words L) (bit wb) = existsb (Ascii.eqb letter) (map fst ws).
Proof.
  intros Hb Hwb.
  destruct (import_words_inv _ _ _ _ _ _ _ Hb) as (_ & _ & _ & _ & _ & Hvw).
  rewrite (Hvw _ _ Hwb), gc_block_init_value_words. reflexivity.
Qed.

End ValueWords.

(** C9 (as the code has it). When the loop gets to a value word: F, N or
    P with a negative value, not yet present in the block, is rejected with
    STATUS_NEGATIVE_VALUE; a value word the parser knows (F, I, J, L, N, P,
    R, X, Y) that the block already has is rejected with
    STATUS_GCODE_WORD_REPEATED; an S word, whatever its value, is rejected
    with STATUS_GCODE_UNSUPPORTED_COMMAND, for this parser has no S word,
    and so is a K or a Z word, repeated or not, for this build has no
    third axis.  In each case gc_state is untouched. *)
Theorem C9_value_word_checks
  (E : Externals) (k fuel : nat) (ax : axis_indices) (line : list ascii)
  (gs : parser_state_t) (w : world) (ws : list (ascii * float)) (cc : Z)
  (L : locals) (letter : ascii) (v : float) (cc' : Z) :
  block_words k gs line = Some (ws, cc, L) ->
  word_at line cc = Some (letter, v, cc') ->
  (k < fuel)%nat ->
  (negative_rejected letter = true ->
   F32.lt v F32.zero = true ->
   existsb (Ascii.eqb letter) (map fst ws) = false ->
   gc_execute_line fuel ax line gs w = Some (STATUS_NEGATIVE_VALUE, gs, w))
  /\ (In letter (map fst value_letters) ->
      existsb (Ascii.eqb letter) (map fst ws) = true ->
      gc_execute_line fuel ax line gs w = Some (STATUS_GCODE_WORD_REPEATED, gs, w))
  /\ (letter = "S"%char \/ letter = "K"%char \/ letter = "Z"%char ->
      gc_execute_line fuel ax line gs w
      = Some (STATUS_GCODE_UNSUPPORTED_COMMAND, gs, w)).
Proof.
  intros Hb Hw Hk. split; [|split].
  - intros Hneg Hlt Hnew.
    destruct (negative_rejected_word_bit _ Hneg) as [wb Hwb].
    eapply gc_execute_line_fails_at; eauto.
    pose proof (block_words_value_bit _ _ _ _ _ _ _ _ Hb Hwb) as Hbit.
    rewrite Hnew in Hbit.
    destruct (value_word_context letter v wb L Hwb) as [_ Hctx].
    destruct (gc_parse_word letter v L) as [e|L'].
    + destruct Hctx as [(_ & H)|(-> & _)]; [congruence|reflexivity].
    + destruct Hctx as (_ & _ & _ & _ & H). rewrite (H Hneg) in Hlt. discriminate.
  - intros Hin Hrep.
    assert (Hwb : exists wb, word_bit_of letter = Some wb).
    { cbn in Hin. repeat (destruct Hin as [<-|Hin]; [eexists; reflexivity|]).
      contradiction. }
    destruct Hwb as [wb Hwb].
    eapply gc_execute_line_fails_at; eauto.
    pose proof (block_words_value_bit _ _ _ _ _ _ _ _ Hb Hwb) as Hbit.
    rewrite Hrep in Hbit.
    destruct (value_word_context letter v wb L Hwb) as [_ Hctx].
    destruct (gc_parse_word letter v L) as [e|L'].
    + destruct Hctx as [(-> & _)|(_ & H & _)]; [reflexivity|congruence].
    + destruct Hctx as (_ & _ & _ & H & _). congruence.
  - intros [-> | [-> | ->]]; eapply gc_execute_line_fails_at; eauto.
Qed.

(** C9 as amended, on G1X1F-100, X1Y2X-3, G1X1S1000 and G1X1K1K2. *)
Lemma C9_witness :
  gc_execute_line (E := Sim.machine) 10 Sim.g17 (Sim.chars "G1X1F-100")
    gc_state_zero Sim.boot
  = Some (STATUS_NEGATIVE_VALUE, gc_state_zero, Sim.boot)
  /\ gc_execute_line (E := Sim.machine) 10 Sim.g17 (Sim.chars "X1Y2X-3")
       gc_state_zero Sim.boot
     = Some (STATUS_GCODE_WORD_REPEATED, gc_state_zero, Sim.boot)
  /\ gc_execute_line (E := Sim.machine) 10 Sim.g17 (Sim.chars "G1X1S1000")
       gc_state_zero Sim.boot
     = Some (STATUS_GCODE_UNSUPPORTED_COMMAND, gc_state_zero, Sim.boot)
  /\ gc_execute_line (E := Sim.machine) 10 Sim.g17 (Sim.chars "G1X1K1K2")
       gc_state_zero Sim.boot
     = Some (STATUS_GCODE_UNSUPPORTED_COMMAND, gc_state_zero, Sim.boot).
Proof.
  split; [|split; [|split]].
  - with_block 2%nat gc_state_zero (Sim.chars "G1X1F-100") ltac:(fun ws cc L =>
      refine (proj1 (C9_value_word_checks Sim.machine 2 10 Sim.g17
                (Sim.chars "G1X1F-100") gc_state_zero Sim.boot ws cc L
                "F"%char (F32.of_Z (-100)) _ _ _ _) _ _ _)).
    + vm_compute. reflexivity.
    + lazy. reflexivity.
    + lia.
    + reflexivity.
    + reflexivity.
    + reflexivity.
  - with_block 2%nat gc_state_zero (Sim.chars "X1Y2X-3") ltac:(fun ws cc L =>
      refine (proj1 (proj2 (C9_value_word_checks Sim.machine 2 10 Sim.g17
                (Sim.chars "X1Y2X-3") gc_state_zero Sim.boot ws cc L
                "X"%char (F32.of_Z (-3)) _ _ _ _)) _ _)).
    + vm_compute. reflexivity.
    + lazy. reflexivity.
    + lia.
    + cbn. auto 20.
    + reflexivity.
  - with_block 2%nat gc_state_zero (Sim.chars "G1X1S1000") ltac:(fun ws cc L =>
      refine (proj2 (proj2 (C9_value_word_checks Sim.machine 2 10 Sim.g17
                (Sim.chars "G1X1S1000") gc_state_zero Sim.boot ws cc L
                "S"%char (F32.of_Z 1000) _ _ _ _)) _)).
    + vm_compute. reflexivity.
    + lazy. reflexivity.
    + lia.
    + left. reflexivity.
  - with_block 2%nat gc_state_zero (Sim.chars "G1X1K1K2") ltac:(fun ws cc L =>
      refine (proj2 (proj2 (C9_value_word_checks Sim.machine 2 10 Sim.g17
                (Sim.chars "G1X1K1K2") gc_state_zero Sim.boot ws cc L
                "K"%char (F32.of_Z 1) _ _ _ _)) _)).
    + vm_compute. reflexivity.
    + lazy. reflexivity.
    + lia.
    + right. left. reflexivity.
Defined.

(** C9, counterexample. An S word with a negative value is not rejected
    with STATUS_NEGATIVE_VALUE: the block fails with
    STATUS_GCODE_UNSUPPORTED_COMMAND. *)
Lemma C9_counterexample :
  Sim.run Sim.g17 "S-1" gc_state_zero Sim.boot
  = Some (STATUS_GCODE_UNSUPPORTED_COMMAND, gc_state_zero)
  /\ Sim.run Sim.g17 "S-1" gc_state_zero Sim.boot
     <> Some (STATUS_NEGATIVE_VALUE, gc_state_zero).
Proof.
  split; [vm_compute; reflexivity | vm_compute; discriminate].
Qed.

(** ** The stages of STEP 3 and STEP 4 *)

Ltac split_match :=
  repeat match goal with
         | |- context [match ?x with _ => _ end] =>
             let H := fresh "Hm" in destruct x eqn:H
         end.

Section Stages.

Context {E : Externals}.

Lemma check_line_number_status (L : locals) (e : status) :
  check_line_number L = inl e ->
  e = STATUS_GCODE_INVALID_LINE_NUMBER
  /\ bit_istrue (value_words L) (bit WORD_N) = true
  /\ MAX_LINE_NUMBER < val_n (values (gc_block L)).
Proof.
  unfold check_line_number, FAIL, ok. split_ifs; intros H; try discriminate H.
  injection H as <-. apply Z.ltb_lt in Hb0. auto.
Qed.

Lemma check_feed_rate_status (gs : parser_state_t) (L : locals) (e : status) :
  check_feed_rate gs L = inl e -> e = STATUS_GCODE_UNDEFINED_FEED_RATE.
Proof.
  unfold check_feed_rate, FAIL, ok. split_ifs; intros H; try discriminate H.
  all: injection H as <-; reflexivity.
Qed.

Lemma check_dwell_status (L : locals) (e : status) :
  check_dwell L = inl e -> e = STATUS_GCODE_VALUE_WORD_MISSING.
Proof.
  unfold check_dwell, FAIL, ok. split_ifs; intros H; try discriminate H.
  injection H as <-; reflexivity.
Qed.

Lemma check_coord_select_status (gs : parser_state_t) (L : locals) (w w' : world)
  (e : status) :
  check_coord_select gs L w = (inl e, w') ->
  e = STATUS_GCODE_UNSUPPORTED_COORD_SYS \/ e = STATUS_SETTING_READ_FAIL.
Proof.
  unfold check_coord_select, FAIL, ok. split_match; intros H; try discriminate H.
  all: injection H as <- _; auto.
Qed.

Lemma g10_l_check_status (L : locals) (e : status) :
  g10_l_check L = inl e -> e = STATUS_GCODE_UNSUPPORTED_COMMAND.
Proof.
  unfold g10_l_check, FAIL, ok. split_ifs; intros H; try discriminate H.
  all: injection H as <-; reflexivity.
Qed.

Lemma check_non_modal_status (gs : parser_state_t) (L : locals) (w w' : world)
  (e : status) :
  check_non_modal gs L w = (inl e, w') ->
  In e [STATUS_GCODE_NO_AXIS_WORDS; STATUS_GCODE_VALUE_WORD_MISSING;
        STATUS_GCODE_UNSUPPORTED_COORD_SYS; STATUS_GCODE_UNSUPPORTED_COMMAND;
        STATUS_SETTING_READ_FAIL; STATUS_GCODE_G53_INVALID_MOTION_MODE].
Proof.
  unfold check_non_modal, check_g10, check_target, FAIL, ok.
  split_match; intros H; try discriminate H.
  all: injection H as <- _; cbn; auto 10.
  apply g10_l_check_status in Hm3. subst. auto 10.
Qed.

Lemma check_motion_mode_status (ax : axis_indices) (gs : parser_state_t)
  (L : locals) (e : status) :
  check_motion_mode ax gs L = inl e ->
  In e [STATUS_GCODE_AXIS_WORDS_EXIST; STATUS_GCODE_UNDEFINED_FEED_RATE;
        STATUS_GCODE_NO_AXIS_WORDS; STATUS_GCODE_NO_AXIS_WORDS_IN_PLANE;
        STATUS_GCODE_INVALID_TARGET; STATUS_GCODE_ARC_RADIUS_ERROR].
Proof.
  unfold check_motion_mode, check_arc, arc_radius_mode, arc_offset_mode, FAIL, ok.
  split_ifs; intros H; try discriminate H.
  all: injection H as <-; cbn; auto 10.
Qed.

Lemma check_unused_words_status (L : locals) (e : status) :
  check_unused_words L = inl e -> e = STATUS_GCODE_UNUSED_WORDS.
Proof.
  unfold check_unused_words, FAIL, ok. split_ifs; intros H; try discriminate H.
  all: injection H as <-; reflexivity.
Qed.

Lemma gc_check_before_motion_status (gs : parser_state_t) (L : locals)
  (w w' : world) (e : status) :
  gc_check_before_motion gs L w = (inl e, w') ->
  check_line_number (implicit_axis_command L) = inl e
  \/ In e later_check_statuses.
Proof.
  unfold gc_check_before_motion, bind.
  destruct (check_line_number (implicit_axis_command L)) as [e1|L1] eqn:H1.
  { intros H. injection H as <- _. auto. }
  destruct (check_feed_rate gs L1) as [e2|L2] eqn:H2.
  { intros H. injection H as <- _. apply check_feed_rate_status in H2.
    subst. right. cbn. auto. }
  destruct (check_dwell L2) as [e3|L3] eqn:H3.
  { intros H. injection H as <- _. apply check_dwell_status in H3.
    subst. right. cbn. auto. }
  destruct (check_coord_select gs L3 w) as [[e4|L4] w4] eqn:H4.
  { intros H. injection H as <- _. apply check_coord_select_status in H4.
    right. cbn. intuition (subst; auto 20). }
  intros H. apply check_non_modal_status in H. right. cbn in *.
  intuition (subst; auto 20).
Qed.

Lemma gc_check_status (ax : axis_indices) (gs : parser_state_t) (L : locals)
  (w w' : world) (e : status) :
  gc_check ax gs L w = (inl e, w') ->
  check_line_number (implicit_axis_command L) = inl e
  \/ In e later_check_statuses.
Proof.
  unfold gc_check, bind.
  destruct (gc_check_before_motion gs L w) as [[e1|L5] w5] eqn:H1.
  { intros H. injection H as <- _.
    eapply gc_check_before_motion_status. eassumption. }
  destruct (check_motion_mode ax gs L5) as [e2|L6] eqn:H2.
  { intros H. injection H as <- _. apply check_motion_mode_status in H2.
    right. cbn in *. intuition (subst; auto 20). }
  destruct (check_unused_words L6) as [e3|L7] eqn:H3; [|discriminate].
  intros H. injection H as <- _. apply check_unused_words_status in H3.
  subst. right. cbn. auto 20.
Qed.

(** STEP 4 outside a jog: the block is committed and the status is
    STATUS_OK, unless the read of G54 at program end fails. *)
Lemma exec_program_flow_status (L : locals) (gs gs' : parser_state_t)
  (w w' : world) (s : status) :
  exec_program_flow L gs w = (s, gs', w') ->
  s = STATUS_OK \/ s = STATUS_SETTING_READ_FAIL.
Proof.
  unfold exec_program_flow. split_match; intros H; injection H as <- _ _; auto.
Qed.

Lemma gc_execute_status (ax : axis_indices) (L : locals) (gs gs' : parser_state_t)
  (w w' : world) (s : status) :
  gc_execute ax L gs w = (s, gs', w') ->
  (is_jog_block L = false /\ (s = STATUS_OK \/ s = STATUS_SETTING_READ_FAIL))
  \/ (is_jog_block L = true
      /\ (s <> STATUS_OK -> gs' = gs)
      /\ (s = STATUS_INVALID_JOG_COMMAND
          \/ exists pl b w0, s = fst (jog_execute pl b w0))).
Proof.
  unfold gc_execute. destruct (is_jog_block L).
  - unfold gc_execute_jog. intros H. right. split; [reflexivity|]. revert H.
    split_match; intros H; injection H as <- <- _;
      (split; [congruence|]); auto.
    all: right; do 3 eexists; rewrite Hm1; reflexivity.
  - intros H. left. split; [reflexivity|]. revert H.
    destruct (exec_coord_select _ _ _) as [gs5 w2].
    destruct (exec_non_modal _ _ _) as [gs7 w3].
    destruct (exec_motion _ _ _ _ _) as [gs8 w4].
    apply exec_program_flow_status.
Qed.

End Stages.

(** What a word does to the N value. *)
Lemma gc_parse_word_val_n (l : ascii) (v : float) (L L1 : locals) :
  gc_parse_word l v L = inr L1 ->
  val_n (values (gc_block L1))
  = if Ascii.eqb l "N" then to_int32 (F32.trunc v)
    else val_n (values (gc_block L)).
Proof.
  word_cases; intros H; try discriminate H; injection H as <-; try reflexivity;
    ascii_eqs; discriminate.
Qed.

Section LineNumber.

Context {E : Externals}.

Lemma import_words_keeps_n (k : nat) : forall line cc L ws cc' L',
  import_words k line cc L = Some (ws, cc', L') ->
  bit_istrue (value_words L) (bit WORD_N) = true ->
  val_n (values (gc_block L')) = val_n (values (gc_block L)).
Proof.
  induction k as [|k IH]; cbn [import_words]; intros line cc L ws cc' L' H Hbit.
  - injection H as _ _ <-. reflexivity.
  - destruct (word_at line cc) as [[[l v] cc1]|] eqn:Hw; [|discriminate].
    destruct (gc_parse_word l v L) as [s|L1] eqn:Hp; [discriminate|].
    destruct (import_words k line cc1 L1) as [[[ws1 cc2] L2]|] eqn:Hk;
      [|discriminate].
    injection H as _ _ <-.
    destruct (gc_parse_word_frame _ _ _ _ Hp) as (_ & _ & _ & _ & Hvw).
    rewrite (IH _ _ _ _ _ _ Hk) by (apply Hvw; [discriminate|assumption]).
    rewrite (gc_parse_word_val_n _ _ _ _ Hp).
    destruct (Ascii.eqb_spec l "N") as [->|_]; [|reflexivity].
    destruct (value_word_context "N" v WORD_N L eq_refl) as [_ Hctx].
    rewrite Hp in Hctx. destruct Hctx as (_ & _ & _ & Hfalse & _). congruence.
Qed.

(** The N value of a block is the one its N word carries. *)
Lemma import_words_n (k : nat) : forall line cc L ws cc' L' v,
  import_words k line cc L = Some (ws, cc', L') ->
  In ("N"%char, v) ws ->
  val_n (values (gc_block L')) = to_int32 (F32.trunc v)
  /\ bit_istrue (value_words L') (bit WORD_N) = true.
Proof.
  induction k as [|k IH]; cbn [import_words]; intros line cc L ws cc' L' v0 H Hin.
  - injection H as <- _ _. contradiction.
  - destruct (word_at line cc) as [[[l v] cc1]|] eqn:Hw; [|discriminate].
    destruct (gc_parse_word l v L) as [s|L1] eqn:Hp; [discriminate|].
    destruct (import_words k line cc1 L1) as [[[ws1 cc2] L2]|] eqn:Hk;
      [|discriminate].
    injection H as <- <- <-.
    destruct Hin as [Heq|Hin]; [|eauto].
    injection Heq as -> ->.
    destruct (value_word_context "N" v0 WORD_N L eq_refl) as [_ Hctx].
    rewrite Hp in Hctx. destruct Hctx as (Hvw & _).
    assert (Hbit : bit_istrue (value_words L1) (bit WORD_N) = true).
    { rewrite Hvw, bit_istrue_lor, Z.eqb_refl by discriminate. apply orb_true_r. }
    destruct (import_words_inv _ _ _ _ _ _ _ Hk) as (_ & _ & _ & _ & _ & Hv).
    split.
    + rewrite (import_words_keeps_n _ _ _ _ _ _ _ Hk Hbit).
      rewrite (gc_parse_word_val_n _ _ _ _ Hp). reflexivity.
    + rewrite (Hv "N"%char WORD_N eq_refl), Hbit. reflexivity.
Qed.

(** The loop leaves at the end of the line. *)
Lemma gc_parse_line_end (k fuel : nat) (gs : parser_state_t) (line : list ascii)
  (ws : list (ascii * float)) (cc : Z) (L : locals) :
  block_words k gs line = Some (ws, cc, L) ->
  line_at line cc = zero ->
  (k < fuel)%nat ->
  gc_parse_line fuel gs line = Some (inr L).
Proof.
  intros Hb Hend Hk. unfold gc_parse_line.
  replace fuel with (k + S (fuel - k - 1))%nat by lia.
  rewrite (gc_parse_words_import _ _ _ _ _ _ _ _ Hb).
  cbn [gc_parse_words]. rewrite Hend. reflexivity.
Qed.

Lemma is_jog_block_init (gs : parser_state_t) (line : list ascii) :
  is_jog_block (gc_block_init gs line) = is_jog line.
Proof. unfold gc_block_init. destruct (is_jog line); reflexivity. Qed.

Lemma block_words_is_jog (k : nat) (gs : parser_state_t) (line : list ascii)
  (ws : list (ascii * float)) (cc : Z) (L : locals) :
  block_words k gs line = Some (ws, cc, L) ->
  is_jog_block L = is_jog line.
Proof.
  intros Hb.
  destruct (import_words_inv _ _ _ _ _ _ _ Hb) as (Hf & _).
  unfold is_jog_block. rewrite Hf. apply is_jog_block_init.
Qed.

End LineNumber.

Lemma same_frame_refl (L : locals) : same_frame L L.
Proof. repeat split. Qed.

Lemma same_frame_trans (L1 L2 L3 : locals) :
  same_frame L1 L2 -> same_frame L2 L3 -> same_frame L1 L3.
Proof.
  unfold same_frame. intros (A1 & B1 & C1 & D1 & E1) (A2 & B2 & C2 & D2 & E2).
  repeat split; congruence.
Qed.

Lemma is_jog_block_clockwise (L : locals) :
  is_jog_block
    (set_gc_parser_flags (Z.lor (gc_parser_flags L) GC_PARSER_ARC_IS_CLOCKWISE) L)
  = is_jog_block L.
Proof.
  unfold is_jog_block. cbn [gc_parser_flags set_gc_parser_flags].
  rewrite Z.land_lor_distr_l.
  change (Z.land GC_PARSER_ARC_IS_CLOCKWISE GC_PARSER_JOG_MOTION) with 0.
  rewrite Z.lor_0_r. reflexivity.
Qed.

Section Frame.

Context {E : Externals}.

Lemma implicit_axis_command_frame (L : locals) :
  same_frame L (implicit_axis_command L).
Proof. unfold implicit_axis_command. split_ifs; repeat split. Qed.

Lemma check_line_number_inr (L L' : locals) :
  check_line_number L = inr L' -> L' = L.
Proof.
  unfold check_line_number, ok, FAIL. split_ifs; intros H; try discriminate H;
    injection H as <-; reflexivity.
Qed.

Lemma check_feed_rate_frame (gs : parser_state_t) (L L' : locals) :
  check_feed_rate gs L = inr L' ->
  same_frame L L' /\ axis_command L' = axis_command L
  /\ value_words L' = value_words L.
Proof.
  unfold check_feed_rate, ok, FAIL. split_ifs; intros H; try discriminate H;
    injection H as <-; repeat split.
Qed.

Lemma check_dwell_frame (L L' : locals) :
  check_dwell L = inr L' ->
  same_frame L L' /\ axis_command L' = axis_command L
  /\ values (gc_block L') = values (gc_block L).
Proof.
  unfold check_dwell, ok, FAIL. split_ifs; intros H; try discriminate H;
    injection H as <-; repeat split.
Qed.

Lemma check_coord_select_frame (gs : parser_state_t) (L L' : locals) (w w' : world) :
  check_coord_select gs L w = (inr L', w') ->
  same_frame L L' /\ axis_command L' = axis_command L
  /\ values (gc_block L') = values (gc_block L)
  /\ value_words L' = value_words L.
Proof.
  unfold check_coord_select, ok, FAIL. split_match; intros H; try discriminate H;
    injection H as <- _; repeat split.
Qed.

Lemma g10_axis_val_f (gs : parser_state_t) (L : locals) (v : gc_values_t) (idx : Z) :
  val_f (g10_axis gs L v idx) = val_f v.
Proof. unfold g10_axis. split_ifs; reflexivity. Qed.

Lemma target_axis_val_f (gs : parser_state_t) (L : locals) (v : gc_values_t) (idx : Z) :
  val_f (target_axis gs L v idx) = val_f v.
Proof. unfold target_axis. split_ifs; reflexivity. Qed.

Lemma fold_g10_axis_frame (gs : parser_state_t) (L : locals) (l : list Z) :
  forall v, val_f (fold_left (g10_axis gs L) l v) = val_f v
            /\ val_xyz (fold_left (g10_axis gs L) l v) = val_xyz v
            /\ val_r (fold_left (g10_axis gs L) l v) = val_r v.
Proof.
  induction l as [|idx l IH]; intros v; cbn [fold_left]; [repeat split|].
  destruct (IH (g10_axis gs L v idx)) as (-> & -> & ->).
  unfold g10_axis. split_ifs; repeat split.
Qed.

Lemma fold_target_axis_frame (gs : parser_state_t) (L : locals) (l : list Z) :
  forall v, val_f (fold_left (target_axis gs L) l v) = val_f v
            /\ val_ijk (fold_left (target_axis gs L) l v) = val_ijk v
            /\ val_r (fold_left (target_axis gs L) l v) = val_r v.
Proof.
  induction l as [|idx l IH]; intros v; cbn [fold_left]; [repeat split|].
  destruct (IH (target_axis gs L v idx)) as (-> & -> & ->).
  unfold target_axis. split_ifs; repeat split.
Qed.

Lemma check_non_modal_frame (gs : parser_state_t) (L L' : locals) (w w' : world) :
  check_non_modal gs L w = (inr L', w') ->
  same_frame L L' /\ axis_command L' = axis_command L
  /\ val_f (values (gc_block L')) = val_f (values (gc_block L)).
Proof.
  unfold check_non_modal, check_g10, check_target, ok, FAIL.
  split_match; intros H; try discriminate H; injection H as <- _;
    (split; [repeat split|]); (split; [reflexivity|]);
    cbn [gc_block upd_block values upd_values];
    rewrite ?g10_axis_val_f, ?target_axis_val_f; reflexivity.
Qed.

Lemma check_motion_mode_frame (ax : axis_indices) (gs : parser_state_t)
  (L L' : locals) :
  check_motion_mode ax gs L = inr L' -> same_frame L L'.
Proof.
  unfold check_motion_mode, check_arc, arc_radius_mode, arc_offset_mode, ok, FAIL.
  split_ifs; intros H; try discriminate H; injection H as <-;
    repeat split; apply is_jog_block_clockwise.
Qed.

Lemma check_unused_words_frame (L L' : locals) :
  check_unused_words L = inr L' ->
  same_frame L L' /\ axis_command L' = axis_command L
  /\ values (gc_block L') = values (gc_block L).
Proof.
  unfold check_unused_words, ok, FAIL. split_ifs; intros H; try discriminate H;
    injection H as <-; repeat split.
Qed.

Lemma gc_check_before_motion_frame (gs : parser_state_t) (L L' : locals)
  (w w' : world) :
  gc_check_before_motion gs L w = (inr L', w') -> same_frame L L'.
Proof.
  unfold gc_check_before_motion, bind.
  destruct (check_line_number (implicit_axis_command L)) as [e1|L1] eqn:H1;
    [discriminate|].
  apply check_line_number_inr in H1. subst L1.
  destruct (check_feed_rate gs _) as [e2|L2] eqn:H2; [discriminate|].
  destruct (check_dwell L2) as [e3|L3] eqn:H3; [discriminate|].
  destruct (check_coord_select gs L3 w) as [[e4|L4] w4] eqn:H4; [discriminate|].
  intros H5.
  eapply same_frame_trans; [apply implicit_axis_command_frame|].
  eapply same_frame_trans; [eapply check_feed_rate_frame; eassumption|].
  eapply same_frame_trans; [eapply check_dwell_frame; eassumption|].
  eapply same_frame_trans; [eapply check_coord_select_frame; eassumption|].
  eapply check_non_modal_frame; eassumption.
Qed.

Lemma gc_check_frame (ax : axis_indices) (gs : parser_state_t) (L L' : locals)
  (w w' : world) :
  gc_check ax gs L w = (inr L', w') -> same_frame L L'.
Proof.
  unfold gc_check, bind.
  destruct (gc_check_before_motion gs L w) as [[e1|L5] w5] eqn:H1; [discriminate|].
  destruct (check_motion_mode ax gs L5) as [e2|L6] eqn:H2; [discriminate|].
  destruct (check_unused_words L6) as [e3|L7] eqn:H3; [discriminate|].
  intros H. injection H as <- _.
  eapply same_frame_trans; [eapply gc_check_before_motion_frame; eassumption|].
  eapply same_frame_trans; [eapply check_motion_mode_frame; eassumption|].
  eapply check_unused_words_frame; eassumption.
Qed.

End Frame.

Lemma to_int32_small (z : Z) : -2147483648 <= z < 2147483648 -> to_int32 z = z.
Proof.
  intros Hz. unfold to_int32. rewrite Z.mod_small by lia. lia.
Qed.

(** A value that is not below zero has a truncation that is not. *)
Lemma trunc_nonneg (v : float) : F32.lt v F32.zero = false -> 0 <= F32.trunc v.
Proof.
  destruct v as [s|s| |s m e]; cbn; try lia.
  destruct s; [discriminate|]. intros _. apply Z.shiftl_nonneg. lia.
Qed.

Section Imported.

Context {E : Externals}.

(** An F, N or P word that the loop has imported is not negative. *)
Lemma import_words_not_negative (k : nat) : forall line cc L ws cc' L' l v,
  import_words k line cc L = Some (ws, cc', L') ->
  In (l, v) ws ->
  negative_rejected l = true ->
  F32.lt v F32.zero = false.
Proof.
  induction k as [|k IH]; cbn [import_words];
    intros line cc L ws cc' L' l0 v0 H Hin Hneg.
  - injection H as <- _ _. contradiction.
  - destruct (word_at line cc) as [[[l v] cc1]|] eqn:Hw; [|discriminate].
    destruct (gc_parse_word l v L) as [s|L1] eqn:Hp; [discriminate|].
    destruct (import_words k line cc1 L1) as [[[ws1 cc2] L2]|] eqn:Hk;
      [|discriminate].
    injection H as <- <- <-.
    destruct Hin as [Heq|Hin]; [|eauto].
    injection Heq as -> ->.
    destruct (negative_rejected_word_bit _ Hneg) as [wb Hwb].
    destruct (value_word_context l0 v0 wb L Hwb) as [_ Hctx].
    rewrite Hp in Hctx. destruct Hctx as (_ & _ & _ & _ & Hv). auto.
Qed.

End Imported.




(** ** Feed rate *)

Section FeedRate.

Context {E : Externals}.

Lemma check_feed_rate_sticky (gs : parser_state_t) (L L2 : locals) :
  check_feed_rate gs L = inr L2 ->
  modal_feed_rate (gs_modal gs) = FEED_RATE_MODE_UNITS_PER_MIN ->
  modal_feed_rate (modal (gc_block L)) = FEED_RATE_MODE_UNITS_PER_MIN ->
  bit_isfalse (value_words L) (bit WORD_F) = true ->
  val_f (values (gc_block L2)) = gs_feed_rate gs.
Proof.
  unfold check_feed_rate, ok, FAIL. intros H Hgs Hb HF. revert H.
  rewrite Hgs, Hb, HF. cbn [Z.eqb FEED_RATE_MODE_UNITS_PER_MIN
                            FEED_RATE_MODE_INVERSE_TIME andb].
  split_ifs; intros H; try discriminate H. injection H as <-. reflexivity.
Qed.

Lemma check_feed_rate_seek (gs : parser_state_t) (L : locals) :
  is_jog_block L = false -> block_motion L = MOTION_MODE_SEEK ->
  exists L2, check_feed_rate gs L = inr L2.
Proof.
  unfold check_feed_rate, ok, FAIL. intros -> ->.
  cbn [Z.eqb MOTION_MODE_SEEK negb andb].
  rewrite andb_false_r. cbn [andb]. split_ifs; eexists; reflexivity.
Qed.

Lemma check_motion_mode_seek (ax : axis_indices) (gs : parser_state_t) (L : locals) :
  block_motion L = MOTION_MODE_SEEK ->
  exists L', check_motion_mode ax gs L = inr L'.
Proof.
  unfold check_motion_mode, ok, FAIL. intros ->.
  cbn [Z.eqb MOTION_MODE_SEEK MOTION_MODE_NONE].
  split_ifs; eexists; reflexivity.
Qed.

Lemma check_motion_mode_val_f (ax : axis_indices) (gs : parser_state_t)
  (L L' : locals) :
  check_motion_mode ax gs L = inr L' ->
  val_f (values (gc_block L')) = val_f (values (gc_block L)).
Proof.
  unfold check_motion_mode, check_arc, arc_radius_mode, arc_offset_mode, ok, FAIL.
  split_ifs; intros H; try discriminate H; injection H as <-; reflexivity.
Qed.

(** The feed rate [20. Motion modes] sees is the one [2. Set feed rate
    mode] has settled. *)
Lemma gc_check_before_motion_feed (gs : parser_state_t) (L L5 : locals)
  (w w5 : world) :
  gc_check_before_motion gs L w = (inr L5, w5) ->
  exists L2, check_feed_rate gs (implicit_axis_command L) = inr L2
             /\ val_f (values (gc_block L5)) = val_f (values (gc_block L2)).
Proof.
  unfold gc_check_before_motion, bind.
  destruct (check_line_number (implicit_axis_command L)) as [e1|L1] eqn:H1;
    [discriminate|].
  apply check_line_number_inr in H1. subst L1.
  destruct (check_feed_rate gs _) as [e2|L2] eqn:H2; [discriminate|].
  destruct (check_dwell L2) as [e3|L3] eqn:H3; [discriminate|].
  destruct (check_coord_select gs L3 w) as [[e4|L4] w4] eqn:H4; [discriminate|].
  intros H5. exists L2. split; [reflexivity|].
  destruct (check_dwell_frame _ _ H3) as (_ & _ & Hv3).
  destruct (check_coord_select_frame _ _ _ _ _ H4) as (_ & _ & Hv4 & _).
  destruct (check_non_modal_frame _ _ _ _ _ H5) as (_ & _ & Hv5).
  rewrite Hv5, Hv4, Hv3. reflexivity.
Qed.

Lemma gc_check_feed (ax : axis_indices) (gs : parser_state_t) (L L7 : locals)
  (w w7 : world) :
  gc_check ax gs L w = (inr L7, w7) ->
  exists L2, check_feed_rate gs (implicit_axis_command L) = inr L2
             /\ val_f (values (gc_block L7)) = val_f (values (gc_block L2)).
Proof.
  unfold gc_check, bind.
  destruct (gc_check_before_motion gs L w) as [[e1|L5] w5] eqn:H1; [discriminate|].
  destruct (check_motion_mode ax gs L5) as [e2|L6] eqn:H2; [discriminate|].
  destruct (check_unused_words L6) as [e3|L7'] eqn:H3; [discriminate|].
  intros H. injection H as <- _.
  destruct (gc_check_before_motion_feed _ _ _ _ _ H1) as (L2 & HL2 & Hf).
  exists L2. split; [assumption|].
  destruct (check_unused_words_frame _ _ H3) as (_ & _ & Hv).
  rewrite Hv, (check_motion_mode_val_f _ _ _ _ H2). assumption.
Qed.

Lemma exec_coord_select_feed_rate (L : locals) (gs : parser_state_t) (w : world) :
  gs_feed_rate (fst (exec_coord_select L gs w)) = gs_feed_rate gs.
Proof. unfold exec_coord_select. split_ifs; reflexivity. Qed.

Lemma exec_non_modal_feed_rate (L : locals) (gs : parser_state_t) (w : world) :
  gs_feed_rate (fst (exec_non_modal L gs w)) = gs_feed_rate gs.
Proof. unfold exec_non_modal. split_ifs; reflexivity. Qed.

Lemma exec_motion_feed_rate (ax : axis_indices) (L : locals)
  (pl : plan_line_data_t) (gs : parser_state_t) (w : world) :
  gs_feed_rate (fst (exec_motion ax L pl gs w)) = gs_feed_rate gs.
Proof. unfold exec_motion. split_ifs; reflexivity. Qed.

Lemma exec_program_flow_feed_rate (L : locals) (gs : parser_state_t) (w : world) :
  gs_feed_rate (snd (fst (exec_program_flow L gs w))) = gs_feed_rate gs.
Proof. unfold exec_program_flow. split_match; reflexivity. Qed.

(** Outside a jog, STEP 4 always copies the feed rate of the block. *)
Lemma gc_execute_feed_rate (ax : axis_indices) (L : locals)
  (gs gs' : parser_state_t) (w w' : world) (s : status) :
  is_jog_block L = false ->
  gc_execute ax L gs w = (s, gs', w') ->
  gs_feed_rate gs' = val_f (values (gc_block L)).
Proof.
  unfold gc_execute. intros ->.
  destruct (exec_coord_select _ _ _) as [gs5 w2] eqn:H5.
  destruct (exec_non_modal _ _ _) as [gs7 w3] eqn:H7.
  destruct (exec_motion _ _ _ _ _) as [gs8 w4] eqn:H8.
  intros H.
  apply (f_equal (fun x => gs_feed_rate (snd (fst x)))) in H.
  rewrite exec_program_flow_feed_rate in H. cbn [fst snd] in H. rewrite <- H.
  apply (f_equal (fun x => gs_feed_rate (fst x))) in H8.
  rewrite exec_motion_feed_rate in H8. cbn [fst] in H8. rewrite <- H8.
  apply (f_equal (fun x => gs_feed_rate (fst x))) in H7.
  rewrite exec_non_modal_feed_rate in H7. cbn [fst] in H7. rewrite <- H7.
  cbn [gs_feed_rate upd_gs_modal set_gs_modal].
  apply (f_equal (fun x => gs_feed_rate (fst x))) in H5.
  rewrite exec_coord_select_feed_rate in H5. cbn [fst] in H5. rewrite <- H5.
  reflexivity.
Qed.

Lemma implicit_axis_command_values (L : locals) :
  value_words (implicit_axis_command L) = value_words L
  /\ gc_block (implicit_axis_command L) = gc_block L.
Proof. unfold implicit_axis_command. split_ifs; split; reflexivity. Qed.

End FeedRate.

(** C5. Feed-rate stickiness and undefined-feed rejection, for a block
    whose words have all been imported ([L] are the locals after STEP 2).
    (1) If gc_state and the block are both in G94 mode and the block has no
    F word, the feed rate the motion-mode checks see is gc_state.feed_rate,
    and when the call returns STATUS_OK gc_state.feed_rate is unchanged.
    (2) A motion block (axis command = motion mode) in G1, G2 or G3 whose
    feed rate value is 0.0 when it reaches the motion-mode checks fails with
    STATUS_GCODE_UNDEFINED_FEED_RATE, gc_state untouched.
    (3) A non-jog block whose motion mode is G0 never fails with
    STATUS_GCODE_UNDEFINED_FEED_RATE.
    (4) From the zero state (feed 0), G0X1Y1 returns STATUS_OK and the
    following G1X2 returns STATUS_GCODE_UNDEFINED_FEED_RATE. *)
Theorem C5_feed_rate
  (E : Externals) (fuel : nat) (ax : axis_indices) (line : list ascii)
  (gs : parser_state_t) (w : world) (L : locals) :
  gc_parse_line fuel gs line = Some (inr L) ->
  (modal_feed_rate (gs_modal gs) = FEED_RATE_MODE_UNITS_PER_MIN ->
   modal_feed_rate (modal (gc_block L)) = FEED_RATE_MODE_UNITS_PER_MIN ->
   bit_isfalse (value_words L) (bit WORD_F) = true ->
   (forall L5 w5, gc_check_before_motion gs L w = (inr L5, w5) ->
                  val_f (values (gc_block L5)) = gs_feed_rate gs)
   /\ (forall gs' w', gc_execute_line fuel ax line gs w = Some (STATUS_OK, gs', w') ->
                      gs_feed_rate gs' = gs_feed_rate gs))
  /\ (forall L5 w5,
        gc_check_before_motion gs L w = (inr L5, w5) ->
        axis_command L5 = AXIS_COMMAND_MOTION_MODE ->
        In (block_motion L5)
           [MOTION_MODE_LINEAR; MOTION_MODE_CW_ARC; MOTION_MODE_CCW_ARC] ->
        F32.eq (val_f (values (gc_block L5))) (F32.of_Z 0) = true ->
        gc_execute_line fuel ax line gs w
        = Some (STATUS_GCODE_UNDEFINED_FEED_RATE, gs, w5))
  /\ (is_jog line = false ->
      block_motion L = MOTION_MODE_SEEK ->
      exists s gs' w',
        gc_execute_line fuel ax line gs w = Some (s, gs', w')
        /\ s <> STATUS_GCODE_UNDEFINED_FEED_RATE)
  /\ (exists gs1 w1,
        gc_execute_line (E := Sim.machine) 10 Sim.g17 (Sim.chars "G0X1Y1")
          gc_state_zero Sim.boot = Some (STATUS_OK, gs1, w1)
        /\ gs_feed_rate gs1 = F32.zero
        /\ gc_execute_line (E := Sim.machine) 10 Sim.g17 (Sim.chars "G1X2") gs1 w1
           = Some (STATUS_GCODE_UNDEFINED_FEED_RATE, gs1, w1)).
Proof.
  intros Hline.
  assert (Hjogflag : is_jog_block L = is_jog line).
  { unfold gc_parse_line in Hline.
    assert (Hgen : forall fuel cc L0 L1,
               gc_parse_words fuel line cc L0 = Some (inr L1) ->
               gc_parser_flags L1 = gc_parser_flags L0).
    { clear. induction fuel as [|fuel IH]; cbn [gc_parse_words]; intros cc L0 L1 H;
        [discriminate|].
      revert H. split_match; intros H; try discriminate H.
      - injection H as <-. reflexivity.
      - apply IH in H. rewrite H.
        match goal with
        | Hp : gc_parse_word _ _ _ = inr _ |- _ =>
            apply (gc_parse_word_frame _ _ _ _ Hp)
        end. }
    unfold is_jog_block. rewrite (Hgen _ _ _ _ Hline). apply is_jog_block_init. }
  destruct (implicit_axis_command_values L) as [Hivw Hiblk].
  split; [|split; [|split]].
  - intros Hgs Hblk HF.
    assert (Hsticky : forall L2,
               check_feed_rate gs (implicit_axis_command L) = inr L2 ->
               val_f (values (gc_block L2)) = gs_feed_rate gs).
    { intros L2 H2. eapply check_feed_rate_sticky; eauto.
      - rewrite Hiblk. assumption.
      - rewrite Hivw. assumption. }
    split.
    + intros L5 w5 H5.
      destruct (gc_check_before_motion_feed _ _ _ _ _ H5) as (L2 & H2 & ->). auto.
    + intros gs' w' Hrun. unfold gc_execute_line in Hrun. rewrite Hline in Hrun.
      injection Hrun as Hrun. unfold gc_check_and_execute in Hrun.
      destruct (gc_check ax gs L w) as [[e|L7] w7] eqn:Hc.
      * injection Hrun as -> _ _.
        destruct (gc_check_status _ _ _ _ _ _ Hc) as [H|H].
        -- apply check_line_number_status in H. destruct H as [H _]. discriminate H.
        -- cbn in H. intuition discriminate.
      * destruct (gc_check_feed _ _ _ _ _ _ Hc) as (L2 & H2 & Hf).
        pose proof (gc_check_frame _ _ _ _ _ _ Hc) as (Hj & _).
        destruct (is_jog_block L7) eqn:Hj7.
        -- (* a jog without an F word does not pass the feed-rate check *)
           exfalso. revert H2. unfold check_feed_rate.
           destruct (implicit_axis_command_frame L) as (Hji & _).
           rewrite Hji, <- Hj, Hivw, HF. discriminate.
        -- rewrite (gc_execute_feed_rate _ _ _ _ _ _ _ Hj7 Hrun), Hf. auto.
  - intros L5 w5 H5 Hax Hmotion Hzero.
    unfold gc_execute_line. rewrite Hline. unfold gc_check_and_execute, gc_check.
    rewrite H5. unfold check_motion_mode, bind.
    rewrite Hax, Hzero.
    cbn in Hmotion. destruct Hmotion as [<-|[<-|[<-|[]]]]; reflexivity.
  - intros Hnojog Hseek.
    unfold gc_execute_line. rewrite Hline.
    destruct (gc_check_and_execute ax L gs w) as [[s gs'] w'] eqn:Hrun.
    exists s, gs', w'. split; [reflexivity|]. intros ->.
    revert Hrun. unfold gc_check_and_execute, gc_check, gc_check_before_motion, bind.
    destruct (check_line_number (implicit_axis_command L)) as [e1|L1] eqn:H1.
    { apply check_line_number_status in H1. destruct H1 as [-> _]. discriminate. }
    apply check_line_number_inr in H1. subst L1.
    destruct (implicit_axis_command_frame L) as (Hj0 & Hm0 & _).
    destruct (check_feed_rate_seek gs (implicit_axis_command L)) as [L2 H2].
    { congruence. }
    { unfold block_motion in *. congruence. }
    rewrite H2.
    destruct (check_dwell L2) as [e3|L3] eqn:H3.
    { apply check_dwell_status in H3. subst. discriminate. }
    destruct (check_coord_select gs L3 w) as [[e4|L4] w4] eqn:H4.
    { apply check_coord_select_status in H4. destruct H4; subst; discriminate. }
    destruct (check_non_modal gs L4 w4) as [[e5|L5] w5] eqn:H5.
    { apply check_non_modal_status in H5. cbn in H5. intros H. injection H as -> _ _.
      intuition discriminate. }
    pose proof (proj1 (check_feed_rate_frame _ _ _ H2)) as F2.
    pose proof (proj1 (check_dwell_frame _ _ H3)) as F3.
    pose proof (proj1 (check_coord_select_frame _ _ _ _ _ H4)) as F4.
    pose proof (proj1 (check_non_modal_frame _ _ _ _ _ H5)) as F5.
    pose proof (same_frame_trans _ _ _ (implicit_axis_command_frame L)
                  (same_frame_trans _ _ _ F2
                     (same_frame_trans _ _ _ F3 (same_frame_trans _ _ _ F4 F5))))
      as (Hj5 & Hm5 & _).
    destruct (check_motion_mode_seek ax gs L5) as [L6 H6].
    { unfold block_motion in *. congruence. }
    rewrite H6.
    destruct (check_unused_words L6) as [e7|L7] eqn:H7.
    { apply check_unused_words_status in H7. subst. discriminate. }
    intros Hrun.
    destruct (gc_execute_status _ _ _ _ _ _ _ Hrun) as [(_ & [H|H])|(Hj & _)];
      try discriminate H.
    pose proof (proj1 (check_motion_mode_frame _ _ _ _ H6)) as Hj6.
    pose proof (proj1 (proj1 (check_unused_words_frame _ _ H7))) as Hj7.
    congruence.
  - let r := eval vm_compute in
         (gc_execute_line (E := Sim.machine) 10 Sim.g17 (Sim.chars "G0X1Y1")
            gc_state_zero Sim.boot) in
    lazymatch r with
    | Some (_, ?gs1, ?w1) => exists gs1, w1
    end.
    repeat split; vm_compute; reflexivity.
Qed.

(** C5, on G1X5 with a feed rate of 300 in gc_state, on G2X5Y5R5 with
    none, and on G0X1. *)
Lemma C5_witness :
  (exists gs' w',
     gc_execute_line (E := Sim.machine) 10 Sim.g17 (Sim.chars "G1X5")
       (set_gs_feed_rate (F32.of_Z 300) gc_state_zero) Sim.boot
     = Some (STATUS_OK, gs', w')
     /\ gs_feed_rate gs' = F32.of_Z 300)
  /\ gc_execute_line (E := Sim.machine) 10 Sim.g17 (Sim.chars "G2X5Y5R5")
       gc_state_zero Sim.boot
     = Some (STATUS_GCODE_UNDEFINED_FEED_RATE, gc_state_zero, Sim.boot)
  /\ (exists s gs' w',
        gc_execute_line (E := Sim.machine) 10 Sim.g17 (Sim.chars "G0X1")
          gc_state_zero Sim.boot = Some (s, gs', w')
        /\ s <> STATUS_GCODE_UNDEFINED_FEED_RATE).
Proof.
  split; [|split].
  - let r := eval vm_compute in
         (gc_execute_line (E := Sim.machine) 10 Sim.g17 (Sim.chars "G1X5")
            (set_gs_feed_rate (F32.of_Z 300) gc_state_zero) Sim.boot) in
    lazymatch r with
    | Some (_, ?gs1, ?w1) => exists gs1, w1
    end.
    split; [vm_compute; reflexivity|].
    let r := eval vm_compute in
         (gc_parse_line (E := Sim.machine) 10
            (set_gs_feed_rate (F32.of_Z 300) gc_state_zero) (Sim.chars "G1X5")) in
    lazymatch r with
    | Some (inr ?L) =>
        refine (proj2 (proj1 (C5_feed_rate Sim.machine 10 Sim.g17 (Sim.chars "G1X5")
                  (set_gs_feed_rate (F32.of_Z 300) gc_state_zero) Sim.boot L _)
                  _ _ _) _ _ _)
    end.
    + vm_compute. reflexivity.
    + reflexivity.
    + reflexivity.
    + reflexivity.
    + vm_compute. reflexivity.
  - let r := eval vm_compute in
         (gc_parse_line (E := Sim.machine) 10 gc_state_zero (Sim.chars "G2X5Y5R5")) in
    lazymatch r with
    | Some (inr ?L) =>
        let r5 := eval vm_compute in
             (gc_check_before_motion (E := Sim.machine) gc_state_zero L Sim.boot) in
        lazymatch r5 with
        | (inr ?L5, ?w5) =>
            refine (proj1 (proj2 (C5_feed_rate Sim.machine 10 Sim.g17
                      (Sim.chars "G2X5Y5R5") gc_state_zero Sim.boot L _))
                      L5 w5 _ _ _ _)
        end
    end.
    + vm_compute. reflexivity.
    + vm_compute. reflexivity.
    + reflexivity.
    + cbn. auto.
    + reflexivity.
  - let r := eval vm_compute in
         (gc_parse_line (E := Sim.machine) 10 gc_state_zero (Sim.chars "G0X1")) in
    lazymatch r with
    | Some (inr ?L) =>
        refine (proj1 (proj2 (proj2 (C5_feed_rate Sim.machine 10 Sim.g17
                  (Sim.chars "G0X1") gc_state_zero Sim.boot L _))) _ _)
    end.
    + vm_compute. reflexivity.
    + reflexivity.
    + reflexivity.
Defined.

(** ** binary32: negation against multiplication and comparison *)

Lemma binary_round_aux_opp (prec emax : Z) (s : bool) (m e : Z) (l : location) :
  binary_round_aux prec emax (negb s) m e l
  = SFopp (binary_round_aux prec emax s m e l).
Proof.
  unfold binary_round_aux.
  destruct (shr_fexp prec emax m e l) as [mrs' e'].
  destruct (shr_fexp prec emax _ e' loc_Exact) as [mrs'' e''].
  destruct (shr_m mrs''); [reflexivity| |reflexivity].
  destruct (e'' <=? emax - prec); reflexivity.
Qed.

Lemma F32_mul_neg_r (x y : float) :
  F32.mul x (F32.neg y) = F32.neg (F32.mul x y).
Proof.
  unfold F32.mul, F32.neg.
  destruct x as [sx|sx| |sx mx ex], y as [sy|sy| |sy my ey]; cbn;
    rewrite <- ?negb_xorb_r; try reflexivity.
  apply binary_round_aux_opp.
Qed.

Lemma F32_mul_neg_neg (x y : float) :
  F32.mul (F32.neg x) (F32.neg y) = F32.mul x y.
Proof.
  unfold F32.mul, F32.neg.
  destruct x as [sx|sx| |sx mx ex], y as [sy|sy| |sy my ey]; cbn;
    rewrite ?xorb_negb_negb; reflexivity.
Qed.

Lemma F32_lt_neg_zero (r : float) :
  F32.lt r (F32.of_Z 0) = true ->
  F32.lt (F32.neg r) (F32.of_Z 0) = false
  /\ F32.lt (F32.of_Z 0) (F32.neg r) = true.
Proof.
  destruct r as [[]|[]| |[] m e]; cbn; intros H; try discriminate H;
    split; reflexivity.
Qed.

Lemma F32_neg_involutive (a : float) : F32.neg (F32.neg a) = a.
Proof.
  destruct a as [s|s| |s m e]; cbn; rewrite ?negb_involutive; reflexivity.
Qed.

Lemma F32_div_neg_l (a b : float) :
  F32.div (F32.neg a) b = F32.neg (F32.div a b).
Proof.
  unfold F32.div, F32.neg.
  destruct a as [sa|sa| |sa ma ea], b as [sb|sb| |sb mb eb];
    cbn [SFdiv SFopp]; rewrite <- ?negb_xorb_l; try reflexivity.
  destruct (SFdiv_core_binary F32.prec F32.emax (Z.pos ma) ea (Z.pos mb) eb)
    as [[mz ez] lz].
  apply binary_round_aux_opp.
Qed.

Lemma F32_sub_neg_r (a b : float) : F32.sub a (F32.neg b) = F32.add a b.
Proof.
  unfold F32.sub, F32.add, F32.neg.
  destruct a as [sa|sa| |sa ma ea], b as [sb|sb| |sb mb eb];
    cbn [SFsub SFadd SFopp]; rewrite ?negb_involutive; try reflexivity;
    destruct sa, sb; reflexivity.
Qed.

Lemma F32_add_neg_r (a b : float) : F32.add a (F32.neg b) = F32.sub a b.
Proof.
  rewrite <- (F32_neg_involutive b) at 2. rewrite F32_sub_neg_r. reflexivity.
Qed.

(** ** binary32: signs of squares, sums, square roots and quotients *)

Lemma binary_round_aux_positive (m e : Z) (l : location) :
  positive_sign (binary_round_aux F32.prec F32.emax false m e l) = true.
Proof.
  unfold binary_round_aux.
  destruct (shr_fexp F32.prec F32.emax m e l) as [mrs e1].
  destruct (shr_fexp F32.prec F32.emax _ e1 loc_Exact) as [mrs2 e2].
  destruct (shr_m mrs2); [reflexivity| |reflexivity].
  destruct (e2 <=? F32.emax - F32.prec); reflexivity.
Qed.

Lemma positive_not_negative (x : float) :
  positive_sign x = true -> not_negative x = true.
Proof. destruct x as [s|s| |s m e]; cbn; auto. Qed.

Lemma F32_mul_self_positive (x : float) : positive_sign (F32.mul x x) = true.
Proof.
  unfold F32.mul.
  destruct x as [s|s| |s m e]; cbn [SFmul]; rewrite ?xorb_nilpotent;
    try reflexivity.
  apply binary_round_aux_positive.
Qed.

Lemma F32_add_positive (a b : float) :
  positive_sign a = true -> positive_sign b = true ->
  positive_sign (F32.add a b) = true.
Proof.
  unfold F32.add.
  destruct a as [sa|sa| |sa ma ea], b as [sb|sb| |sb mb eb];
    cbn [positive_sign]; intros Ha Hb;
    try apply negb_true_iff in Ha; try apply negb_true_iff in Hb; subst;
    cbn [SFadd positive_sign negb]; try reflexivity.
  cbn [cond_Zopp Z.add binary_normalize]. unfold binary_round.
  destruct (shl_align _ _ _) as [mz ez].
  apply binary_round_aux_positive.
Qed.

Lemma F32_sqrt_positive (a : float) :
  positive_sign a = true -> positive_sign (F32.sqrt a) = true.
Proof.
  unfold F32.sqrt.
  destruct a as [s|s| |s m e]; cbn [positive_sign]; intros Ha;
    try apply negb_true_iff in Ha; subst; cbn [SFsqrt positive_sign negb];
    try reflexivity.
  destruct (SFsqrt_core_binary F32.prec F32.emax (Z.pos m) e) as [[mz ez] lz].
  apply binary_round_aux_positive.
Qed.

Lemma F32_sqrt_not_negative (a : float) : not_negative (F32.sqrt a) = true.
Proof.
  unfold F32.sqrt.
  destruct a as [s|[|]| |[|] m e]; cbn [SFsqrt not_negative negb];
    try reflexivity.
  destruct (SFsqrt_core_binary F32.prec F32.emax (Z.pos m) e) as [[mz ez] lz].
  apply positive_not_negative, binary_round_aux_positive.
Qed.

Lemma F32_div_not_negative (a b : float) :
  not_negative a = true -> positive_sign b = true ->
  not_negative (F32.div a b) = true.
Proof.
  unfold F32.div.
  destruct a as [sa|sa| |sa ma ea], b as [sb|sb| |sb mb eb];
    cbn [positive_sign not_negative]; intros Ha Hb;
    try apply negb_true_iff in Ha; try apply negb_true_iff in Hb; subst;
    cbn [SFdiv not_negative negb xorb]; try reflexivity.
  destruct (SFdiv_core_binary F32.prec F32.emax (Z.pos ma) ea (Z.pos mb) eb)
    as [[mz ez] lz].
  apply positive_not_negative, binary_round_aux_positive.
Qed.

Lemma not_negative_lt_zero (x : float) :
  not_negative x = true -> F32.lt x F32.zero = false.
Proof.
  destruct x as [s|s| |s m e]; cbn [not_negative]; intros Hx;
    try apply negb_true_iff in Hx; subst; reflexivity.
Qed.

(** ** The centre of a radius-mode arc *)

(** [chord_factor] does not see the sign of R and is never negative. *)
Lemma chord_factor_neg (r x y : float) :
  chord_factor (F32.neg r) x y = chord_factor r x y.
Proof.
  unfold chord_factor, chord_discriminant.
  rewrite (F32_mul_neg_r (F32.of_Z 4) r), F32_mul_neg_neg. reflexivity.
Qed.

Lemma chord_factor_not_negative (r x y : float) :
  F32.lt (chord_factor r x y) F32.zero = false.
Proof.
  apply not_negative_lt_zero. unfold chord_factor.
  apply F32_div_not_negative; [apply F32_sqrt_not_negative|].
  apply F32_sqrt_positive, F32_add_positive; apply F32_mul_self_positive.
Qed.

(** A negative R puts the centre on the other side than -R does. *)
Lemma radius_side_neg (motion : Z) (r : float) :
  F32.lt r (F32.of_Z 0) = true ->
  radius_side motion r = opposite_side (radius_side motion (F32.neg r)).
Proof.
  intros Hr. unfold radius_side.
  rewrite Hr, (proj1 (F32_lt_neg_zero r Hr)). reflexivity.
Qed.

(** In exact arithmetic, twice the centre on the left is
    (x - y k, y + x k); its cross product with the chord (x, y) is
    k (x^2 + y^2), which is not negative when k is not: the centre is on
    the left of the chord or on it.  On the right the sign is the
    opposite. *)
Remark quarter_turn_sides (x y k : Z) :
  0 <= k ->
  0 <= x * (y + x * k) - y * (x - y * k)
  /\ x * (y - x * k) - y * (x + y * k) <= 0.
Proof. intros Hk. split; nia. Qed.

(** What the source computes is the centre of the spec, on the side that
    the direction of the arc and the sign of R select. *)
Lemma arc_center_radius_centre (motion : Z) (r x y : float) :
  motion = MOTION_MODE_CW_ARC \/ motion = MOTION_MODE_CCW_ARC ->
  (arc_center_0 x y (arc_h_x2_div_d motion r x y),
   arc_center_1 x y (arc_h_x2_div_d motion r x y))
  = radius_centre motion r x y.
Proof.
  intros Hm.
  assert (Hh : arc_h_x2_div_d motion r x y
               = match radius_side motion r with
                 | Left_of_chord => chord_factor r x y
                 | Right_of_chord => F32.neg (chord_factor r x y)
                 end).
  { unfold arc_h_x2_div_d, radius_side, chord_factor, chord_discriminant,
      arc_discriminant, hypot_f.
    rewrite F32_div_neg_l.
    destruct Hm as [-> | ->];
      cbn [Z.eqb Pos.eqb MOTION_MODE_CW_ARC MOTION_MODE_CCW_ARC];
      destruct (F32.lt r (F32.of_Z 0)); cbn [opposite_side];
      rewrite ?F32_neg_involutive; reflexivity. }
  rewrite Hh. unfold radius_centre, arc_center_0, arc_center_1.
  destruct (radius_side motion r); cbn [centre_at].
  - reflexivity.
  - rewrite !F32_mul_neg_r, F32_sub_neg_r, F32_add_neg_r. reflexivity.
Qed.

Section ArcFacts.

Context {E : Externals}.

Lemma arc_discriminant_neg (r x y : float) :
  arc_discriminant (F32.neg r) x y = arc_discriminant r x y.
Proof.
  unfold arc_discriminant.
  rewrite (F32_mul_neg_r (F32.of_Z 4) r), F32_mul_neg_neg. reflexivity.
Qed.

(** Negative R: [h_x2_div_d] is the opposite of the one the same block
    has with the radius made positive. *)
Lemma arc_h_x2_div_d_neg (motion : Z) (r x y : float) :
  F32.lt r (F32.of_Z 0) = true ->
  arc_h_x2_div_d motion r x y
  = F32.neg (arc_h_x2_div_d motion (F32.neg r) x y).
Proof.
  intros Hr. unfold arc_h_x2_div_d.
  rewrite arc_discriminant_neg, Hr.
  rewrite (proj1 (F32_lt_neg_zero r Hr)). reflexivity.
Qed.

End ArcFacts.

(** ** Arcs *)

Section Arcs.

Context {E : Externals}.

Lemma check_motion_mode_arc (ax : axis_indices) (gs : parser_state_t) (L : locals) :
  arc_block ax L = true ->
  check_motion_mode ax gs L
  = if negb (Z.land (value_words L) (bit WORD_R) =? 0)
    then arc_radius_mode ax gs (arc_x ax gs L) (arc_y ax gs L) (arc_locals L)
    else arc_offset_mode ax (arc_x ax gs L) (arc_y ax gs L) (arc_locals L).
Proof.
  unfold arc_block, check_motion_mode, check_arc, arc_locals. intros H.
  repeat (apply andb_true_iff in H; destruct H as [H ?]).
  repeat match goal with
         | H : negb _ = true |- _ => apply negb_true_iff in H
         end.
  apply orb_true_iff in H.
  destruct H as [H|H]; apply Z.eqb_eq in H; rewrite H;
    cbn [Z.eqb Pos.eqb MOTION_MODE_CW_ARC MOTION_MODE_CCW_ARC MOTION_MODE_NONE
           MOTION_MODE_SEEK MOTION_MODE_LINEAR];
    cbn [axis_words value_words set_gc_parser_flags gc_block];
    repeat match goal with
           | H : _ = _ |- _ => rewrite H
           end; cbn [negb]; reflexivity.
Qed.

(** STEP 4 hands the radius and the offsets of the block to [mc_arc]. *)
Lemma exec_motion_arc (ax : axis_indices) (L : locals) (pl : plan_line_data_t)
  (gs : parser_state_t) (w : world) :
  (block_motion L = MOTION_MODE_CW_ARC \/ block_motion L = MOTION_MODE_CCW_ARC) ->
  axis_command L = AXIS_COMMAND_MOTION_MODE ->
  snd (exec_motion ax L pl gs w)
  = mc_arc (val_xyz (values (gc_block L))) pl (gs_position gs)
      (val_ijk (values (gc_block L))) (val_r (values (gc_block L)))
      (axis_0 ax) (axis_1 ax) (axis_linear ax)
      (bit_istrue (gc_parser_flags L) GC_PARSER_ARC_IS_CLOCKWISE) w.
Proof.
  unfold exec_motion. intros Hm ->.
  cbn [gs_modal upd_gs_modal set_gs_modal modal_motion set_motion gs_position].
  destruct Hm as [-> | ->]; reflexivity.
Qed.

Lemma gc_parse_words_flags (line : list ascii) (fuel : nat) :
  forall cc L0 L1,
    gc_parse_words fuel line cc L0 = Some (inr L1) ->
    gc_parser_flags L1 = gc_parser_flags L0.
Proof.
  induction fuel as [|fuel IH]; cbn [gc_parse_words]; intros cc L0 L1 H;
    [discriminate|].
  revert H. split_match; intros H; try discriminate H.
  - injection H as <-. reflexivity.
  - apply IH in H. rewrite H.
    match goal with
    | Hp : gc_parse_word _ _ _ = inr _ |- _ =>
        apply (gc_parse_word_frame _ _ _ _ Hp)
    end.
Qed.

Lemma gc_parse_line_is_jog (fuel : nat) (gs : parser_state_t) (line : list ascii)
  (L : locals) :
  gc_parse_line fuel gs line = Some (inr L) -> is_jog_block L = is_jog line.
Proof.
  unfold gc_parse_line. intros H. unfold is_jog_block.
  rewrite (gc_parse_words_flags _ _ _ _ _ H). apply is_jog_block_init.
Qed.

(** A block that fails the motion-mode checks. *)
Lemma motion_mode_fails (fuel : nat) (ax : axis_indices) (line : list ascii)
  (gs : parser_state_t) (w : world) (L L5 : locals) (w5 : world) (e : status) :
  gc_parse_line fuel gs line = Some (inr L) ->
  gc_check_before_motion gs L w = (inr L5, w5) ->
  check_motion_mode ax gs L5 = inl e ->
  gc_execute_line fuel ax line gs w = Some (e, gs, w5).
Proof.
  intros Hline H5 H6. unfold gc_execute_line. rewrite Hline.
  unfold gc_check_and_execute, gc_check. rewrite H5. unfold bind.
  rewrite H6. reflexivity.
Qed.

(** A block that passes them: what the call can still return. *)
Lemma motion_mode_passes (fuel : nat) (ax : axis_indices) (line : list ascii)
  (gs : parser_state_t) (w : world) (L L5 L6 : locals) (w5 : world) :
  gc_parse_line fuel gs line = Some (inr L) ->
  gc_check_before_motion gs L w = (inr L5, w5) ->
  check_motion_mode ax gs L5 = inr L6 ->
  exists s gs' w',
    gc_execute_line fuel ax line gs w = Some (s, gs', w')
    /\ (In s [STATUS_GCODE_UNUSED_WORDS; STATUS_OK; STATUS_SETTING_READ_FAIL;
              STATUS_INVALID_JOG_COMMAND]
        \/ (is_jog line = true /\ exists pl b w0, s = fst (jog_execute pl b w0))).
Proof.
  intros Hline H5 H6. unfold gc_execute_line. rewrite Hline.
  unfold gc_check_and_execute, gc_check. rewrite H5. unfold bind. rewrite H6.
  destruct (check_unused_words L6) as [e7|L7] eqn:H7.
  - apply check_unused_words_status in H7. subst.
    do 3 eexists. split; [reflexivity|]. left. cbn. auto.
  - destruct (gc_execute ax L7 gs w5) as [[s gs'] w'] eqn:Hrun.
    exists s, gs', w'. split; [reflexivity|].
    destruct (gc_execute_status _ _ _ _ _ _ _ Hrun)
      as [(_ & [-> | ->])|(Hj & _ & [-> | Hex])]; cbn; auto 10.
    right. split; [|assumption].
    rewrite <- (gc_parse_line_is_jog _ _ _ _ Hline), <- Hj.
    pose proof (gc_check_before_motion_frame _ _ _ _ _ H5) as (A & _).
    pose proof (check_motion_mode_frame _ _ _ _ H6) as (B & _).
    pose proof (check_unused_words_frame _ _ H7) as ((C & _) & _).
    congruence.
Qed.

End Arcs.

(** C2 (as the code has it). An offset-mode G2/G3 block (no R word) with
    axis words in the plane, at the arc checks: with delta_r the absolute
    difference of the radius from the centre to the target and the radius r
    from the centre to the current position, the block fails with
    STATUS_GCODE_INVALID_TARGET exactly when delta_r > 0.005 and (delta_r >
    0.5 or delta_r > 0.001 * r); otherwise the arc is accepted with radius
    r, so a difference of at most 0.005 mm is accepted whatever the radius.
    The comparisons are those of binary32. *)
Theorem C2_offset_arc_check
  (E : Externals) (fuel : nat) (ax : axis_indices) (line : list ascii)
  (gs : parser_state_t) (w : world) (L L5 : locals) (w5 : world) :
  gc_parse_line fuel gs line = Some (inr L) ->
  gc_check_before_motion gs L w = (inr L5, w5) ->
  arc_block ax L5 = true ->
  Z.land (value_words L5) (bit WORD_R) = 0 ->
  0 <= axis_0 ax < N_AXIS ->
  0 <= axis_1 ax < N_AXIS ->
  (is_jog line = true ->
   forall pl b w0, fst (jog_execute pl b w0) <> STATUS_GCODE_INVALID_TARGET) ->
  if F32.gt (arc_delta_r ax (arc_x ax gs L5) (arc_y ax gs L5) (values (gc_block L5)))
            (F32.dec 5 1000)
     && (F32.gt (arc_delta_r ax (arc_x ax gs L5) (arc_y ax gs L5) (values (gc_block L5)))
                (F32.dec 1 2)
         || F32.gt (arc_delta_r ax (arc_x ax gs L5) (arc_y ax gs L5) (values (gc_block L5)))
                   (F32.mul (F32.dec 1 1000) (arc_start_r ax (values (gc_block L5)))))
  then gc_execute_line fuel ax line gs w
       = Some (STATUS_GCODE_INVALID_TARGET, gs, w5)
  else (exists L6, check_motion_mode ax gs L5 = inr L6
                   /\ val_r (values (gc_block L6))
                      = arc_start_r ax (values (gc_block L5)))
       /\ exists s gs' w',
            gc_execute_line fuel ax line gs w = Some (s, gs', w')
            /\ s <> STATUS_GCODE_INVALID_TARGET.
Proof.
  intros Hline H5 Harc HR _ _ Hjog.
  pose proof (check_motion_mode_arc ax gs L5 Harc) as Hmm.
  rewrite HR in Hmm. cbn [Z.eqb negb] in Hmm.
  unfold arc_offset_mode in Hmm.
  assert (Hv : values (gc_block (set_value_words
                 (bit_false (value_words (arc_locals L5))
                    (Z.lor (Z.lor (bit WORD_I) (bit WORD_J)) (bit WORD_K)))
                 (arc_locals L5))) = values (gc_block L5)).
  { unfold arc_locals. split_ifs; reflexivity. }
  rewrite Hv in Hmm. clear Hv.
  destruct (F32.gt (arc_delta_r ax (arc_x ax gs L5) (arc_y ax gs L5)
                      (values (gc_block L5))) (F32.dec 5 1000)) eqn:H1;
    [destruct (F32.gt (arc_delta_r ax (arc_x ax gs L5) (arc_y ax gs L5)
                         (values (gc_block L5))) (F32.dec 1 2)) eqn:H2;
     [|destruct (F32.gt (arc_delta_r ax (arc_x ax gs L5) (arc_y ax gs L5)
                           (values (gc_block L5)))
                        (F32.mul (F32.dec 1 1000)
                           (arc_start_r ax (values (gc_block L5))))) eqn:H3]|];
    cbn [andb orb];
    try (eapply motion_mode_fails; eassumption).
  all: (split; [eexists; split; [eassumption|unfold arc_locals; split_ifs; reflexivity]|]).
  all: destruct (motion_mode_passes _ ax _ _ _ _ _ _ _ Hline H5 Hmm)
         as (s & gs' & w' & Hrun & Hs);
       exists s, gs', w'; (split; [assumption|]);
       destruct Hs as [Hs|(Hj & pl & b & w0 & ->)];
       [cbn in Hs; intuition (subst; discriminate) | apply Hjog; assumption].
Qed.

Ltac with_checked gs line w tac :=
  let r := eval vm_compute in (gc_parse_line (E := Sim.machine) 10 gs line) in
  lazymatch r with
  | Some (inr ?L) =>
      let r5 := eval vm_compute in
           (gc_check_before_motion (E := Sim.machine) gs L w) in
      lazymatch r5 with
      | (inr ?L5, ?w5) => tac L L5 w5
      end
  end.

(** C2 as amended, on G2X10Y0I4J0F100 and G3X10Y0I5J0F100. *)
Lemma C2_witness :
  gc_execute_line (E := Sim.machine) 10 Sim.g17 (Sim.chars "G2X10Y0I4J0F100")
    gc_state_zero Sim.boot
  = Some (STATUS_GCODE_INVALID_TARGET, gc_state_zero, Sim.boot)
  /\ exists s gs' w',
       gc_execute_line (E := Sim.machine) 10 Sim.g17 (Sim.chars "G3X10Y0I5J0F100")
         gc_state_zero Sim.boot = Some (s, gs', w')
       /\ s <> STATUS_GCODE_INVALID_TARGET.
Proof.
  split.
  - with_checked gc_state_zero (Sim.chars "G2X10Y0I4J0F100") Sim.boot
      ltac:(fun L L5 w5 =>
        exact (C2_offset_arc_check Sim.machine 10 Sim.g17
                 (Sim.chars "G2X10Y0I4J0F100") gc_state_zero Sim.boot L L5 w5
                 ltac:(vm_compute; reflexivity) ltac:(vm_compute; reflexivity)
                 ltac:(vm_compute; reflexivity) ltac:(vm_compute; reflexivity)
                 ltac:(vm_compute; split; [discriminate|reflexivity])
                 ltac:(vm_compute; split; [discriminate|reflexivity])
                 ltac:(discriminate))).
  - with_checked gc_state_zero (Sim.chars "G3X10Y0I5J0F100") Sim.boot
      ltac:(fun L L5 w5 =>
        exact (proj2 (C2_offset_arc_check Sim.machine 10 Sim.g17
                 (Sim.chars "G3X10Y0I5J0F100") gc_state_zero Sim.boot L L5 w5
                 ltac:(vm_compute; reflexivity) ltac:(vm_compute; reflexivity)
                 ltac:(vm_compute; reflexivity) ltac:(vm_compute; reflexivity)
                 ltac:(vm_compute; split; [discriminate|reflexivity])
                 ltac:(vm_compute; split; [discriminate|reflexivity])
                 ltac:(discriminate)))).
Defined.

(** C2, counterexample. From the origin, G2X2.004Y0I1J0F100 has its
    centre at (1,0): the radius to the current position is 1 and the radius
    to the target is about 1.004, so the two differ by more than 0.1% of
    the radius (and by less than 0.005); the block is accepted with
    STATUS_OK.  So is G2X10Y0I5J0.1F100, whose two radii are equal. *)
Lemma C2_counterexample :
  (exists L L5 w5 gs' w',
     gc_parse_line (E := Sim.machine) 10 gc_state_zero
       (Sim.chars "G2X2.004Y0I1J0F100") = Some (inr L)
     /\ gc_check_before_motion (E := Sim.machine) gc_state_zero L Sim.boot
        = (inr L5, w5)
     /\ arc_block Sim.g17 L5 = true
     /\ Z.land (value_words L5) (bit WORD_R) = 0
     /\ F32.gt (arc_delta_r Sim.g17 (arc_x Sim.g17 gc_state_zero L5)
                  (arc_y Sim.g17 gc_state_zero L5) (values (gc_block L5)))
               (F32.mul (F32.dec 1 1000) (arc_start_r Sim.g17 (values (gc_block L5))))
        = true
     /\ gc_execute_line (E := Sim.machine) 10 Sim.g17
          (Sim.chars "G2X2.004Y0I1J0F100") gc_state_zero Sim.boot
        = Some (STATUS_OK, gs', w'))
  /\ (exists gs' w',
        gc_execute_line (E := Sim.machine) 10 Sim.g17
          (Sim.chars "G2X10Y0I5J0.1F100") gc_state_zero Sim.boot
        = Some (STATUS_OK, gs', w')).
Proof.
  split.
  - with_checked gc_state_zero (Sim.chars "G2X2.004Y0I1J0F100") Sim.boot
      ltac:(fun L L5 w5 => exists L, L5, w5).
    let r := eval vm_compute in
         (gc_execute_line (E := Sim.machine) 10 Sim.g17
            (Sim.chars "G2X2.004Y0I1J0F100") gc_state_zero Sim.boot) in
    lazymatch r with
    | Some (_, ?gs1, ?w1) => exists gs1, w1
    end.
    repeat split; vm_compute; reflexivity.
  - let r := eval vm_compute in
         (gc_execute_line (E := Sim.machine) 10 Sim.g17
            (Sim.chars "G2X10Y0I5J0.1F100") gc_state_zero Sim.boot) in
    lazymatch r with
    | Some (_, ?gs1, ?w1) => exists gs1, w1
    end.
    vm_compute. reflexivity.
Qed.




(** ** Failures and gc_state *)

Section Atomicity.

Context {E : Externals}.

(** Whenever the call fails, gc_state is as it was, except when the status
    is STATUS_SETTING_READ_FAIL (the one [FAIL] of STEP 4, at program
    end). *)
Lemma gc_execute_line_failure_state (fuel : nat) (ax : axis_indices)
  (line : list ascii) (gs gs' : parser_state_t) (w w' : world) (s : status) :
  gc_execute_line fuel ax line gs w = Some (s, gs', w') ->
  s <> STATUS_OK ->
  gs' = gs \/ s = STATUS_SETTING_READ_FAIL.
Proof.
  unfold gc_execute_line.
  destruct (gc_parse_line fuel gs line) as [[e|L]|]; [| |discriminate].
  - intros H _. injection H as _ <- _. auto.
  - unfold gc_check_and_execute.
    destruct (gc_check ax gs L w) as [[e|L7] w7].
    + intros H _. injection H as _ <- _. auto.
    + intros H Hs. injection H as H.
      destruct (gc_execute_status _ _ _ _ _ _ _ H) as [(_ & [-> | ->])|(_ & Hgs & _)];
        auto. contradiction.
Qed.

End Atomicity.

(** C1, at the failing input. With an unreadable G54 slot, the block
    G1X1F100M2 is committed (position, feed rate and modes are written, the
    move is queued) and then the call returns STATUS_SETTING_READ_FAIL from
    the program-end branch of STEP 4: a status other than STATUS_OK with
    gc_state changed. *)
Theorem C1_failure_after_commit :
  exists gs' w',
    gc_execute_line (E := Sim.machine) 10 Sim.g17 (Sim.chars "G1X1F100M2")
      gc_state_zero Sim.boot_bad_g54
    = Some (STATUS_SETTING_READ_FAIL, gs', w')
    /\ gs_position gs' = [F32.of_Z 1; F32.zero]
    /\ gs_feed_rate gs' = F32.of_Z 100
    /\ modal_motion (gs_modal gs') = MOTION_MODE_LINEAR
    /\ gs' <> gc_state_zero
    /\ In (Sim.EvLine [F32.of_Z 1; F32.zero]
             {| pl_feed_rate := F32.of_Z 100; pl_condition := 0 |})
          (Sim.log w').
Proof.
  let r := eval vm_compute in
       (gc_execute_line (E := Sim.machine) 10 Sim.g17 (Sim.chars "G1X1F100M2")
          gc_state_zero Sim.boot_bad_g54) in
  lazymatch r with
  | Some (_, ?gs1, ?w1) => exists gs1, w1
  end.
  repeat split; try (vm_compute; reflexivity).
  - vm_compute. discriminate.
  - vm_compute. auto 10.
Qed.

(** C4, at the failing input. Nothing assigns axis_0, axis_1 and
    axis_linear, so the outcome of an arc block is decided by whatever
    values they happen to hold: with X and Y (0 and 1) in axis_0 and
    axis_1 G2X1Y1R1F100 is accepted, with 2 in both the same block, from
    the same state, fails with STATUS_GCODE_NO_AXIS_WORDS_IN_PLANE. *)
Theorem C4_arc_reads_unassigned_axes :
  (exists gs' w',
     gc_execute_line (E := Sim.machine) 10
       {| axis_0 := X_AXIS; axis_1 := Y_AXIS; axis_linear := 2 |}
       (Sim.chars "G2X1Y1R1F100") gc_state_zero Sim.boot
     = Some (STATUS_OK, gs', w'))
  /\ gc_execute_line (E := Sim.machine) 10
       {| axis_0 := 2; axis_1 := 2; axis_linear := X_AXIS |}
       (Sim.chars "G2X1Y1R1F100") gc_state_zero Sim.boot
     = Some (STATUS_GCODE_NO_AXIS_WORDS_IN_PLANE, gc_state_zero, Sim.boot).
Proof.
  split.
  - let r := eval vm_compute in
         (gc_execute_line (E := Sim.machine) 10
            {| axis_0 := X_AXIS; axis_1 := Y_AXIS; axis_linear := 2 |}
            (Sim.chars "G2X1Y1R1F100") gc_state_zero Sim.boot) in
    lazymatch r with
    | Some (_, ?gs1, ?w1) => exists gs1, w1
    end.
    vm_compute. reflexivity.
  - vm_compute. reflexivity.
Qed.

(** C8, at the failing inputs. G10L2X5 has no P word: it is accepted, and
    the active coordinate system is set to X = 5 and written to the
    settings store; G10P1X5 has no L word: it fails with
    STATUS_GCODE_UNSUPPORTED_COMMAND.  Only a G10 with neither P nor L
    fails with STATUS_GCODE_VALUE_WORD_MISSING. *)
Theorem C8_g10_missing_word :
  (exists gs' w',
     gc_execute_line (E := Sim.machine) 10 Sim.g17 (Sim.chars "G10L2X5")
       gc_state_zero Sim.boot
     = Some (STATUS_OK, gs', w')
     /\ gs_coord_system gs' = [F32.of_Z 5; F32.zero]
     /\ In (Sim.EvWriteCoord 0 [F32.of_Z 5; F32.zero]) (Sim.log w'))
  /\ gc_execute_line (E := Sim.machine) 10 Sim.g17 (Sim.chars "G10P1X5")
       gc_state_zero Sim.boot
     = Some (STATUS_GCODE_UNSUPPORTED_COMMAND, gc_state_zero, Sim.boot)
  /\ gc_execute_line (E := Sim.machine) 10 Sim.g17 (Sim.chars "G10X5")
       gc_state_zero Sim.boot
     = Some (STATUS_GCODE_VALUE_WORD_MISSING, gc_state_zero, Sim.boot).
Proof.
  split; [|split].
  - let r := eval vm_compute in
         (gc_execute_line (E := Sim.machine) 10 Sim.g17 (Sim.chars "G10L2X5")
            gc_state_zero Sim.boot) in
    lazymatch r with
    | Some (_, ?gs1, ?w1) => exists gs1, w1
    end.
    repeat split; try (vm_compute; reflexivity). vm_compute. auto 10.
  - vm_compute. reflexivity.
  - vm_compute. reflexivity.
Qed.

(** ** Termination of the word loop *)

Lemma line_at_inside (line : list ascii) (cc : Z) :
  0 <= cc -> line_at line cc <> zero -> cc < Z.of_nat (List.length line).
Proof.
  intros Hcc Hnz. unfold line_at in Hnz.
  destruct (Z_lt_le_dec cc (Z.of_nat (List.length line))) as [Hlt|Hge]; [assumption|].
  exfalso. apply Hnz. apply nth_overflow. lia.
Qed.

Section Termination.

Context {E : Externals}.

(** More fuel does not change a result. *)
Lemma gc_parse_words_more_fuel (line : list ascii) (fuel : nat) :
  forall k cc L r,
    gc_parse_words fuel line cc L = Some r ->
    gc_parse_words (fuel + k) line cc L = Some r.
Proof.
  induction fuel as [|fuel IH]; intros k cc L r; [discriminate|].
  cbn [gc_parse_words Nat.add].
  destruct (Ascii.eqb (line_at line cc) zero); [auto|].
  destruct (negb (is_letter (line_at line cc))); [auto|].
  destruct (read_float line (to_uint8 (cc + 1))) as [[v c']|]; [|auto].
  destruct (gc_parse_word (line_at line cc) v L); [auto|]. apply IH.
Qed.

(** With a [read_float] that advances, on a line that fits the 8-bit
    [char_counter], the loop ends within one turn per character. *)
Lemma gc_parse_words_total (line : list ascii) :
  read_float_advances E ->
  (List.length line <= 255)%nat ->
  forall fuel cc L,
    0 <= cc <= 255 ->
    (0 < fuel)%nat ->
    Z.of_nat (List.length line) - cc < Z.of_nat fuel ->
    exists r, gc_parse_words fuel line cc L = Some r.
Proof.
  intros Hadv Hlen. induction fuel as [|fuel IH]; intros cc L Hcc Hpos Hfuel.
  - lia.
  - cbn [gc_parse_words].
    destruct (Ascii.eqb_spec (line_at line cc) zero) as [_|Hnz]; [eauto|].
    destruct (negb (is_letter (line_at line cc))); [eauto|].
    pose proof (line_at_inside line cc (proj1 Hcc) Hnz) as Hin.
    assert (H8 : to_uint8 (cc + 1) = cc + 1).
    { unfold to_uint8. apply Z.mod_small. lia. }
    rewrite H8.
    destruct (read_float line (cc + 1)) as [[v c']|] eqn:Hr; [|eauto].
    destruct (gc_parse_word (line_at line cc) v L) as [e|L']; [eauto|].
    assert (Hc1 : 0 <= cc + 1) by lia.
    destruct (Hadv _ _ _ _ Hc1 Hr) as [Hlo Hhi].
    assert (H8' : to_uint8 c' = c').
    { unfold to_uint8. apply Z.mod_small. lia. }
    rewrite H8'. apply IH; lia.
Qed.

(** X18. The word loop comes to an end: with a [read_float] that takes at
    least one character for each number it reads and stops inside the line,
    on a line of at most 255 characters (the range of the 8-bit
    [char_counter]), the call returns, within one turn of the loop per
    character. *)
Lemma gc_execute_line_total (fuel : nat) (ax : axis_indices) (line : list ascii)
  (gs : parser_state_t) (w : world) :
  read_float_advances E ->
  (List.length line <= 255)%nat ->
  (List.length line < fuel)%nat ->
  exists s gs' w', gc_execute_line fuel ax line gs w = Some (s, gs', w').
Proof.
  intros Hadv Hlen Hfuel. unfold gc_execute_line, gc_parse_line.
  destruct (gc_parse_words_total line Hadv Hlen fuel (char_counter_init line)
              (gc_block_init gs line)) as [r Hr].
  - unfold char_counter_init. destruct (is_jog line); lia.
  - lia.
  - unfold char_counter_init. destruct (is_jog line); lia.
  - rewrite Hr. destruct r as [e|L].
    + do 3 eexists. reflexivity.
    + destruct (gc_check_and_execute ax L gs w) as [[s gs'] w'].
      do 3 eexists. reflexivity.
Qed.

End Termination.

(** The decimal reader of the simulated machine advances. *)
Lemma scan_number_used (s : list ascii) :
  forall intval exp ndigit isdecimal used intval' exp' ndigit' used',
    Sim.scan_number s intval exp ndigit isdecimal used
    = (intval', exp', ndigit', used') ->
    0 <= ndigit' - ndigit <= used' - used
    /\ used' - used <= Z.of_nat (List.length s).
Proof.
  induction s as [|c t IH]; cbn [Sim.scan_number List.length];
    intros intval exp ndigit isdecimal used intval' exp' ndigit' used' H.
  - injection H as _ _ <- <-. lia.
  - revert H. split_ifs; intros H;
      try (apply IH in H; lia).
    injection H as _ _ <- <-. lia.
Qed.

Lemma sim_read_float_advances : read_float_advances Sim.machine.
Proof.
  intros line cc v cc' Hcc. cbn [read_float Sim.machine]. unfold Sim.sim_read_float.
  pose proof (length_skipn (Z.to_nat cc) line) as Hskip.
  destruct (skipn (Z.to_nat cc) line) as [|c t] eqn:Hs.
  - cbn. discriminate.
  - assert (Hbound : Z.of_nat (List.length (c :: t)) + cc
                     <= Z.of_nat (List.length line)).
    { rewrite Hskip. cbn [List.length] in Hskip. lia. }
    cbn [List.length] in Hbound.
    destruct (Ascii.eqb c "-"); [|destruct (Ascii.eqb c "+")];
      match goal with
      | |- context [Sim.scan_number ?s0 0 0 0 false 0] =>
          destruct (Sim.scan_number s0 0 0 0 false 0) as [[[i e] nd] u] eqn:Hscan;
          apply scan_number_used in Hscan; cbn [List.length] in Hscan
      end;
      destruct (nd =? 0) eqn:Hnd; try discriminate;
      apply Z.eqb_neq in Hnd; intros H; injection H as _ <-; lia.
Qed.

(** ** G10: what is stored *)

Section G10.

Context {E : Externals}.

(** The loop over the axes, on a buffer of N_AXIS values: an axis with a
    word gets position - coord_offset - programmed value under L20 and the
    programmed value otherwise; an axis without a word keeps what the
    settings store had. *)
Lemma g10_stores (gs : parser_state_t) (L : locals) (v : gc_values_t) (idx : Z) :
  List.length (val_ijk v) = Z.to_nat N_AXIS ->
  In idx axes ->
  vec_get (val_ijk (fold_left (g10_axis gs L) axes v)) idx
  = if bit_istrue (axis_words L) (bit idx) then
      if val_l v =? 20 then
        F32.sub (F32.sub (vec_get (gs_position gs) idx)
                         (vec_get (gs_coord_offset gs) idx))
                (vec_get (val_xyz v) idx)
      else vec_get (val_xyz v) idx
    else vec_get (val_ijk v) idx.
Proof.
  intros Hlen Hin.
  destruct v as [vf vijk vl vn vp vr vxyz]. cbn [val_ijk] in Hlen.
  destruct vijk as [|a [|b [|c t]]]; try discriminate Hlen.
  unfold axes in *. cbn [fold_left]. unfold g10_axis.
  cbn [In] in Hin. destruct Hin as [<-|[<-|[]]];
    destruct (bit_istrue (axis_words L) (bit 0));
    destruct (bit_istrue (axis_words L) (bit 1));
    cbn [val_l val_ijk val_xyz set_ijk];
    destruct (vl =? 20) eqn:Hl;
    repeat (cbn [val_l val_ijk val_xyz set_ijk]; rewrite ?Hl);
    reflexivity.
Qed.

(** The checks of a G10 block, in the order of the source. *)
Lemma check_g10_cases (gs : parser_state_t) (L : locals) (w : world) :
  non_modal_command (gc_block L) = NON_MODAL_SET_COORDINATE_DATA ->
  (axis_words L = 0 ->
   check_non_modal gs L w = (FAIL STATUS_GCODE_NO_AXIS_WORDS, w))
  /\ (axis_words L <> 0 ->
      bit_istrue (value_words L) (bit WORD_P) = false ->
      bit_istrue (value_words L) (bit WORD_L) = false ->
      check_non_modal gs L w = (FAIL STATUS_GCODE_VALUE_WORD_MISSING, w))
  /\ (axis_words L <> 0 ->
      bit_istrue (value_words L) (bit WORD_P) = true
      \/ bit_istrue (value_words L) (bit WORD_L) = true ->
      N_COORDINATE_SYSTEM < to_uint8 (F32.trunc (val_p (values (gc_block L)))) ->
      check_non_modal gs L w = (FAIL STATUS_GCODE_UNSUPPORTED_COORD_SYS, w))
  /\ (forall L' w',
        check_non_modal gs L w = (inr L', w') ->
        coord_select L'
        = (if 0 <? to_uint8 (F32.trunc (val_p (values (gc_block L))))
           then to_uint8 (to_uint8 (F32.trunc (val_p (values (gc_block L)))) - 1)
           else modal_coord_select (modal (gc_block L)))
        /\ (val_l (values (gc_block L)) = 2 \/ val_l (values (gc_block L)) = 20)
        /\ exists buf w0,
             settings_read_coord_data (coord_select L') (val_ijk (values (gc_block L))) w
             = (true, buf, w0)
             /\ w' = w0
             /\ values (gc_block L')
                = fold_left
                    (g10_axis gs
                       (upd_block (upd_values (set_ijk buf))
                          (set_coord_select_local (coord_select L')
                             (set_value_words
                                (bit_false (value_words L)
                                   (Z.lor (bit WORD_L) (bit WORD_P))) L))))
                    axes (set_ijk buf (values (gc_block L)))).
Proof.
  intros HG10. unfold check_non_modal. rewrite HG10. cbn [Z.eqb
    NON_MODAL_SET_COORDINATE_DATA Pos.eqb]. unfold check_g10.
  assert (Hmask : bit_isfalse (value_words L)
                    (Z.lor (Z.shiftl 1 WORD_P) (Z.shiftl 1 WORD_L))
                  = negb (bit_istrue (value_words L) (bit WORD_P))
                    && negb (bit_istrue (value_words L) (bit WORD_L))).
  { unfold bit_isfalse. rewrite !bit_istrue_testbit by discriminate.
    change (Z.shiftl 1 WORD_P) with (bit WORD_P).
    change (Z.shiftl 1 WORD_L) with (bit WORD_L).
    destruct (Z.testbit (value_words L) WORD_P) eqn:HP;
      destruct (Z.testbit (value_words L) WORD_L) eqn:HL; cbn [negb andb].
    - apply Z.eqb_neq. intros H0.
      apply (f_equal (fun z => Z.testbit z WORD_P)) in H0.
      rewrite Z.land_spec, Z.lor_spec, !testbit_bit, HP in H0 by discriminate.
      discriminate H0.
    - apply Z.eqb_neq. intros H0.
      apply (f_equal (fun z => Z.testbit z WORD_P)) in H0.
      rewrite Z.land_spec, Z.lor_spec, !testbit_bit, HP in H0 by discriminate.
      discriminate H0.
    - apply Z.eqb_neq. intros H0.
      apply (f_equal (fun z => Z.testbit z WORD_L)) in H0.
      rewrite Z.land_spec, Z.lor_spec, !testbit_bit, HL in H0 by discriminate.
      discriminate H0.
    - apply Z.eqb_eq. apply Z.bits_inj'. intros k Hk.
      rewrite Z.land_spec, Z.lor_spec, !testbit_bit, Z.bits_0 by discriminate.
      destruct (Z.eqb_spec WORD_P k) as [<-|_];
        [rewrite HP; reflexivity|].
      destruct (Z.eqb_spec WORD_L k) as [<-|_];
        [rewrite HL; reflexivity|].
      apply andb_false_r. }
  rewrite Hmask. split; [|split; [|split]].
  - intros ->. reflexivity.
  - intros Hax HP HL. apply Z.eqb_neq in Hax. rewrite Hax, HP, HL. reflexivity.
  - intros Hax HPL Hgt. apply Z.eqb_neq in Hax. rewrite Hax.
    apply Z.ltb_lt in Hgt. rewrite Hgt.
    destruct HPL as [-> | ->]; cbn [negb andb]; rewrite ?andb_false_r; reflexivity.
  - intros L' w'.
    destruct (axis_words L =? 0); [discriminate|].
    destruct (negb _ && negb _); [discriminate|].
    destruct (N_COORDINATE_SYSTEM <? _); [discriminate|].
    destruct (g10_l_check L) as [e|[]] eqn:Hl; [discriminate|].
    cbn [gc_block set_coord_select_local set_value_words values modal].
    match goal with
    | |- context [settings_read_coord_data ?i ?b w] =>
        destruct (settings_read_coord_data i b w) as [[okb buf] w0] eqn:Hread
    end.
    destruct okb; cbn [negb]; [|discriminate].
    intros H. injection H as <- <-.
    cbn [coord_select upd_block set_coord_select_local gc_block values upd_values].
    split; [reflexivity|]. split.
    + revert Hl. unfold g10_l_check, ok, FAIL.
      split_ifs; intros Hx; try discriminate Hx; zbool; auto.
    + exists buf, w0. repeat split. exact Hread.
Qed.

End G10.

(** ** The word loop: what it takes for a word *)

(** X1. After any number of words imported without failure, a character
    that is not an upper-case letter ends the call with
    STATUS_EXPECTED_COMMAND_LETTER, and a letter that no number follows
    ends it with STATUS_BAD_NUMBER_FORMAT; gc_state and the world are as
    they were. *)
Theorem word_syntax_errors
  (E : Externals) (k fuel : nat) (ax : axis_indices) (line : list ascii)
  (gs : parser_state_t) (w : world) (ws : list (ascii * float)) (cc : Z)
  (L : locals) :
  block_words k gs line = Some (ws, cc, L) ->
  (k < fuel)%nat ->
  line_at line cc <> zero ->
  (is_letter (line_at line cc) = false ->
   gc_execute_line fuel ax line gs w
   = Some (STATUS_EXPECTED_COMMAND_LETTER, gs, w))
  /\ (is_letter (line_at line cc) = true ->
      read_float line (to_uint8 (cc + 1)) = None ->
      gc_execute_line fuel ax line gs w
      = Some (STATUS_BAD_NUMBER_FORMAT, gs, w)).
Proof.
  intros Hb Hk Hnz. unfold gc_execute_line, gc_parse_line.
  replace fuel with (k + S (fuel - k - 1))%nat by lia.
  rewrite (gc_parse_words_import _ _ _ _ _ _ _ _ Hb).
  cbn [gc_parse_words].
  destruct (Ascii.eqb_spec (line_at line cc) zero) as [Hz|_]; [contradiction|].
  split.
  - intros ->. reflexivity.
  - intros -> ->. reflexivity.
Qed.

(** X1 on G1x5 (a lower-case letter) and on G1X (no number). *)
Lemma word_syntax_errors_witness :
  gc_execute_line (E := Sim.machine) 10 Sim.g17 (Sim.chars "G1x5")
    gc_state_zero Sim.boot
  = Some (STATUS_EXPECTED_COMMAND_LETTER, gc_state_zero, Sim.boot)
  /\ gc_execute_line (E := Sim.machine) 10 Sim.g17 (Sim.chars "G1X")
       gc_state_zero Sim.boot
     = Some (STATUS_BAD_NUMBER_FORMAT, gc_state_zero, Sim.boot).
Proof.
  split.
  - with_block 1%nat gc_state_zero (Sim.chars "G1x5")
      ltac:(fun ws cc L =>
        exact (proj1 (word_syntax_errors Sim.machine 1 10 Sim.g17
                 (Sim.chars "G1x5") gc_state_zero Sim.boot ws cc L
                 ltac:(vm_compute; reflexivity) ltac:(lia)
                 ltac:(vm_compute; discriminate))
               ltac:(vm_compute; reflexivity))).
  - with_block 1%nat gc_state_zero (Sim.chars "G1X")
      ltac:(fun ws cc L =>
        exact (proj2 (word_syntax_errors Sim.machine 1 10 Sim.g17
                 (Sim.chars "G1X") gc_state_zero Sim.boot ws cc L
                 ltac:(vm_compute; reflexivity) ltac:(lia)
                 ltac:(vm_compute; discriminate))
               ltac:(vm_compute; reflexivity) ltac:(vm_compute; reflexivity))).
Defined.

(** The 'G' switch at the head of a block. *)
Lemma parse_G_blank (iv m : Z) :
  0 <= m ->
  (exists L, parse_G iv m blank = inr L) <-> In (iv, m) supported_G.
Proof.
  intros Hm. split.
  - intros [L H]. revert H.
    unfold parse_G, G_switch, G_non_modal, G_motion, modal_group_check,
      bind, ok, FAIL.
    change (axis_command blank) with 0. cbn [Z.eqb negb].
    split_ifs; intros H; try discriminate H; clear H;
      repeat match goal with
             | H : one_of _ _ = true |- _ => one_of_cases H
             | H : (0 <? _) = false |- _ => apply Z.ltb_ge in H
             | H : negb _ = false |- _ => apply negb_false_iff in H
             | H : (_ || _) = true |- _ =>
                 apply orb_true_iff in H; destruct H as [H|H]
             | H : (_ || _) = false |- _ =>
                 apply orb_false_iff in H; destruct H as [? ?]
             | H : (_ =? _) = true |- _ => apply Z.eqb_eq in H
             | H : (_ =? _) = false |- _ => apply Z.eqb_neq in H
             end;
      subst;
      try match goal with
          | |- In (_, ?x) _ =>
              first [ is_var x; assert (x = 0) by lia; subst x | idtac ]
          end;
      first [ solve [cbn; auto 40] | exfalso; lia | idtac ].
  - intros H. cbn [In supported_G] in H.
    repeat (destruct H as [H|H]; [injection H as <- <-; eexists; reflexivity|]).
    contradiction.
Qed.

Lemma mantissa_of_nonneg (v : float) : 0 <= mantissa_of v.
Proof. unfold mantissa_of, to_uint16. apply Z.mod_pos_bound. lia. Qed.

(** X2. The command words the parser supports.  At the head of a block a
    G word is accepted exactly when it is one of G0, G1, G2, G3, G4, G10,
    G20, G21, G28, G28.1, G30, G30.1, G38.2 to G38.5, G40, G53, G54 to G59,
    G61, G80, G90, G91, G91.1, G92, G92.1, G93 and G94, and an M word
    exactly when it is one of M0, M1, M2 and M30. *)
Theorem supported_commands (v : float) :
  ((exists L, gc_parse_word "G" v blank = inr L)
   <-> In (int_value_of v, mantissa_of v) supported_G)
  /\ ((exists L, gc_parse_word "M" v blank = inr L)
      <-> In (int_value_of v) supported_M /\ mantissa_of v = 0).
Proof.
  split.
  - unfold gc_parse_word. cbn [Ascii.eqb Bool.eqb].
    apply parse_G_blank, mantissa_of_nonneg.
  - unfold gc_parse_word. cbn [Ascii.eqb Bool.eqb].
    pose proof (mantissa_of_nonneg v) as Hm.
    generalize dependent (mantissa_of v). generalize (int_value_of v).
    intros iv m Hm. unfold parse_M, modal_group_check, ok, FAIL. split.
    + intros [L H]. revert H.
      destruct (0 <? m) eqn:H0; [discriminate|]. apply Z.ltb_ge in H0.
      destruct (one_of iv [0; 1; 2; 30]) eqn:Hiv; [|discriminate].
      intros _. split; [|lia].
      one_of_cases Hiv; subst; cbn; auto.
    + intros [Hin ->]. cbn [In supported_M] in Hin.
      repeat (destruct Hin as [Hin|Hin]; [subst iv; eexists; reflexivity|]).
      contradiction.
Qed.

(** X3. A word whose letter is none of G, M, F, I, J, L, N, P, R, X and
    Y ends the call with STATUS_GCODE_UNSUPPORTED_COMMAND, whatever its
    value and wherever it stands in the block; gc_state and the world are
    as they were.  These are the fifteen letters of [unsupported_letters],
    K and Z among them, and no others: each of the eleven other upper-case
    letters is accepted with the value 0 at the head of a block. *)
Theorem unsupported_letter_rejected
  (E : Externals) (k fuel : nat) (ax : axis_indices) (line : list ascii)
  (gs : parser_state_t) (w : world) (ws : list (ascii * float)) (cc : Z)
  (L : locals) (letter : ascii) (v : float) (cc1 : Z) :
  block_words k gs line = Some (ws, cc, L) ->
  word_at line cc = Some (letter, v, cc1) ->
  (k < fuel)%nat ->
  (In letter unsupported_letters ->
   gc_execute_line fuel ax line gs w
   = Some (STATUS_GCODE_UNSUPPORTED_COMMAND, gs, w))
  /\ (is_letter letter = true ->
      ~ In letter unsupported_letters ->
      In letter (list_ascii_of_string "GMFIJLNPRXY")
      /\ exists L', gc_parse_word letter F32.zero blank = inr L').
Proof.
  intros Hb Hw Hk. split.
  - intros Hin. eapply gc_execute_line_fails_at; eauto.
    cbn in Hin.
    repeat (destruct Hin as [<-|Hin]; [reflexivity|]). contradiction.
  - clear. intros Hl Hn.
    destruct letter as [[] [] [] [] [] [] [] []];
      try (vm_compute in Hl; discriminate Hl);
      first [ exfalso; apply Hn; cbn;
              solve [repeat (first [left; reflexivity | right])]
            | split;
              [ cbn; solve [repeat (first [left; reflexivity | right])]
              | eexists; vm_compute; reflexivity ] ].
Qed.

(** X3 on G1X1T2 and on G1X1Z5. *)
Lemma unsupported_letter_rejected_witness :
  gc_execute_line (E := Sim.machine) 10 Sim.g17 (Sim.chars "G1X1T2")
    gc_state_zero Sim.boot
  = Some (STATUS_GCODE_UNSUPPORTED_COMMAND, gc_state_zero, Sim.boot)
  /\ gc_execute_line (E := Sim.machine) 10 Sim.g17 (Sim.chars "G1X1Z5")
       gc_state_zero Sim.boot
     = Some (STATUS_GCODE_UNSUPPORTED_COMMAND, gc_state_zero, Sim.boot).
Proof.
  split.
  - with_block 2%nat gc_state_zero (Sim.chars "G1X1T2")
      ltac:(fun ws cc L =>
        refine (proj1 (unsupported_letter_rejected Sim.machine 2 10 Sim.g17
                  (Sim.chars "G1X1T2") gc_state_zero Sim.boot ws cc L
                  "T"%char (F32.of_Z 2) 6 _ _ _) _)).
    + vm_compute. reflexivity.
    + vm_compute. reflexivity.
    + lia.
    + cbn. auto 20.
  - with_block 2%nat gc_state_zero (Sim.chars "G1X1Z5")
      ltac:(fun ws cc L =>
        refine (proj1 (unsupported_letter_rejected Sim.machine 2 10 Sim.g17
                  (Sim.chars "G1X1Z5") gc_state_zero Sim.boot ws cc L
                  "Z"%char (F32.of_Z 5) 6 _ _ _) _)).
    + vm_compute. reflexivity.
    + vm_compute. reflexivity.
    + lia.
    + cbn. repeat (first [left; reflexivity | right]).
Defined.

(** ** What STEP 4 commits *)

Ltac state_fields :=
  cbn [gs_modal gs_feed_rate gs_line_number gs_position gs_coord_system
       gs_coord_offset modal_motion modal_feed_rate modal_units modal_distance
       modal_coord_select modal_program_flow gc_block modal values
       non_modal_command axis_command coord_select block_coord_system
       gc_parser_flags upd_gs_modal set_gs_modal set_gs_feed_rate
       set_gs_line_number set_gs_position set_gs_coord_system set_motion
       set_feed_rate_mode set_units set_distance set_coord_select
       set_program_flow fst snd negb andb] in *.

Section Commit.

Context {E : Externals}.

(** Outside a jog: gc_state after STEP 4, field by field. *)
Lemma gc_execute_commit (ax : axis_indices) (L : locals)
  (gs gs' : parser_state_t) (w w' : world) (s : status) :
  is_jog_block L = false ->
  gc_execute ax L gs w = (s, gs', w') ->
  gs_coord_offset gs' = gs_coord_offset gs
  /\ gs_line_number gs' = val_n (values (gc_block L))
  /\ gs_position gs'
     = (if negb (block_motion L =? MOTION_MODE_NONE)
           && (axis_command L =? AXIS_COMMAND_MOTION_MODE)
        then val_xyz (values (gc_block L)) else gs_position gs)
  /\ modal_units (gs_modal gs') = modal_units (modal (gc_block L))
  /\ (s = STATUS_OK -> modal_program_flow (gs_modal gs') = PROGRAM_FLOW_RUNNING)
  /\ (modal_program_flow (modal (gc_block L)) = PROGRAM_FLOW_RUNNING
      \/ modal_program_flow (modal (gc_block L)) = PROGRAM_FLOW_PAUSED ->
      s = STATUS_OK
      /\ modal_motion (gs_modal gs') = modal_motion (modal (gc_block L))
      /\ modal_feed_rate (gs_modal gs') = modal_feed_rate (modal (gc_block L))
      /\ modal_distance (gs_modal gs') = modal_distance (modal (gc_block L))
      /\ modal_coord_select (gs_modal gs')
         = modal_coord_select (modal (gc_block L)))
  /\ (modal_program_flow (modal (gc_block L)) <> PROGRAM_FLOW_RUNNING ->
      modal_program_flow (modal (gc_block L)) <> PROGRAM_FLOW_PAUSED ->
      modal_motion (gs_modal gs') = MOTION_MODE_LINEAR
      /\ modal_feed_rate (gs_modal gs') = FEED_RATE_MODE_UNITS_PER_MIN
      /\ modal_distance (gs_modal gs') = DISTANCE_MODE_ABSOLUTE
      /\ modal_coord_select (gs_modal gs') = 0).
Proof.
  unfold gc_execute. intros ->.
  unfold exec_coord_select, exec_non_modal, exec_motion, exec_program_flow,
    block_motion.
  destruct gs as [[mm mf mu md mc mp] fr ln pos cs co].
  destruct L as [[nm [bm bf bu bd bc bp] bv] ac csl aw iw cw vw fl bcs].
  state_fields.
  unfold PROGRAM_FLOW_RUNNING, PROGRAM_FLOW_PAUSED.
  repeat match goal with
         | |- context [if ?b then _ else _] =>
             let H := fresh "Hb" in destruct b eqn:H; state_fields
         | |- context [let '(_, _) := ?x in _] =>
             let H := fresh "Hm" in destruct x as [[? ?] ?] eqn:H; state_fields
         end;
    intros H; injection H as <- <- _; state_fields; zbool;
    repeat split; try reflexivity; try discriminate; intros; try congruence;
    try (exfalso; intuition congruence).
Qed.

End Commit.

(** ** What the checks of STEP 3 leave of the axis command *)

Section AxisCommand.

Context {E : Externals}.

Lemma gc_check_before_motion_axis_command (gs : parser_state_t) (L L5 : locals)
  (w w5 : world) :
  gc_check_before_motion gs L w = (inr L5, w5) ->
  axis_command L5 = axis_command (implicit_axis_command L).
Proof.
  unfold gc_check_before_motion, bind.
  destruct (check_line_number (implicit_axis_command L)) as [e1|L1] eqn:H1;
    [discriminate|].
  apply check_line_number_inr in H1. subst L1.
  destruct (check_feed_rate gs _) as [e2|L2] eqn:H2; [discriminate|].
  destruct (check_dwell L2) as [e3|L3] eqn:H3; [discriminate|].
  destruct (check_coord_select gs L3 w) as [[e4|L4] w4] eqn:H4; [discriminate|].
  intros H5.
  destruct (check_feed_rate_frame _ _ _ H2) as (_ & A2 & _).
  destruct (check_dwell_frame _ _ H3) as (_ & A3 & _).
  destruct (check_coord_select_frame _ _ _ _ _ H4) as (_ & A4 & _).
  destruct (check_non_modal_frame _ _ _ _ _ H5) as (_ & A5 & _).
  congruence.
Qed.

(** A block without axis words leaves the motion-mode checks with no
    motion to execute, unless its motion mode is one of G38.2 to G38.5. *)
Lemma check_motion_mode_no_axis_words (ax : axis_indices) (gs : parser_state_t)
  (L L6 : locals) :
  check_motion_mode ax gs L = inr L6 ->
  axis_words L = 0 ->
  one_of (block_motion L) [0; 1; 2; 3; 80] = true ->
  negb (block_motion L6 =? MOTION_MODE_NONE)
  && (axis_command L6 =? AXIS_COMMAND_MOTION_MODE) = false.
Proof.
  unfold check_motion_mode, check_arc, ok, FAIL. intros H Haw Hm. revert H.
  cbn [axis_words set_gc_parser_flags]. rewrite Haw. cbn [Z.eqb negb].
  split_ifs; intros H; try discriminate H; injection H as <-;
    unfold block_motion in *; cbn [gc_block set_axis_command axis_command];
    zbool.
  - rewrite Hb. reflexivity.
  - apply andb_false_r.
  - apply andb_false_r.
  - exfalso.
    unfold MOTION_MODE_NONE, MOTION_MODE_SEEK, MOTION_MODE_LINEAR,
      MOTION_MODE_CW_ARC, MOTION_MODE_CCW_ARC in *.
    one_of_cases Hm; congruence.
  - apply andb_false_iff. right. apply Z.eqb_neq. assumption.
Qed.

Lemma gc_execute_jog_state (L : locals) (gs gs' : parser_state_t)
  (w w' : world) (s : status) :
  gc_execute_jog L gs w = (s, gs', w') ->
  gs' = gs
  \/ (s = STATUS_OK /\ gs' = set_gs_position (val_xyz (values (gc_block L))) gs).
Proof.
  unfold gc_execute_jog. split_match; intros H; injection H as <- <- _; auto.
Qed.

End AxisCommand.

(** X4. A jog line ($J=...) never changes the modes, the feed rate, the
    line number, the coordinate system or the offsets of gc_state, whatever
    it contains and whatever the call returns: at most the position is
    written, and only when the call returns STATUS_OK. *)
Theorem jog_keeps_parser_state
  (E : Externals) (fuel : nat) (ax : axis_indices) (line : list ascii)
  (gs gs' : parser_state_t) (w w' : world) (s : status) :
  is_jog line = true ->
  gc_execute_line fuel ax line gs w = Some (s, gs', w') ->
  gs_modal gs' = gs_modal gs
  /\ gs_feed_rate gs' = gs_feed_rate gs
  /\ gs_line_number gs' = gs_line_number gs
  /\ gs_coord_system gs' = gs_coord_system gs
  /\ gs_coord_offset gs' = gs_coord_offset gs
  /\ (s <> STATUS_OK -> gs_position gs' = gs_position gs).
Proof.
  intros Hjog. unfold gc_execute_line.
  destruct (gc_parse_line fuel gs line) as [[e|L]|] eqn:Hline; [| |discriminate].
  { intros H. injection H as _ <- _. repeat split. }
  unfold gc_check_and_execute.
  destruct (gc_check ax gs L w) as [[e|L7] w7] eqn:Hchk.
  { intros H. injection H as _ <- _. repeat split. }
  intros H. injection H as H.
  pose proof (gc_parse_line_is_jog _ _ _ _ Hline) as HL.
  destruct (gc_check_frame _ _ _ _ _ _ Hchk) as (HL7 & _).
  unfold gc_execute in H. rewrite HL7, HL, Hjog in H.
  destruct (gc_execute_jog_state _ _ _ _ _ _ H) as [->|[-> ->]];
    repeat split. intros Hs. contradiction.
Qed.

(** X4 on $J=G91X5F100 and on $J=G1X5F100. *)
Lemma jog_keeps_parser_state_witness :
  (exists gs' w',
     gc_execute_line (E := Sim.machine) 20 Sim.g17 (Sim.chars "$J=G91X5F100")
       gc_state_zero Sim.boot = Some (STATUS_OK, gs', w')
     /\ gs_modal gs' = gs_modal gc_state_zero
     /\ gs_feed_rate gs' = gs_feed_rate gc_state_zero)
  /\ (exists gs' w',
        gc_execute_line (E := Sim.machine) 20 Sim.g17 (Sim.chars "$J=G1X5F100")
          gc_state_zero Sim.boot = Some (STATUS_INVALID_JOG_COMMAND, gs', w')
        /\ gs_position gs' = gs_position gc_state_zero).
Proof.
  split.
  - let r := eval vm_compute in
         (gc_execute_line (E := Sim.machine) 20 Sim.g17
            (Sim.chars "$J=G91X5F100") gc_state_zero Sim.boot) in
    lazymatch r with
    | Some (?s1, ?gs1, ?w1) =>
        exists gs1, w1;
        pose proof (jog_keeps_parser_state Sim.machine 20 Sim.g17
                      (Sim.chars "$J=G91X5F100") gc_state_zero gs1
                      Sim.boot w1 s1
                      ltac:(vm_compute; reflexivity)
                      ltac:(vm_compute; reflexivity)) as (A & B & _)
    end.
    split; [vm_compute; reflexivity|]. split; [exact A|exact B].
  - let r := eval vm_compute in
         (gc_execute_line (E := Sim.machine) 20 Sim.g17
            (Sim.chars "$J=G1X5F100") gc_state_zero Sim.boot) in
    lazymatch r with
    | Some (?s1, ?gs1, ?w1) =>
        exists gs1, w1;
        pose proof (jog_keeps_parser_state Sim.machine 20 Sim.g17
                      (Sim.chars "$J=G1X5F100") gc_state_zero gs1
                      Sim.boot w1 s1
                      ltac:(vm_compute; reflexivity)
                      ltac:(vm_compute; reflexivity)) as (_ & _ & _ & _ & _ & F)
    end.
    split; [vm_compute; reflexivity|]. apply F. discriminate.
Defined.

(** X5. No call changes gc_state.coord_offset: G92 is taken as a word of
    the block, but nothing is done for it.  And outside a jog, a block
    without axis words leaves gc_state.position as it is, provided the
    motion mode of the block is not one of G38.2 to G38.5. *)
Theorem offsets_and_position_kept
  (E : Externals) (fuel : nat) (ax : axis_indices) (line : list ascii)
  (gs gs' : parser_state_t) (w w' : world) (s : status) :
  gc_execute_line fuel ax line gs w = Some (s, gs', w') ->
  gs_coord_offset gs' = gs_coord_offset gs
  /\ (forall L,
        gc_parse_line fuel gs line = Some (inr L) ->
        is_jog line = false ->
        axis_words L = 0 ->
        one_of (block_motion L) [0; 1; 2; 3; 80] = true ->
        gs_position gs' = gs_position gs).
Proof.
  unfold gc_execute_line.
  destruct (gc_parse_line fuel gs line) as [[e|L]|] eqn:Hline; [| |discriminate].
  { intros H. injection H as _ <- _. split; [reflexivity|]. discriminate. }
  unfold gc_check_and_execute, gc_check, bind.
  destruct (gc_check_before_motion gs L w) as [[e|L5] w5] eqn:H5.
  { intros H. injection H as _ <- _. split; reflexivity. }
  destruct (check_motion_mode ax gs L5) as [e|L6] eqn:H6.
  { intros H. injection H as _ <- _. split; reflexivity. }
  destruct (check_unused_words L6) as [e|L7] eqn:H7.
  { intros H. injection H as _ <- _. split; reflexivity. }
  intros H. injection H as H.
  pose proof (gc_parse_line_is_jog _ _ _ _ Hline) as HL.
  destruct (gc_check_before_motion_frame _ _ _ _ _ H5) as (J5 & M5 & _ & _ & W5).
  destruct (check_motion_mode_frame _ _ _ _ H6) as (J6 & M6 & _).
  destruct (check_unused_words_frame _ _ H7) as ((J7 & M7 & _) & A7 & _).
  destruct (is_jog_block L7) eqn:HJ.
  - unfold gc_execute in H. rewrite HJ in H.
    split.
    + destruct (gc_execute_jog_state _ _ _ _ _ _ H) as [->|[_ ->]]; reflexivity.
    + intros L0 HL0 Hj. congruence.
  - destruct (gc_execute_commit _ _ _ _ _ _ _ HJ H) as (Hoff & _ & Hpos & _).
    split; [assumption|].
    intros L0 HL0 _ Haw Hm. injection HL0 as <-.
    pose proof (check_motion_mode_no_axis_words _ _ _ _ H6) as Hno.
    unfold block_motion in *. rewrite M7, A7 in Hpos.
    rewrite Hpos, Hno; [reflexivity|congruence|].
    rewrite M5. assumption.
Qed.

(** X5 on G92X5: the block is accepted and the offsets stay at zero. *)
Lemma offsets_and_position_kept_witness :
  exists gs' w',
    gc_execute_line (E := Sim.machine) 10 Sim.g17 (Sim.chars "G92X5")
      gc_state_zero Sim.boot = Some (STATUS_OK, gs', w')
    /\ gs_coord_offset gs' = vec_zero.
Proof.
  let r := eval vm_compute in
       (gc_execute_line (E := Sim.machine) 10 Sim.g17 (Sim.chars "G92X5")
          gc_state_zero Sim.boot) in
  lazymatch r with
  | Some (?s1, ?gs1, ?w1) =>
      exists gs1, w1;
      pose proof (offsets_and_position_kept Sim.machine 10 Sim.g17
                    (Sim.chars "G92X5") gc_state_zero gs1 Sim.boot w1 s1
                    ltac:(vm_compute; reflexivity)) as (A & _)
  end.
  split; [vm_compute; reflexivity|exact A].
Defined.

(** X6. The empty line: it is accepted from any state in which no program
    flow is pending, without a call to the rest of the firmware and
    without a change of the modes, the position or the coordinate data.
    The line number goes back to zero, and the feed rate is kept in G94
    mode and goes back to zero otherwise. *)
Theorem empty_line_accepted
  (E : Externals) (fuel : nat) (ax : axis_indices) (line : list ascii)
  (gs : parser_state_t) (w : world) :
  line_at line 0 = zero ->
  (0 < fuel)%nat ->
  modal_program_flow (gs_modal gs) = PROGRAM_FLOW_RUNNING ->
  gc_execute_line fuel ax line gs w
  = Some (STATUS_OK,
          set_gs_feed_rate
            (if modal_feed_rate (gs_modal gs) =? FEED_RATE_MODE_UNITS_PER_MIN
             then gs_feed_rate gs else F32.zero)
            (set_gs_line_number 0 gs),
          w).
Proof.
  intros Hend Hfuel Hpf. destruct fuel as [|fuel]; [lia|].
  unfold gc_execute_line, gc_parse_line, char_counter_init, gc_block_init, is_jog.
  rewrite Hend. cbn [Ascii.eqb Bool.eqb zero andb gc_parse_words].
  rewrite Hend. cbn [Ascii.eqb Bool.eqb zero andb].
  destruct gs as [[mm mf mu md mc mp] fr ln pos cs co].
  cbn [gs_modal modal_program_flow] in Hpf. subst mp.
  unfold gc_check_and_execute, gc_check, gc_check_before_motion,
    implicit_axis_command, check_line_number, check_feed_rate, check_dwell,
    check_coord_select, check_non_modal, check_target, check_motion_mode,
    check_unused_words, is_jog_block, block_motion, bind, ok, FAIL,
    bit_isfalse, bit_false, gc_execute, is_jog_block, exec_coord_select,
    exec_non_modal, exec_motion, exec_program_flow, block_motion.
  unfold FEED_RATE_MODE_INVERSE_TIME, FEED_RATE_MODE_UNITS_PER_MIN,
    MOTION_MODE_NONE, AXIS_COMMAND_MOTION_MODE.
  destruct (mf =? 1) eqn:Hmf1; destruct (mf =? 0) eqn:Hmf0;
    destruct (mm =? 80) eqn:Hmm;
    repeat (progress (cbn; rewrite ?bit_istrue_0, ?Hmm, ?Hmf0, ?Hmf1,
                        ?Z.eqb_refl));
    first [reflexivity | exfalso; zbool; lia].
Qed.

(** X6 on the zero state, and on a state in G93 mode with a feed rate. *)
Lemma empty_line_accepted_witness :
  gc_execute_line (E := Sim.machine) 1 Sim.g17 [] gc_state_zero Sim.boot
  = Some (STATUS_OK, gc_state_zero, Sim.boot)
  /\ gc_execute_line (E := Sim.machine) 1 Sim.g17 []
       (set_gs_feed_rate (F32.of_Z 100)
          (upd_gs_modal (set_feed_rate_mode FEED_RATE_MODE_INVERSE_TIME)
             gc_state_zero)) Sim.boot
     = Some (STATUS_OK,
             upd_gs_modal (set_feed_rate_mode FEED_RATE_MODE_INVERSE_TIME)
               gc_state_zero,
             Sim.boot).
Proof.
  split.
  - exact (empty_line_accepted Sim.machine 1 Sim.g17 [] gc_state_zero Sim.boot
             eq_refl ltac:(lia) eq_refl).
  - exact (empty_line_accepted Sim.machine 1 Sim.g17 []
             (set_gs_feed_rate (F32.of_Z 100)
                (upd_gs_modal (set_feed_rate_mode FEED_RATE_MODE_INVERSE_TIME)
                   gc_state_zero)) Sim.boot
             eq_refl ltac:(lia) eq_refl).
Defined.

(** ** Blocks that STEP 3 never lets through *)

Lemma testbit_nonzero (x n : Z) : Z.testbit x n = true -> x <> 0.
Proof. intros H ->. rewrite Z.bits_0 in H. discriminate. Qed.

Lemma bit_false_testbit (x m n : Z) :
  Z.testbit (bit_false x m) n = Z.testbit x n && negb (Z.testbit m n).
Proof.
  unfold bit_false.
  destruct (Z_lt_le_dec n 0) as [Hneg|Hpos].
  - rewrite !Z.testbit_neg_r by assumption. reflexivity.
  - rewrite Z.land_spec, Z.lnot_spec by assumption. reflexivity.
Qed.

Section Rejected.

Context {E : Externals}.

Lemma gc_check_status_not_ok (ax : axis_indices) (gs : parser_state_t)
  (L : locals) (w w' : world) (e : status) :
  gc_check ax gs L w = (inl e, w') -> e <> STATUS_OK.
Proof.
  intros H. destruct (gc_check_status _ _ _ _ _ _ H) as [H1|H1].
  - apply check_line_number_status in H1. destruct H1 as (-> & _). discriminate.
  - cbn in H1. intuition (subst; discriminate).
Qed.

Lemma gc_check_before_motion_status_not_ok (gs : parser_state_t)
  (L : locals) (w w' : world) (e : status) :
  gc_check_before_motion gs L w = (inl e, w') -> e <> STATUS_OK.
Proof.
  intros H. destruct (gc_check_before_motion_status _ _ _ _ _ H) as [H1|H1].
  - apply check_line_number_status in H1. destruct H1 as (-> & _). discriminate.
  - cbn in H1. intuition (subst; discriminate).
Qed.

(** The value words on their way through the checks before
    [20. Motion modes], in a block that is neither a dwell nor a G10. *)
Lemma gc_check_before_motion_value_words (gs : parser_state_t) (L L5 : locals)
  (w w5 : world) :
  gc_check_before_motion gs L w = (inr L5, w5) ->
  non_modal_command (gc_block L) <> NON_MODAL_DWELL ->
  non_modal_command (gc_block L) <> NON_MODAL_SET_COORDINATE_DATA ->
  value_words L5 = value_words L.
Proof.
  unfold gc_check_before_motion, bind.
  destruct (check_line_number (implicit_axis_command L)) as [e1|L1] eqn:H1;
    [discriminate|].
  apply check_line_number_inr in H1. subst L1.
  destruct (check_feed_rate gs _) as [e2|L2] eqn:H2; [discriminate|].
  destruct (check_dwell L2) as [e3|L3] eqn:H3; [discriminate|].
  destruct (check_coord_select gs L3 w) as [[e4|L4] w4] eqn:H4; [discriminate|].
  intros H5 Hd Hg.
  destruct (implicit_axis_command_frame L) as (_ & _ & N1 & _).
  destruct (check_feed_rate_frame _ _ _ H2) as ((_ & _ & N2 & _) & _ & V2).
  destruct (check_dwell_frame _ _ H3) as ((_ & _ & N3 & _) & _).
  destruct (check_coord_select_frame _ _ _ _ _ H4) as ((_ & _ & N4 & _) & _ & _ & V4).
  destruct (implicit_axis_command_values L) as (V1 & _).
  assert (V3 : value_words L3 = value_words L2).
  { revert H3. unfold check_dwell, ok, FAIL.
    destruct (Z.eqb_spec (non_modal_command (gc_block L2)) NON_MODAL_DWELL)
      as [Heq|_]; [exfalso; apply Hd; congruence|].
    intros H3. injection H3 as <-. reflexivity. }
  assert (V5 : value_words L5 = value_words L4).
  { revert H5. unfold check_non_modal, check_target, ok, FAIL.
    destruct (Z.eqb_spec (non_modal_command (gc_block L4))
                NON_MODAL_SET_COORDINATE_DATA) as [Heq|_];
      [exfalso; apply Hg; congruence|].
    split_ifs; intros H5; try discriminate H5; injection H5 as <- _; reflexivity. }
  congruence.
Qed.

(** Outside the arcs, the motion-mode checks take no value word. *)
Lemma check_motion_mode_value_words (ax : axis_indices) (gs : parser_state_t)
  (L L6 : locals) :
  check_motion_mode ax gs L = inr L6 ->
  one_of (block_motion L) [MOTION_MODE_CW_ARC; MOTION_MODE_CCW_ARC] = false ->
  value_words L6 = value_words L.
Proof.
  unfold check_motion_mode, ok, FAIL, one_of. cbn [existsb].
  intros H Hm. apply orb_false_iff in Hm. destruct Hm as [Hcw Hm].
  apply orb_false_iff in Hm. destruct Hm as [Hccw _].
  revert H. rewrite Hcw, Hccw.
  split_ifs; intros H; try discriminate H; injection H as <-; reflexivity.
Qed.

(** A value word that no command has taken stops the block at the
    closing check. *)
Lemma check_unused_words_left (L : locals) (wb : Z) :
  In wb [WORD_I; WORD_J; WORD_K; WORD_L; WORD_P; WORD_R] ->
  bit_istrue (value_words L) (bit wb) = true ->
  check_unused_words L = inl STATUS_GCODE_UNUSED_WORDS.
Proof.
  intros Hin Hbit. unfold check_unused_words, FAIL.
  match goal with
  | |- (if negb (?v =? 0) then _ else _) = _ =>
      assert (Hv : Z.testbit v wb = true)
  end.
  { cbn [In] in Hin.
    repeat (destruct Hin as [<-|Hin]);
      try contradiction;
      rewrite bit_istrue_testbit in Hbit by discriminate;
      destruct (is_jog_block L); destruct (negb (axis_command L =? 0));
      rewrite ?bit_false_testbit, Hbit; reflexivity. }
  apply testbit_nonzero in Hv. apply Z.eqb_neq in Hv. rewrite Hv. reflexivity.
Qed.

End Rejected.

Ltac value_bit_of Hb Hex c wb :=
  exists wb; split;
  [ cbn; auto 10
  | rewrite (block_words_value_bit _ _ _ _ _ _ c wb Hb eq_refl); exact Hex ].

(** X7. A block with an I, J, L, P or R word that no command takes --
    the block is neither a dwell (G4) nor a G10, and its motion mode is
    neither G2 nor G3 -- is never executed: the call returns a status
    other than STATUS_OK and gc_state is as it was.  The status is
    STATUS_GCODE_UNUSED_WORDS whenever the block passes the checks that come
    before.  (A K word is no word of this build: it is rejected in the
    word loop.) *)
Theorem unused_value_word_rejected
  (E : Externals) (k fuel : nat) (ax : axis_indices) (line : list ascii)
  (gs : parser_state_t) (w : world) (ws : list (ascii * float)) (cc : Z)
  (L : locals) (letter : ascii) :
  block_words k gs line = Some (ws, cc, L) ->
  line_at line cc = zero ->
  (k < fuel)%nat ->
  In letter command_value_letters ->
  In letter (map fst ws) ->
  non_modal_command (gc_block L) <> NON_MODAL_DWELL ->
  non_modal_command (gc_block L) <> NON_MODAL_SET_COORDINATE_DATA ->
  one_of (block_motion L) [MOTION_MODE_CW_ARC; MOTION_MODE_CCW_ARC] = false ->
  exists s w',
    gc_execute_line fuel ax line gs w = Some (s, gs, w')
    /\ s <> STATUS_OK
    /\ (forall L5 w5 L6,
          gc_check_before_motion gs L w = (inr L5, w5) ->
          check_motion_mode ax gs L5 = inr L6 ->
          s = STATUS_GCODE_UNUSED_WORDS).
Proof.
  intros Hb Hend Hk Hl Hin Hd Hg Hm.
  assert (Hbit : exists wb,
             In wb [WORD_I; WORD_J; WORD_K; WORD_L; WORD_P; WORD_R]
             /\ bit_istrue (value_words L) (bit wb) = true).
  { assert (Hex : existsb (Ascii.eqb letter) (map fst ws) = true).
    { apply existsb_exists. exists letter. split; [assumption|].
      apply Ascii.eqb_refl. }
    cbn in Hl. destruct Hl as [<-|[<-|[<-|[<-|[<-|[]]]]]].
    - value_bit_of Hb Hex "I"%char WORD_I.
    - value_bit_of Hb Hex "J"%char WORD_J.
    - value_bit_of Hb Hex "L"%char WORD_L.
    - value_bit_of Hb Hex "P"%char WORD_P.
    - value_bit_of Hb Hex "R"%char WORD_R. }
  destruct Hbit as (wb & Hwb & Hbit).
  unfold gc_execute_line. rewrite (gc_parse_line_end _ _ _ _ _ _ _ Hb Hend Hk).
  unfold gc_check_and_execute, gc_check, bind.
  destruct (gc_check_before_motion gs L w) as [[e|L5] w5] eqn:H5.
  { exists e, w5. split; [reflexivity|]. split.
    - eapply gc_check_before_motion_status_not_ok; eassumption.
    - intros ? ? ? Hx. discriminate Hx. }
  destruct (check_motion_mode ax gs L5) as [e|L6] eqn:H6.
  { exists e, w5. split; [reflexivity|]. split.
    - apply check_motion_mode_status in H6. cbn in H6.
      intuition (subst; discriminate).
    - intros ? ? ? Hx Hy. injection Hx as <- _. congruence. }
  assert (Hvw : value_words L6 = value_words L).
  { destruct (gc_check_before_motion_frame _ _ _ _ _ H5) as (_ & M5 & _).
    rewrite (check_motion_mode_value_words _ _ _ _ H6).
    - eapply gc_check_before_motion_value_words; eassumption.
    - unfold block_motion. rewrite M5. exact Hm. }
  rewrite (check_unused_words_left L6 wb Hwb) by (rewrite Hvw; exact Hbit).
  exists STATUS_GCODE_UNUSED_WORDS, w5. split; [reflexivity|].
  split; [discriminate|]. reflexivity.
Qed.

(** X7 on G1X1P2F100 and on X1R5 in G0 mode. *)
Lemma unused_value_word_rejected_witness :
  (exists w',
     gc_execute_line (E := Sim.machine) 10 Sim.g17 (Sim.chars "G1X1P2F100")
       gc_state_zero Sim.boot
     = Some (STATUS_GCODE_UNUSED_WORDS, gc_state_zero, w'))
  /\ (exists w',
        gc_execute_line (E := Sim.machine) 10 Sim.g17 (Sim.chars "X1R5")
          gc_state_zero Sim.boot
        = Some (STATUS_GCODE_UNUSED_WORDS, gc_state_zero, w')).
Proof.
  split.
  - with_block 4%nat gc_state_zero (Sim.chars "G1X1P2F100")
      ltac:(fun ws cc L =>
        destruct (unused_value_word_rejected Sim.machine 4 10 Sim.g17
                    (Sim.chars "G1X1P2F100") gc_state_zero Sim.boot ws cc L
                    "P"%char
                    ltac:(vm_compute; reflexivity) ltac:(vm_compute; reflexivity)
                    ltac:(lia) ltac:(cbn; auto 10) ltac:(cbn; auto 10)
                    ltac:(vm_compute; discriminate)
                    ltac:(vm_compute; discriminate)
                    ltac:(vm_compute; reflexivity))
          as (s & w' & Hrun & _ & Hs)).
    exists w'. rewrite Hrun.
    rewrite (Hs _ _ _ ltac:(vm_compute; reflexivity) ltac:(vm_compute; reflexivity)).
    reflexivity.
  - with_block 2%nat gc_state_zero (Sim.chars "X1R5")
      ltac:(fun ws cc L =>
        destruct (unused_value_word_rejected Sim.machine 2 10 Sim.g17
                    (Sim.chars "X1R5") gc_state_zero Sim.boot ws cc L
                    "R"%char
                    ltac:(vm_compute; reflexivity) ltac:(vm_compute; reflexivity)
                    ltac:(lia) ltac:(cbn; auto 10) ltac:(cbn; auto 10)
                    ltac:(vm_compute; discriminate)
                    ltac:(vm_compute; discriminate)
                    ltac:(vm_compute; reflexivity))
          as (s & w' & Hrun & _ & Hs)).
    exists w'. rewrite Hrun.
    rewrite (Hs _ _ _ ltac:(vm_compute; reflexivity) ltac:(vm_compute; reflexivity)).
    reflexivity.
Defined.

Section Requirements.

Context {E : Externals}.

(** The stages before [19. Remaining non-modal actions], one by one. *)
Lemma gc_check_before_motion_stages (gs : parser_state_t) (L : locals)
  (w : world) :
  (exists e, gc_check_before_motion gs L w = (inl e, w)
             /\ In e [STATUS_GCODE_INVALID_LINE_NUMBER;
                      STATUS_GCODE_UNDEFINED_FEED_RATE]
             /\ (check_line_number (implicit_axis_command L) = inl e
                 \/ check_feed_rate gs (implicit_axis_command L) = inl e))
  \/ (exists L2,
        check_feed_rate gs (implicit_axis_command L) = inr L2
        /\ ((check_dwell L2 = inl STATUS_GCODE_VALUE_WORD_MISSING
             /\ gc_check_before_motion gs L w
                = (inl STATUS_GCODE_VALUE_WORD_MISSING, w))
            \/ (exists L3,
                  check_dwell L2 = inr L3
                  /\ ((exists e w4,
                         check_coord_select gs L3 w = (inl e, w4)
                         /\ gc_check_before_motion gs L w = (inl e, w4)
                         /\ In e [STATUS_GCODE_UNSUPPORTED_COORD_SYS;
                                  STATUS_SETTING_READ_FAIL])
                      \/ (exists L4 w4,
                            check_coord_select gs L3 w = (inr L4, w4)
                            /\ gc_check_before_motion gs L w
                               = check_non_modal gs L4 w4
                            /\ same_frame L L4))))).
Proof.
  unfold gc_check_before_motion, bind.
  destruct (check_line_number (implicit_axis_command L)) as [e1|L1] eqn:H1.
  { left. exists e1. apply check_line_number_status in H1.
    destruct H1 as (-> & _). cbn. auto. }
  apply check_line_number_inr in H1. subst L1.
  destruct (check_feed_rate gs _) as [e2|L2] eqn:H2.
  { left. exists e2. apply check_feed_rate_status in H2. subst. cbn. auto. }
  right. exists L2. split; [reflexivity|].
  destruct (check_dwell L2) as [e3|L3] eqn:H3.
  { left. apply check_dwell_status in H3. subst. auto. }
  right. exists L3. split; [reflexivity|].
  destruct (check_coord_select gs L3 w) as [[e4|L4] w4] eqn:H4.
  { left. exists e4, w4. apply check_coord_select_status in H4.
    cbn. intuition auto. }
  right. exists L4, w4. repeat split; try reflexivity.
  all: pose proof (implicit_axis_command_frame L) as F1;
    destruct (check_feed_rate_frame _ _ _ H2) as (F2 & _);
    destruct (check_dwell_frame _ _ H3) as (F3 & _);
    destruct (check_coord_select_frame _ _ _ _ _ H4) as (F4 & _);
    pose proof (same_frame_trans _ _ _ F1
                  (same_frame_trans _ _ _ F2 (same_frame_trans _ _ _ F3 F4)))
      as F; apply F.
Qed.

Lemma testbit_jog_mask (g : Z) :
  0 <= g ->
  ~ In g [MODAL_GROUP_G0; MODAL_GROUP_G3; MODAL_GROUP_G6] ->
  Z.testbit
    (Z.lor (Z.lor (bit MODAL_GROUP_G3) (bit MODAL_GROUP_G6)) (bit MODAL_GROUP_G0))
    g = false.
Proof.
  intros Hg Hn. rewrite !Z.lor_spec, !testbit_bit by discriminate.
  cbn [In] in Hn.
  destruct (Z.eqb_spec MODAL_GROUP_G3 g); [exfalso; auto|].
  destruct (Z.eqb_spec MODAL_GROUP_G6 g); [exfalso; auto|].
  destruct (Z.eqb_spec MODAL_GROUP_G0 g); [exfalso; auto|].
  reflexivity.
Qed.

End Requirements.

(** X8. A jog line with a command word of any modal group other than the
    non-modal commands, the distance modes and the units (so G0 to G3,
    G38.x, G80, G93, G94, G40, G54 to G59, G61, G91.1 and every M word) is
    never executed: the call returns a status other than STATUS_OK and
    gc_state is as it was.  The status is STATUS_INVALID_JOG_COMMAND
    whenever the block passes STEP 3. *)
Theorem jog_command_rejected
  (E : Externals) (k fuel : nat) (ax : axis_indices) (line : list ascii)
  (gs : parser_state_t) (w : world) (ws : list (ascii * float)) (cc : Z)
  (L : locals) (wd : ascii * float) (g : Z) :
  is_jog line = true ->
  block_words k gs line = Some (ws, cc, L) ->
  line_at line cc = zero ->
  (k < fuel)%nat ->
  In wd ws ->
  command_group wd = Some g ->
  ~ In g [MODAL_GROUP_G0; MODAL_GROUP_G3; MODAL_GROUP_G6] ->
  exists s w',
    gc_execute_line fuel ax line gs w = Some (s, gs, w')
    /\ s <> STATUS_OK
    /\ (forall L7 w7, gc_check ax gs L w = (inr L7, w7) ->
                      s = STATUS_INVALID_JOG_COMMAND).
Proof.
  intros Hjog Hb Hend Hk Hin Hg Hn.
  destruct (import_words_inv _ _ _ _ _ _ _ Hb) as (_ & _ & _ & Hgrp & _).
  pose proof (Hgrp _ _ Hin Hg) as Hbit.
  destruct (command_word_context wd g blank Hg) as [Hg0 _].
  pose proof (block_words_is_jog _ _ _ _ _ _ Hb) as HL.
  unfold gc_execute_line. rewrite (gc_parse_line_end _ _ _ _ _ _ _ Hb Hend Hk).
  unfold gc_check_and_execute.
  destruct (gc_check ax gs L w) as [[e|L7] w7] eqn:Hchk.
  { exists e, w7. split; [reflexivity|]. split.
    - eapply gc_check_status_not_ok; eassumption.
    - intros ? ? Hx. discriminate Hx. }
  destruct (gc_check_frame _ _ _ _ _ _ Hchk) as (J7 & _ & _ & C7 & _).
  unfold gc_execute. rewrite J7, HL, Hjog. unfold gc_execute_jog.
  assert (Hmask : (Z.land (command_words L7)
                     (Z.lnot (Z.lor (Z.lor (bit MODAL_GROUP_G3) (bit MODAL_GROUP_G6))
                                    (bit MODAL_GROUP_G0))) =? 0) = false).
  { apply Z.eqb_neq. apply (testbit_nonzero _ g).
    rewrite Z.land_spec, Z.lnot_spec, testbit_jog_mask by assumption.
    rewrite C7, <- bit_istrue_testbit, Hbit by assumption. reflexivity. }
  rewrite Hmask. cbn [negb].
  exists STATUS_INVALID_JOG_COMMAND, w7. split; [reflexivity|].
  split; [discriminate|]. reflexivity.
Qed.

(** X8 on $J=G1X5F100. *)
Lemma jog_command_rejected_witness :
  exists w',
    gc_execute_line (E := Sim.machine) 20 Sim.g17 (Sim.chars "$J=G1X5F100")
      gc_state_zero Sim.boot
    = Some (STATUS_INVALID_JOG_COMMAND, gc_state_zero, w').
Proof.
  with_block 3%nat gc_state_zero (Sim.chars "$J=G1X5F100")
    ltac:(fun ws cc L =>
      destruct (jog_command_rejected Sim.machine 3 20 Sim.g17
                  (Sim.chars "$J=G1X5F100") gc_state_zero Sim.boot ws cc L
                  ("G"%char, F32.of_Z 1) MODAL_GROUP_G1
                  ltac:(vm_compute; reflexivity) ltac:(vm_compute; reflexivity)
                  ltac:(vm_compute; reflexivity) ltac:(lia)
                  ltac:(cbn; auto) ltac:(vm_compute; reflexivity)
                  ltac:(cbn; intuition discriminate))
        as (s & w' & Hrun & _ & Hs)).
  exists w'. rewrite Hrun.
  let r := eval vm_compute in
       (gc_parse_line (E := Sim.machine) 20 gc_state_zero
          (Sim.chars "$J=G1X5F100")) in
  lazymatch r with
  | Some (inr ?L) =>
      let r7 := eval vm_compute in
           (gc_check (E := Sim.machine) Sim.g17 gc_state_zero L Sim.boot) in
      lazymatch r7 with
      | (inr ?L7, ?w7) =>
          rewrite (Hs L7 w7 ltac:(vm_compute; reflexivity))
      end
  end.
  reflexivity.
Defined.

(** X9. While the motion mode of a block is G80, by a G80 word of the
    block or by the mode that is in force, a block with an axis word is
    never executed, whatever command would take the axis words: the call
    returns a status other than STATUS_OK and gc_state is as it was.  The
    status is STATUS_GCODE_AXIS_WORDS_EXIST whenever the block passes the
    checks that come before [20. Motion modes]. *)
Theorem g80_axis_words_rejected
  (E : Externals) (fuel : nat) (ax : axis_indices) (line : list ascii)
  (gs : parser_state_t) (w : world) (L : locals) :
  gc_parse_line fuel gs line = Some (inr L) ->
  block_motion L = MOTION_MODE_NONE ->
  axis_words L <> 0 ->
  exists s w',
    gc_execute_line fuel ax line gs w = Some (s, gs, w')
    /\ s <> STATUS_OK
    /\ (forall L5 w5, gc_check_before_motion gs L w = (inr L5, w5) ->
                      s = STATUS_GCODE_AXIS_WORDS_EXIST).
Proof.
  intros Hline Hm Haw. unfold gc_execute_line. rewrite Hline.
  unfold gc_check_and_execute, gc_check, bind.
  destruct (gc_check_before_motion gs L w) as [[e|L5] w5] eqn:H5.
  { exists e, w5. split; [reflexivity|]. split.
    - eapply gc_check_before_motion_status_not_ok; eassumption.
    - intros ? ? Hx. discriminate Hx. }
  destruct (gc_check_before_motion_frame _ _ _ _ _ H5) as (_ & M5 & _ & _ & W5).
  unfold check_motion_mode, block_motion in *. rewrite M5, Hm, W5.
  cbn [Z.eqb MOTION_MODE_NONE Pos.eqb].
  apply Z.eqb_neq in Haw. rewrite Haw. cbn [negb].
  exists STATUS_GCODE_AXIS_WORDS_EXIST, w5. split; [reflexivity|].
  split; [discriminate|]. reflexivity.
Qed.

(** X9 on G80X1, and on G10L2P1X1 while G80 is in force. *)
Lemma g80_axis_words_rejected_witness :
  (exists w',
     gc_execute_line (E := Sim.machine) 10 Sim.g17 (Sim.chars "G80X1")
       gc_state_zero Sim.boot
     = Some (STATUS_GCODE_AXIS_WORDS_EXIST, gc_state_zero, w'))
  /\ (exists w',
        gc_execute_line (E := Sim.machine) 10 Sim.g17 (Sim.chars "G10L2P1X1")
          (upd_gs_modal (set_motion MOTION_MODE_NONE) gc_state_zero) Sim.boot
        = Some (STATUS_GCODE_AXIS_WORDS_EXIST,
                upd_gs_modal (set_motion MOTION_MODE_NONE) gc_state_zero, w')).
Proof.
  split.
  - with_checked gc_state_zero (Sim.chars "G80X1") Sim.boot
      ltac:(fun L L5 w5 =>
        destruct (g80_axis_words_rejected Sim.machine 10 Sim.g17
                    (Sim.chars "G80X1") gc_state_zero Sim.boot L
                    ltac:(vm_compute; reflexivity) ltac:(vm_compute; reflexivity)
                    ltac:(vm_compute; discriminate))
          as (s & w' & Hrun & _ & Hs);
        exists w'; rewrite Hrun;
        rewrite (Hs L5 w5 ltac:(vm_compute; reflexivity))).
    reflexivity.
  - with_checked (upd_gs_modal (set_motion MOTION_MODE_NONE) gc_state_zero)
      (Sim.chars "G10L2P1X1") Sim.boot
      ltac:(fun L L5 w5 =>
        destruct (g80_axis_words_rejected Sim.machine 10 Sim.g17
                    (Sim.chars "G10L2P1X1")
                    (upd_gs_modal (set_motion MOTION_MODE_NONE) gc_state_zero)
                    Sim.boot L
                    ltac:(vm_compute; reflexivity) ltac:(vm_compute; reflexivity)
                    ltac:(vm_compute; discriminate))
          as (s & w' & Hrun & _ & Hs);
        exists w'; rewrite Hrun;
        rewrite (Hs L5 w5 ltac:(vm_compute; reflexivity))).
    reflexivity.
Defined.





(** ** What STEP 2 keeps of a block *)

Lemma list_set_length {A : Type} (l : list A) : forall n x,
  List.length (list_set l n x) = List.length l.
Proof.
  induction l as [|h t IH]; intros [|n] x; cbn; auto.
Qed.

Lemma gc_block_init_axis_command_ok (gs : parser_state_t) (line : list ascii) :
  axis_command_ok (gc_block_init gs line).
Proof.
  unfold gc_block_init, axis_command_ok. destruct (is_jog line); cbn.
  all: split; [auto|split; [intros Hx; vm_compute in Hx; discriminate Hx|]];
    split; [reflexivity|intros _; reflexivity].
Qed.

Ltac bool_facts :=
  repeat match goal with
         | H : one_of _ _ = true |- _ => one_of_cases H
         | H : one_of _ _ = false |- _ => unfold one_of in H; cbn [existsb] in H
         | H : _ && _ = true |- _ => apply andb_true_iff in H; destruct H
         | H : _ || _ = true |- _ => apply orb_true_iff in H; destruct H
         | H : _ || _ = false |- _ => apply orb_false_iff in H; destruct H
         | H : _ && _ = false |- _ => apply andb_false_iff in H; destruct H
         | H : negb _ = false |- _ => apply negb_false_iff in H
         | H : negb _ = true |- _ => apply negb_true_iff in H
         | H : (_ =? _) = true |- _ => apply Z.eqb_eq in H
         | H : (_ =? _) = false |- _ => apply Z.eqb_neq in H
         | H : (_ <? _) = false |- _ => apply Z.ltb_ge in H
         | H : (_ <? _) = true |- _ => apply Z.ltb_lt in H
         | H : false = true |- _ => discriminate H
         | H : true = false |- _ => discriminate H
         end.

Ltac block_fields :=
  cbn [axis_command gc_block non_modal_command command_words values val_xyz
       modal upd_block upd_values upd_modal set_non_modal_command
       set_axis_command set_command_words set_axis_words set_ijk_words
       set_value_words set_f set_ijk set_l set_n set_p set_r set_xyz vec_set
       axis_words value_words ijk_words gc_parser_flags coord_select
       block_coord_system] in *.

Lemma modal_group_check_axis_command_ok (wb : Z) (L L' : locals) :
  modal_group_check wb L = inr L' ->
  0 < wb ->
  axis_command_ok L -> axis_command_ok L'.
Proof.
  unfold modal_group_check, axis_command_ok, ok, FAIL.
  destruct (bit_istrue (command_words L) (bit wb)); [discriminate|].
  intros H Hwb (Hax & Hnm & Hlen & Hz). injection H as <-. block_fields.
  split; [exact Hax|]. split; [|split; [exact Hlen|]].
  - intros Hx. destruct (Hnm Hx) as [Hb Ha]. split; [|exact Ha].
    apply bit_istrue_lor_l; [lia|discriminate|exact Hb].
  - intros Hx. rewrite bit_istrue_lor in Hx by (lia || discriminate).
    apply orb_false_iff in Hx. apply Hz. apply Hx.
Qed.

Lemma parse_G_axis_command_ok (iv m : Z) (L L' : locals) :
  0 <= m ->
  parse_G iv m L = inr L' ->
  axis_command_ok L -> axis_command_ok L'.
Proof.
  intros Hm0. unfold parse_G, bind.
  destruct (G_switch iv m L) as [e|[[wb m'] L1]] eqn:HG; [discriminate|].
  destruct (0 <? m') eqn:Hm'; [discriminate|].
  destruct (Z.eq_dec wb MODAL_GROUP_G0) as [->|Hwb].
  - (* the non-modal commands *)
    unfold modal_group_check, ok, FAIL.
    destruct (bit_istrue (command_words L1) (bit MODAL_GROUP_G0)) eqn:Hbit;
      [discriminate|].
    intros H (Hax & Hnm & Hlen & Hz). injection H as <-.
    revert HG Hbit Hm'. unfold G_switch, G_non_modal, G_motion, bind, ok, FAIL.
    split_ifs; intros HG; try discriminate HG;
      injection HG as <- <-; try discriminate; intros Hbit Hm';
      block_fields; specialize (Hz Hbit); bool_facts; subst;
      try lia;
      unfold axis_command_ok; block_fields;
      (split; [|split; [|split; [exact Hlen|]]]);
      try (intros Hx; rewrite bit_istrue_lor, Z.eqb_refl, orb_true_r in Hx
             by discriminate;
           discriminate Hx);
      try (intros Hx; vm_compute in Hx; discriminate Hx);
      try (split; [rewrite bit_istrue_lor by discriminate; apply orb_true_r
                  |reflexivity]);
      try (right; right; split; [reflexivity|vm_compute; reflexivity]);
      try (destruct Hax as [Hax|[Hax|[_ Hax]]];
           [left; exact Hax|right; left; exact Hax
           |rewrite Hz in Hax; vm_compute in Hax; discriminate Hax]).
  - (* the others *)
    intros H Hok.
    assert (Hwb0 : 0 < wb).
    { pose proof (G_switch_word_bit _ _ _ _ _ _ HG).
      unfold MODAL_GROUP_G0 in Hwb. lia. }
    apply (modal_group_check_axis_command_ok _ _ _ H Hwb0).
    destruct Hok as (Hax & Hnm & Hlen & Hz).
    revert HG. unfold G_switch, G_non_modal, G_motion, bind, ok, FAIL.
    split_ifs; intros HG; try discriminate HG;
      injection HG as <- <-; try (exfalso; apply Hwb; reflexivity);
      unfold axis_command_ok; block_fields; bool_facts; subst;
      (split; [|split; [|split; [exact Hlen|exact Hz]]]);
      try exact Hax; try exact Hnm;
      try (right; left; reflexivity);
      try (intros Hx; destruct (Hnm Hx) as [_ Ha]; exfalso;
           unfold AXIS_COMMAND_NON_MODAL in Ha; congruence).
Qed.

Lemma gc_parse_word_axis_command_ok (l : ascii) (v : float) (L L' : locals) :
  gc_parse_word l v L = inr L' ->
  axis_command_ok L -> axis_command_ok L'.
Proof.
  unfold gc_parse_word.
  destruct (Ascii.eqb l "G");
    [apply parse_G_axis_command_ok, mantissa_of_nonneg|].
  destruct (Ascii.eqb l "M").
  - unfold parse_M, ok, FAIL.
    split_ifs; intros H Hok; try discriminate H;
      apply (modal_group_check_axis_command_ok _ _ _ H ltac:(reflexivity));
      exact Hok.
  - unfold parse_value, value_switch, bind, ok, FAIL.
    intros H (Hax & Hnm & Hlen & Hz). revert H.
    split_ifs; intros H; try discriminate H; injection H as <-;
      unfold axis_command_ok; block_fields; unfold vec_set;
      rewrite ?list_set_length;
      (split; [exact Hax|split; [exact Hnm|split; [exact Hlen|exact Hz]]]).
Qed.

Section BlockInvariant.

Context {E : Externals}.

Lemma gc_parse_words_axis_command_ok (line : list ascii) (fuel : nat) :
  forall cc L0 L1,
    gc_parse_words fuel line cc L0 = Some (inr L1) ->
    axis_command_ok L0 -> axis_command_ok L1.
Proof.
  induction fuel as [|fuel IH]; cbn [gc_parse_words]; intros cc L0 L1 H;
    [discriminate|].
  revert H. split_match; intros H; try discriminate H.
  - injection H as <-. auto.
  - intros H0. eapply IH; [eassumption|].
    eapply gc_parse_word_axis_command_ok; eassumption.
Qed.

Lemma gc_parse_line_axis_command_ok (fuel : nat) (gs : parser_state_t)
  (line : list ascii) (L : locals) :
  gc_parse_line fuel gs line = Some (inr L) -> axis_command_ok L.
Proof.
  unfold gc_parse_line. intros H.
  eapply gc_parse_words_axis_command_ok; [eassumption|].
  apply gc_block_init_axis_command_ok.
Qed.

End BlockInvariant.


(** ** Targets *)

Section Targets.

Context {E : Externals}.

(** The loop over the axes, on a vector of N_AXIS word values. *)
Lemma target_axes (gs : parser_state_t) (L : locals) (v : gc_values_t) (idx : Z) :
  List.length (val_xyz v) = Z.to_nat N_AXIS ->
  In idx axes ->
  vec_get (val_xyz (fold_left (target_axis gs L) axes v)) idx
  = axis_target gs (upd_block (upd_values (fun _ => v)) L)
      (block_coord_system L) idx.
Proof.
  intros Hlen Hin. unfold axis_target.
  cbn [gc_block upd_block upd_values values non_modal_command modal axis_words].
  destruct v as [vf vijk vl vn vp vr vxyz]. cbn [val_xyz] in Hlen.
  destruct vxyz as [|a [|b [|c t]]]; try discriminate Hlen.
  unfold axes in *. cbn [fold_left]. unfold target_axis.
  rewrite !bit_isfalse_istrue.
  cbn [In] in Hin. destruct Hin as [<-|[<-|[]]];
    destruct (bit_istrue (axis_words L) (bit 0));
    destruct (bit_istrue (axis_words L) (bit 1));
    destruct (non_modal_command (gc_block L) =? NON_MODAL_ABSOLUTE_OVERRIDE);
    destruct (modal_distance (modal (gc_block L)) =? DISTANCE_MODE_ABSOLUTE);
    reflexivity.
Qed.

Lemma check_feed_rate_xyz (gs : parser_state_t) (L L' : locals) :
  check_feed_rate gs L = inr L' ->
  val_xyz (values (gc_block L')) = val_xyz (values (gc_block L))
  /\ block_coord_system L' = block_coord_system L.
Proof.
  unfold check_feed_rate, ok, FAIL. split_ifs; intros H; try discriminate H;
    injection H as <-; split; reflexivity.
Qed.

Lemma axis_target_ext (gs : parser_state_t) (L L' : locals) (c : vec) (idx : Z) :
  axis_words L' = axis_words L ->
  non_modal_command (gc_block L') = non_modal_command (gc_block L) ->
  modal (gc_block L') = modal (gc_block L) ->
  val_xyz (values (gc_block L')) = val_xyz (values (gc_block L)) ->
  axis_target gs L' c idx = axis_target gs L c idx.
Proof. unfold axis_target. intros -> -> -> ->. reflexivity. Qed.

(** What [15.] leaves in [block_coord_system]. *)
Lemma check_coord_select_coordinates (gs : parser_state_t) (L L' : locals)
  (w w' : world) :
  check_coord_select gs L w = (inr L', w') ->
  block_coord_system L' = block_coordinates gs L w
  /\ (bit_istrue (command_words L) (bit MODAL_GROUP_G12)
      && negb (modal_coord_select (gs_modal gs)
               =? modal_coord_select (modal (gc_block L))) = false -> w' = w)
  /\ (bit_istrue (command_words L) (bit MODAL_GROUP_G12)
      && negb (modal_coord_select (gs_modal gs)
               =? modal_coord_select (modal (gc_block L))) = true ->
      settings_read_coord_data (modal_coord_select (modal (gc_block L)))
        (gs_coord_system gs) w = (true, block_coord_system L', w')).
Proof.
  unfold check_coord_select, block_coordinates, ok, FAIL.
  cbn [command_words set_block_coord_system gc_block block_coord_system].
  destruct (bit_istrue (command_words L) (bit MODAL_GROUP_G12)); cbn [andb].
  2:{ intros H. injection H as <- <-. repeat split; discriminate. }
  destruct (N_COORDINATE_SYSTEM <? _); [discriminate|].
  destruct (negb (_ =? _)).
  2:{ intros H. injection H as <- <-. repeat split; discriminate. }
  destruct (settings_read_coord_data _ _ w) as [[okb buf] w1].
  destruct okb; [|discriminate]. intros H. injection H as <- <-.
  cbn [fst snd block_coord_system set_block_coord_system].
  repeat split; discriminate.
Qed.

(** The block when it leaves the checks before [20. Motion modes], for a
    block other than a G10. *)
Lemma gc_check_before_motion_target (gs : parser_state_t) (L L5 : locals)
  (w w5 : world) :
  gc_check_before_motion gs L w = (inr L5, w5) ->
  non_modal_command (gc_block L) <> NON_MODAL_SET_COORDINATE_DATA ->
  List.length (val_xyz (values (gc_block L))) = Z.to_nat N_AXIS ->
  block_coord_system L5 = block_coordinates gs L w
  /\ (bit_istrue (command_words L) (bit MODAL_GROUP_G12)
      && negb (modal_coord_select (gs_modal gs)
               =? modal_coord_select (modal (gc_block L))) = false -> w5 = w)
  /\ (axis_words L <> 0 ->
      forall idx, In idx axes ->
        vec_get (val_xyz (values (gc_block L5))) idx
        = axis_target gs L (block_coordinates gs L w) idx).
Proof.
  unfold gc_check_before_motion, bind.
  destruct (check_line_number (implicit_axis_command L)) as [e1|L1] eqn:H1;
    [discriminate|].
  apply check_line_number_inr in H1. subst L1.
  destruct (check_feed_rate gs _) as [e2|L2] eqn:H2; [discriminate|].
  destruct (check_dwell L2) as [e3|L3] eqn:H3; [discriminate|].
  destruct (check_coord_select gs L3 w) as [[e4|L4] w4] eqn:H4; [discriminate|].
  intros H5 Hg Hlen.
  pose proof (implicit_axis_command_frame L) as F1.
  destruct (implicit_axis_command_values L) as (_ & B1).
  destruct (check_feed_rate_frame _ _ _ H2) as (F2 & _).
  destruct (check_feed_rate_xyz _ _ _ H2) as (X2 & _).
  destruct (check_dwell_frame _ _ H3) as (F3 & _ & V3).
  destruct (check_coord_select_frame _ _ _ _ _ H4) as (F4 & _ & V4 & _).
  pose proof (same_frame_trans _ _ _ F1 (same_frame_trans _ _ _ F2 F3)) as F13.
  destruct F13 as (_ & M13 & N13 & C13 & W13).
  destruct F4 as (_ & M4 & N4 & C4 & W4).
  destruct (check_coord_select_coordinates _ _ _ _ _ H4) as (Hbcs & Hw & _).
  assert (Hsame : block_coordinates gs L3 w = block_coordinates gs L w).
  { unfold block_coordinates. rewrite C13, M13. reflexivity. }
  rewrite C13, M13 in Hw. rewrite Hsame in Hbcs.
  assert (Hxyz : val_xyz (values (gc_block L4)) = val_xyz (values (gc_block L))).
  { rewrite V4, V3, X2, B1. reflexivity. }
  revert H5. unfold check_non_modal.
  destruct (Z.eqb_spec (non_modal_command (gc_block L4))
              NON_MODAL_SET_COORDINATE_DATA) as [Heq|_];
    [exfalso; apply Hg; congruence|].
  unfold check_target, ok, FAIL.
  destruct (Z.eqb_spec (axis_words L4) 0) as [Haw|Haw]; cbn [negb].
  - split_ifs; intros H5; try discriminate H5; injection H5 as <- <-.
    all: split; [exact Hbcs|split; [exact Hw|]].
    all: intros Hx; exfalso; apply Hx; congruence.
  - split_ifs; intros H5; try discriminate H5; injection H5 as <- <-.
    all: cbn [block_coord_system upd_block gc_block values upd_values];
      cbv beta.
    all: split; [exact Hbcs|split; [exact Hw|]].
    all: intros _ idx Hidx;
      match goal with
      | |- context [target_axis ?g ?l (target_axis ?g ?l ?v 0) 1] =>
          change (target_axis g l (target_axis g l v 0) 1)
            with (fold_left (target_axis g l) axes v)
      end;
      rewrite target_axes by (assumption || congruence).
    all: rewrite Hbcs; apply axis_target_ext;
      cbn [gc_block upd_block upd_values values non_modal_command modal
           axis_words]; congruence.
Qed.

Lemma check_motion_mode_target (ax : axis_indices) (gs : parser_state_t)
  (L L6 : locals) :
  check_motion_mode ax gs L = inr L6 ->
  val_xyz (values (gc_block L6)) = val_xyz (values (gc_block L))
  /\ block_coord_system L6 = block_coord_system L
  /\ (axis_words L <> 0 ->
      axis_command L6 = axis_command L /\ block_motion L6 <> MOTION_MODE_NONE).
Proof.
  unfold check_motion_mode, check_arc, arc_radius_mode, arc_offset_mode, ok, FAIL.
  split_ifs; intros H; try discriminate H; injection H as <-;
    unfold block_motion in *; block_fields; zbool;
    repeat split; try reflexivity; try assumption; intros; try congruence.
Qed.

Lemma check_unused_words_target (L L7 : locals) :
  check_unused_words L = inr L7 ->
  gc_block L7 = gc_block L /\ axis_command L7 = axis_command L
  /\ block_coord_system L7 = block_coord_system L
  /\ gc_parser_flags L7 = gc_parser_flags L
  /\ coord_select L7 = coord_select L.
Proof.
  unfold check_unused_words, ok, FAIL. split_ifs; intros H; try discriminate H;
    injection H as <-; repeat split.
Qed.

End Targets.

Section Accepted.

Context {E : Externals}.

(** A call that returns STATUS_OK has gone through every stage. *)
Lemma gc_execute_line_ok_stages (fuel : nat) (ax : axis_indices)
  (line : list ascii) (gs gs' : parser_state_t) (w w' : world) (L : locals) :
  gc_parse_line fuel gs line = Some (inr L) ->
  gc_execute_line fuel ax line gs w = Some (STATUS_OK, gs', w') ->
  exists L5 w5 L6 L7,
    gc_check_before_motion gs L w = (inr L5, w5)
    /\ check_motion_mode ax gs L5 = inr L6
    /\ check_unused_words L6 = inr L7
    /\ gc_execute ax L7 gs w5 = (STATUS_OK, gs', w')
    /\ is_jog_block L7 = is_jog line
    /\ modal (gc_block L7) = modal (gc_block L)
    /\ non_modal_command (gc_block L7) = non_modal_command (gc_block L).
Proof.
  intros Hline. unfold gc_execute_line. rewrite Hline.
  unfold gc_check_and_execute.
  destruct (gc_check ax gs L w) as [[e|L7] w7] eqn:Hchk.
  { intros H. injection H as -> _ _.
    exfalso. eapply gc_check_status_not_ok; [eassumption|reflexivity]. }
  intros H. injection H as H.
  destruct (gc_check_frame _ _ _ _ _ _ Hchk) as (J7 & M7 & N7 & _).
  revert Hchk. unfold gc_check, bind.
  destruct (gc_check_before_motion gs L w) as [[e|L5] w5] eqn:H5; [discriminate|].
  destruct (check_motion_mode ax gs L5) as [e|L6] eqn:H6; [discriminate|].
  destruct (check_unused_words L6) as [e|L7'] eqn:H7; [discriminate|].
  intros Hchk. injection Hchk as -> ->.
  exists L5, w7, L6, L7. repeat split; try assumption.
  rewrite J7. eapply gc_parse_line_is_jog. eassumption.
Qed.

(** Outside a jog and without a G10 or a program end: the coordinate
    system after STEP 4. *)
Lemma gc_execute_coord_system (ax : axis_indices) (L : locals)
  (gs gs' : parser_state_t) (w w' : world) (s : status) :
  is_jog_block L = false ->
  non_modal_command (gc_block L) <> NON_MODAL_SET_COORDINATE_DATA ->
  one_of (modal_program_flow (modal (gc_block L)))
    [PROGRAM_FLOW_RUNNING; PROGRAM_FLOW_PAUSED] = true ->
  gc_execute ax L gs w = (s, gs', w') ->
  gs_coord_system gs'
  = (if negb (modal_coord_select (gs_modal gs)
              =? modal_coord_select (modal (gc_block L)))
     then block_coord_system L else gs_coord_system gs).
Proof.
  unfold gc_execute. intros -> Hnm Hpf.
  unfold exec_coord_select, exec_non_modal, exec_motion, exec_program_flow,
    block_motion.
  apply Z.eqb_neq in Hnm. rewrite Hnm.
  destruct gs as [[mm mf mu md mc mp] fr ln pos cs co].
  destruct L as [[nm [bm bf bu bd bc bp] bv] ac csl aw iw cw vw fl bcs].
  state_fields. one_of_cases Hpf; subst bp;
    cbn [Z.eqb negb PROGRAM_FLOW_RUNNING PROGRAM_FLOW_PAUSED Pos.eqb];
    repeat match goal with
           | |- context [if ?b then _ else _] =>
               let H := fresh "Hb" in destruct b eqn:H; state_fields
           end;
    intros H; injection H as _ <- _; state_fields; try reflexivity;
    try discriminate.
Qed.

(** Outside a jog, for a block that is a motion and nothing else: what the
    rest of the firmware is called with. *)
Lemma gc_execute_motion_world (ax : axis_indices) (L : locals)
  (gs : parser_state_t) (w : world) :
  is_jog_block L = false ->
  non_modal_command (gc_block L) = NON_MODAL_NO_ACTION ->
  modal_program_flow (modal (gc_block L)) = PROGRAM_FLOW_RUNNING ->
  modal_coord_select (modal (gc_block L)) = modal_coord_select (gs_modal gs) ->
  axis_command L = AXIS_COMMAND_MOTION_MODE ->
  block_motion L <> MOTION_MODE_NONE ->
  snd (gc_execute ax L gs w)
  = (if block_motion L =? MOTION_MODE_LINEAR then
       mc_line (val_xyz (values (gc_block L))) (block_plan_data L) w
     else if block_motion L =? MOTION_MODE_SEEK then
       mc_line (val_xyz (values (gc_block L)))
         {| pl_feed_rate := pl_feed_rate (block_plan_data L);
            pl_condition := Z.lor (pl_condition (block_plan_data L))
                              PL_COND_FLAG_RAPID_MOTION |} w
     else if (block_motion L =? MOTION_MODE_CW_ARC)
             || (block_motion L =? MOTION_MODE_CCW_ARC) then
       mc_arc (val_xyz (values (gc_block L))) (block_plan_data L)
         (gs_position gs) (val_ijk (values (gc_block L)))
         (val_r (values (gc_block L)))
         (axis_0 ax) (axis_1 ax) (axis_linear ax)
         (bit_istrue (gc_parser_flags L) GC_PARSER_ARC_IS_CLOCKWISE) w
     else w).
Proof.
  unfold gc_execute. intros -> Hnm Hpf Hmc Hac Hm.
  unfold exec_coord_select, exec_non_modal, exec_motion, exec_program_flow,
    block_motion, block_plan_data in *.
  rewrite Hnm, Hpf, Hmc, Hac, Z.eqb_refl.
  cbn [Z.eqb negb NON_MODAL_NO_ACTION NON_MODAL_DWELL
       NON_MODAL_SET_COORDINATE_DATA].
  destruct gs as [[mm mf mu md mc mp] fr ln pos cs co]. state_fields.
  apply Z.eqb_neq in Hm. rewrite Hm, Z.eqb_refl. cbn [negb andb].
  rewrite ?Hpf. cbn [Z.eqb negb PROGRAM_FLOW_RUNNING snd].
  destruct (modal_motion (modal (gc_block L)) =? MOTION_MODE_LINEAR);
    [reflexivity|].
  destruct (modal_motion (modal (gc_block L)) =? MOTION_MODE_SEEK);
    [reflexivity|].
  destruct ((modal_motion (modal (gc_block L)) =? MOTION_MODE_CW_ARC)
            || (modal_motion (modal (gc_block L)) =? MOTION_MODE_CCW_ARC));
    reflexivity.
Qed.

Lemma implicit_axis_command_motion (L : locals) :
  axis_words L <> 0 ->
  axis_command L = AXIS_COMMAND_NONE
  \/ axis_command L = AXIS_COMMAND_MOTION_MODE ->
  axis_command (implicit_axis_command L) = AXIS_COMMAND_MOTION_MODE.
Proof.
  intros Haw Hax. unfold implicit_axis_command.
  apply Z.eqb_neq in Haw. rewrite Haw. cbn [negb].
  destruct (axis_command L =? 0) eqn:Ht; [reflexivity|].
  destruct Hax as [Hx|Hx]; [rewrite Hx in Ht; discriminate Ht|exact Hx].
Qed.

Lemma axis_command_ok_motion (L : locals) :
  axis_command_ok L ->
  one_of (non_modal_command (gc_block L)) [10; 28; 30; 92] = false ->
  axis_command L = AXIS_COMMAND_NONE
  \/ axis_command L = AXIS_COMMAND_MOTION_MODE.
Proof.
  intros (Hax & _) Hnm. destruct Hax as [Hax|[Hax|[_ Hax]]]; auto. congruence.
Qed.

(** A block with axis words that no non-modal command takes, once
    accepted: the block as STEP 4 gets it. *)
Lemma accepted_motion_block (fuel : nat) (ax : axis_indices)
  (line : list ascii) (gs gs' : parser_state_t) (w w' : world) (L : locals) :
  gc_parse_line fuel gs line = Some (inr L) ->
  is_jog line = false ->
  axis_words L <> 0 ->
  one_of (non_modal_command (gc_block L)) [10; 28; 30; 92] = false ->
  gc_execute_line fuel ax line gs w = Some (STATUS_OK, gs', w') ->
  exists L7 w5,
    gc_execute ax L7 gs w5 = (STATUS_OK, gs', w')
    /\ is_jog_block L7 = false
    /\ modal (gc_block L7) = modal (gc_block L)
    /\ non_modal_command (gc_block L7) = non_modal_command (gc_block L)
    /\ axis_command L7 = AXIS_COMMAND_MOTION_MODE
    /\ block_motion L7 <> MOTION_MODE_NONE
    /\ gs_position gs' = val_xyz (values (gc_block L7))
    /\ block_coord_system L7 = block_coordinates gs L w
    /\ (bit_istrue (command_words L) (bit MODAL_GROUP_G12)
        && negb (modal_coord_select (gs_modal gs)
                 =? modal_coord_select (modal (gc_block L))) = false -> w5 = w)
    /\ (forall idx, In idx axes ->
          vec_get (val_xyz (values (gc_block L7))) idx
          = axis_target gs L (block_coordinates gs L w) idx).
Proof.
  intros Hline Hjog Haw Hnm Hrun.
  pose proof (gc_parse_line_axis_command_ok _ _ _ _ Hline) as Hinv.
  pose proof (axis_command_ok_motion _ Hinv Hnm) as Hax.
  destruct Hinv as (_ & _ & Hlen & _).
  destruct (gc_execute_line_ok_stages _ _ _ _ _ _ _ _ Hline Hrun)
    as (L5 & w5 & L6 & L7 & H5 & H6 & H7 & Hex & J7 & M7 & N7).
  assert (Hg : non_modal_command (gc_block L) <> NON_MODAL_SET_COORDINATE_DATA).
  { intros Heq. rewrite Heq in Hnm. vm_compute in Hnm. discriminate Hnm. }
  destruct (gc_check_before_motion_target _ _ _ _ _ H5 Hg Hlen)
    as (Hbcs & Hw & Hxyz).
  pose proof (gc_check_before_motion_axis_command _ _ _ _ _ H5) as A5.
  rewrite (implicit_axis_command_motion _ Haw Hax) in A5.
  destruct (gc_check_before_motion_frame _ _ _ _ _ H5) as (_ & _ & _ & _ & W5).
  destruct (check_motion_mode_target _ _ _ _ H6) as (X6 & B6 & A6).
  destruct A6 as (A6 & Hm6); [congruence|].
  destruct (check_unused_words_target _ _ H7) as (G7 & A7 & B7 & _).
  rewrite Hjog in J7.
  destruct (gc_execute_commit _ _ _ _ _ _ _ J7 Hex) as (_ & _ & Hpos & _).
  assert (Hm7 : block_motion L7 <> MOTION_MODE_NONE).
  { unfold block_motion in *. rewrite G7. exact Hm6. }
  exists L7, w5. repeat split; try assumption.
  - congruence.
  - rewrite Hpos. apply Z.eqb_neq in Hm7. rewrite Hm7.
    replace (axis_command L7) with AXIS_COMMAND_MOTION_MODE by congruence.
    reflexivity.
  - congruence.
  - intros idx Hidx. rewrite G7, X6. apply Hxyz; assumption.
Qed.

End Accepted.

(** X12. Where an accepted block moves the parser to.  Outside a jog, for
    a block with axis words and without G10, G28, G30 or G92, a call that
    returns STATUS_OK leaves in gc_state.position, axis by axis: the
    position as it was, for an axis without a word; the word value itself
    under G53; the word value plus the coordinate system of the block plus
    gc_state.coord_offset in G90 mode; the word value plus the position as
    it was in G91 mode.  The units mode plays no part. *)
Theorem programmed_target
  (E : Externals) (fuel : nat) (ax : axis_indices) (line : list ascii)
  (gs gs' : parser_state_t) (w w' : world) (L : locals) (idx : Z) :
  gc_parse_line fuel gs line = Some (inr L) ->
  is_jog line = false ->
  axis_words L <> 0 ->
  one_of (non_modal_command (gc_block L)) [10; 28; 30; 92] = false ->
  gc_execute_line fuel ax line gs w = Some (STATUS_OK, gs', w') ->
  In idx axes ->
  vec_get (gs_position gs') idx
  = axis_target gs L (block_coordinates gs L w) idx.
Proof.
  intros Hline Hjog Haw Hnm Hrun Hidx.
  destruct (accepted_motion_block _ _ _ _ _ _ _ _ Hline Hjog Haw Hnm Hrun)
    as (L7 & w5 & _ & _ & _ & _ & _ & _ & Hpos & _ & _ & Hxyz).
  rewrite Hpos. apply Hxyz. exact Hidx.
Qed.

(** X12 on G91G0X5 from the position (1, 2), and on G53G0X5 with the
    coordinate system (10, 10) in force. *)
Lemma programmed_target_witness :
  (exists gs' w',
     gc_execute_line (E := Sim.machine) 10 Sim.g17 (Sim.chars "G91G0X5")
       (set_gs_position [F32.of_Z 1; F32.of_Z 2] gc_state_zero)
       Sim.boot = Some (STATUS_OK, gs', w')
     /\ vec_get (gs_position gs') X_AXIS = F32.of_Z 6
     /\ vec_get (gs_position gs') Y_AXIS = F32.of_Z 2)
  /\ (exists gs' w',
        gc_execute_line (E := Sim.machine) 10 Sim.g17 (Sim.chars "G53G0X5")
          (set_gs_coord_system [F32.of_Z 10; F32.of_Z 10]
             gc_state_zero)
          Sim.boot = Some (STATUS_OK, gs', w')
        /\ vec_get (gs_position gs') X_AXIS = F32.of_Z 5).
Proof.
  split.
  - let gs0 := constr:(set_gs_position [F32.of_Z 1; F32.of_Z 2]
                         gc_state_zero) in
    let line := constr:(Sim.chars "G91G0X5") in
    let p := eval vm_compute in (gc_parse_line (E := Sim.machine) 10 gs0 line) in
    let r := eval vm_compute in
         (gc_execute_line (E := Sim.machine) 10 Sim.g17 line gs0 Sim.boot) in
    lazymatch p with
    | Some (inr ?L) =>
        lazymatch r with
        | Some (_, ?gs1, ?w1) =>
            exists gs1, w1;
            pose proof (fun idx =>
                          programmed_target Sim.machine 10 Sim.g17 line gs0 gs1
                            Sim.boot w1 L idx
                            ltac:(vm_compute; reflexivity)
                            ltac:(vm_compute; reflexivity)
                            ltac:(vm_compute; discriminate)
                            ltac:(vm_compute; reflexivity)
                            ltac:(vm_compute; reflexivity)) as Ht
        end
    end.
    split; [vm_compute; reflexivity|]. split.
    + rewrite (Ht X_AXIS ltac:(cbn; auto)). vm_compute. reflexivity.
    + rewrite (Ht Y_AXIS ltac:(cbn; auto)). vm_compute. reflexivity.
  - let gs0 := constr:(set_gs_coord_system
                         [F32.of_Z 10; F32.of_Z 10] gc_state_zero) in
    let line := constr:(Sim.chars "G53G0X5") in
    let p := eval vm_compute in (gc_parse_line (E := Sim.machine) 10 gs0 line) in
    let r := eval vm_compute in
         (gc_execute_line (E := Sim.machine) 10 Sim.g17 line gs0 Sim.boot) in
    lazymatch p with
    | Some (inr ?L) =>
        lazymatch r with
        | Some (_, ?gs1, ?w1) =>
            exists gs1, w1;
            pose proof (fun idx =>
                          programmed_target Sim.machine 10 Sim.g17 line gs0 gs1
                            Sim.boot w1 L idx
                            ltac:(vm_compute; reflexivity)
                            ltac:(vm_compute; reflexivity)
                            ltac:(vm_compute; discriminate)
                            ltac:(vm_compute; reflexivity)
                            ltac:(vm_compute; reflexivity)) as Ht
        end
    end.
    split; [vm_compute; reflexivity|].
    rewrite (Ht X_AXIS ltac:(cbn; auto)). vm_compute. reflexivity.
Defined.

(** X13. What an accepted motion queues.  Outside a jog, for a block with
    axis words, no non-modal command, no program flow and no change of
    coordinate system, a call that returns STATUS_OK has made exactly one
    call to the rest of the firmware: [mc_line] with the new
    gc_state.position as target and the feed rate and inverse-time flag of
    the new gc_state in G1 mode; the same with the rapid flag in G0 mode;
    [mc_arc] from the old position to the new one in G2 and G3 modes.  In
    the modes G38.2 to G38.5 it has made no call at all, although
    gc_state.position has moved to the target. *)
Theorem motion_queued
  (E : Externals) (fuel : nat) (ax : axis_indices) (line : list ascii)
  (gs gs' : parser_state_t) (w w' : world) (L : locals) :
  gc_parse_line fuel gs line = Some (inr L) ->
  is_jog line = false ->
  axis_words L <> 0 ->
  non_modal_command (gc_block L) = NON_MODAL_NO_ACTION ->
  modal_program_flow (modal (gc_block L)) = PROGRAM_FLOW_RUNNING ->
  modal_coord_select (modal (gc_block L)) = modal_coord_select (gs_modal gs) ->
  gc_execute_line fuel ax line gs w = Some (STATUS_OK, gs', w') ->
  (block_motion L = MOTION_MODE_LINEAR ->
   w' = mc_line (gs_position gs') (state_plan_data gs') w)
  /\ (block_motion L = MOTION_MODE_SEEK ->
      w' = mc_line (gs_position gs')
             {| pl_feed_rate := gs_feed_rate gs';
                pl_condition := Z.lor (pl_condition (state_plan_data gs'))
                                  PL_COND_FLAG_RAPID_MOTION |} w)
  /\ (block_motion L = MOTION_MODE_CW_ARC
      \/ block_motion L = MOTION_MODE_CCW_ARC ->
      exists offset radius is_clockwise,
        w' = mc_arc (gs_position gs') (state_plan_data gs') (gs_position gs)
               offset radius (axis_0 ax) (axis_1 ax) (axis_linear ax)
               is_clockwise w)
  /\ (one_of (block_motion L) [140; 141; 142; 143] = true ->
      w' = w /\ forall idx, In idx axes ->
                vec_get (gs_position gs') idx
                = axis_target gs L (gs_coord_system gs) idx).
Proof.
  intros Hline Hjog Haw Hnm Hpf Hmc Hrun.
  assert (Hnm4 : one_of (non_modal_command (gc_block L)) [10; 28; 30; 92] = false).
  { rewrite Hnm. reflexivity. }
  destruct (accepted_motion_block _ _ _ _ _ _ _ _ Hline Hjog Haw Hnm4 Hrun)
    as (L7 & w5 & Hex & J7 & M7 & N7 & A7 & Hm7 & Hpos & _ & Hw & Hxyz).
  assert (Hsel : bit_istrue (command_words L) (bit MODAL_GROUP_G12)
                 && negb (modal_coord_select (gs_modal gs)
                          =? modal_coord_select (modal (gc_block L))) = false).
  { rewrite Hmc, Z.eqb_refl. apply andb_false_r. }
  specialize (Hw Hsel). subst w5.
  assert (Hcoord : block_coordinates gs L w = gs_coord_system gs).
  { unfold block_coordinates. rewrite Hsel. reflexivity. }
  pose proof (gc_execute_motion_world ax L7 gs w J7) as Hworld.
  rewrite Hex, N7, M7 in Hworld. cbn [snd] in Hworld.
  specialize (Hworld Hnm Hpf Hmc A7 Hm7).
  destruct (gc_execute_commit _ _ _ _ _ _ _ J7 Hex)
    as (_ & _ & _ & _ & _ & Hmodes & _).
  destruct Hmodes as (_ & _ & Hfm & _); [left; congruence|].
  pose proof (gc_execute_feed_rate _ _ _ _ _ _ _ J7 Hex) as Hfeed.
  assert (Hplan : block_plan_data L7 = state_plan_data gs').
  { unfold block_plan_data, state_plan_data. rewrite Hfeed, Hfm, M7. reflexivity. }
  assert (Hbm : block_motion L7 = block_motion L).
  { unfold block_motion. rewrite M7. reflexivity. }
  rewrite Hplan, <- Hpos, Hbm in Hworld.
  repeat split.
  - intros Hm. rewrite Hm in Hworld. exact Hworld.
  - intros Hm. rewrite Hm in Hworld. cbn [Z.eqb MOTION_MODE_SEEK
      MOTION_MODE_LINEAR] in Hworld.
    rewrite Hworld. unfold state_plan_data. reflexivity.
  - intros Hm. do 3 eexists.
    destruct Hm as [Hm|Hm]; rewrite Hm in Hworld; exact Hworld.
  - one_of_cases H; rewrite H in Hworld; exact Hworld.
  - intros idx Hidx. rewrite Hpos, <- Hcoord. apply Hxyz. exact Hidx.
Qed.

Ltac with_run fuel line gs w tac :=
  let p := eval vm_compute in (gc_parse_line (E := Sim.machine) fuel gs line) in
  let r := eval vm_compute in
       (gc_execute_line (E := Sim.machine) fuel Sim.g17 line gs w) in
  lazymatch p with
  | Some (inr ?L) =>
      lazymatch r with
      | Some (?s1, ?gs1, ?w1) => tac L s1 gs1 w1
      end
  end.

(** X13 on G1X5F100 and on G38.2X5F100. *)
Lemma motion_queued_witness :
  (exists gs',
     gc_execute_line (E := Sim.machine) 10 Sim.g17 (Sim.chars "G1X5F100")
       gc_state_zero Sim.boot
     = Some (STATUS_OK, gs',
             @mc_line Sim.machine (gs_position gs') (state_plan_data gs')
               Sim.boot))
  /\ (exists gs',
        gc_execute_line (E := Sim.machine) 20 Sim.g17 (Sim.chars "G38.2X5F100")
          gc_state_zero Sim.boot = Some (STATUS_OK, gs', Sim.boot)
        /\ vec_get (gs_position gs') X_AXIS = F32.of_Z 5).
Proof.
  split.
  - with_run 10%nat (Sim.chars "G1X5F100") gc_state_zero Sim.boot
      ltac:(fun L s1 gs1 w1 =>
        exists gs1;
        pose proof (motion_queued Sim.machine 10 Sim.g17 (Sim.chars "G1X5F100")
                      gc_state_zero gs1 Sim.boot w1 L
                      ltac:(vm_compute; reflexivity)
                      ltac:(vm_compute; reflexivity)
                      ltac:(vm_compute; discriminate)
                      ltac:(vm_compute; reflexivity)
                      ltac:(vm_compute; reflexivity)
                      ltac:(vm_compute; reflexivity)
                      ltac:(vm_compute; reflexivity)) as (Hq & _);
        rewrite <- (Hq ltac:(vm_compute; reflexivity))).
    vm_compute. reflexivity.
  - with_run 20%nat (Sim.chars "G38.2X5F100") gc_state_zero Sim.boot
      ltac:(fun L s1 gs1 w1 =>
        exists gs1;
        pose proof (motion_queued Sim.machine 20 Sim.g17
                      (Sim.chars "G38.2X5F100")
                      gc_state_zero gs1 Sim.boot w1 L
                      ltac:(vm_compute; reflexivity)
                      ltac:(vm_compute; reflexivity)
                      ltac:(vm_compute; discriminate)
                      ltac:(vm_compute; reflexivity)
                      ltac:(vm_compute; reflexivity)
                      ltac:(vm_compute; reflexivity)
                      ltac:(vm_compute; reflexivity)) as (_ & _ & _ & Hq);
        destruct (Hq ltac:(vm_compute; reflexivity)) as (Hw & Hp)).
    split; [vm_compute; reflexivity|].
    rewrite (Hp X_AXIS ltac:(cbn; auto)). vm_compute. reflexivity.
Defined.

(** X14. The modes an accepted block commits.  Outside a jog, after a
    call that returns STATUS_OK: the units are those of the block and the
    program flow is back to running; without M2 or M30, the motion mode,
    the feed rate mode, the distance mode and the coordinate system
    selection are those of the block; with M2 or M30 they are G1, G94, G90
    and G54, whatever the block has set. *)
Theorem block_modes_committed
  (E : Externals) (fuel : nat) (ax : axis_indices) (line : list ascii)
  (gs gs' : parser_state_t) (w w' : world) (L : locals) :
  gc_parse_line fuel gs line = Some (inr L) ->
  is_jog line = false ->
  gc_execute_line fuel ax line gs w = Some (STATUS_OK, gs', w') ->
  modal_units (gs_modal gs') = modal_units (modal (gc_block L))
  /\ modal_program_flow (gs_modal gs') = PROGRAM_FLOW_RUNNING
  /\ (if one_of (modal_program_flow (modal (gc_block L)))
           [PROGRAM_FLOW_RUNNING; PROGRAM_FLOW_PAUSED]
      then modal_motion (gs_modal gs') = modal_motion (modal (gc_block L))
           /\ modal_feed_rate (gs_modal gs')
              = modal_feed_rate (modal (gc_block L))
           /\ modal_distance (gs_modal gs')
              = modal_distance (modal (gc_block L))
           /\ modal_coord_select (gs_modal gs')
              = modal_coord_select (modal (gc_block L))
      else modal_motion (gs_modal gs') = MOTION_MODE_LINEAR
           /\ modal_feed_rate (gs_modal gs') = FEED_RATE_MODE_UNITS_PER_MIN
           /\ modal_distance (gs_modal gs') = DISTANCE_MODE_ABSOLUTE
           /\ modal_coord_select (gs_modal gs') = 0).
Proof.
  intros Hline Hjog Hrun.
  destruct (gc_execute_line_ok_stages _ _ _ _ _ _ _ _ Hline Hrun)
    as (L5 & w5 & L6 & L7 & _ & _ & _ & Hex & J7 & M7 & _).
  rewrite Hjog in J7.
  destruct (gc_execute_commit _ _ _ _ _ _ _ J7 Hex)
    as (_ & _ & _ & Hu & Hpf & Hkeep & Hend).
  rewrite M7 in *. split; [exact Hu|]. split; [apply Hpf; reflexivity|].
  destruct (one_of _ _) eqn:Hone.
  - one_of_cases Hone; (destruct Hkeep as (_ & Hk); [auto|exact Hk]).
  - unfold one_of in Hone. cbn [existsb] in Hone.
    apply orb_false_iff in Hone. destruct Hone as [H0 H3].
    rewrite orb_false_r in H3. apply Z.eqb_neq in H0, H3.
    apply Hend; assumption.
Qed.

(** X14 on G91G21X1M2 and on G91G20G0X1. *)
Lemma block_modes_committed_witness :
  (exists gs' w',
     gc_execute_line (E := Sim.machine) 20 Sim.g17 (Sim.chars "G91G20G0X1M2")
       gc_state_zero Sim.boot = Some (STATUS_OK, gs', w')
     /\ modal_distance (gs_modal gs') = DISTANCE_MODE_ABSOLUTE
     /\ modal_motion (gs_modal gs') = MOTION_MODE_LINEAR
     /\ modal_units (gs_modal gs') = 1)
  /\ (exists gs' w',
        gc_execute_line (E := Sim.machine) 20 Sim.g17 (Sim.chars "G91G20G0X1")
          gc_state_zero Sim.boot = Some (STATUS_OK, gs', w')
        /\ modal_distance (gs_modal gs') = 1
        /\ modal_motion (gs_modal gs') = MOTION_MODE_SEEK
        /\ modal_units (gs_modal gs') = 1).
Proof.
  split.
  - with_run 20%nat (Sim.chars "G91G20G0X1M2") gc_state_zero Sim.boot
      ltac:(fun L s1 gs1 w1 =>
        exists gs1, w1;
        pose proof (block_modes_committed Sim.machine 20 Sim.g17
                      (Sim.chars "G91G20G0X1M2") gc_state_zero gs1 Sim.boot w1 L
                      ltac:(vm_compute; reflexivity)
                      ltac:(vm_compute; reflexivity)
                      ltac:(vm_compute; reflexivity)) as (Hu & _ & Hm)).
    cbn in Hm. destruct Hm as (Hmot & _ & Hd & _).
    split; [vm_compute; reflexivity|]. split; [exact Hd|].
    split; [exact Hmot|exact Hu].
  - with_run 20%nat (Sim.chars "G91G20G0X1") gc_state_zero Sim.boot
      ltac:(fun L s1 gs1 w1 =>
        exists gs1, w1;
        pose proof (block_modes_committed Sim.machine 20 Sim.g17
                      (Sim.chars "G91G20G0X1") gc_state_zero gs1 Sim.boot w1 L
                      ltac:(vm_compute; reflexivity)
                      ltac:(vm_compute; reflexivity)
                      ltac:(vm_compute; reflexivity)) as (Hu & _ & Hm)).
    cbn in Hm. destruct Hm as (Hmot & _ & Hd & _).
    split; [vm_compute; reflexivity|]. split; [exact Hd|].
    split; [exact Hmot|exact Hu].
Defined.

(** X15. Selecting a coordinate system.  Outside a jog, for an accepted
    block without G10, M2 or M30: when the block has one of G54 to G59 and
    it is not the system in force, gc_state.coord_system becomes what
    [settings_read_coord_data] has read for it, in one read that
    succeeded; otherwise gc_state.coord_system is as it was.  In both
    cases gc_state.modal.coord_select is the selection of the block. *)
Theorem coordinate_system_selected
  (E : Externals) (fuel : nat) (ax : axis_indices) (line : list ascii)
  (gs gs' : parser_state_t) (w w' : world) (L : locals) :
  gc_parse_line fuel gs line = Some (inr L) ->
  is_jog line = false ->
  non_modal_command (gc_block L) <> NON_MODAL_SET_COORDINATE_DATA ->
  one_of (modal_program_flow (modal (gc_block L)))
    [PROGRAM_FLOW_RUNNING; PROGRAM_FLOW_PAUSED] = true ->
  gc_execute_line fuel ax line gs w = Some (STATUS_OK, gs', w') ->
  modal_coord_select (gs_modal gs') = modal_coord_select (modal (gc_block L))
  /\ (if bit_istrue (command_words L) (bit MODAL_GROUP_G12)
         && negb (modal_coord_select (gs_modal gs)
                  =? modal_coord_select (modal (gc_block L)))
      then exists w1,
             settings_read_coord_data (modal_coord_select (modal (gc_block L)))
               (gs_coord_system gs) w = (true, gs_coord_system gs', w1)
      else gs_coord_system gs' = gs_coord_system gs).
Proof.
  intros Hline Hjog Hnm Hpf Hrun.
  destruct (gc_parse_line_axis_command_ok _ _ _ _ Hline) as (_ & _ & Hlen & _).
  destruct (gc_execute_line_ok_stages _ _ _ _ _ _ _ _ Hline Hrun)
    as (L5 & w5 & L6 & L7 & H5 & H6 & H7 & Hex & J7 & M7 & N7).
  rewrite Hjog in J7.
  destruct (gc_execute_commit _ _ _ _ _ _ _ J7 Hex)
    as (_ & _ & _ & _ & _ & Hkeep & _).
  rewrite M7 in Hkeep.
  assert (Hpf' := Hpf). one_of_cases Hpf'.
  all: destruct Hkeep as (_ & _ & _ & _ & Hsel); [auto|].
  all: split; [exact Hsel|].
  all: assert (Hcs := gc_execute_coord_system ax L7 gs gs' w5 w' STATUS_OK J7);
    rewrite N7, M7 in Hcs; specialize (Hcs Hnm Hpf Hex).
  all: destruct (check_motion_mode_target _ _ _ _ H6) as (_ & B6 & _);
    destruct (check_unused_words_target _ _ H7) as (_ & _ & B7 & _).
  all: revert H5; unfold gc_check_before_motion, bind;
    destruct (check_line_number (implicit_axis_command L)) as [e1|L1] eqn:H1;
    [discriminate|];
    apply check_line_number_inr in H1; subst L1;
    destruct (check_feed_rate gs _) as [e2|L2] eqn:H2; [discriminate|];
    destruct (check_dwell L2) as [e3|L3] eqn:H3; [discriminate|];
    destruct (check_coord_select gs L3 w) as [[e4|L4] w4] eqn:H4;
    [discriminate|]; intros H5.
  all: pose proof (implicit_axis_command_frame L) as F1;
    destruct (check_feed_rate_frame _ _ _ H2) as (F2 & _);
    destruct (check_dwell_frame _ _ H3) as (F3 & _);
    pose proof (same_frame_trans _ _ _ F1 (same_frame_trans _ _ _ F2 F3))
      as (_ & M13 & N13 & C13 & _);
    destruct (check_coord_select_coordinates _ _ _ _ _ H4) as (Hbcs & _ & Hread);
    rewrite C13, M13 in Hread.
  all: assert (B5 : block_coord_system L5 = block_coord_system L4)
      by (revert H5; unfold check_non_modal, check_target, ok, FAIL;
          destruct (check_coord_select_frame _ _ _ _ _ H4) as ((_ & _ & N4 & _) & _);
          destruct (Z.eqb_spec (non_modal_command (gc_block L4))
                      NON_MODAL_SET_COORDINATE_DATA) as [Heq|_];
          [exfalso; apply Hnm; congruence|];
          split_ifs; intros H5; try discriminate H5; injection H5 as <- _;
          reflexivity).
  all: rewrite B7, B6, B5 in Hcs.
  all: destruct (bit_istrue (command_words L) (bit MODAL_GROUP_G12)) eqn:Hg12;
    destruct (negb (modal_coord_select (gs_modal gs)
                    =? modal_coord_select (modal (gc_block L)))) eqn:Hdiff;
    cbn [andb] in *.
  all: try (exists w4; rewrite Hcs; apply Hread; reflexivity).
  all: try exact Hcs.
  all: rewrite Hcs, Hbcs; unfold block_coordinates;
    rewrite C13, Hg12; reflexivity.
Qed.


(** ** G10: what is written *)

Section G10Write.

Context {E : Externals}.

Lemma check_feed_rate_values (gs : parser_state_t) (L L' : locals) :
  check_feed_rate gs L = inr L' ->
  val_ijk (values (gc_block L')) = val_ijk (values (gc_block L))
  /\ val_l (values (gc_block L')) = val_l (values (gc_block L))
  /\ val_p (values (gc_block L')) = val_p (values (gc_block L))
  /\ val_xyz (values (gc_block L')) = val_xyz (values (gc_block L)).
Proof.
  unfold check_feed_rate, ok, FAIL. split_ifs; intros H; try discriminate H;
    injection H as <-; repeat split.
Qed.

(** A block whose axis words a non-modal command takes goes through the
    motion-mode checks as it is. *)
Lemma check_motion_mode_non_modal (ax : axis_indices) (gs : parser_state_t)
  (L L6 : locals) :
  check_motion_mode ax gs L = inr L6 ->
  axis_command L = AXIS_COMMAND_NON_MODAL ->
  L6 = L.
Proof.
  unfold check_motion_mode, ok, FAIL. intros H Hax. revert H. rewrite Hax.
  cbn [Z.eqb AXIS_COMMAND_NON_MODAL AXIS_COMMAND_MOTION_MODE Pos.eqb].
  split_ifs; intros H; try discriminate H; injection H as <-; reflexivity.
Qed.

(** STEP 4 for a G10 block without program flow and without a change of
    coordinate system. *)
Lemma gc_execute_g10 (ax : axis_indices) (L : locals) (gs : parser_state_t)
  (w : world) :
  is_jog_block L = false ->
  non_modal_command (gc_block L) = NON_MODAL_SET_COORDINATE_DATA ->
  modal_program_flow (modal (gc_block L)) = PROGRAM_FLOW_RUNNING ->
  modal_coord_select (modal (gc_block L)) = modal_coord_select (gs_modal gs) ->
  axis_command L = AXIS_COMMAND_NON_MODAL ->
  exists gs',
    gc_execute ax L gs w
    = (STATUS_OK, gs',
       if modal_coord_select (gs_modal gs) =? coord_select L
       then system_flag_wco_change
              (settings_write_coord_data (coord_select L)
                 (val_ijk (values (gc_block L))) w)
       else settings_write_coord_data (coord_select L)
              (val_ijk (values (gc_block L))) w)
    /\ gs_coord_system gs'
       = (if modal_coord_select (gs_modal gs) =? coord_select L
          then val_ijk (values (gc_block L)) else gs_coord_system gs)
    /\ gs_position gs' = gs_position gs.
Proof.
  unfold gc_execute. intros -> Hnm Hpf Hmc Hac.
  unfold exec_coord_select, exec_non_modal, exec_motion, exec_program_flow,
    block_motion.
  rewrite Hnm, Hpf, Hmc, Hac, Z.eqb_refl.
  cbn [Z.eqb negb andb NON_MODAL_DWELL NON_MODAL_SET_COORDINATE_DATA
       AXIS_COMMAND_NON_MODAL AXIS_COMMAND_MOTION_MODE Pos.eqb].
  destruct gs as [[mm mf mu md mc mp] fr ln pos cs co]. state_fields.
  rewrite andb_false_r.
  destruct (mc =? coord_select L); state_fields; rewrite ?andb_false_r;
    rewrite ?Hpf; cbn [Z.eqb negb PROGRAM_FLOW_RUNNING];
    eexists; repeat split.
Qed.

End G10Write.

(** X16. What a G10 writes.  Outside a jog, for an accepted G10 block
    without program flow and without a change of coordinate system: the
    data of the coordinate system that P names (the one in force for P0)
    have been read from the settings store; for each axis with a word the
    data are replaced, by the word value under L2 and by position minus
    coord_offset minus the word value under L20, and for each axis without
    a word they are as read; the result is written back with one call of
    [settings_write_coord_data]; gc_state.coord_system takes the data when
    the system written is the one in force, and is as it was otherwise;
    gc_state.position is as it was. *)
Theorem g10_written
  (E : Externals) (fuel : nat) (ax : axis_indices) (line : list ascii)
  (gs gs' : parser_state_t) (w w' : world) (L : locals) :
  gc_parse_line fuel gs line = Some (inr L) ->
  is_jog line = false ->
  non_modal_command (gc_block L) = NON_MODAL_SET_COORDINATE_DATA ->
  modal_program_flow (modal (gc_block L)) = PROGRAM_FLOW_RUNNING ->
  modal_coord_select (modal (gc_block L)) = modal_coord_select (gs_modal gs) ->
  gc_execute_line fuel ax line gs w = Some (STATUS_OK, gs', w') ->
  exists buf w1 data,
    settings_read_coord_data (g10_slot L) (val_ijk (values (gc_block L))) w
    = (true, buf, w1)
    /\ (List.length buf = Z.to_nat N_AXIS ->
        forall idx, In idx axes -> vec_get data idx = g10_data gs L buf idx)
    /\ w' = (if modal_coord_select (gs_modal gs) =? g10_slot L
             then system_flag_wco_change
                    (settings_write_coord_data (g10_slot L) data w1)
             else settings_write_coord_data (g10_slot L) data w1)
    /\ gs_coord_system gs'
       = (if modal_coord_select (gs_modal gs) =? g10_slot L
          then data else gs_coord_system gs)
    /\ gs_position gs' = gs_position gs
    /\ (val_l (values (gc_block L)) = 2 \/ val_l (values (gc_block L)) = 20).
Proof.
  intros Hline Hjog Hnm Hpf Hmc Hrun.
  destruct (gc_parse_line_axis_command_ok _ _ _ _ Hline) as (_ & Hax & _).
  destruct Hax as (_ & Hax); [rewrite Hnm; reflexivity|].
  destruct (gc_execute_line_ok_stages _ _ _ _ _ _ _ _ Hline Hrun)
    as (L5 & w5 & L6 & L7 & H5 & H6 & H7 & Hex & J7 & M7 & N7).
  rewrite Hjog in J7.
  pose proof (gc_check_before_motion_axis_command _ _ _ _ _ H5) as A5.
  assert (Himp : implicit_axis_command L = L).
  { unfold implicit_axis_command. rewrite Hax.
    destruct (negb (axis_words L =? 0)); reflexivity. }
  rewrite Himp in A5. rewrite Hax in A5.
  apply (check_motion_mode_non_modal _ _ _ _ H6) in A5 as HL6. subst L6.
  destruct (check_unused_words_target _ _ H7) as (G7 & A7 & _ & _ & C7).
  revert H5. unfold gc_check_before_motion, bind. rewrite Himp.
  destruct (check_line_number L) as [e1|L1] eqn:H1; [discriminate|].
  apply check_line_number_inr in H1. subst L1.
  destruct (check_feed_rate gs L) as [e2|L2] eqn:H2; [discriminate|].
  destruct (check_dwell L2) as [e3|L3] eqn:H3; [discriminate|].
  destruct (check_coord_select gs L3 w) as [[e4|L4] w4] eqn:H4; [discriminate|].
  intros H5.
  destruct (check_feed_rate_frame _ _ _ H2) as (F2 & _).
  destruct (check_feed_rate_values _ _ _ H2) as (I2 & L2' & P2 & X2).
  destruct (check_dwell_frame _ _ H3) as (F3 & _ & V3).
  destruct (check_coord_select_frame _ _ _ _ _ H4) as (F4 & _ & V4 & _).
  pose proof (same_frame_trans _ _ _ F2 F3) as (_ & M23 & N23 & C23 & W23).
  destruct F4 as (_ & M4 & N4 & C4 & W4).
  destruct (check_coord_select_coordinates _ _ _ _ _ H4) as (_ & Hw & _).
  rewrite C23, M23, Hmc, Z.eqb_refl, andb_false_r in Hw.
  specialize (Hw eq_refl). subst w4.
  assert (Hnm4 : non_modal_command (gc_block L4) = NON_MODAL_SET_COORDINATE_DATA)
    by congruence.
  destruct (check_g10_cases gs L4 w Hnm4) as (_ & _ & _ & Hg10).
  destruct (Hg10 _ _ H5) as (Hsel & Hl & buf & w0 & Hread & -> & Hval).
  assert (Hvals : val_ijk (values (gc_block L4)) = val_ijk (values (gc_block L))
                  /\ val_l (values (gc_block L4)) = val_l (values (gc_block L))
                  /\ val_p (values (gc_block L4)) = val_p (values (gc_block L))
                  /\ val_xyz (values (gc_block L4))
                     = val_xyz (values (gc_block L))).
  { rewrite V4, V3. repeat split; assumption. }
  destruct Hvals as (I4 & L4' & P4 & X4).
  assert (Hslot : coord_select L5 = g10_slot L).
  { rewrite Hsel. unfold g10_slot. rewrite P4, M4, M23. reflexivity. }
  rewrite Hslot, I4 in Hread.
  destruct (gc_execute_g10 ax L7 gs w0 J7) as (gs1 & Hex1 & Hcs & Hpos);
    try congruence.
  rewrite Hex in Hex1. injection Hex1 as <- Hw'.
  rewrite C7, Hslot, G7 in Hw', Hcs.
  exists buf, w0, (val_ijk (values (gc_block L5))).
  split; [exact Hread|]. split; [|split; [exact Hw'|split; [exact Hcs|]]].
  - intros Hlen idx Hidx. rewrite Hval.
    rewrite g10_stores by (cbn [val_ijk set_ijk]; assumption).
    unfold g10_data.
    cbn [axis_words upd_block set_coord_select_local set_value_words
         val_l val_xyz val_ijk set_ijk].
    rewrite W4, W23, L4', X4. reflexivity.
  - split; [exact Hpos|]. rewrite <- L4'. exact Hl.
Qed.

(** X16 on G10L20P1X5 from the position (10, 0, 0). *)
Lemma g10_written_witness :
  exists gs' w',
    gc_execute_line (E := Sim.machine) 20 Sim.g17 (Sim.chars "G10L20P1X5")
      (set_gs_position [F32.of_Z 10; F32.zero; F32.zero] gc_state_zero)
      Sim.boot = Some (STATUS_OK, gs', w')
    /\ vec_get (gs_coord_system gs') X_AXIS = F32.of_Z 5
    /\ gs_position gs' = [F32.of_Z 10; F32.zero; F32.zero].
Proof.
  with_run 20%nat (Sim.chars "G10L20P1X5")
    (set_gs_position [F32.of_Z 10; F32.zero; F32.zero] gc_state_zero) Sim.boot
    ltac:(fun L s1 gs1 w1 =>
      exists gs1, w1;
      pose proof (g10_written Sim.machine 20 Sim.g17 (Sim.chars "G10L20P1X5")
                    (set_gs_position [F32.of_Z 10; F32.zero; F32.zero]
                       gc_state_zero)
                    gs1 Sim.boot w1 L
                    ltac:(vm_compute; reflexivity)
                    ltac:(vm_compute; reflexivity)
                    ltac:(vm_compute; reflexivity)
                    ltac:(vm_compute; reflexivity)
                    ltac:(vm_compute; reflexivity)
                    ltac:(vm_compute; reflexivity))
        as (buf & w0 & data & Hread & Hdata & _ & Hcs & Hpos & _);
      assert (Hd : data = gs_coord_system gs1) by (rewrite Hcs; reflexivity)).
  vm_compute in Hread.
  assert (Hbuf : buf = vec_zero) by (inversion Hread; reflexivity).
  subst buf.
  split; [vm_compute; reflexivity|]. split; [|exact Hpos].
  rewrite <- Hd. rewrite (Hdata eq_refl X_AXIS ltac:(cbn; auto)).
  vm_compute. reflexivity.
Defined.

(** X15 on G55, with (1, 2) stored for G55. *)
Lemma coordinate_system_selected_witness :
  exists gs' w',
    gc_execute_line (E := Sim.machine) 10 Sim.g17 (Sim.chars "G55")
      gc_state_zero
      (Sim.sim_write_coord 1 [F32.of_Z 1; F32.of_Z 2] Sim.boot)
    = Some (STATUS_OK, gs', w')
    /\ modal_coord_select (gs_modal gs') = 1
    /\ gs_coord_system gs' = [F32.of_Z 1; F32.of_Z 2].
Proof.
  with_run 10%nat (Sim.chars "G55") gc_state_zero
    (Sim.sim_write_coord 1 [F32.of_Z 1; F32.of_Z 2] Sim.boot)
    ltac:(fun L s1 gs1 w1 =>
      exists gs1, w1;
      pose proof (coordinate_system_selected Sim.machine 10 Sim.g17
                    (Sim.chars "G55") gc_state_zero gs1
                    (Sim.sim_write_coord 1
                       [F32.of_Z 1; F32.of_Z 2] Sim.boot) w1 L
                    ltac:(vm_compute; reflexivity)
                    ltac:(vm_compute; reflexivity)
                    ltac:(vm_compute; discriminate)
                    ltac:(vm_compute; reflexivity)
                    ltac:(vm_compute; reflexivity)) as (Hsel & Hcs)).
  split; [vm_compute; reflexivity|]. split; [exact Hsel|].
  cbn in Hcs. destruct Hcs as (w2 & Hread).
  vm_compute in Hread. inversion Hread as [Hbuf].
  vm_compute. reflexivity.
Defined.

(** ** The modes stay in range *)

Lemma parse_G_modal_in_range (iv m : Z) (L L' : locals) :
  parse_G iv m L = inr L' ->
  modal_in_range (modal (gc_block L)) = true ->
  modal_in_range (modal (gc_block L')) = true.
Proof.
  unfold parse_G, G_switch, G_non_modal, G_motion, modal_group_check, bind,
    ok, FAIL.
  split_ifs; intros H; try discriminate H; injection H as <-;
    block_fields; bool_facts; subst; try lia;
    generalize (modal (gc_block L)); intros [mm mf mu md mc mp];
    unfold modal_in_range;
    cbn [modal_motion modal_feed_rate modal_units modal_distance
         modal_coord_select modal_program_flow set_motion set_feed_rate_mode
         set_units set_distance set_coord_select set_program_flow];
    intros Hr;
    repeat (apply andb_true_iff in Hr; destruct Hr as [Hr ?]);
    repeat match goal with
           | H : one_of _ _ = true |- _ => rewrite H; clear H
           end;
    reflexivity.
Qed.

Lemma gc_parse_word_modal_in_range (l : ascii) (v : float) (L L' : locals) :
  gc_parse_word l v L = inr L' ->
  modal_in_range (modal (gc_block L)) = true ->
  modal_in_range (modal (gc_block L')) = true.
Proof.
  unfold gc_parse_word.
  destruct (Ascii.eqb l "G"); [apply parse_G_modal_in_range|].
  destruct (Ascii.eqb l "M").
  - generalize (int_value_of v) (mantissa_of v). intros iv m.
    unfold parse_M, modal_group_check, ok, FAIL.
    split_ifs; intros H; try discriminate H; injection H as <-;
      block_fields; bool_facts; subst; try lia;
      generalize (modal (gc_block L)); intros [mm mf mu md mc mp];
      unfold modal_in_range;
      cbn [modal_motion modal_feed_rate modal_units modal_distance
           modal_coord_select modal_program_flow set_program_flow];
      intros Hr;
      repeat (apply andb_true_iff in Hr; destruct Hr as [Hr ?]);
      repeat match goal with
             | H : one_of _ _ = true |- _ => rewrite H; clear H
             end;
      try reflexivity; try lia.
  - unfold parse_value, value_switch, bind, ok, FAIL.
    split_ifs; intros H; try discriminate H; injection H as <-;
      block_fields; auto.
Qed.

Lemma gc_block_init_modal_in_range (gs : parser_state_t) (line : list ascii) :
  modal_in_range (gs_modal gs) = true ->
  modal_in_range (modal (gc_block (gc_block_init gs line))) = true.
Proof.
  unfold gc_block_init. destruct (is_jog line); [|auto].
  generalize (gs_modal gs). intros [mm mf mu md mc mp].
  unfold modal_in_range. cbn.
  intros Hr. repeat (apply andb_true_iff in Hr; destruct Hr as [Hr ?]).
  repeat match goal with
         | H : one_of _ _ = true |- _ => rewrite H; clear H
         end.
  reflexivity.
Qed.

Section Range.

Context {E : Externals}.

Lemma gc_parse_words_modal_in_range (line : list ascii) (fuel : nat) :
  forall cc L0 L1,
    gc_parse_words fuel line cc L0 = Some (inr L1) ->
    modal_in_range (modal (gc_block L0)) = true ->
    modal_in_range (modal (gc_block L1)) = true.
Proof.
  induction fuel as [|fuel IH]; cbn [gc_parse_words]; intros cc L0 L1 H;
    [discriminate|].
  revert H. split_match; intros H; try discriminate H.
  - injection H as <-. auto.
  - intros H0. eapply IH; [eassumption|].
    eapply gc_parse_word_modal_in_range; eassumption.
Qed.

(** STEP 4 writes modes that are those of the block or the defaults of a
    program end. *)
Lemma gc_execute_modal_in_range (ax : axis_indices) (L : locals)
  (gs gs' : parser_state_t) (w w' : world) (s : status) :
  modal_in_range (gs_modal gs) = true ->
  modal_in_range (modal (gc_block L)) = true ->
  gc_execute ax L gs w = (s, gs', w') ->
  modal_in_range (gs_modal gs') = true.
Proof.
  intros Hgs HL. unfold gc_execute. destruct (is_jog_block L).
  { intros H. destruct (gc_execute_jog_state _ _ _ _ _ _ H) as [->|[_ ->]];
      exact Hgs. }
  unfold exec_coord_select, exec_non_modal, exec_motion, exec_program_flow,
    block_motion.
  destruct gs as [[mm mf mu md mc mp] fr ln pos cs co].
  destruct L as [[nm [bm bf bu bd bc bp] bv] ac csl aw iw cw vw fl bcs].
  state_fields. unfold modal_in_range in HL, Hgs.
  cbn [modal_motion modal_feed_rate modal_units modal_distance
       modal_coord_select modal_program_flow] in HL, Hgs.
  repeat (apply andb_true_iff in HL; destruct HL as [HL ?]).
  repeat (apply andb_true_iff in Hgs; destruct Hgs as [Hgs ?]).
  repeat match goal with
         | |- context [if ?b then _ else _] =>
             let H := fresh "Hb" in destruct b eqn:H; state_fields
         | |- context [let '(_, _) := ?x in _] =>
             let H := fresh "Hm" in destruct x as [[? ?] ?] eqn:H; state_fields
         end;
    intros Hx; injection Hx as _ <- _; unfold modal_in_range; state_fields;
    repeat match goal with
           | H : one_of _ _ = true |- _ => rewrite H; clear H
           end;
    reflexivity.
Qed.

(** A call keeps the modes in range and the offsets as they are. *)
Lemma gc_execute_line_keeps (fuel : nat) (ax : axis_indices)
  (line : list ascii) (gs gs' : parser_state_t) (w w' : world) (s : status) :
  gc_execute_line fuel ax line gs w = Some (s, gs', w') ->
  (modal_in_range (gs_modal gs) = true -> modal_in_range (gs_modal gs') = true)
  /\ gs_coord_offset gs' = gs_coord_offset gs.
Proof.
  unfold gc_execute_line.
  destruct (gc_parse_line fuel gs line) as [[e|L]|] eqn:Hline; [| |discriminate].
  { intros H. injection H as _ <- _. auto. }
  unfold gc_check_and_execute.
  destruct (gc_check ax gs L w) as [[e|L7] w7] eqn:Hchk.
  { intros H. injection H as _ <- _. auto. }
  intros H. injection H as H.
  destruct (gc_check_frame _ _ _ _ _ _ Hchk) as (_ & M7 & _).
  split.
  - intros Hgs. eapply gc_execute_modal_in_range; [exact Hgs| |exact H].
    rewrite M7. unfold gc_parse_line in Hline.
    eapply gc_parse_words_modal_in_range; [exact Hline|].
    apply gc_block_init_modal_in_range. exact Hgs.
  - destruct (is_jog_block L7) eqn:HJ.
    + unfold gc_execute in H. rewrite HJ in H.
      destruct (gc_execute_jog_state _ _ _ _ _ _ H) as [->|[_ ->]]; reflexivity.
    + apply (gc_execute_commit _ _ _ _ _ _ _ HJ H).
Qed.

End Range.

(** X17. Every parser state that calls of gc_init, gc_sync_position and
    gc_execute_line can produce, whatever the lines and their outcomes, has
    its modes in range -- motion one of G0, G1, G2, G3, G38.2 to G38.5 and
    G80, coordinate system selection 0 to 5, and so on -- and has all its
    G92 offsets at zero. *)
Theorem reachable_state_in_range
  (E : Externals) (R : Reports E) (gs : parser_state_t) :
  reachable gs ->
  modal_in_range (gs_modal gs) = true /\ gs_coord_offset gs = vec_zero.
Proof.
  induction 1 as [w|gs w Hr IH|fuel ax line gs gs' w w' s Hr IH Hrun].
  - unfold gc_init.
    destruct (settings_read_coord_data _ _ w) as [[okb buf] w1].
    destruct (negb okb); split; reflexivity.
  - exact IH.
  - destruct IH as (Hm & Ho).
    destruct (gc_execute_line_keeps _ _ _ _ _ _ _ _ Hrun) as (Hm' & Ho').
    split; [auto|congruence].
Qed.

(** X17 on the state after gc_init, G92X5, a position sync and G55G1X1F100. *)
Lemma reachable_state_in_range_witness :
  exists gs1 w1 gs2 w2,
    gc_execute_line (E := Sim.machine) 10 Sim.g17 (Sim.chars "G92X5")
      (fst (gc_init (E := Sim.machine) (R := sim_reports) Sim.boot)) Sim.boot = Some (STATUS_OK, gs1, w1)
    /\ gc_execute_line (E := Sim.machine) 20 Sim.g17 (Sim.chars "G55G1X1F100")
         (gc_sync_position (E := Sim.machine) (R := sim_reports) gs1 w1) w1 = Some (STATUS_OK, gs2, w2)
    /\ modal_in_range (gs_modal gs2) = true
    /\ gs_coord_offset gs2 = vec_zero.
Proof.
  let r1 := eval vm_compute in
       (gc_execute_line (E := Sim.machine) 10 Sim.g17 (Sim.chars "G92X5")
          (fst (gc_init (E := Sim.machine) (R := sim_reports) Sim.boot)) Sim.boot) in
  lazymatch r1 with
  | Some (_, ?gs1, ?w1) =>
      let r2 := eval vm_compute in
           (gc_execute_line (E := Sim.machine) 20 Sim.g17
              (Sim.chars "G55G1X1F100") (gc_sync_position (E := Sim.machine) (R := sim_reports) gs1 w1) w1) in
      lazymatch r2 with
      | Some (_, ?gs2, ?w2) =>
          exists gs1, w1, gs2, w2;
          assert (H1 : gc_execute_line (E := Sim.machine) 10 Sim.g17
                         (Sim.chars "G92X5") (fst (gc_init (E := Sim.machine) (R := sim_reports) Sim.boot)) Sim.boot
                       = Some (STATUS_OK, gs1, w1))
            by (vm_compute; reflexivity);
          assert (H2 : gc_execute_line (E := Sim.machine) 20 Sim.g17
                         (Sim.chars "G55G1X1F100") (gc_sync_position (E := Sim.machine) (R := sim_reports) gs1 w1) w1
                       = Some (STATUS_OK, gs2, w2))
            by (vm_compute; reflexivity);
          split; [exact H1|]; split; [exact H2|];
          exact (reachable_state_in_range Sim.machine sim_reports gs2
                   (reach_line _ _ _ _ _ _ _ _
                      (reach_sync _ _
                         (reach_line _ _ _ _ _ _ _ _ (reach_init (E := Sim.machine) (R := sim_reports) Sim.boot) H1))
                      H2))
      end
  end.
Defined.

(** X18 on G1X1F100 with the reader of the simulated machine. *)
Lemma gc_execute_line_total_witness :
  exists s gs' w',
    gc_execute_line (E := Sim.machine) 9 Sim.g17 (Sim.chars "G1X1F100")
      gc_state_zero Sim.boot = Some (s, gs', w').
Proof.
  exact (@gc_execute_line_total Sim.machine 9 Sim.g17 (Sim.chars "G1X1F100")
           gc_state_zero Sim.boot sim_read_float_advances
           ltac:(cbn; lia) ltac:(cbn; lia)).
Defined.

(** ** Line number and feed rate of an accepted block *)

Lemma g10_axis_val_n (gs : parser_state_t) (L : locals) (v : gc_values_t) (idx : Z) :
  val_n (g10_axis gs L v idx) = val_n v.
Proof. unfold g10_axis. split_ifs; reflexivity. Qed.

Lemma target_axis_val_n (gs : parser_state_t) (L : locals) (v : gc_values_t) (idx : Z) :
  val_n (target_axis gs L v idx) = val_n v.
Proof. unfold target_axis. split_ifs; reflexivity. Qed.

(** A word other than F leaves the F value alone, and a block without an
    F word has the F value of [memset]. *)
Lemma gc_parse_word_no_f (l : ascii) (v : float) (L L' : locals) :
  gc_parse_word l v L = inr L' ->
  (bit_istrue (value_words L) (bit WORD_F) = false ->
   val_f (values (gc_block L)) = F32.zero) ->
  bit_istrue (value_words L') (bit WORD_F) = false ->
  val_f (values (gc_block L')) = F32.zero.
Proof.
  word_cases; intros H; try discriminate H; injection H as <-;
    block_fields; intros IH Hbit;
    try (apply IH; exact Hbit);
    rewrite bit_istrue_lor in Hbit by discriminate;
    apply orb_false_iff in Hbit; destruct Hbit as [Hbit Hwb];
    first [discriminate Hwb | apply IH; exact Hbit].
Qed.

Section Committed.

Context {E : Externals}.

Lemma gc_check_val_n (ax : axis_indices) (gs : parser_state_t) (L L7 : locals)
  (w w7 : world) :
  gc_check ax gs L w = (inr L7, w7) ->
  val_n (values (gc_block L7)) = val_n (values (gc_block L)).
Proof.
  unfold gc_check, gc_check_before_motion, bind.
  destruct (check_line_number (implicit_axis_command L)) as [e1|L1] eqn:H1;
    [discriminate|].
  apply check_line_number_inr in H1. subst L1.
  destruct (check_feed_rate gs _) as [e2|L2] eqn:H2; [discriminate|].
  destruct (check_dwell L2) as [e3|L3] eqn:H3; [discriminate|].
  destruct (check_coord_select gs L3 w) as [[e4|L4] w4] eqn:H4; [discriminate|].
  destruct (check_non_modal gs L4 w4) as [[e5|L5] w5] eqn:H5; [discriminate|].
  destruct (check_motion_mode ax gs L5) as [e6|L6] eqn:H6; [discriminate|].
  destruct (check_unused_words L6) as [e7|L7'] eqn:H7; [discriminate|].
  intros H. injection H as <- _.
  destruct (implicit_axis_command_values L) as (_ & B1).
  destruct (check_dwell_frame _ _ H3) as (_ & _ & V3).
  destruct (check_coord_select_frame _ _ _ _ _ H4) as (_ & _ & V4 & _).
  destruct (check_unused_words_frame _ _ H7) as (_ & _ & V7).
  assert (V2 : val_n (values (gc_block L2))
               = val_n (values (gc_block (implicit_axis_command L)))).
  { revert H2. unfold check_feed_rate, ok, FAIL.
    split_ifs; intros H2; try discriminate H2; injection H2 as <-; reflexivity. }
  assert (V5 : val_n (values (gc_block L5)) = val_n (values (gc_block L4))).
  { revert H5. unfold check_non_modal, check_g10, check_target, ok, FAIL.
    split_match; intros H5; try discriminate H5; injection H5 as <- _;
      cbn [gc_block upd_block values upd_values];
      rewrite ?g10_axis_val_n, ?target_axis_val_n; reflexivity. }
  assert (V6 : val_n (values (gc_block L6)) = val_n (values (gc_block L5))).
  { revert H6.
    unfold check_motion_mode, check_arc, arc_radius_mode, arc_offset_mode, ok, FAIL.
    split_ifs; intros H6; try discriminate H6; injection H6 as <-; reflexivity. }
  rewrite V7, V6, V5, V4, V3, V2, B1. reflexivity.
Qed.

Lemma gc_parse_words_no_f (line : list ascii) (fuel : nat) :
  forall cc L0 L1,
    gc_parse_words fuel line cc L0 = Some (inr L1) ->
    (bit_istrue (value_words L0) (bit WORD_F) = false ->
     val_f (values (gc_block L0)) = F32.zero) ->
    bit_istrue (value_words L1) (bit WORD_F) = false ->
    val_f (values (gc_block L1)) = F32.zero.
Proof.
  induction fuel as [|fuel IH]; cbn [gc_parse_words]; intros cc L0 L1 H;
    [discriminate|].
  revert H. split_match; intros H; try discriminate H.
  - injection H as <-. auto.
  - intros H0. eapply IH; [eassumption|].
    eapply gc_parse_word_no_f; eassumption.
Qed.

Lemma gc_parse_line_no_f (fuel : nat) (gs : parser_state_t)
  (line : list ascii) (L : locals) :
  gc_parse_line fuel gs line = Some (inr L) ->
  bit_istrue (value_words L) (bit WORD_F) = false ->
  val_f (values (gc_block L)) = F32.zero.
Proof.
  unfold gc_parse_line. intros H.
  eapply gc_parse_words_no_f; [eassumption|].
  intros _. unfold gc_block_init. destruct (is_jog line); reflexivity.
Qed.

(** Without an F word, outside a jog: the feed rate that
    [2. Set feed rate mode] leaves in the block. *)
Lemma check_feed_rate_no_f (gs : parser_state_t) (L L2 : locals) :
  check_feed_rate gs L = inr L2 ->
  is_jog_block L = false ->
  bit_istrue (value_words L) (bit WORD_F) = false ->
  val_f (values (gc_block L2))
  = (if negb (modal_feed_rate (modal (gc_block L)) =? FEED_RATE_MODE_INVERSE_TIME)
        && (modal_feed_rate (gs_modal gs) =? FEED_RATE_MODE_UNITS_PER_MIN)
     then gs_feed_rate gs else val_f (values (gc_block L))).
Proof.
  unfold check_feed_rate, ok, FAIL. intros H HJ Hbit. revert H.
  rewrite HJ, bit_isfalse_istrue, Hbit. cbn [negb].
  destruct (modal_feed_rate (modal (gc_block L)) =? FEED_RATE_MODE_INVERSE_TIME);
    cbn [negb andb].
  - split_ifs; intros H; try discriminate H; injection H as <-; reflexivity.
  - destruct (modal_feed_rate (gs_modal gs) =? FEED_RATE_MODE_UNITS_PER_MIN);
      cbn [andb]; intros H; injection H as <-; reflexivity.
Qed.

(** With [sys.state] left alone, the world keeps it through STEP 3. *)
Lemma gc_check_sys_state (ax : axis_indices) (gs : parser_state_t)
  (L : locals) (w w7 : world) (r : result locals) :
  keeps_sys_state E ->
  gc_check ax gs L w = (r, w7) ->
  sys_state w7 = sys_state w.
Proof.
  intros (Hread & _).
  unfold gc_check, gc_check_before_motion, bind.
  destruct (check_line_number (implicit_axis_command L)) as [e1|L1].
  { intros H. injection H as _ <-. reflexivity. }
  destruct (check_feed_rate gs L1) as [e2|L2].
  { intros H. injection H as _ <-. reflexivity. }
  destruct (check_dwell L2) as [e3|L3].
  { intros H. injection H as _ <-. reflexivity. }
  assert (H4 : sys_state (snd (check_coord_select gs L3 w)) = sys_state w).
  { unfold check_coord_select.
    split_ifs; cbn [snd]; try reflexivity.
    all: match goal with
         | |- context [settings_read_coord_data ?i ?b ?w0] =>
             specialize (Hread i b w0);
             destruct (settings_read_coord_data i b w0) as [[okb buf] w1]
         end.
    all: destruct okb; exact Hread. }
  destruct (check_coord_select gs L3 w) as [[e4|L4] w4]; cbn [snd] in H4.
  { intros H. injection H as _ <-. exact H4. }
  assert (H5 : sys_state (snd (check_non_modal gs L4 w4)) = sys_state w4).
  { unfold check_non_modal, check_g10, check_target.
    split_ifs; cbn [snd]; try reflexivity.
    all: destruct (g10_l_check L4); cbn [snd]; try reflexivity.
    all: match goal with
         | |- context [settings_read_coord_data ?i ?b ?w0] =>
             specialize (Hread i b w0);
             destruct (settings_read_coord_data i b w0) as [[okb buf] w1]
         end.
    all: destruct okb; exact Hread. }
  destruct (check_non_modal gs L4 w4) as [[e5|L5] w5]; cbn [snd] in H5.
  { intros H. injection H as _ <-. congruence. }
  intros H. injection H as _ <-. congruence.
Qed.

(** In check mode, outside a jog, STEP 4 returns STATUS_OK. *)
Lemma exec_program_flow_check_mode (L : locals) (gs : parser_state_t)
  (w : world) :
  keeps_sys_state E ->
  sys_state w = STATE_CHECK_MODE ->
  fst (fst (exec_program_flow L gs w)) = STATUS_OK.
Proof.
  intros (_ & _ & _ & _ & _ & Hsync & _ & Hovr) Hw.
  unfold exec_program_flow. rewrite Hovr, !Hsync, Hw.
  cbn [Z.eqb STATE_CHECK_MODE Pos.eqb negb].
  split_ifs; reflexivity.
Qed.

Lemma gc_execute_check_mode (ax : axis_indices) (L : locals)
  (gs gs' : parser_state_t) (w w' : world) (s : status) :
  keeps_sys_state E ->
  sys_state w = STATE_CHECK_MODE ->
  is_jog_block L = false ->
  gc_execute ax L gs w = (s, gs', w') ->
  s = STATUS_OK.
Proof.
  intros Hk Hw. pose proof Hk as (_ & Hwrite & Hline & Harc & Hdwell & _ & Hwco & _).
  unfold gc_execute. intros ->.
  match goal with
  | |- context [exec_coord_select L ?g ?w1] =>
      assert (H1 : sys_state w1 = STATE_CHECK_MODE)
        by (destruct (non_modal_command (gc_block L) =? NON_MODAL_DWELL);
            rewrite ?Hdwell; exact Hw);
      assert (H2 : sys_state (snd (exec_coord_select L g w1)) = STATE_CHECK_MODE)
        by (unfold exec_coord_select; split_ifs; cbn [snd];
            rewrite ?Hwco; exact H1);
      destruct (exec_coord_select L g w1) as [gs5 w2]
  end.
  cbn [snd] in H2.
  match goal with
  | |- context [exec_non_modal L ?g w2] =>
      assert (H3 : sys_state (snd (exec_non_modal L g w2)) = STATE_CHECK_MODE)
        by (unfold exec_non_modal; split_ifs; cbn [snd];
            rewrite ?Hwco, ?Hwrite; exact H2);
      destruct (exec_non_modal L g w2) as [gs7 w3]
  end.
  cbn [snd] in H3.
  match goal with
  | |- context [exec_motion ax L ?p gs7 w3] =>
      assert (H4 : sys_state (snd (exec_motion ax L p gs7 w3)) = STATE_CHECK_MODE)
        by (unfold exec_motion; split_ifs; cbn [snd];
            rewrite ?Hline, ?Harc; exact H3);
      destruct (exec_motion ax L p gs7 w3) as [gs8 w4]
  end.
  cbn [snd] in H4.
  intros H. pose proof (exec_program_flow_check_mode L gs8 w4 Hk H4) as Hs.
  rewrite H in Hs. exact Hs.
Qed.

End Committed.

Section NoLineNumber.

Context {E : Externals}.

Lemma import_words_no_n (k : nat) : forall line cc L ws cc' L',
  import_words k line cc L = Some (ws, cc', L') ->
  ~ In "N"%char (map fst ws) ->
  val_n (values (gc_block L')) = val_n (values (gc_block L)).
Proof.
  induction k as [|k IH]; cbn [import_words]; intros line cc L ws cc' L' H.
  - injection H as _ _ <-. reflexivity.
  - destruct (word_at line cc) as [[[l v] cc1]|] eqn:Hw; [|discriminate].
    destruct (gc_parse_word l v L) as [s|L1] eqn:Hp; [discriminate|].
    destruct (import_words k line cc1 L1) as [[[ws1 cc2] L2]|] eqn:Hk;
      [|discriminate].
    injection H as <- _ <-. cbn [map fst In]. intros Hn.
    rewrite (IH _ _ _ _ _ _ Hk) by tauto.
    rewrite (gc_parse_word_val_n _ _ _ _ Hp).
    destruct (Ascii.eqb_spec l "N") as [->|_]; [|reflexivity].
    exfalso. apply Hn. left. reflexivity.
Qed.

End NoLineNumber.

Section LineNumberPassed.

Context {E : Externals}.

(** A block that passes STEP 3 has passed the line-number check. *)
Lemma gc_check_line_number (ax : axis_indices) (gs : parser_state_t)
  (L L7 : locals) (w w7 : world) :
  gc_check ax gs L w = (inr L7, w7) ->
  bit_istrue (value_words L) (bit WORD_N) = true ->
  val_n (values (gc_block L)) <= MAX_LINE_NUMBER.
Proof.
  unfold gc_check, gc_check_before_motion, bind.
  destruct (check_line_number (implicit_axis_command L)) as [e1|L1] eqn:H1;
    [discriminate|].
  intros _ Hbit. revert H1. unfold check_line_number, ok, FAIL.
  destruct (implicit_axis_command_values L) as (V1 & B1).
  rewrite V1, B1, Hbit.
  destruct (MAX_LINE_NUMBER <? val_n (values (gc_block L))) eqn:Hlt;
    [discriminate|].
  intros _. apply Z.ltb_ge. exact Hlt.
Qed.

End LineNumberPassed.

(** X19. The line number an accepted block commits.  Outside a jog, a
    call that returns STATUS_OK leaves in gc_state.line_number the value of
    the N word of the block truncated to an integer, for an N word whose
    truncation is below 2^31, the range of the int32_t that takes it; that
    number is then between 0 and MAX_LINE_NUMBER.  Without an N word in
    the block it leaves zero: the line number of an earlier block is not
    kept. *)
Theorem line_number_committed
  (E : Externals) (k fuel : nat) (ax : axis_indices) (line : list ascii)
  (gs gs' : parser_state_t) (w w' : world) (ws : list (ascii * float))
  (cc : Z) (L : locals) :
  block_words k gs line = Some (ws, cc, L) ->
  line_at line cc = zero ->
  (k < fuel)%nat ->
  is_jog line = false ->
  gc_execute_line fuel ax line gs w = Some (STATUS_OK, gs', w') ->
  (forall v, In ("N"%char, v) ws ->
             F32.trunc v < 2147483648 ->
             gs_line_number gs' = F32.trunc v
             /\ 0 <= F32.trunc v <= MAX_LINE_NUMBER)
  /\ (~ In "N"%char (map fst ws) -> gs_line_number gs' = 0).
Proof.
  intros Hb Hend Hk Hjog Hrun.
  pose proof (gc_parse_line_end _ _ _ _ _ _ _ Hb Hend Hk) as Hline.
  assert (Hn : gs_line_number gs' = val_n (values (gc_block L))
               /\ (bit_istrue (value_words L) (bit WORD_N) = true ->
                   val_n (values (gc_block L)) <= MAX_LINE_NUMBER)).
  { revert Hrun. unfold gc_execute_line. rewrite Hline.
    unfold gc_check_and_execute.
    destruct (gc_check ax gs L w) as [[e|L7] w7] eqn:Hchk.
    { intros H. injection H as -> _ _.
      exfalso. eapply gc_check_status_not_ok; [eassumption|reflexivity]. }
    intros H. injection H as H.
    destruct (gc_check_frame _ _ _ _ _ _ Hchk) as (J7 & _).
    rewrite (gc_parse_line_is_jog _ _ _ _ Hline), Hjog in J7.
    destruct (gc_execute_commit _ _ _ _ _ _ _ J7 H) as (_ & Hln & _).
    split.
    - rewrite Hln. eapply gc_check_val_n. eassumption.
    - eapply gc_check_line_number. eassumption. }
  destruct Hn as [Hn Hmax].
  split.
  - intros v Hin Hrange.
    destruct (import_words_n _ _ _ _ _ _ _ _ Hb Hin) as [Hv Hbit].
    pose proof (trunc_nonneg v
                  (import_words_not_negative _ _ _ _ _ _ _ _ _ Hb Hin eq_refl))
      as Hpos.
    rewrite to_int32_small in Hv by lia.
    specialize (Hmax Hbit). rewrite Hn, Hv. rewrite Hv in Hmax. lia.
  - intros Hno. rewrite Hn. unfold block_words in Hb.
    rewrite (import_words_no_n _ _ _ _ _ _ _ Hb Hno).
    unfold gc_block_init. destruct (is_jog line); reflexivity.
Qed.

(** X19 on N12G0X1 and, from a state with line number 12, on G0X1. *)
Lemma line_number_committed_witness :
  (exists gs' w',
     gc_execute_line (E := Sim.machine) 10 Sim.g17 (Sim.chars "N12G0X1")
       gc_state_zero Sim.boot = Some (STATUS_OK, gs', w')
     /\ gs_line_number gs' = 12)
  /\ (exists gs' w',
        gc_execute_line (E := Sim.machine) 10 Sim.g17 (Sim.chars "G0X1")
          (set_gs_line_number 12 gc_state_zero) Sim.boot
        = Some (STATUS_OK, gs', w')
        /\ gs_line_number gs' = 0).
Proof.
  split.
  - with_block 3%nat gc_state_zero (Sim.chars "N12G0X1")
      ltac:(fun ws cc L =>
        with_run 10%nat (Sim.chars "N12G0X1") gc_state_zero Sim.boot
          ltac:(fun L' s1 gs1 w1 =>
            exists gs1, w1;
            pose proof (line_number_committed Sim.machine 3 10 Sim.g17
                          (Sim.chars "N12G0X1") gc_state_zero gs1 Sim.boot w1
                          ws cc L
                          ltac:(vm_compute; reflexivity)
                          ltac:(vm_compute; reflexivity)
                          ltac:(lia)
                          ltac:(vm_compute; reflexivity)
                          ltac:(vm_compute; reflexivity)) as (Hn & _))).
    split; [vm_compute; reflexivity|].
    destruct (Hn (F32.of_Z 12) ltac:(vm_compute; auto)
                ltac:(vm_compute; reflexivity)) as (Hv & _).
    rewrite Hv. vm_compute. reflexivity.
  - with_block 2%nat (set_gs_line_number 12 gc_state_zero) (Sim.chars "G0X1")
      ltac:(fun ws cc L =>
        with_run 10%nat (Sim.chars "G0X1") (set_gs_line_number 12 gc_state_zero)
          Sim.boot
          ltac:(fun L' s1 gs1 w1 =>
            exists gs1, w1;
            pose proof (line_number_committed Sim.machine 2 10 Sim.g17
                          (Sim.chars "G0X1")
                          (set_gs_line_number 12 gc_state_zero) gs1 Sim.boot w1
                          ws cc L
                          ltac:(vm_compute; reflexivity)
                          ltac:(vm_compute; reflexivity)
                          ltac:(lia)
                          ltac:(vm_compute; reflexivity)
                          ltac:(vm_compute; reflexivity)) as (_ & Hn))).
    split; [vm_compute; reflexivity|].
    apply Hn. cbn. intuition discriminate.
Defined.

(** X20. In inverse time mode the feed rate is not kept from block to
    block.  Outside a jog, for an accepted block without an F word: when
    the block is in G93 mode, or comes after a state that was in G93 mode,
    gc_state.feed_rate is zero after the call, whatever it was before. *)
Theorem inverse_time_feed_not_kept
  (E : Externals) (k fuel : nat) (ax : axis_indices) (line : list ascii)
  (gs gs' : parser_state_t) (w w' : world) (ws : list (ascii * float))
  (cc : Z) (L : locals) :
  block_words k gs line = Some (ws, cc, L) ->
  line_at line cc = zero ->
  (k < fuel)%nat ->
  is_jog line = false ->
  ~ In "F"%char (map fst ws) ->
  modal_feed_rate (modal (gc_block L)) = FEED_RATE_MODE_INVERSE_TIME
  \/ modal_feed_rate (gs_modal gs) <> FEED_RATE_MODE_UNITS_PER_MIN ->
  gc_execute_line fuel ax line gs w = Some (STATUS_OK, gs', w') ->
  gs_feed_rate gs' = F32.zero.
Proof.
  intros Hb Hend Hk Hjog Hno Hmode Hrun.
  pose proof (gc_parse_line_end _ _ _ _ _ _ _ Hb Hend Hk) as Hline.
  assert (Hbit : bit_istrue (value_words L) (bit WORD_F) = false).
  { rewrite (block_words_value_bit _ _ _ _ _ _ "F"%char WORD_F Hb eq_refl).
    destruct (existsb (Ascii.eqb "F") (map fst ws)) eqn:Hex; [|reflexivity].
    exfalso. apply Hno. apply existsb_exists in Hex.
    destruct Hex as (x & Hx & Heq). apply Ascii.eqb_eq in Heq. subst. exact Hx. }
  pose proof (gc_parse_line_no_f _ _ _ _ Hline Hbit) as Hf.
  revert Hrun. unfold gc_execute_line. rewrite Hline.
  unfold gc_check_and_execute.
  destruct (gc_check ax gs L w) as [[e|L7] w7] eqn:Hchk.
  { intros H. injection H as -> _ _.
    exfalso. eapply gc_check_status_not_ok; [eassumption|reflexivity]. }
  intros H. injection H as H.
  destruct (gc_check_frame _ _ _ _ _ _ Hchk) as (J7 & _).
  pose proof (gc_parse_line_is_jog _ _ _ _ Hline) as JL.
  rewrite JL, Hjog in J7. rewrite Hjog in JL.
  rewrite (gc_execute_feed_rate _ _ _ _ _ _ _ J7 H).
  destruct (gc_check_feed _ _ _ _ _ _ Hchk) as (L2 & H2 & ->).
  destruct (implicit_axis_command_frame L) as (J1 & M1 & _).
  destruct (implicit_axis_command_values L) as (V1 & B1).
  rewrite (check_feed_rate_no_f _ _ _ H2) by congruence.
  rewrite M1, B1, Hf.
  destruct Hmode as [Hm|Hm].
  - rewrite Hm. reflexivity.
  - apply Z.eqb_neq in Hm. rewrite Hm, andb_false_r. reflexivity.
Qed.

(** X20 on G93 and then G94, from a state with the feed rate 100. *)
Lemma inverse_time_feed_not_kept_witness :
  exists gs1 w1 gs2 w2,
    gc_execute_line (E := Sim.machine) 10 Sim.g17 (Sim.chars "G93")
      (set_gs_feed_rate (F32.of_Z 100) gc_state_zero) Sim.boot
    = Some (STATUS_OK, gs1, w1)
    /\ gs_feed_rate gs1 = F32.zero
    /\ gc_execute_line (E := Sim.machine) 10 Sim.g17 (Sim.chars "G94")
         (set_gs_feed_rate (F32.of_Z 100) gs1) w1
       = Some (STATUS_OK, gs2, w2)
    /\ gs_feed_rate gs2 = F32.zero.
Proof.
  with_run 10%nat (Sim.chars "G93")
    (set_gs_feed_rate (F32.of_Z 100) gc_state_zero) Sim.boot
    ltac:(fun L1 s1 gs1 w1 =>
      with_run 10%nat (Sim.chars "G94") (set_gs_feed_rate (F32.of_Z 100) gs1) w1
        ltac:(fun L2 s2 gs2 w2 =>
          exists gs1, w1, gs2, w2;
          with_block 1%nat (set_gs_feed_rate (F32.of_Z 100) gc_state_zero)
            (Sim.chars "G93")
            ltac:(fun ws cc L =>
              pose proof (inverse_time_feed_not_kept Sim.machine 1 10 Sim.g17
                            (Sim.chars "G93")
                            (set_gs_feed_rate (F32.of_Z 100) gc_state_zero)
                            gs1 Sim.boot w1 ws cc L
                            ltac:(vm_compute; reflexivity)
                            ltac:(vm_compute; reflexivity)
                            ltac:(lia)
                            ltac:(vm_compute; reflexivity)
                            ltac:(cbn; intuition discriminate)
                            ltac:(left; vm_compute; reflexivity)
                            ltac:(vm_compute; reflexivity)) as H1);
          with_block 1%nat (set_gs_feed_rate (F32.of_Z 100) gs1)
            (Sim.chars "G94")
            ltac:(fun ws cc L =>
              pose proof (inverse_time_feed_not_kept Sim.machine 1 10 Sim.g17
                            (Sim.chars "G94")
                            (set_gs_feed_rate (F32.of_Z 100) gs1)
                            gs2 w1 w2 ws cc L
                            ltac:(vm_compute; reflexivity)
                            ltac:(vm_compute; reflexivity)
                            ltac:(lia)
                            ltac:(vm_compute; reflexivity)
                            ltac:(cbn; intuition discriminate)
                            ltac:(right; vm_compute; discriminate)
                            ltac:(vm_compute; reflexivity)) as H2))).
  split; [vm_compute; reflexivity|]. split; [exact H1|].
  split; [vm_compute; reflexivity|exact H2].
Defined.

Lemma sim_keeps_sys_state : keeps_sys_state Sim.machine.
Proof.
  unfold keeps_sys_state. cbn.
  repeat split; try reflexivity.
  intros idx buf w. unfold Sim.sim_read_coord.
  destruct (nth (Z.to_nat idx) (Sim.eeprom w) None); reflexivity.
Qed.

(** X21. In check mode a failure leaves gc_state as it was.  When no call
    to the rest of the firmware changes [sys.state] and [sys.state] is
    STATE_CHECK_MODE at the call, every call that returns a status other
    than STATUS_OK returns with gc_state unchanged: the read of the
    settings store at the end of a program, the one failure of STEP 4, is
    not made in check mode. *)
Theorem check_mode_failure_keeps_state
  (E : Externals) (fuel : nat) (ax : axis_indices) (line : list ascii)
  (gs gs' : parser_state_t) (w w' : world) (s : status) :
  keeps_sys_state E ->
  sys_state w = STATE_CHECK_MODE ->
  gc_execute_line fuel ax line gs w = Some (s, gs', w') ->
  s <> STATUS_OK ->
  gs' = gs.
Proof.
  intros Hk Hw. unfold gc_execute_line.
  destruct (gc_parse_line fuel gs line) as [[e|L]|]; [| |discriminate].
  { intros H _. injection H as _ <- _. reflexivity. }
  unfold gc_check_and_execute.
  destruct (gc_check ax gs L w) as [[e|L7] w7] eqn:Hchk.
  { intros H _. injection H as _ <- _. reflexivity. }
  intros H Hs. injection H as H.
  pose proof (gc_check_sys_state _ _ _ _ _ _ Hk Hchk) as Hw7.
  rewrite Hw in Hw7.
  destruct (is_jog_block L7) eqn:HJ.
  - unfold gc_execute in H. rewrite HJ in H.
    destruct (gc_execute_jog_state _ _ _ _ _ _ H) as [->|[-> _]];
      [reflexivity|contradiction].
  - exfalso. apply Hs. eapply gc_execute_check_mode; eassumption.
Qed.

(** X21 on G1X1M2 without a feed rate, in check mode. *)
Lemma check_mode_failure_keeps_state_witness :
  exists s w',
    gc_execute_line (E := Sim.machine) 10 Sim.g17 (Sim.chars "G1X1M2")
      gc_state_zero
      {| Sim.eeprom := Sim.eeprom Sim.boot_bad_g54;
         Sim.state := STATE_CHECK_MODE; Sim.log := [] |}
    = Some (s, gc_state_zero, w')
    /\ s <> STATUS_OK.
Proof.
  let w0 := constr:({| Sim.eeprom := Sim.eeprom Sim.boot_bad_g54;
                       Sim.state := STATE_CHECK_MODE; Sim.log := [] |}) in
  let r := eval vm_compute in
       (gc_execute_line (E := Sim.machine) 10 Sim.g17 (Sim.chars "G1X1M2")
          gc_state_zero w0) in
  lazymatch r with
  | Some (?s1, ?gs1, ?w1) =>
      exists s1, w1;
      assert (Hrun : gc_execute_line (E := Sim.machine) 10 Sim.g17
                       (Sim.chars "G1X1M2") gc_state_zero w0
                     = Some (s1, gs1, w1)) by (vm_compute; reflexivity);
      assert (Hs : s1 <> STATUS_OK) by discriminate;
      rewrite <- (check_mode_failure_keeps_state Sim.machine 10 Sim.g17
                    (Sim.chars "G1X1M2") gc_state_zero gs1 w0 w1 s1
                    sim_keeps_sys_state ltac:(reflexivity) Hrun Hs) at 2;
      split; [exact Hrun|exact Hs]
  end.
Defined.

(** ** The jog branch of STEP 4 *)

(** A block without axis words has the XYZ values of [memset]. *)
Lemma gc_parse_word_no_axis_words (l : ascii) (v : float) (L L' : locals) :
  gc_parse_word l v L = inr L' ->
  (axis_words L = 0 -> val_xyz (values (gc_block L)) = vec_zero) ->
  axis_words L' = 0 ->
  val_xyz (values (gc_block L')) = vec_zero.
Proof.
  word_cases; intros H; try discriminate H; injection H as <-;
    block_fields; intros IH Haw;
    try (apply IH; exact Haw);
    exfalso; apply Z.lor_eq_0_iff in Haw; destruct Haw as [_ Haw];
    discriminate Haw.
Qed.

Lemma gc_execute_jog_ok (E : Externals) (L : locals) (gs gs' : parser_state_t)
  (w w' : world) :
  gc_execute_jog L gs w = (STATUS_OK, gs', w') ->
  Z.land (command_words L)
    (Z.lnot (Z.lor (Z.lor (bit MODAL_GROUP_G3) (bit MODAL_GROUP_G6))
                   (bit MODAL_GROUP_G0))) = 0
  /\ (non_modal_command (gc_block L) = NON_MODAL_ABSOLUTE_OVERRIDE
      \/ non_modal_command (gc_block L) = NON_MODAL_NO_ACTION)
  /\ jog_execute plan_data_zero (gc_block L) w = (STATUS_OK, w')
  /\ gs' = set_gs_position (val_xyz (values (gc_block L))) gs.
Proof.
  unfold gc_execute_jog.
  destruct (Z.eqb_spec (Z.land (command_words L)
             (Z.lnot (Z.lor (Z.lor (bit MODAL_GROUP_G3) (bit MODAL_GROUP_G6))
                            (bit MODAL_GROUP_G0)))) 0) as [Hm|_];
    cbn [negb]; [|discriminate].
  destruct ((non_modal_command (gc_block L) =? NON_MODAL_ABSOLUTE_OVERRIDE)
            || (non_modal_command (gc_block L) =? NON_MODAL_NO_ACTION)) eqn:Hnm;
    cbn [negb]; [|discriminate].
  destruct (jog_execute plan_data_zero (gc_block L) w) as [st w1].
  destruct (status_eq_dec st STATUS_OK) as [->|Hst].
  - intros H. injection H as <- <-.
    split; [exact Hm|]. split; [|split; reflexivity].
    apply orb_true_iff in Hnm. destruct Hnm as [H|H]; apply Z.eqb_eq in H; auto.
  - intros H. injection H as -> _ _. contradiction.
Qed.

Section Jog.

Context {E : Externals}.

Lemma gc_parse_words_no_axis_words (line : list ascii) (fuel : nat) :
  forall cc L0 L1,
    gc_parse_words fuel line cc L0 = Some (inr L1) ->
    (axis_words L0 = 0 -> val_xyz (values (gc_block L0)) = vec_zero) ->
    axis_words L1 = 0 ->
    val_xyz (values (gc_block L1)) = vec_zero.
Proof.
  induction fuel as [|fuel IH]; cbn [gc_parse_words]; intros cc L0 L1 H;
    [discriminate|].
  revert H. split_match; intros H; try discriminate H.
  - injection H as <-. auto.
  - intros H0. eapply IH; [eassumption|].
    eapply gc_parse_word_no_axis_words; eassumption.
Qed.

Lemma gc_parse_line_no_axis_words (fuel : nat) (gs : parser_state_t)
  (line : list ascii) (L : locals) :
  gc_parse_line fuel gs line = Some (inr L) ->
  axis_words L = 0 ->
  val_xyz (values (gc_block L)) = vec_zero.
Proof.
  unfold gc_parse_line. intros H.
  eapply gc_parse_words_no_axis_words; [eassumption|].
  intros _. unfold gc_block_init. destruct (is_jog line); reflexivity.
Qed.

(** Without axis words and without G10, STEP 3 up to the motion modes
    leaves the XYZ values alone. *)
Lemma gc_check_before_motion_no_axis_words (gs : parser_state_t)
  (L L5 : locals) (w w5 : world) :
  gc_check_before_motion gs L w = (inr L5, w5) ->
  non_modal_command (gc_block L) <> NON_MODAL_SET_COORDINATE_DATA ->
  axis_words L = 0 ->
  val_xyz (values (gc_block L5)) = val_xyz (values (gc_block L)).
Proof.
  unfold gc_check_before_motion, bind.
  destruct (check_line_number (implicit_axis_command L)) as [e1|L1] eqn:H1;
    [discriminate|].
  apply check_line_number_inr in H1. subst L1.
  destruct (check_feed_rate gs _) as [e2|L2] eqn:H2; [discriminate|].
  destruct (check_dwell L2) as [e3|L3] eqn:H3; [discriminate|].
  destruct (check_coord_select gs L3 w) as [[e4|L4] w4] eqn:H4; [discriminate|].
  intros H5 Hg Haw.
  pose proof (implicit_axis_command_frame L) as F1.
  destruct (implicit_axis_command_values L) as (_ & B1).
  destruct (check_feed_rate_frame _ _ _ H2) as (F2 & _).
  destruct (check_feed_rate_xyz _ _ _ H2) as (X2 & _).
  destruct (check_dwell_frame _ _ H3) as (F3 & _ & V3).
  destruct (check_coord_select_frame _ _ _ _ _ H4) as (F4 & _ & V4 & _).
  pose proof (same_frame_trans _ _ _ F1 (same_frame_trans _ _ _ F2 F3)) as F13.
  destruct F13 as (_ & M13 & N13 & C13 & W13).
  destruct F4 as (_ & M4 & N4 & C4 & W4).
  assert (Hxyz : val_xyz (values (gc_block L4)) = val_xyz (values (gc_block L))).
  { rewrite V4, V3, X2, B1. reflexivity. }
  revert H5. unfold check_non_modal.
  destruct (Z.eqb_spec (non_modal_command (gc_block L4))
              NON_MODAL_SET_COORDINATE_DATA) as [Heq|_];
    [exfalso; apply Hg; congruence|].
  unfold check_target, ok, FAIL.
  assert (Haw4 : axis_words L4 = 0) by congruence.
  rewrite Haw4. cbn [Z.eqb negb].
  split_ifs; intros H5; try discriminate H5; injection H5 as <- _; exact Hxyz.
Qed.

End Jog.

(** X22. What an accepted jog does.  A jog line that returns STATUS_OK has
    made one call of jog_execute, on the world as it was, with zeroed plan
    data and a block whose XYZ values are the target: axis by axis as for
    a motion (position as it was without a word, else word value under
    G53, plus the active coordinate system and gc_state.coord_offset in
    G90 mode, plus position in G91 mode).  gc_state.position becomes that
    target and nothing else of gc_state changes.  A jog without any axis
    word is accepted as well: its target is zero on every axis. *)
Theorem jog_executed
  (E : Externals) (fuel : nat) (ax : axis_indices) (line : list ascii)
  (gs gs' : parser_state_t) (w w' : world) (L : locals) :
  gc_parse_line fuel gs line = Some (inr L) ->
  is_jog line = true ->
  gc_execute_line fuel ax line gs w = Some (STATUS_OK, gs', w') ->
  exists b,
    jog_execute plan_data_zero b w = (STATUS_OK, w')
    /\ gs' = set_gs_position (val_xyz (values b)) gs
    /\ forall idx, In idx axes ->
         vec_get (val_xyz (values b)) idx
         = (if axis_words L =? 0 then F32.zero
            else axis_target gs L (gs_coord_system gs) idx).
Proof.
  intros Hline Hjog Hrun.
  pose proof (gc_parse_line_axis_command_ok _ _ _ _ Hline) as (_ & _ & Hlen & _).
  destruct (gc_execute_line_ok_stages _ _ _ _ _ _ _ _ Hline Hrun)
    as (L5 & w5 & L6 & L7 & H5 & H6 & H7 & Hex & J7 & M7 & N7).
  unfold gc_execute in Hex. rewrite J7, Hjog in Hex.
  destruct (gc_execute_jog_ok _ _ _ _ _ _ Hex) as (Hmask & Hnm & Hcall & Hgs).
  pose proof (gc_check_before_motion_frame _ _ _ _ _ H5) as F5.
  pose proof (check_motion_mode_frame _ _ _ _ H6) as F6.
  destruct (check_unused_words_frame _ _ H7) as (F7 & _).
  destruct (same_frame_trans _ _ _ F5 (same_frame_trans _ _ _ F6 F7))
    as (_ & _ & _ & C7 & _).
  assert (Hbit : bit_istrue (command_words L) (bit MODAL_GROUP_G12) = false).
  { rewrite bit_istrue_testbit by discriminate.
    rewrite <- C7.
    pose proof (f_equal (fun z => Z.testbit z MODAL_GROUP_G12) Hmask) as Ht.
    cbv beta in Ht.
    rewrite Z.land_spec, Z.lnot_spec, testbit_jog_mask, Z.bits_0 in Ht;
      [|discriminate|cbn; intuition discriminate|discriminate].
    cbn [negb] in Ht. rewrite andb_true_r in Ht. exact Ht. }
  assert (Hg : non_modal_command (gc_block L) <> NON_MODAL_SET_COORDINATE_DATA).
  { rewrite <- N7. destruct Hnm as [-> | ->]; discriminate. }
  destruct (gc_check_before_motion_target _ _ _ _ _ H5 Hg Hlen)
    as (_ & Hw & Hxyz).
  rewrite Hbit in Hw. specialize (Hw eq_refl). subst w5.
  assert (Hbc : block_coordinates gs L w = gs_coord_system gs).
  { unfold block_coordinates. rewrite Hbit. reflexivity. }
  rewrite Hbc in Hxyz.
  destruct (check_motion_mode_target _ _ _ _ H6) as (X6 & _ & _).
  destruct (check_unused_words_target _ _ H7) as (G7 & _).
  exists (gc_block L7). split; [exact Hcall|]. split; [exact Hgs|].
  intros idx Hidx. rewrite G7, X6.
  destruct (Z.eqb_spec (axis_words L) 0) as [Haw|Haw].
  - rewrite (gc_check_before_motion_no_axis_words _ _ _ _ _ H5 Hg Haw).
    rewrite (gc_parse_line_no_axis_words _ _ _ _ Hline Haw).
    cbn [In axes] in Hidx.
    destruct Hidx as [<-|[<-|[]]]; reflexivity.
  - apply Hxyz; assumption.
Qed.

(** X22 on $J=G91X5F100 from the position (1, 2), and on $J=F100 from
    the same position. *)
Lemma jog_executed_witness :
  (exists gs' w',
     gc_execute_line (E := Sim.machine) 10 Sim.g17 (Sim.chars "$J=G91X5F100")
       (set_gs_position [F32.of_Z 1; F32.of_Z 2] gc_state_zero)
       Sim.boot = Some (STATUS_OK, gs', w')
     /\ vec_get (gs_position gs') X_AXIS = F32.of_Z 6
     /\ vec_get (gs_position gs') Y_AXIS = F32.of_Z 2)
  /\ (exists gs' w',
        gc_execute_line (E := Sim.machine) 10 Sim.g17 (Sim.chars "$J=F100")
          (set_gs_position [F32.of_Z 1; F32.of_Z 2] gc_state_zero)
          Sim.boot = Some (STATUS_OK, gs', w')
        /\ vec_get (gs_position gs') X_AXIS = F32.zero
        /\ vec_get (gs_position gs') Y_AXIS = F32.zero).
Proof.
  split.
  - let gs0 := constr:(set_gs_position [F32.of_Z 1; F32.of_Z 2]
                         gc_state_zero) in
    let line := constr:(Sim.chars "$J=G91X5F100") in
    let p := eval vm_compute in (gc_parse_line (E := Sim.machine) 10 gs0 line) in
    let r := eval vm_compute in
         (gc_execute_line (E := Sim.machine) 10 Sim.g17 line gs0 Sim.boot) in
    lazymatch p with
    | Some (inr ?L) =>
        lazymatch r with
        | Some (_, ?gs1, ?w1) =>
            exists gs1, w1;
            destruct (jog_executed Sim.machine 10 Sim.g17 line gs0 gs1
                        Sim.boot w1 L
                        ltac:(vm_compute; reflexivity)
                        ltac:(vm_compute; reflexivity)
                        ltac:(vm_compute; reflexivity)) as (b & _ & Hgs & Ht)
        end
    end.
    split; [vm_compute; reflexivity|].
    rewrite Hgs. cbn [gs_position set_gs_position].
    split.
    + rewrite (Ht X_AXIS ltac:(cbn; auto)). vm_compute. reflexivity.
    + rewrite (Ht Y_AXIS ltac:(cbn; auto)). vm_compute. reflexivity.
  - let gs0 := constr:(set_gs_position [F32.of_Z 1; F32.of_Z 2]
                         gc_state_zero) in
    let line := constr:(Sim.chars "$J=F100") in
    let p := eval vm_compute in (gc_parse_line (E := Sim.machine) 10 gs0 line) in
    let r := eval vm_compute in
         (gc_execute_line (E := Sim.machine) 10 Sim.g17 line gs0 Sim.boot) in
    lazymatch p with
    | Some (inr ?L) =>
        lazymatch r with
        | Some (_, ?gs1, ?w1) =>
            exists gs1, w1;
            destruct (jog_executed Sim.machine 10 Sim.g17 line gs0 gs1
                        Sim.boot w1 L
                        ltac:(vm_compute; reflexivity)
                        ltac:(vm_compute; reflexivity)
                        ltac:(vm_compute; reflexivity)) as (b & _ & Hgs & Ht)
        end
    end.
    split; [vm_compute; reflexivity|].
    rewrite Hgs. cbn [gs_position set_gs_position].
    split.
    + rewrite (Ht X_AXIS ltac:(cbn; auto)). reflexivity.
    + rewrite (Ht Y_AXIS ltac:(cbn; auto)). reflexivity.
Defined.

(** ** The dwell *)

Lemma g10_axis_val_p (gs : parser_state_t) (L : locals) (v : gc_values_t) (idx : Z) :
  val_p (g10_axis gs L v idx) = val_p v.
Proof. unfold g10_axis. split_ifs; reflexivity. Qed.

Lemma target_axis_val_p (gs : parser_state_t) (L : locals) (v : gc_values_t) (idx : Z) :
  val_p (target_axis gs L v idx) = val_p v.
Proof. unfold target_axis. split_ifs; reflexivity. Qed.

(** What a word does to the P value. *)
Lemma gc_parse_word_val_p (l : ascii) (v : float) (L L1 : locals) :
  gc_parse_word l v L = inr L1 ->
  val_p (values (gc_block L1))
  = if Ascii.eqb l "P" then v else val_p (values (gc_block L)).
Proof.
  word_cases; intros H; try discriminate H; injection H as <-; try reflexivity;
    ascii_eqs; discriminate.
Qed.

Section Dwell.

Context {E : Externals}.

Lemma import_words_keeps_p (k : nat) : forall line cc L ws cc' L',
  import_words k line cc L = Some (ws, cc', L') ->
  bit_istrue (value_words L) (bit WORD_P) = true ->
  val_p (values (gc_block L')) = val_p (values (gc_block L)).
Proof.
  induction k as [|k IH]; cbn [import_words]; intros line cc L ws cc' L' H Hbit.
  - injection H as _ _ <-. reflexivity.
  - destruct (word_at line cc) as [[[l v] cc1]|] eqn:Hw; [|discriminate].
    destruct (gc_parse_word l v L) as [s|L1] eqn:Hp; [discriminate|].
    destruct (import_words k line cc1 L1) as [[[ws1 cc2] L2]|] eqn:Hk;
      [|discriminate].
    injection H as _ _ <-.
    destruct (gc_parse_word_frame _ _ _ _ Hp) as (_ & _ & _ & _ & Hvw).
    rewrite (IH _ _ _ _ _ _ Hk) by (apply Hvw; [discriminate|assumption]).
    rewrite (gc_parse_word_val_p _ _ _ _ Hp).
    destruct (Ascii.eqb_spec l "P") as [->|_]; [|reflexivity].
    destruct (value_word_context "P" v WORD_P L eq_refl) as [_ Hctx].
    rewrite Hp in Hctx. destruct Hctx as (_ & _ & _ & Hfalse & _). congruence.
Qed.

(** The P value of a block is the one its P word carries. *)
Lemma import_words_p (k : nat) : forall line cc L ws cc' L' v,
  import_words k line cc L = Some (ws, cc', L') ->
  In ("P"%char, v) ws ->
  val_p (values (gc_block L')) = v.
Proof.
  induction k as [|k IH]; cbn [import_words]; intros line cc L ws cc' L' v0 H Hin.
  - injection H as <- _ _. contradiction.
  - destruct (word_at line cc) as [[[l v] cc1]|] eqn:Hw; [|discriminate].
    destruct (gc_parse_word l v L) as [s|L1] eqn:Hp; [discriminate|].
    destruct (import_words k line cc1 L1) as [[[ws1 cc2] L2]|] eqn:Hk;
      [|discriminate].
    injection H as <- <- <-.
    destruct Hin as [Heq|Hin]; [|eauto].
    injection Heq as -> ->.
    destruct (value_word_context "P" v0 WORD_P L eq_refl) as [_ Hctx].
    rewrite Hp in Hctx. destruct Hctx as (Hvw & _).
    assert (Hbit : bit_istrue (value_words L1) (bit WORD_P) = true).
    { rewrite Hvw, bit_istrue_lor, Z.eqb_refl by discriminate. apply orb_true_r. }
    rewrite (import_words_keeps_p _ _ _ _ _ _ _ Hk Hbit).
    rewrite (gc_parse_word_val_p _ _ _ _ Hp). reflexivity.
Qed.

Lemma gc_check_val_p (ax : axis_indices) (gs : parser_state_t) (L L7 : locals)
  (w w7 : world) :
  gc_check ax gs L w = (inr L7, w7) ->
  val_p (values (gc_block L7)) = val_p (values (gc_block L)).
Proof.
  unfold gc_check, gc_check_before_motion, bind.
  destruct (check_line_number (implicit_axis_command L)) as [e1|L1] eqn:H1;
    [discriminate|].
  apply check_line_number_inr in H1. subst L1.
  destruct (check_feed_rate gs _) as [e2|L2] eqn:H2; [discriminate|].
  destruct (check_dwell L2) as [e3|L3] eqn:H3; [discriminate|].
  destruct (check_coord_select gs L3 w) as [[e4|L4] w4] eqn:H4; [discriminate|].
  destruct (check_non_modal gs L4 w4) as [[e5|L5] w5] eqn:H5; [discriminate|].
  destruct (check_motion_mode ax gs L5) as [e6|L6] eqn:H6; [discriminate|].
  destruct (check_unused_words L6) as [e7|L7'] eqn:H7; [discriminate|].
  intros H. injection H as <- _.
  destruct (implicit_axis_command_values L) as (_ & B1).
  destruct (check_feed_rate_values _ _ _ H2) as (_ & _ & V2 & _).
  destruct (check_dwell_frame _ _ H3) as (_ & _ & V3).
  destruct (check_coord_select_frame _ _ _ _ _ H4) as (_ & _ & V4 & _).
  destruct (check_unused_words_frame _ _ H7) as (_ & _ & V7).
  assert (V5 : val_p (values (gc_block L5)) = val_p (values (gc_block L4))).
  { revert H5. unfold check_non_modal, check_g10, check_target, ok, FAIL.
    split_match; intros H5; try discriminate H5; injection H5 as <- _;
      cbn [gc_block upd_block values upd_values];
      rewrite ?g10_axis_val_p, ?target_axis_val_p; reflexivity. }
  assert (V6 : val_p (values (gc_block L6)) = val_p (values (gc_block L5))).
  { revert H6.
    unfold check_motion_mode, check_arc, arc_radius_mode, arc_offset_mode, ok, FAIL.
    split_ifs; intros H6; try discriminate H6; injection H6 as <-; reflexivity. }
  rewrite V7, V6, V5, V4, V3, V2, B1. reflexivity.
Qed.

(** STEP 4 for a dwell without motion, program flow or change of
    coordinate system. *)
Lemma gc_execute_dwell (ax : axis_indices) (L : locals)
  (gs gs' : parser_state_t) (w w' : world) (s : status) :
  is_jog_block L = false ->
  non_modal_command (gc_block L) = NON_MODAL_DWELL ->
  modal_program_flow (modal (gc_block L)) = PROGRAM_FLOW_RUNNING ->
  modal_coord_select (modal (gc_block L)) = modal_coord_select (gs_modal gs) ->
  negb (block_motion L =? MOTION_MODE_NONE)
  && (axis_command L =? AXIS_COMMAND_MOTION_MODE) = false ->
  gc_execute ax L gs w = (s, gs', w') ->
  w' = mc_dwell (val_p (values (gc_block L))) w.
Proof.
  unfold gc_execute. intros -> Hnm Hpf Hmc Hmot.
  unfold exec_coord_select, exec_non_modal, exec_motion, exec_program_flow,
    block_motion in *.
  rewrite Hnm, Hpf, Hmc, Z.eqb_refl.
  cbn [Z.eqb negb NON_MODAL_DWELL NON_MODAL_SET_COORDINATE_DATA Pos.eqb].
  destruct gs as [[mm mf mu md mc mp] fr ln pos cs co]. state_fields.
  rewrite Hmot. state_fields. rewrite ?Hpf.
  cbn [Z.eqb negb PROGRAM_FLOW_RUNNING].
  intros H. injection H as _ _ <-. reflexivity.
Qed.

End Dwell.

(** X23. What a dwell does.  Outside a jog, for an accepted block with G4
    that has no axis words, no program flow and no change of coordinate
    system, and whose motion mode is not a probe: the block has a P word,
    the call has made one call of mc_dwell, with the value of the P word as
    it was written, and none of the other calls; gc_state.position is as
    it was. *)
Theorem dwell_executed
  (E : Externals) (k fuel : nat) (ax : axis_indices) (line : list ascii)
  (gs gs' : parser_state_t) (w w' : world) (ws : list (ascii * float))
  (cc : Z) (L : locals) :
  block_words k gs line = Some (ws, cc, L) ->
  line_at line cc = zero ->
  (k < fuel)%nat ->
  is_jog line = false ->
  non_modal_command (gc_block L) = NON_MODAL_DWELL ->
  axis_words L = 0 ->
  one_of (block_motion L) [0; 1; 2; 3; 80] = true ->
  modal_program_flow (modal (gc_block L)) = PROGRAM_FLOW_RUNNING ->
  modal_coord_select (modal (gc_block L)) = modal_coord_select (gs_modal gs) ->
  gc_execute_line fuel ax line gs w = Some (STATUS_OK, gs', w') ->
  exists p,
    In ("P"%char, p) ws
    /\ w' = mc_dwell p w
    /\ gs_position gs' = gs_position gs.
Proof.
  intros Hb Hend Hk Hjog Hnm Haw Hmot Hpf Hmc Hrun.
  pose proof (gc_parse_line_end _ _ _ _ _ _ _ Hb Hend Hk) as Hline.
  destruct (gc_execute_line_ok_stages _ _ _ _ _ _ _ _ Hline Hrun)
    as (L5 & w5 & L6 & L7 & H5 & H6 & H7 & Hex & J7 & M7 & N7).
  rewrite Hjog in J7.
  assert (Hchk : gc_check ax gs L w = (inr L7, w5)).
  { unfold gc_check, bind. rewrite H5, H6, H7. reflexivity. }
  (* the P word *)
  assert (Hbit : bit_istrue (value_words L) (bit WORD_P) = true).
  { destruct (bit_istrue (value_words L) (bit WORD_P)) eqn:Hbit; [reflexivity|].
    exfalso.
    destruct (gc_check_before_motion_stages gs L w)
      as [(e & He & _)|(L2 & H2 & [(_ & He)|(L3 & H3 & _)])].
    - rewrite He in H5. discriminate H5.
    - rewrite He in H5. discriminate H5.
    - revert H3. unfold check_dwell, ok, FAIL.
      destruct (check_feed_rate_frame _ _ _ H2) as ((_ & _ & N2 & _) & _ & V2).
      destruct (implicit_axis_command_frame L) as (_ & _ & N1 & _).
      destruct (implicit_axis_command_values L) as (V1 & _).
      rewrite N2, N1, Hnm, bit_isfalse_istrue, V2, V1, Hbit. discriminate. }
  rewrite (block_words_value_bit _ _ _ _ _ _ "P"%char WORD_P Hb eq_refl) in Hbit.
  apply existsb_exists in Hbit. destruct Hbit as (l & Hl & Heq).
  apply Ascii.eqb_eq in Heq. subst l.
  apply in_map_iff in Hl. destruct Hl as ([l p] & Hfst & Hin).
  cbn [fst] in Hfst. subst l.
  exists p. split; [exact Hin|].
  (* no motion *)
  destruct (gc_check_before_motion_frame _ _ _ _ _ H5) as (_ & M5 & _ & _ & W5).
  assert (Hm5 : one_of (block_motion L5) [0; 1; 2; 3; 80] = true).
  { unfold block_motion in *. rewrite M5. exact Hmot. }
  assert (Haw5 : axis_words L5 = 0) by congruence.
  pose proof (check_motion_mode_no_axis_words _ _ _ _ H6 Haw5 Hm5) as Hno.
  destruct (check_unused_words_target _ _ H7) as (G7 & A7 & _).
  assert (Hno7 : negb (block_motion L7 =? MOTION_MODE_NONE)
                 && (axis_command L7 =? AXIS_COMMAND_MOTION_MODE) = false).
  { unfold block_motion in *. rewrite G7, A7. exact Hno. }
  split.
  - rewrite <- (import_words_p _ _ _ _ _ _ _ _ Hb Hin).
    rewrite <- (gc_check_val_p _ _ _ _ _ _ Hchk).
    assert (w5 = w).
    { destruct (Z.eq_dec NON_MODAL_DWELL NON_MODAL_SET_COORDINATE_DATA) as [Hx|Hx];
        [discriminate Hx|].
      destruct (gc_parse_line_axis_command_ok _ _ _ _ Hline) as (_ & _ & Hlen & _).
      rewrite <- Hnm in Hx.
      destruct (gc_check_before_motion_target _ _ _ _ _ H5 Hx Hlen)
        as (_ & Hw & _).
      apply Hw. rewrite Hmc, Z.eqb_refl. apply andb_false_r. }
    subst w5.
    eapply gc_execute_dwell; try eassumption; congruence.
  - destruct (gc_execute_commit _ _ _ _ _ _ _ J7 Hex) as (_ & _ & Hpos & _).
    rewrite Hpos, Hno7. reflexivity.
Qed.

(** X23 on G4P2. *)
Lemma dwell_executed_witness :
  exists gs',
    gc_execute_line (E := Sim.machine) 10 Sim.g17 (Sim.chars "G4P2")
      gc_state_zero Sim.boot
    = Some (STATUS_OK, gs', @mc_dwell Sim.machine (F32.of_Z 2) Sim.boot).
Proof.
  with_block 2%nat gc_state_zero (Sim.chars "G4P2")
    ltac:(fun ws cc L =>
      with_run 10%nat (Sim.chars "G4P2") gc_state_zero Sim.boot
        ltac:(fun L' s1 gs1 w1 =>
          exists gs1;
          destruct (dwell_executed Sim.machine 2 10 Sim.g17
                      (Sim.chars "G4P2") gc_state_zero gs1 Sim.boot w1
                      ws cc L
                      ltac:(vm_compute; reflexivity)
                      ltac:(vm_compute; reflexivity)
                      ltac:(lia)
                      ltac:(vm_compute; reflexivity)
                      ltac:(vm_compute; reflexivity)
                      ltac:(vm_compute; reflexivity)
                      ltac:(vm_compute; reflexivity)
                      ltac:(vm_compute; reflexivity)
                      ltac:(vm_compute; reflexivity)
                      ltac:(vm_compute; reflexivity)) as (p & Hin & Hw & _);
          assert (Hrun : gc_execute_line (E := Sim.machine) 10 Sim.g17
                           (Sim.chars "G4P2") gc_state_zero Sim.boot
                         = Some (STATUS_OK, gs1, w1))
            by (vm_compute; reflexivity))).
  cbn [In] in Hin.
  destruct Hin as [Hin|[Hin|[]]]; [discriminate Hin|].
  injection Hin as <-.
  rewrite Hrun. exact (f_equal (fun x => Some (STATUS_OK, _, x)) Hw).
Defined.

(** ** Arcs without axis words, and the commands that STEP 4 has no case for *)

(** X24. An arc needs axis words in its plane.  A block for a motion in
    G2 or G3 mode (by a G2 or G3 word, or by axis words that no other
    command takes) that has no axis word for [axis_0] or [axis_1] is never
    executed: the call returns a status other than STATUS_OK and gc_state
    is as it was.  Once the block passes the checks before
    [20. Motion modes] with a feed rate, the status is
    STATUS_GCODE_NO_AXIS_WORDS when the block has no axis word at all and
    STATUS_GCODE_NO_AXIS_WORDS_IN_PLANE otherwise. *)
Theorem arc_needs_axis_words_in_plane
  (E : Externals) (fuel : nat) (ax : axis_indices) (line : list ascii)
  (gs : parser_state_t) (w : world) (L : locals) :
  gc_parse_line fuel gs line = Some (inr L) ->
  one_of (block_motion L) [MOTION_MODE_CW_ARC; MOTION_MODE_CCW_ARC] = true ->
  axis_command (implicit_axis_command L) = AXIS_COMMAND_MOTION_MODE ->
  Z.land (axis_words L) (Z.lor (bit (axis_0 ax)) (bit (axis_1 ax))) = 0 ->
  exists s w',
    gc_execute_line fuel ax line gs w = Some (s, gs, w')
    /\ s <> STATUS_OK
    /\ (forall L5 w5,
          gc_check_before_motion gs L w = (inr L5, w5) ->
          F32.eq (val_f (values (gc_block L5))) (F32.of_Z 0) = false ->
          s = (if axis_words L =? 0 then STATUS_GCODE_NO_AXIS_WORDS
               else STATUS_GCODE_NO_AXIS_WORDS_IN_PLANE)).
Proof.
  intros Hline Hm Hac Hland. unfold gc_execute_line. rewrite Hline.
  unfold gc_check_and_execute, gc_check, bind.
  destruct (gc_check_before_motion gs L w) as [[e|L5] w5] eqn:H5.
  { exists e, w5. split; [reflexivity|]. split.
    - eapply gc_check_before_motion_status_not_ok; eassumption.
    - intros ? ? Hx. discriminate Hx. }
  destruct (gc_check_before_motion_frame _ _ _ _ _ H5) as (_ & M5 & _ & _ & W5).
  pose proof (gc_check_before_motion_axis_command _ _ _ _ _ H5) as A5.
  rewrite Hac in A5.
  unfold check_motion_mode, check_arc, block_motion in *.
  cbn [axis_words set_gc_parser_flags].
  rewrite M5, W5, A5, Hland.
  cbn [Z.eqb AXIS_COMMAND_MOTION_MODE Pos.eqb].
  destruct (F32.eq (val_f (values (gc_block L5))) (F32.of_Z 0)) eqn:Hf.
  { one_of_cases Hm; rewrite Hm; cbn [Z.eqb Pos.eqb MOTION_MODE_NONE
      MOTION_MODE_SEEK MOTION_MODE_CW_ARC MOTION_MODE_CCW_ARC];
      exists STATUS_GCODE_UNDEFINED_FEED_RATE, w5;
      (split; [reflexivity|]); (split; [discriminate|]);
      intros ? ? Hx; injection Hx as <- _; rewrite Hf; discriminate. }
  one_of_cases Hm; rewrite Hm; cbn [Z.eqb Pos.eqb MOTION_MODE_NONE
    MOTION_MODE_SEEK MOTION_MODE_LINEAR MOTION_MODE_CW_ARC MOTION_MODE_CCW_ARC];
    destruct (axis_words L =? 0);
    eexists; exists w5; (split; [reflexivity|]); (split; [discriminate|]);
    intros; reflexivity.
Qed.

(** X24 on G2I1F100 with X and Y in axis_0 and axis_1, and on G2X1I1F100
    with Y in both: the axis indices are never assigned, and an X word is
    outside the plane only when neither of them holds X. *)
Lemma arc_needs_axis_words_in_plane_witness :
  (exists w',
     gc_execute_line (E := Sim.machine) 10 Sim.g17 (Sim.chars "G2I1F100")
       gc_state_zero Sim.boot
     = Some (STATUS_GCODE_NO_AXIS_WORDS, gc_state_zero, w'))
  /\ (exists w',
        gc_execute_line (E := Sim.machine) 10
          {| axis_0 := Y_AXIS; axis_1 := Y_AXIS; axis_linear := X_AXIS |}
          (Sim.chars "G2X1I1F100") gc_state_zero Sim.boot
        = Some (STATUS_GCODE_NO_AXIS_WORDS_IN_PLANE, gc_state_zero, w')).
Proof.
  split.
  - with_checked gc_state_zero (Sim.chars "G2I1F100") Sim.boot
      ltac:(fun L L5 w5 =>
        destruct (arc_needs_axis_words_in_plane Sim.machine 10 Sim.g17
                    (Sim.chars "G2I1F100") gc_state_zero Sim.boot L
                    ltac:(vm_compute; reflexivity) ltac:(vm_compute; reflexivity)
                    ltac:(vm_compute; reflexivity) ltac:(vm_compute; reflexivity))
          as (s & w' & Hrun & _ & Hs);
        exists w'; rewrite Hrun;
        rewrite (Hs L5 w5 ltac:(vm_compute; reflexivity)
                   ltac:(vm_compute; reflexivity))).
    reflexivity.
  - with_checked gc_state_zero (Sim.chars "G2X1I1F100") Sim.boot
      ltac:(fun L L5 w5 =>
        destruct (arc_needs_axis_words_in_plane Sim.machine 10
                    {| axis_0 := Y_AXIS; axis_1 := Y_AXIS; axis_linear := X_AXIS |}
                    (Sim.chars "G2X1I1F100") gc_state_zero Sim.boot L
                    ltac:(vm_compute; reflexivity) ltac:(vm_compute; reflexivity)
                    ltac:(vm_compute; reflexivity) ltac:(vm_compute; reflexivity))
          as (s & w' & Hrun & _ & Hs);
        exists w'; rewrite Hrun;
        rewrite (Hs L5 w5 ltac:(vm_compute; reflexivity)
                   ltac:(vm_compute; reflexivity))).
    reflexivity.
Defined.

Section Ignored.

Context {E : Externals}.

(** STEP 4 for a block that is neither a dwell, a G10 nor a motion, without
    program flow or change of coordinate system: no call is made. *)
Lemma gc_execute_no_call (ax : axis_indices) (L : locals)
  (gs gs' : parser_state_t) (w w' : world) (s : status) :
  is_jog_block L = false ->
  non_modal_command (gc_block L) <> NON_MODAL_DWELL ->
  non_modal_command (gc_block L) <> NON_MODAL_SET_COORDINATE_DATA ->
  modal_program_flow (modal (gc_block L)) = PROGRAM_FLOW_RUNNING ->
  modal_coord_select (modal (gc_block L)) = modal_coord_select (gs_modal gs) ->
  negb (block_motion L =? MOTION_MODE_NONE)
  && (axis_command L =? AXIS_COMMAND_MOTION_MODE) = false ->
  gc_execute ax L gs w = (s, gs', w') ->
  w' = w.
Proof.
  unfold gc_execute. intros -> Hd Hg Hpf Hmc Hmot.
  unfold exec_coord_select, exec_non_modal, exec_motion, exec_program_flow,
    block_motion in *.
  apply Z.eqb_neq in Hd, Hg.
  rewrite Hd, Hg, Hpf, Hmc, Z.eqb_refl.
  cbn [negb].
  destruct gs as [[mm mf mu md mc mp] fr ln pos cs co]. state_fields.
  rewrite Hmot. state_fields. rewrite ?Hpf.
  cbn [Z.eqb negb PROGRAM_FLOW_RUNNING].
  intros H. injection H as _ _ <-. reflexivity.
Qed.

End Ignored.

(** X25. G28, G30 and G92 are accepted and then ignored.  Outside a jog,
    an accepted block with one of the three, with or without axis words,
    and without program flow or change of coordinate system, makes no call
    to the rest of the firmware and leaves gc_state.position,
    gc_state.coord_system and gc_state.coord_offset as they were: STEP 4
    has no case for the three commands, and they keep the axis words from
    the motion mode. *)
Theorem g28_g30_g92_ignored
  (E : Externals) (fuel : nat) (ax : axis_indices) (line : list ascii)
  (gs gs' : parser_state_t) (w w' : world) (L : locals) :
  gc_parse_line fuel gs line = Some (inr L) ->
  is_jog line = false ->
  one_of (non_modal_command (gc_block L)) [28; 30; 92] = true ->
  modal_program_flow (modal (gc_block L)) = PROGRAM_FLOW_RUNNING ->
  modal_coord_select (modal (gc_block L)) = modal_coord_select (gs_modal gs) ->
  gc_execute_line fuel ax line gs w = Some (STATUS_OK, gs', w') ->
  w' = w
  /\ gs_position gs' = gs_position gs
  /\ gs_coord_system gs' = gs_coord_system gs
  /\ gs_coord_offset gs' = gs_coord_offset gs.
Proof.
  intros Hline Hjog Hnm Hpf Hmc Hrun.
  destruct (gc_parse_line_axis_command_ok _ _ _ _ Hline) as (_ & Hax & Hlen & _).
  destruct Hax as (_ & Hax); [one_of_cases Hnm; rewrite Hnm; reflexivity|].
  assert (Hd : non_modal_command (gc_block L) <> NON_MODAL_DWELL)
    by (one_of_cases Hnm; rewrite Hnm; discriminate).
  assert (Hg : non_modal_command (gc_block L) <> NON_MODAL_SET_COORDINATE_DATA)
    by (one_of_cases Hnm; rewrite Hnm; discriminate).
  destruct (gc_execute_line_ok_stages _ _ _ _ _ _ _ _ Hline Hrun)
    as (L5 & w5 & L6 & L7 & H5 & H6 & H7 & Hex & J7 & M7 & N7).
  rewrite Hjog in J7.
  pose proof (gc_check_before_motion_axis_command _ _ _ _ _ H5) as A5.
  assert (Himp : implicit_axis_command L = L).
  { unfold implicit_axis_command. rewrite Hax.
    destruct (negb (axis_words L =? 0)); reflexivity. }
  rewrite Himp, Hax in A5.
  apply (check_motion_mode_non_modal _ _ _ _ H6) in A5 as HL6. subst L6.
  destruct (check_unused_words_target _ _ H7) as (G7 & A7 & _).
  destruct (gc_check_before_motion_target _ _ _ _ _ H5 Hg Hlen) as (_ & Hw & _).
  rewrite Hmc, Z.eqb_refl, andb_false_r in Hw. specialize (Hw eq_refl). subst w5.
  assert (Hno7 : negb (block_motion L7 =? MOTION_MODE_NONE)
                 && (axis_command L7 =? AXIS_COMMAND_MOTION_MODE) = false).
  { rewrite A7, A5. apply andb_false_r. }
  destruct (gc_execute_commit _ _ _ _ _ _ _ J7 Hex) as (Hco & _ & Hpos & _).
  split; [|split; [|split]].
  - eapply gc_execute_no_call; try eassumption; congruence.
  - rewrite Hpos, Hno7. reflexivity.
  - rewrite (gc_execute_coord_system _ _ _ _ _ _ _ J7
               ltac:(congruence)
               ltac:(rewrite M7, Hpf; reflexivity) Hex).
    rewrite M7, Hmc, Z.eqb_refl. reflexivity.
  - exact Hco.
Qed.

(** X25 on G92X5 and on G28X5. *)
Lemma g28_g30_g92_ignored_witness :
  (exists gs',
     gc_execute_line (E := Sim.machine) 10 Sim.g17 (Sim.chars "G92X5")
       gc_state_zero Sim.boot = Some (STATUS_OK, gs', Sim.boot)
     /\ gs_coord_offset gs' = vec_zero)
  /\ (exists gs',
        gc_execute_line (E := Sim.machine) 10 Sim.g17 (Sim.chars "G28X5")
          gc_state_zero Sim.boot = Some (STATUS_OK, gs', Sim.boot)
        /\ gs_position gs' = vec_zero).
Proof.
  split.
  - let line := constr:(Sim.chars "G92X5") in
    let p := eval vm_compute in
         (gc_parse_line (E := Sim.machine) 10 gc_state_zero line) in
    let r := eval vm_compute in
         (gc_execute_line (E := Sim.machine) 10 Sim.g17 line gc_state_zero
            Sim.boot) in
    lazymatch p with
    | Some (inr ?L) =>
        lazymatch r with
        | Some (_, ?gs1, ?w1) =>
            exists gs1;
            assert (Hrun : gc_execute_line (E := Sim.machine) 10 Sim.g17 line
                             gc_state_zero Sim.boot
                           = Some (STATUS_OK, gs1, w1))
              by (vm_compute; reflexivity);
            destruct (g28_g30_g92_ignored Sim.machine 10 Sim.g17 line
                        gc_state_zero gs1 Sim.boot w1 L
                        ltac:(vm_compute; reflexivity)
                        ltac:(vm_compute; reflexivity)
                        ltac:(vm_compute; reflexivity)
                        ltac:(vm_compute; reflexivity)
                        ltac:(vm_compute; reflexivity)
                        Hrun) as (Hw & _ & _ & Hco)
        end
    end.
    split; [|exact Hco].
    rewrite Hrun. exact (f_equal (fun x => Some (STATUS_OK, _, x)) Hw).
  - let line := constr:(Sim.chars "G28X5") in
    let p := eval vm_compute in
         (gc_parse_line (E := Sim.machine) 10 gc_state_zero line) in
    let r := eval vm_compute in
         (gc_execute_line (E := Sim.machine) 10 Sim.g17 line gc_state_zero
            Sim.boot) in
    lazymatch p with
    | Some (inr ?L) =>
        lazymatch r with
        | Some (_, ?gs1, ?w1) =>
            exists gs1;
            assert (Hrun : gc_execute_line (E := Sim.machine) 10 Sim.g17 line
                             gc_state_zero Sim.boot
                           = Some (STATUS_OK, gs1, w1))
              by (vm_compute; reflexivity);
            destruct (g28_g30_g92_ignored Sim.machine 10 Sim.g17 line
                        gc_state_zero gs1 Sim.boot w1 L
                        ltac:(vm_compute; reflexivity)
                        ltac:(vm_compute; reflexivity)
                        ltac:(vm_compute; reflexivity)
                        ltac:(vm_compute; reflexivity)
                        ltac:(vm_compute; reflexivity)
                        Hrun) as (Hw & Hpos & _ & _)
        end
    end.
    split; [|exact Hpos].
    rewrite Hrun. exact (f_equal (fun x => Some (STATUS_OK, _, x)) Hw).
Defined.

(** ** The end of a program *)

Section ProgramEnd.

Context {E : Externals}.

Lemma exec_motion_keeps (ax : axis_indices) (L : locals)
  (pl : plan_line_data_t) (gs : parser_state_t) (w : world) :
  keeps_sys_state E ->
  sys_state (snd (exec_motion ax L pl gs w)) = sys_state w
  /\ gs_coord_system (fst (exec_motion ax L pl gs w)) = gs_coord_system gs.
Proof.
  intros (_ & _ & Hline & Harc & _).
  unfold exec_motion. split_ifs; cbn [fst snd]; rewrite ?Hline, ?Harc;
    split; reflexivity.
Qed.

(** M2 and M30, when the call returns STATUS_OK: the coordinate system
    that is left in gc_state. *)
Lemma exec_program_flow_end (L : locals) (gs gs' : parser_state_t)
  (w w' : world) :
  keeps_sys_state E ->
  modal_program_flow (modal (gc_block L)) <> PROGRAM_FLOW_RUNNING ->
  modal_program_flow (modal (gc_block L)) <> PROGRAM_FLOW_PAUSED ->
  exec_program_flow L gs w = (STATUS_OK, gs', w') ->
  modal_coord_select (gs_modal gs') = 0
  /\ (sys_state w <> STATE_CHECK_MODE ->
      exists w0 w1,
        settings_read_coord_data 0 (gs_coord_system gs) w0
        = (true, gs_coord_system gs', w1))
  /\ (sys_state w = STATE_CHECK_MODE ->
      gs_coord_system gs' = gs_coord_system gs).
Proof.
  intros (_ & _ & _ & _ & _ & Hsync & _ & Hovr) Hr Hp.
  unfold exec_program_flow. rewrite Hovr, !Hsync.
  destruct gs as [[mm mf mu md mc mp] fr ln pos cs co]. state_fields.
  apply Z.eqb_neq in Hr, Hp. unfold PROGRAM_FLOW_RUNNING in Hr.
  rewrite Hr, Hp. cbn [negb].
  destruct (Z.eqb_spec (sys_state w) STATE_CHECK_MODE) as [Hc|Hc]; cbn [negb].
  - intros H. injection H as <- _. state_fields.
    split; [reflexivity|]. split; [contradiction|reflexivity].
  - match goal with
    | |- context [settings_read_coord_data ?i ?b ?w0] =>
        destruct (settings_read_coord_data i b w0) as [[okb buf] w3] eqn:Hread
    end.
    destruct okb; cbn [negb]; [|discriminate].
    intros H. injection H as <- _. state_fields.
    split; [reflexivity|]. split; [|contradiction].
    intros _. eexists. eexists. exact Hread.
Qed.

Lemma gc_execute_program_end (ax : axis_indices) (L : locals)
  (gs gs' : parser_state_t) (w w' : world) :
  keeps_sys_state E ->
  is_jog_block L = false ->
  non_modal_command (gc_block L) <> NON_MODAL_SET_COORDINATE_DATA ->
  modal_coord_select (modal (gc_block L)) = modal_coord_select (gs_modal gs) ->
  modal_program_flow (modal (gc_block L)) <> PROGRAM_FLOW_RUNNING ->
  modal_program_flow (modal (gc_block L)) <> PROGRAM_FLOW_PAUSED ->
  gc_execute ax L gs w = (STATUS_OK, gs', w') ->
  modal_coord_select (gs_modal gs') = 0
  /\ (sys_state w <> STATE_CHECK_MODE ->
      exists w0 w1,
        settings_read_coord_data 0 (gs_coord_system gs) w0
        = (true, gs_coord_system gs', w1))
  /\ (sys_state w = STATE_CHECK_MODE ->
      gs_coord_system gs' = gs_coord_system gs).
Proof.
  intros Hk HJ Hg Hsel Hr Hp.
  pose proof Hk as (_ & _ & _ & _ & Hdwell & _).
  unfold gc_execute. rewrite HJ.
  unfold exec_coord_select, exec_non_modal.
  apply Z.eqb_neq in Hg. rewrite Hg.
  destruct gs as [[mm mf mu md mc mp] fr ln pos cs co]. state_fields.
  rewrite Hsel, Z.eqb_refl. cbn [negb].
  match goal with
  | |- context [exec_motion ax L ?p ?g ?w1] =>
      destruct (exec_motion_keeps ax L p g w1 Hk) as (H4 & C4);
      assert (H1 : sys_state w1 = sys_state w)
        by (destruct (non_modal_command (gc_block L) =? NON_MODAL_DWELL);
            rewrite ?Hdwell; reflexivity);
      destruct (exec_motion ax L p g w1) as [gs8 w4]
  end.
  cbn [fst snd] in H4, C4. state_fields.
  intros H.
  destruct (exec_program_flow_end _ _ _ _ _ Hk Hr Hp H) as (Hs & Hrun & Hchk).
  rewrite H4, H1, C4 in *.
  split; [exact Hs|]. split; assumption.
Qed.

End ProgramEnd.

(** X26. The coordinate system after the end of a program.  Outside a
    jog, for an accepted block with M2 or M30, without G10 and without a
    change of coordinate system, and when no call to the rest of the
    firmware changes [sys.state]: gc_state.modal.coord_select is G54
    afterwards; outside check mode gc_state.coord_system is what one read
    of the data of G54 from the settings store has returned; in check mode
    that read is not made and gc_state.coord_system is as it was, also when
    another system than G54 was in force. *)
Theorem program_end_coordinate_system
  (E : Externals) (fuel : nat) (ax : axis_indices) (line : list ascii)
  (gs gs' : parser_state_t) (w w' : world) (L : locals) :
  keeps_sys_state E ->
  gc_parse_line fuel gs line = Some (inr L) ->
  is_jog line = false ->
  non_modal_command (gc_block L) <> NON_MODAL_SET_COORDINATE_DATA ->
  modal_coord_select (modal (gc_block L)) = modal_coord_select (gs_modal gs) ->
  modal_program_flow (modal (gc_block L)) <> PROGRAM_FLOW_RUNNING ->
  modal_program_flow (modal (gc_block L)) <> PROGRAM_FLOW_PAUSED ->
  gc_execute_line fuel ax line gs w = Some (STATUS_OK, gs', w') ->
  modal_coord_select (gs_modal gs') = 0
  /\ (sys_state w <> STATE_CHECK_MODE ->
      exists w0 w1,
        settings_read_coord_data 0 (gs_coord_system gs) w0
        = (true, gs_coord_system gs', w1))
  /\ (sys_state w = STATE_CHECK_MODE ->
      gs_coord_system gs' = gs_coord_system gs).
Proof.
  intros Hk Hline Hjog Hg Hsel Hr Hp Hrun.
  destruct (gc_execute_line_ok_stages _ _ _ _ _ _ _ _ Hline Hrun)
    as (L5 & w5 & L6 & L7 & H5 & H6 & H7 & Hex & J7 & M7 & N7).
  rewrite Hjog in J7.
  assert (Hchk : gc_check ax gs L w = (inr L7, w5)).
  { unfold gc_check, bind. rewrite H5, H6, H7. reflexivity. }
  rewrite <- (gc_check_sys_state _ _ _ _ _ _ Hk Hchk).
  apply (gc_execute_program_end ax L7 gs gs' w5 w' Hk J7); try assumption;
    congruence.
Qed.

(** X26 on M2 from a state with G55 in force: outside check mode, and in
    check mode. *)
Lemma program_end_coordinate_system_witness :
  (exists gs' w',
     gc_execute_line (E := Sim.machine) 10 Sim.g17 (Sim.chars "M2")
       (set_gs_coord_system [F32.of_Z 7; F32.of_Z 7]
          (upd_gs_modal (set_coord_select 1) gc_state_zero))
       Sim.boot
     = Some (STATUS_OK, gs', w')
     /\ modal_coord_select (gs_modal gs') = 0
     /\ exists w0 w1,
          @settings_read_coord_data Sim.machine 0
            [F32.of_Z 7; F32.of_Z 7] w0
          = (true, gs_coord_system gs', w1))
  /\ (exists gs' w',
        gc_execute_line (E := Sim.machine) 10 Sim.g17 (Sim.chars "M2")
          (set_gs_coord_system [F32.of_Z 7; F32.of_Z 7]
             (upd_gs_modal (set_coord_select 1) gc_state_zero))
          {| Sim.eeprom := Sim.eeprom Sim.boot;
             Sim.state := STATE_CHECK_MODE; Sim.log := [] |}
        = Some (STATUS_OK, gs', w')
        /\ modal_coord_select (gs_modal gs') = 0
        /\ gs_coord_system gs' = [F32.of_Z 7; F32.of_Z 7]).
Proof.
  split.
  - let g := constr:(set_gs_coord_system [F32.of_Z 7; F32.of_Z 7]
                       (upd_gs_modal (set_coord_select 1) gc_state_zero)) in
    let line := constr:(Sim.chars "M2") in
    let p := eval vm_compute in (gc_parse_line (E := Sim.machine) 10 g line) in
    let r := eval vm_compute in
         (gc_execute_line (E := Sim.machine) 10 Sim.g17 line g Sim.boot) in
    lazymatch p with
    | Some (inr ?L) =>
        lazymatch r with
        | Some (_, ?gs1, ?w1) =>
            exists gs1, w1;
            destruct (program_end_coordinate_system Sim.machine 10 Sim.g17 line
                        g gs1 Sim.boot w1 L sim_keeps_sys_state
                        ltac:(vm_compute; reflexivity)
                        ltac:(vm_compute; reflexivity)
                        ltac:(vm_compute; discriminate)
                        ltac:(vm_compute; reflexivity)
                        ltac:(vm_compute; discriminate)
                        ltac:(vm_compute; discriminate)
                        ltac:(vm_compute; reflexivity)) as (Hs & Hread & _)
        end
    end.
    split; [vm_compute; reflexivity|]. split; [exact Hs|].
    apply Hread. vm_compute. discriminate.
  - let g := constr:(set_gs_coord_system [F32.of_Z 7; F32.of_Z 7]
                       (upd_gs_modal (set_coord_select 1) gc_state_zero)) in
    let line := constr:(Sim.chars "M2") in
    let w0 := constr:({| Sim.eeprom := Sim.eeprom Sim.boot;
                         Sim.state := STATE_CHECK_MODE; Sim.log := [] |}) in
    let p := eval vm_compute in (gc_parse_line (E := Sim.machine) 10 g line) in
    let r := eval vm_compute in
         (gc_execute_line (E := Sim.machine) 10 Sim.g17 line g w0) in
    lazymatch p with
    | Some (inr ?L) =>
        lazymatch r with
        | Some (_, ?gs1, ?w1) =>
            exists gs1, w1;
            destruct (program_end_coordinate_system Sim.machine 10 Sim.g17 line
                        g gs1 w0 w1 L sim_keeps_sys_state
                        ltac:(vm_compute; reflexivity)
                        ltac:(vm_compute; reflexivity)
                        ltac:(vm_compute; discriminate)
                        ltac:(vm_compute; reflexivity)
                        ltac:(vm_compute; discriminate)
                        ltac:(vm_compute; discriminate)
                        ltac:(vm_compute; reflexivity)) as (Hs & _ & Hcs)
        end
    end.
    split; [vm_compute; reflexivity|]. split; [exact Hs|].
    exact (Hcs eq_refl).
Defined.

(** ** The program pause *)

Section Pause.

Context {E : Externals}.

(** STEP 4 for a pause and nothing else. *)
Lemma gc_execute_pause (ax : axis_indices) (L : locals)
  (gs gs' : parser_state_t) (w w' : world) (s : status) :
  is_jog_block L = false ->
  non_modal_command (gc_block L) <> NON_MODAL_DWELL ->
  non_modal_command (gc_block L) <> NON_MODAL_SET_COORDINATE_DATA ->
  modal_program_flow (modal (gc_block L)) = PROGRAM_FLOW_PAUSED ->
  modal_coord_select (modal (gc_block L)) = modal_coord_select (gs_modal gs) ->
  negb (block_motion L =? MOTION_MODE_NONE)
  && (axis_command L =? AXIS_COMMAND_MOTION_MODE) = false ->
  gc_execute ax L gs w = (s, gs', w') ->
  w' = (if sys_state (protocol_buffer_synchronize w) =? STATE_CHECK_MODE
        then protocol_buffer_synchronize w
        else protocol_execute_realtime
               (system_set_exec_state_flag EXEC_FEED_HOLD
                  (protocol_buffer_synchronize w))).
Proof.
  unfold gc_execute. intros -> Hd Hg Hpf Hmc Hmot.
  unfold exec_coord_select, exec_non_modal, exec_motion, exec_program_flow,
    block_motion in *.
  apply Z.eqb_neq in Hd, Hg.
  rewrite Hd, Hg, Hpf, Hmc, Z.eqb_refl.
  cbn [negb].
  destruct gs as [[mm mf mu md mc mp] fr ln pos cs co]. state_fields.
  rewrite Hmot. state_fields. rewrite ?Hpf.
  cbn [Z.eqb negb PROGRAM_FLOW_PAUSED Pos.eqb].
  destruct (sys_state (protocol_buffer_synchronize w) =? STATE_CHECK_MODE);
    cbn [negb]; intros H; injection H as _ _ <-; reflexivity.
Qed.

End Pause.

(** X27. What a pause does.  Outside a jog, for an accepted block whose
    program flow is PROGRAM_FLOW_PAUSED, as an M0 word sets it, and that
    has no axis words, no dwell, no G10 and no change of coordinate system,
    and whose motion mode is not a probe: the call waits for the planner
    buffer with protocol_buffer_synchronize and then, unless [sys.state] is
    STATE_CHECK_MODE by then, sets the feed hold flag and calls
    protocol_execute_realtime; it makes no other call, and
    gc_state.modal.program_flow is RUNNING again on return. *)
Theorem program_pause_executed
  (E : Externals) (fuel : nat) (ax : axis_indices) (line : list ascii)
  (gs gs' : parser_state_t) (w w' : world) (L : locals) :
  gc_parse_line fuel gs line = Some (inr L) ->
  is_jog line = false ->
  modal_program_flow (modal (gc_block L)) = PROGRAM_FLOW_PAUSED ->
  non_modal_command (gc_block L) <> NON_MODAL_DWELL ->
  non_modal_command (gc_block L) <> NON_MODAL_SET_COORDINATE_DATA ->
  axis_words L = 0 ->
  one_of (block_motion L) [0; 1; 2; 3; 80] = true ->
  modal_coord_select (modal (gc_block L)) = modal_coord_select (gs_modal gs) ->
  gc_execute_line fuel ax line gs w = Some (STATUS_OK, gs', w') ->
  w' = (if sys_state (protocol_buffer_synchronize w) =? STATE_CHECK_MODE
        then protocol_buffer_synchronize w
        else protocol_execute_realtime
               (system_set_exec_state_flag EXEC_FEED_HOLD
                  (protocol_buffer_synchronize w)))
  /\ modal_program_flow (gs_modal gs') = PROGRAM_FLOW_RUNNING.
Proof.
  intros Hline Hjog Hpf Hd Hg Haw Hmot Hmc Hrun.
  destruct (gc_parse_line_axis_command_ok _ _ _ _ Hline) as (_ & _ & Hlen & _).
  destruct (gc_execute_line_ok_stages _ _ _ _ _ _ _ _ Hline Hrun)
    as (L5 & w5 & L6 & L7 & H5 & H6 & H7 & Hex & J7 & M7 & N7).
  rewrite Hjog in J7.
  destruct (gc_check_before_motion_frame _ _ _ _ _ H5) as (_ & M5 & _ & _ & W5).
  assert (Hm5 : one_of (block_motion L5) [0; 1; 2; 3; 80] = true).
  { unfold block_motion in *. rewrite M5. exact Hmot. }
  assert (Haw5 : axis_words L5 = 0) by congruence.
  pose proof (check_motion_mode_no_axis_words _ _ _ _ H6 Haw5 Hm5) as Hno.
  destruct (check_unused_words_target _ _ H7) as (G7 & A7 & _).
  assert (Hno7 : negb (block_motion L7 =? MOTION_MODE_NONE)
                 && (axis_command L7 =? AXIS_COMMAND_MOTION_MODE) = false).
  { unfold block_motion in *. rewrite G7, A7. exact Hno. }
  destruct (gc_check_before_motion_target _ _ _ _ _ H5 Hg Hlen) as (_ & Hw & _).
  rewrite Hmc, Z.eqb_refl, andb_false_r in Hw. specialize (Hw eq_refl). subst w5.
  split.
  - eapply gc_execute_pause; try eassumption; congruence.
  - destruct (gc_execute_commit _ _ _ _ _ _ _ J7 Hex) as (_ & _ & _ & _ & Hp & _).
    apply Hp. reflexivity.
Qed.

(** X27 on M0, outside check mode. *)
Lemma program_pause_executed_witness :
  exists gs',
    gc_execute_line (E := Sim.machine) 10 Sim.g17 (Sim.chars "M0")
      gc_state_zero Sim.boot
    = Some (STATUS_OK, gs',
            @protocol_execute_realtime Sim.machine
              (@system_set_exec_state_flag Sim.machine EXEC_FEED_HOLD
                 (@protocol_buffer_synchronize Sim.machine Sim.boot)))
    /\ modal_program_flow (gs_modal gs') = PROGRAM_FLOW_RUNNING.
Proof.
  let line := constr:(Sim.chars "M0") in
  let p := eval vm_compute in
       (gc_parse_line (E := Sim.machine) 10 gc_state_zero line) in
  let r := eval vm_compute in
       (gc_execute_line (E := Sim.machine) 10 Sim.g17 line gc_state_zero
          Sim.boot) in
  lazymatch p with
  | Some (inr ?L) =>
      lazymatch r with
      | Some (_, ?gs1, ?w1) =>
          exists gs1;
          assert (Hrun : gc_execute_line (E := Sim.machine) 10 Sim.g17 line
                           gc_state_zero Sim.boot
                         = Some (STATUS_OK, gs1, w1))
            by (vm_compute; reflexivity);
          destruct (program_pause_executed Sim.machine 10 Sim.g17 line
                      gc_state_zero gs1 Sim.boot w1 L
                      ltac:(vm_compute; reflexivity)
                      ltac:(vm_compute; reflexivity)
                      ltac:(vm_compute; reflexivity)
                      ltac:(vm_compute; discriminate)
                      ltac:(vm_compute; discriminate)
                      ltac:(vm_compute; reflexivity)
                      ltac:(vm_compute; reflexivity)
                      ltac:(vm_compute; reflexivity)
                      Hrun) as (Hw & Hp)
      end
  end.
  split; [|exact Hp].
  rewrite Hrun. exact (f_equal (fun x => Some (STATUS_OK, _, x)) Hw).
Defined.
